(** * Shared-resource planning: Benders master, ADMM coordination, parameters

    A shallow embedding of the coordination core of
    [shared_resources_planning.py] (the Benders loop and its master
    problem, the ADMM loop with its store, updates and convergence tests,
    the run without coordination), of the storages and the candidate
    extraction of [shared_energy_storage_data.py] and of the parameter
    reader of [network_parameters.py].

    Numbers.  The Python code computes with floats; here every float is an
    exact rational ([Q]), so the theorems speak about the arithmetic the
    code writes down, not about binary rounding.  Python's [round] and
    [math.isclose] are modelled by their documented behaviour.

    Opaque parts.  The Pyomo models and the solver are not part of the
    coordination code: the values read back from a solved model
    ([pe.value(...)]) are parameters of the corresponding definitions. *)

From Stdlib Require Import QArith Qabs Qround Qminmax Qpower Lqa.
From stdpp Require Import gmap strings list fin_maps.

Local Open Scope Q_scope.
Set Warnings "-register-all".

(* ===================================================================== *)
(** ** Errors *)
(* ===================================================================== *)

(** What a Python run can end with instead of a value. *)
Inductive key : Type := KStr (s : string) | KInt (z : Z).

Inductive error : Type :=
  | KeyError (k : key)             (* d[k] with k missing *)
  | IndexError                     (* l[i] with i out of range *)
  | ExitParamsFile                 (* exit(ERROR_PARAMS_FILE) *)
  | SolverParamsError              (* read_solver_parameters failed *)
  | ValueError                     (* math.isclose with a negative tolerance *)
  | ZeroDivisionError.             (* x / 0 *)

Inductive result (A : Type) : Type :=
  | Ok (a : A)
  | Err (e : error).
Arguments Ok {A} a.
Arguments Err {A} e.

(** The error monad, with stdpp's [x ← r; k] notation. *)
#[global] Instance result_bind : MBind result := fun A B k r =>
  match r with
  | Ok a => k a
  | Err e => Err e
  end.

#[global] Instance result_ret : MRet result := fun A a => Ok a.

(** Whether a run ended with a value, and that value. *)
Definition is_ok {A : Type} (r : result A) : bool :=
  match r with
  | Ok _ => true
  | Err _ => false
  end.

Definition get_ok {A : Type} (default : A) (r : result A) : A :=
  match r with
  | Ok a => a
  | Err _ => default
  end.

(** Loops whose body can fail: [for b in l: a = f(a, b)]. *)
Fixpoint foldlM {A B : Type} (f : A -> B -> result A) (a : A) (l : list B) : result A :=
  match l with
  | [] => Ok a
  | b :: l' => a' ← f a b; foldlM f a' l'
  end.

(** Loops whose body cannot fail: [for b in l: s = body(b, s)]. *)
Definition for_each {S B : Type} (l : list B) (body : B -> S -> S) (s : S) : S :=
  fold_left (fun s b => body b s) l s.

(** [range(n)] and [range(a, b)] for integers [a], [b]. *)
Definition range (n : nat) : list nat := seq 0 n.
Definition range2 (a : nat) (b : Z) : list nat := seq a (Z.to_nat (b - Z.of_nat a)).

(* ===================================================================== *)
(** ** Python numerics on exact rationals *)
(* ===================================================================== *)

Module Py.

Definition half : Q := 1 # 2.

(** [round(x)]: the nearest integer, ties to the even one. *)
Definition round (x : Q) : Z :=
  let f := Qfloor x in
  let r := x - inject_Z f in
  match Qcompare r half with
  | Lt => f
  | Gt => (f + 1)%Z
  | Eq => if Z.even f then f else (f + 1)%Z
  end.

(** [math.ceil(x)], for the comparison the spec makes. *)
Definition ceil (x : Q) : Z := Qceiling x.

Definition pow10 (n : Z) : Q := inject_Z (10 ^ n).

(** [round(x, ndigits)] for an integer [ndigits] of either sign. *)
Definition round_ndigits (x : Q) (ndigits : Z) : Q :=
  if (0 <=? ndigits)%Z
  then inject_Z (round (x * pow10 ndigits)) / pow10 ndigits
  else inject_Z (round (x / pow10 (- ndigits))) * pow10 (- ndigits).

Definition Qltb (a b : Q) : bool := negb (Qle_bool b a).

(** [math.isclose(a, b, rel_tol=.., abs_tol=..)] on finite values: a
    negative tolerance raises [ValueError]; equal values are close; else
    the difference is compared with [|rel_tol * b|], [|rel_tol * a|] and
    [abs_tol]. *)
Definition isclose (a b rel_tol abs_tol : Q) : result bool :=
  if Qltb rel_tol 0 || Qltb abs_tol 0 then Err ValueError
  else if Qeq_bool a b then Ok true
  else
    let diff := Qabs (b - a) in
    Ok (Qle_bool diff (Qabs (rel_tol * b))
        || Qle_bool diff (Qabs (rel_tol * a))
        || Qle_bool diff abs_tol).

(** What [isclose] compares: the difference against [abs_tol] and against
    [rel_tol] times the magnitude of either value. *)
Definition close_enough (a b rel_tol abs_tol : Q) : Prop :=
  Qabs (b - a) <= abs_tol \/
  Qabs (b - a) <= rel_tol * Qabs a \/
  Qabs (b - a) <= rel_tol * Qabs b.

(** [x / y] on numbers. *)
Definition div (x y : Q) : result Q :=
  if Qeq_bool y 0 then Err ZeroDivisionError else Ok (x / y).

(** [x ** k] for an integer [k]: zero to a negative power raises. *)
Definition pow (x : Q) (k : Z) : result Q :=
  if Qeq_bool x 0 && (k <? 0)%Z then Err ZeroDivisionError else Ok (Qpower x k).

(** A denominator: dividing by zero raises. *)
Definition nonzero (y : Q) : result Q :=
  if Qeq_bool y 0 then Err ZeroDivisionError else Ok y.

(** [l[i]] on a list. *)
Definition index {A : Type} (l : list A) (i : nat) : result A :=
  match l !! i with
  | Some a => Ok a
  | None => Err IndexError
  end.

End Py.

(* ===================================================================== *)
(** ** network_parameters.py *)
(* ===================================================================== *)

Module NetworkParameters.

(** A value of the dict that [convert_json_to_dict(read_json_file(..))]
    returns. *)
Inductive jvalue : Type :=
  | JNull
  | JBool (b : bool)
  | JNum (n : Q)
  | JStr (s : string)
  | JObj (fields : list (string * jvalue)).

(** Python's truth value, as [if parameters.relaxed_model:] takes it. *)
Definition truthy (v : jvalue) : bool :=
  match v with
  | JNull => false
  | JBool b => b
  | JNum n => negb (Qeq_bool n 0)
  | JStr s => negb (String.eqb s "")
  | JObj fields => match fields with [] => false | _ => true end
  end.

Inductive objective : Type := OBJ_MIN_COST | OBJ_CONGESTION_MANAGEMENT.

Section Reader.

(** [SolverParameters] and its reader live in [solver_parameters.py]. *)
Variable SolverParameters : Type.
Variable read_solver_parameters : SolverParameters -> jvalue -> option SolverParameters.

Record parameters : Type := mkParameters {
  obj_type : objective;
  transf_reg : jvalue;
  es_reg : jvalue;
  fl_reg : jvalue;
  rg_curt : jvalue;
  l_curt : jvalue;
  relaxed_model : jvalue;
  ess_relax : jvalue;
  fl_relax : jvalue;
  enforce_vg : jvalue;
  slack_line_limits : jvalue;
  slack_voltage_limits : jvalue;
  print_to_screen : jvalue;
  plot_diagram : jvalue;
  print_results_to_file : jvalue;
  solver_params : SolverParameters
}.

(** [NetworkParameters.__init__]. *)
Definition init (sp : SolverParameters) : parameters :=
  {| obj_type := OBJ_MIN_COST;
     transf_reg := JBool true; es_reg := JBool true; fl_reg := JBool true;
     rg_curt := JBool false; l_curt := JBool false;
     relaxed_model := JBool false; ess_relax := JBool false; fl_relax := JBool false;
     enforce_vg := JBool false;
     slack_line_limits := JBool false; slack_voltage_limits := JBool false;
     print_to_screen := JBool false; plot_diagram := JBool false;
     print_results_to_file := JBool false;
     solver_params := sp |}.

(** [params_data[k]]. *)
Definition get (params_data : gmap string jvalue) (k : string) : result jvalue :=
  match params_data !! k with
  | Some v => Ok v
  | None => Err (KeyError (KStr k))
  end.

Definition is_str (v : jvalue) (s : string) : bool :=
  match v with
  | JStr s' => String.eqb s' s
  | _ => false
  end.

(** [_read_network_parameters_from_file], from the dict on: the fields are
    assigned in the order of the source, so the first missing key decides
    the error. *)
Definition _read_network_parameters_from_file
    (parameters0 : parameters) (params_data : gmap string jvalue) : result parameters :=
  o ← get params_data "obj_type";
  obj ← (if is_str o "COST" then Ok OBJ_MIN_COST
           else if is_str o "CONGESTION_MANAGEMENT" then Ok OBJ_CONGESTION_MANAGEMENT
           else Err ExitParamsFile);
  v_transf_reg ← get params_data "transf_reg";
  v_es_reg ← get params_data "es_reg";
  v_fl_reg ← get params_data "fl_reg";
  v_rg_curt ← get params_data "rg_curt";
  v_l_curt ← get params_data "l_curt";
  v_relaxed_model ← get params_data "relaxed_model";
  v_ess_relax ← get params_data "ess_relax";
  v_fl_relax ← get params_data "fl_relax";
  v_enforce_vg ← get params_data "enforce_vg";
  v_slack_line_limits ← get params_data "slack_line_limits";
  v_slack_voltage_limits ← get params_data "slack_voltage_limits";
  v_solver ← get params_data "solver";
  sp ← (match read_solver_parameters (solver_params parameters0) v_solver with
          | Some sp => Ok sp
          | None => Err SolverParamsError
          end);
  v_print_to_screen ← get params_data "print_to_screen";
  v_plot_diagram ← get params_data "plot_diagram";
  v_print_results_to_file ← get params_data "print_results_to_file";
  Ok {| obj_type := obj;
        transf_reg := v_transf_reg; es_reg := v_es_reg; fl_reg := v_fl_reg;
        rg_curt := v_rg_curt; l_curt := v_l_curt;
        relaxed_model := v_relaxed_model;
        ess_relax := if truthy v_relaxed_model then JBool true else v_ess_relax;
        fl_relax := if truthy v_relaxed_model then JBool true else v_fl_relax;
        enforce_vg := v_enforce_vg;
        slack_line_limits := v_slack_line_limits;
        slack_voltage_limits := v_slack_voltage_limits;
        print_to_screen := v_print_to_screen; plot_diagram := v_plot_diagram;
        print_results_to_file := v_print_results_to_file;
        solver_params := sp |}.

End Reader.

Arguments obj_type {SolverParameters} p.
Arguments relaxed_model {SolverParameters} p.
Arguments ess_relax {SolverParameters} p.
Arguments fl_relax {SolverParameters} p.
Arguments solver_params {SolverParameters} p.

(** A parameters file with the relaxed model on and both relaxations off. *)
Definition sample_file : gmap string jvalue :=
  list_to_map
    [ ("obj_type", JStr "COST");
      ("transf_reg", JBool true); ("es_reg", JBool true); ("fl_reg", JBool true);
      ("rg_curt", JBool false); ("l_curt", JBool false);
      ("relaxed_model", JBool true);
      ("ess_relax", JBool false); ("fl_relax", JBool false);
      ("enforce_vg", JBool false);
      ("slack_line_limits", JBool false); ("slack_voltage_limits", JBool false);
      ("solver", JObj [("name", JStr "ipopt")]);
      ("print_to_screen", JBool false); ("plot_diagram", JBool false);
      ("print_results_to_file", JBool false) ]%string.

(** The keys read after [obj_type], other than [solver], in the order of
    the source. *)
Definition flag_keys : list string :=
  [ "transf_reg"; "es_reg"; "fl_reg"; "rg_curt"; "l_curt"; "relaxed_model";
    "ess_relax"; "fl_relax"; "enforce_vg"; "slack_line_limits"; "slack_voltage_limits";
    "print_to_screen"; "plot_diagram"; "print_results_to_file" ]%string.

(** The two values of [obj_type] that the reader accepts. *)
Definition valid_objective (o : jvalue) : bool :=
  is_str o "COST" || is_str o "CONGESTION_MANAGEMENT".

(** The sample file with an objective the reader does not know, and with
    the relaxed model off and one relaxation on. *)
Definition sample_file_bad_objective : gmap string jvalue :=
  <["obj_type"%string := JStr "PROFIT"]> sample_file.

Definition sample_file_not_relaxed : gmap string jvalue :=
  <["ess_relax"%string := JBool true]> (<["relaxed_model"%string := JBool false]> sample_file).

End NetworkParameters.

(* ===================================================================== *)
(** ** The planning problem's data *)
(* ===================================================================== *)

Module Problem.

(** The fields of [SharedResourcesPlanning] and of its
    [shared_ess_data] that the coordination code reads.  [years] and
    [days] are dicts in insertion order (key, weight);
    [_read_planning_problem] makes [shared_ess_data.years] the same dict as
    [planning_problem.years] and fills
    [active_distribution_network_nodes] with the keys of
    [distribution_networks].  [t_cal year e] stands for
    [shared_ess_data.shared_energy_storages[year][e].t_cal] and
    [cost_investment_*] for [shared_ess_data.cost_investment[..][year]]. *)
Record planning_problem : Type := mkProblem {
  years : list (Z * Q);
  days : list (string * Q);
  num_instants : nat;
  discount_factor : Q;
  active_distribution_network_nodes : list Z;
  t_cal : Z -> nat -> Q;
  cost_investment_power : Z -> Q;
  cost_investment_energy : Z -> Q;
  budget : Q;
  max_capacity : Q;
  min_pe_factor : Q;
  max_pe_factor : Q
}.

(** [[year for year in planning_problem.years]]. *)
Definition year_keys (pp : planning_problem) : list Z := (years pp).*1.

(** [for y in range(len(years)): year = years[y]; w = self.years[year]]. *)
Definition enumerate {A : Type} (l : list A) : list (nat * A) := imap (fun i a => (i, a)) l.

End Problem.

(* ===================================================================== *)
(** ** Candidate solutions *)
(* ===================================================================== *)

Module Candidate.

(** [{'s': .., 'e': ..}]. *)
Record capacity : Type := mkCapacity { s : Q; e : Q }.

(** [node_id -> year -> {'s', 'e'}]. *)
Abbreviation table := (gmap Z (gmap Z capacity)).

(** [{'investment': .., 'total_capacity': ..}]. *)
Record candidate_solution : Type := mkCandidate {
  investment : table;
  total_capacity : table
}.

(** [t[node_id][year]]. *)
Definition lookup2 (t : table) (node_id year : Z) : result capacity :=
  match t !! node_id with
  | None => Err (KeyError (KInt node_id))
  | Some row =>
      match row !! year with
      | None => Err (KeyError (KInt year))
      | Some c => Ok c
      end
  end.

(** Every entry of a table is nonnegative. *)
Definition table_nonneg (t : table) : Prop :=
  forall (node_id year : Z) (row : gmap Z capacity) (c : capacity),
    t !! node_id = Some row -> row !! year = Some c -> 0 <= s c /\ 0 <= e c.

Definition nonneg (c : candidate_solution) : Prop :=
  table_nonneg (investment c) /\ table_nonneg (total_capacity c).

(** [_get_initial_candidate_solution]: a zero row per node, rebuilt from
    an empty dict at every node. *)
Definition zero_row (years : list Z) : gmap Z capacity :=
  for_each years (fun year row => <[year := mkCapacity 0 0]> row) ∅.

Definition _get_initial_candidate_solution (pp : Problem.planning_problem) : candidate_solution :=
  for_each (Problem.active_distribution_network_nodes pp)
    (fun node_id c =>
       {| investment := <[node_id := zero_row (Problem.year_keys pp)]> (investment c);
          total_capacity := <[node_id := zero_row (Problem.year_keys pp)]> (total_capacity c) |})
    {| investment := ∅; total_capacity := ∅ |}.

End Candidate.

(* ===================================================================== *)
(** ** The master problem *)
(* ===================================================================== *)

Module Master.

(** The Pyomo variables of the master problem. *)
Inductive var : Type :=
  | es_s_invesment (e y : nat)
  | es_e_invesment (e y : nat)
  | es_s_rated (e y : nat)
  | es_e_rated (e y : nat)
  | alpha.

(** The expressions the code builds with [+], [-], [*] and [+=]. *)
Inductive expr : Type :=
  | Num (c : Q)
  | Var (v : var)
  | Add (a b : expr)
  | Sub (a b : expr)
  | Mul (a b : expr).

(** The value of an expression when the variables take the values [a]. *)
Fixpoint eval (a : var -> Q) (ex : expr) : Q :=
  match ex with
  | Num c => c
  | Var v => a v
  | Add x y => eval a x + eval a y
  | Sub x y => eval a x - eval a y
  | Mul x y => eval a x * eval a y
  end.

Inductive constr : Type :=
  | CEq (l r : expr)       (* l == r *)
  | CLe (l r : expr)       (* l <= r *)
  | CGe (l r : expr).      (* l >= r *)

Definition holds (a : var -> Q) (c : constr) : Prop :=
  match c with
  | CEq l r => eval a l == eval a r
  | CLe l r => eval a l <= eval a r
  | CGe l r => eval a r <= eval a l
  end.

(** The [pe.ConcreteModel] of [_build_master_problem]. *)
Record model : Type := mkModel {
  years : list nat;
  energy_storages : list nat;
  alpha_lb : Q;
  rated_s_capacity : list constr;
  rated_e_capacity : list constr;
  energy_storage_maximum_capacity : list constr;
  energy_storage_power_to_energy_factor : list constr;
  energy_storage_investment : list constr;
  benders_cuts : list constr;
  objective : expr
}.

(** [tcal_norm = round(shared_energy_storage.t_cal / num_years)]. *)
Definition tcal_norm (pp : Problem.planning_problem) (e : nat) (year : Z) (num_years : Q) : result Z :=
  r ← Py.div (Problem.t_cal pp year e) num_years;
  Ok (Py.round r).

(** [max_tcal_norm = min(y + tcal_norm, len(shared_ess_data.years))]. *)
Definition max_tcal_norm (pp : Problem.planning_problem) (y : nat) (tn : Z) : Z :=
  Z.min (Z.of_nat y + tn) (Z.of_nat (length (Problem.years pp))).

(** [total_s_capacity_per_year[x] += model.es_s_invesment[e, y]], and the
    same for energy. *)
Definition add_investment (e y x : nat) (tot : list expr * list expr) : list expr * list expr :=
  (alter (fun ex => Add ex (Var (es_s_invesment e y))) x tot.1,
   alter (fun ex => Add ex (Var (es_e_invesment e y))) x tot.2).

(** The body of [for y in model.years] in the rated-capacity block. *)
Definition rated_year_step (pp : Problem.planning_problem) (e : nat)
    (tot : list expr * list expr) (yy : nat * (Z * Q)) : result (list expr * list expr) :=
  let '(y, (year, num_years)) := yy in
  tn ← tcal_norm pp e year num_years;
  Ok (for_each (range2 y (max_tcal_norm pp y tn)) (add_investment e y) tot).

(** The totals of one storage [e] after its loop over the years. *)
Definition total_capacity_per_year (pp : Problem.planning_problem) (e : nat)
  : result (list expr * list expr) :=
  let n := length (Problem.years pp) in
  foldlM (rated_year_step pp e) (replicate n (Num 0), replicate n (Num 0))
         (Problem.enumerate (Problem.years pp)).

(** The rated-capacity block: both constraint lists, storage by storage. *)
Definition rated_capacity_step (pp : Problem.planning_problem)
    (acc : list constr * list constr) (e : nat) : result (list constr * list constr) :=
  tot ← total_capacity_per_year pp e;
  Ok (acc.1 ++ imap (fun y ex => CEq (Var (es_s_rated e y)) ex) tot.1,
      acc.2 ++ imap (fun y ex => CEq (Var (es_e_rated e y)) ex) tot.2).

(** [annualization = 1 / ((1 + discount_factor) ** (int(year) - int(years[0])))]. *)
Definition annualization (pp : Problem.planning_problem) (year : Z) : result Q :=
  y0 ← Py.index (Problem.year_keys pp) 0;
  d ← Py.pow (1 + Problem.discount_factor pp) (year - y0);
  Py.div 1 d.

(** [cost += annualization * es_s_invesment[e, y] * c_inv_s] and the
    energy term after it. *)
Definition add_investment_cost (pp : Problem.planning_problem) (ann : Q) (year : Z)
    (e y : nat) (cost : expr) : expr :=
  Add (Add cost
           (Mul (Mul (Num ann) (Var (es_s_invesment e y))) (Num (Problem.cost_investment_power pp year))))
      (Mul (Mul (Num ann) (Var (es_e_invesment e y))) (Num (Problem.cost_investment_energy pp year))).

(** The budget block runs over the years, then over the storages. *)
Definition investment_cost_total (pp : Problem.planning_problem) (es : list nat) : result expr :=
  foldlM (fun cost (yy : nat * (Z * Q)) =>
            let '(y, (year, _)) := yy in
            ann ← annualization pp year;
            Ok (for_each es (fun e cost => add_investment_cost pp ann year e y cost) cost))
         (Num 0) (Problem.enumerate (Problem.years pp)).

(** The objective runs over the storages, then over the years. *)
Definition investment_cost (pp : Problem.planning_problem) (es : list nat) : result expr :=
  foldlM (fun cost e =>
            foldlM (fun cost (yy : nat * (Z * Q)) =>
                      let '(y, (year, _)) := yy in
                      ann ← annualization pp year;
                      Ok (add_investment_cost pp ann year e y cost))
                   cost (Problem.enumerate (Problem.years pp)))
         (Num 0) es.

Definition pairs (es ys : list nat) : list (nat * nat) :=
  e ← es; y ← ys; [(e, y)].

(** [_build_master_problem]. *)
Definition _build_master_problem (pp : Problem.planning_problem) : result model :=
  let ys := range (length (Problem.years pp)) in
  let es := range (length (Problem.active_distribution_network_nodes pp)) in
  rated ← foldlM (rated_capacity_step pp) ([], []) es;
  total ← investment_cost_total pp es;
  cost ← investment_cost pp es;
  Ok {| years := ys;
        energy_storages := es;
        alpha_lb := - Problem.budget pp * 1000;
        rated_s_capacity := rated.1;
        rated_e_capacity := rated.2;
        energy_storage_maximum_capacity :=
          map (fun ey => CLe (Var (es_e_rated ey.1 ey.2)) (Num (Problem.max_capacity pp))) (pairs es ys);
        energy_storage_power_to_energy_factor :=
          flat_map (fun ey =>
                      [ CGe (Var (es_s_rated ey.1 ey.2))
                            (Mul (Var (es_e_rated ey.1 ey.2)) (Num (Problem.min_pe_factor pp)));
                        CLe (Var (es_s_rated ey.1 ey.2))
                            (Mul (Var (es_e_rated ey.1 ey.2)) (Num (Problem.max_pe_factor pp))) ])
                   (pairs es ys);
        energy_storage_investment := [CLe total (Num (Problem.budget pp))];
        benders_cuts := [];
        objective := Add cost (Var alpha) |}.

(** The variables are [NonNegativeReals], [alpha] has its lower bound, and
    every constraint of the model holds. *)
Definition in_domain (m : model) (a : var -> Q) : Prop :=
  alpha_lb m <= a alpha /\
  forall e y, 0 <= a (es_s_invesment e y) /\ 0 <= a (es_e_invesment e y) /\
              0 <= a (es_s_rated e y) /\ 0 <= a (es_e_rated e y).

(** The same test, computed. *)
Definition holdsb (a : var -> Q) (c : constr) : bool :=
  match c with
  | CEq l r => Qeq_bool (eval a l) (eval a r)
  | CLe l r => Qle_bool (eval a l) (eval a r)
  | CGe l r => Qle_bool (eval a r) (eval a l)
  end.

(** *** Calendar-life windows *)

(** The window of an investment of year index [y] with [len] year indices
    in a horizon of [n]: [x] is in it when [y <= x < min(y + len, n)]. *)
Definition in_window (n y : nat) (len : Z) (x : nat) : bool :=
  (y <=? x)%nat && (Z.of_nat x <? Z.min (Z.of_nat y + len) (Z.of_nat n))%Z.

(** The length the code gives the window, [round(t_cal / w_y)], and the
    length the specification gives it, [ceil(t_cal / w_y)]. *)
Definition code_window_length (pp : Problem.planning_problem) (e : nat) (year : Z) (w : Q) : Z :=
  Py.round (Problem.t_cal pp year e / w).

Definition spec_window_length (pp : Problem.planning_problem) (e : nat) (year : Z) (w : Q) : Z :=
  Py.ceil (Problem.t_cal pp year e / w).

Definition Qsum (l : list Q) : Q := foldr Qplus 0 l.

(** The sum of [value y] over the years [y] of [l] whose window holds [x]. *)
Definition window_sum (n : nat) (len : Z -> Q -> Z) (value : nat -> Q) (x : nat)
    (l : list (nat * (Z * Q))) : Q :=
  Qsum (map (fun yy : nat * (Z * Q) =>
               if in_window n yy.1 (len yy.2.1 yy.2.2) x then value yy.1 else 0) l).

(** [sum of value[y] over all y with x in window(y)], over the horizon of
    the planning problem. *)
Definition windowed_sum (pp : Problem.planning_problem) (len : Z -> Q -> Z)
    (value : nat -> Q) (x : nat) : Q :=
  window_sum (length (Problem.years pp)) len value x (Problem.enumerate (Problem.years pp)).

End Master.

(* ===================================================================== *)
(** ** shared_energy_storage_data.py: the candidate of a solved master *)
(* ===================================================================== *)

Module SharedEnergyStorageData.

Import Candidate Master.

(** The rows of one storage: [abs(pe.value(..))] of the investment and of
    the rated variables, year by year.  [sol] gives [pe.value] of the
    solved master's variables. *)
Definition candidate_year_step (sol : var -> Q) (e : nat) (years : list Z)
    (rows : gmap Z capacity * gmap Z capacity) (y : nat)
  : result (gmap Z capacity * gmap Z capacity) :=
  year ← Py.index years y;
  Ok (<[year := mkCapacity (Qabs (sol (es_s_invesment e y))) (Qabs (sol (es_e_invesment e y)))]> rows.1,
      <[year := mkCapacity (Qabs (sol (es_s_rated e y))) (Qabs (sol (es_e_rated e y)))]> rows.2).

(** [get_candidate_solution]: [create_shared_energy_storages] gives the
    storage [e] of every year the bus [active_distribution_network_nodes[e]];
    [years[0]] is read to find it. *)
Definition get_candidate_solution (pp : Problem.planning_problem) (m : model) (sol : var -> Q)
  : result candidate_solution :=
  let years := Problem.year_keys pp in
  foldlM (fun c e =>
            _ ← Py.index years 0;
            node_id ← Py.index (Problem.active_distribution_network_nodes pp) e;
            rows ← foldlM (candidate_year_step sol e years) (∅, ∅) (Master.years m);
            Ok {| investment := <[node_id := rows.1]> (investment c);
                  total_capacity := <[node_id := rows.2]> (total_capacity c) |})
         {| investment := ∅; total_capacity := ∅ |}
         (energy_storages m).

End SharedEnergyStorageData.

(* ===================================================================== *)
(** ** The Benders loop *)
(* ===================================================================== *)

Module Benders.

Import Candidate Master.

(** [sensitivities['s'][year][node_id]] and [sensitivities['e'][year][node_id]],
    as [transmission_network.get_sensitivities] returns them. *)
Record sensitivities : Type := mkSens {
  sens_s : Z -> Z -> Q;
  sens_e : Z -> Z -> Q
}.

(** [for day in days: sensitivity += sens * (days[day] / 365.00)]. *)
Definition day_weighted (days : list (string * Q)) (sens : Q) : Q :=
  for_each days (fun d acc => acc + sens * (d.2 / 365)) 0.

(** The body of the two loops of [_add_benders_cut]. *)
Definition cut_step (pp : Problem.planning_problem) (sens : sensitivities)
    (cand : candidate_solution) (e : nat) (benders_cut : expr) (y : nat) : result expr :=
  year ← Py.index (Problem.year_keys pp) y;
  node_id ← Py.index (Problem.active_distribution_network_nodes pp) e;
  let sensitivity_s := day_weighted (Problem.days pp) (sens_s sens year node_id) in
  let sensitivity_e := day_weighted (Problem.days pp) (sens_e sens year node_id) in
  c ← lookup2 (total_capacity cand) node_id year;
  Ok (Add (Add benders_cut
               (Mul (Num sensitivity_s) (Sub (Var (es_s_rated e y)) (Num (s c)))))
          (Mul (Num sensitivity_e) (Sub (Var (es_e_rated e y)) (Num (Candidate.e c))))).

(** The right-hand side [benders_cut] of the new cut. *)
Definition benders_cut_expr (pp : Problem.planning_problem) (m : model) (upper_bound : Q)
    (sens : sensitivities) (cand : candidate_solution) : result expr :=
  foldlM (fun cut e => foldlM (cut_step pp sens cand e) cut (years m))
         (Num upper_bound) (energy_storages m).

Definition add_cut (m : model) (c : constr) : model :=
  {| years := years m; energy_storages := energy_storages m; alpha_lb := alpha_lb m;
     rated_s_capacity := rated_s_capacity m; rated_e_capacity := rated_e_capacity m;
     energy_storage_maximum_capacity := energy_storage_maximum_capacity m;
     energy_storage_power_to_energy_factor := energy_storage_power_to_energy_factor m;
     energy_storage_investment := energy_storage_investment m;
     benders_cuts := benders_cuts m ++ [c];
     objective := objective m |}.

(** [_add_benders_cut]: [model.benders_cuts.add(model.alpha >= benders_cut)]. *)
Definition _add_benders_cut (pp : Problem.planning_problem) (m : model) (upper_bound : Q)
    (sens : sensitivities) (cand : candidate_solution) : result model :=
  cut ← benders_cut_expr pp m upper_bound sens cand;
  Ok (add_cut m (CGe (Var alpha) cut)).

(** The capacities [(s_hat, e_hat)] of a candidate as values of the rated
    variables: [a] gives [es_s_rated[e, y]] and [es_e_rated[e, y]] the
    entries the cut was built from. *)
Definition at_candidate (pp : Problem.planning_problem) (cand : candidate_solution)
    (a : var -> Q) : Prop :=
  forall (e y : nat) (node_id year : Z) (c : capacity),
    Problem.active_distribution_network_nodes pp !! e = Some node_id ->
    Problem.year_keys pp !! y = Some year ->
    lookup2 (total_capacity cand) node_id year = Ok c ->
    a (es_s_rated e y) == s c /\ a (es_e_rated e y) == Candidate.e c.

(** [get_upper_bound]: [obj year day] is
    [network.compute_objective_function_value(model[year][day], params)] of
    the transmission network. *)
Definition get_upper_bound (pp : Problem.planning_problem) (obj : Z -> string -> Q) : result Q :=
  foldlM (fun ub (yw : Z * Q) =>
            let '(year, num_years) := yw in
            ann ← annualization pp year;
            Ok (for_each (Problem.days pp)
                  (fun d ub => ub + d.2 * num_years * ann * obj year d.1) ub))
         0 (Problem.years pp).

(** [planning_problem.params.benders]. *)
Record benders_parameters : Type := mkBendersParams {
  num_max_iters : nat;
  tol_abs : Q;
  tol_rel : Q
}.

Section Loop.

(** The operational layer ([run_operational_planning], the ADMM loop
    below) gives, for a candidate, the objective values of the transmission
    network's models and the sensitivities; [optimize] solves a master
    model and gives [pe.value] of its variables. *)
Variable run_operational_planning : candidate_solution -> (Z -> string -> Q) * sensitivities.
Variable optimize : model -> var -> Q.
Variable pp : Problem.planning_problem.
Variable params : benders_parameters.

Record state : Type := mkState {
  iter : nat;
  convergence : bool;
  lower_bound : Q;
  upper_bound : Q;
  lower_bound_evolution : list Q;
  upper_bound_evolution : list Q;
  candidate : candidate_solution;
  master_problem_model : model;
  handed : list candidate_solution      (* the candidates given to the operational layer *)
}.

(** [0. Initialization]. *)
Definition initial_state : result state :=
  m ← _build_master_problem pp;
  Ok {| iter := 1;
        convergence := false;
        lower_bound := - Problem.budget pp * 1000;
        upper_bound := Problem.budget pp * 1000;
        lower_bound_evolution := [- Problem.budget pp * 1000];
        upper_bound_evolution := [Problem.budget pp * 1000];
        candidate := _get_initial_candidate_solution pp;
        master_problem_model := m;
        handed := [] |}.

(** The [while] condition. *)
Definition continues (st : state) : bool :=
  (iter st <? num_max_iters params)%nat && negb (convergence st).

(** One pass through the body of the [while]. *)
Definition iteration (st : state) : result state :=
  let '(obj, sens) := run_operational_planning (candidate st) in
  ub ← get_upper_bound pp obj;
  close ← Py.isclose ub (lower_bound st) (tol_rel params) (tol_abs params);
  if close : bool then
    Ok {| iter := iter st;
          convergence := true;
          lower_bound := lower_bound st;
          upper_bound := ub;
          lower_bound_evolution := lower_bound_evolution st ++ [lower_bound st];
          upper_bound_evolution := upper_bound_evolution st ++ [ub];
          candidate := candidate st;
          master_problem_model := master_problem_model st;
          handed := handed st ++ [candidate st] |}
  else
    m ← _add_benders_cut pp (master_problem_model st) ub sens (candidate st);
    cand ← SharedEnergyStorageData.get_candidate_solution pp m (optimize m);
    Ok {| iter := S (iter st);
          convergence := false;
          lower_bound := optimize m alpha;
          upper_bound := ub;
          lower_bound_evolution := lower_bound_evolution st ++ [optimize m alpha];
          upper_bound_evolution := upper_bound_evolution st ++ [ub];
          candidate := cand;
          master_problem_model := m;
          handed := handed st ++ [candidate st] |}.

(** The [while] loop; every pass that does not stop the loop raises
    [iter], so [num_max_iters] passes are enough (see [while_loop_exits]). *)
Fixpoint while_loop (fuel : nat) (st : state) : result state :=
  if continues st then
    match fuel with
    | O => Ok st
    | S fuel' => st' ← iteration st; while_loop fuel' st'
    end
  else Ok st.

(** [_run_planning_problem]. *)
Definition _run_planning_problem : result state :=
  st ← initial_state;
  while_loop (num_max_iters params) st.

End Loop.

(** The test as the specification words it: the absolute gap, or the gap
    relative to the lower bound. *)
Definition spec_converged (params : benders_parameters) (ub lb : Q) : Prop :=
  Qabs (ub - lb) <= tol_abs params \/
  Qabs (ub - lb) / Qabs lb <= tol_rel params.

End Benders.

(* ===================================================================== *)
(** ** The ADMM coordination: consensus store *)
(* ===================================================================== *)

Module Admm.

Inductive role : Type := tso | dso.
Inductive quantity : Type := p | q.

#[global] Instance role_eq_dec : EqDecision role.
Proof. solve_decision. Defined.
#[global] Instance quantity_eq_dec : EqDecision quantity.
Proof. solve_decision. Defined.
#[global] Instance role_countable : Countable role :=
  inj_countable' (fun r => match r with tso => true | dso => false end)
                 (fun b => if b : bool then tso else dso)
                 ltac:(intros []; reflexivity).
#[global] Instance quantity_countable : Countable quantity :=
  inj_countable' (fun c => match c with p => true | q => false end)
                 (fun b => if b : bool then p else q)
                 ltac:(intros []; reflexivity).

(** One slot of the nested dicts
    [..[role][node_id][year][day]['p' or 'q'][instant]]. *)
Abbreviation path := (role * Z * Z * string * quantity * nat)%type.

(** A slot of [consensus_vars['interface']['v'][node_id][year][day][instant]]. *)
Abbreviation vpath := (Z * Z * string * nat)%type.

#[global] Instance Q_inhabited : Inhabited Q := populate 0.

(** [consensus_vars]: ['interface']['v'], ['interface']['pf'] and ['ess']
    (its ['capacity'] entry is created empty and never used). *)
Record consensus_variables : Type := mkConsensus {
  interface_v : gmap vpath Q;
  interface_pf : gmap path Q;
  ess : gmap path Q
}.

(** [dual_vars]: ['pf'] and ['ess']. *)
Record dual_variables : Type := mkDual {
  dual_pf : gmap path Q;
  dual_ess : gmap path Q
}.

(** [consensus_vars_prev_iter]: ['interface']['pf'] and ['ess']. *)
Record consensus_variables_prev_iter : Type := mkPrev {
  prev_interface_pf : gmap path Q;
  prev_ess : gmap path Q
}.

(** The values of one Pyomo model [model[year][day]]: of the parameters the
    coordination fixes, and of the expressions it reads after a solve.  The
    first index is the distribution network (or shared storage) in a
    transmission model and is 0 in a distribution model. *)
Record values : Type := mkValues {
  objective_expr : Q;               (* the objective that build_model made *)
  rho_pf : Q;
  rho_ess : Q;
  p_pf_req : nat -> nat -> Q;
  q_pf_req : nat -> nat -> Q;
  dual_pf_p : nat -> nat -> Q;
  dual_pf_q : nat -> nat -> Q;
  p_ess_req : nat -> nat -> Q;
  q_ess_req : nat -> nat -> Q;
  dual_ess_p : nat -> nat -> Q;
  dual_ess_q : nat -> nat -> Q;
  expected_interface_vmag_sqr : nat -> nat -> Q;
  expected_interface_pf_p : nat -> nat -> Q;
  expected_interface_pf_q : nat -> nat -> Q;
  expected_shared_ess_p : nat -> nat -> Q;
  expected_shared_ess_q : nat -> nat -> Q
}.

(** What a solve changes: the values of the model's expressions. *)
Record solution : Type := mkSolution {
  sol_objective_expr : Q;
  sol_interface_vmag_sqr : nat -> nat -> Q;
  sol_interface_pf_p : nat -> nat -> Q;
  sol_interface_pf_q : nat -> nat -> Q;
  sol_shared_ess_p : nat -> nat -> Q;
  sol_shared_ess_q : nat -> nat -> Q
}.

(** [model[year][day]]: the values and the objective expression. *)
Record block : Type := mkBlock {
  vals : values;
  objective : values -> Q
}.

(** A network's model: [model[year][day]]. *)
Abbreviation network_model := (Z -> string -> block).

Definition set_block (m : network_model) (year : Z) (day : string) (b : block) : network_model :=
  fun y d => if decide ((y, d) = (year, day)) then b else m y d.

Definition set2 (f : nat -> nat -> Q) (i j : nat) (x : Q) : nat -> nat -> Q :=
  fun i' j' => if decide ((i', j') = (i, j)) then x else f i' j'.

(** [transmission_network]: its name, [network[year][day].baseMVA],
    [network[year][day].shared_energy_storages[e].s] and
    [network[year][day].get_shared_energy_storage_idx(node_id)]. *)
Record transmission_network : Type := mkTN {
  tn_name : string;
  tn_baseMVA : Z -> string -> Q;
  tn_rating : Z -> string -> nat -> Q;
  tn_get_shared_energy_storage_idx : Z -> string -> Z -> nat
}.

(** [distribution_networks[node_id]]: its name, and of
    [network[year][day]] the name, [baseMVA] and
    [shared_energy_storages[0].s]. *)
Record distribution_network : Type := mkDN {
  dn_name : string;
  dn_network_name : Z -> string -> string;
  dn_baseMVA : Z -> string -> Q;
  dn_rating : Z -> string -> Q
}.

(** [planning_problem.params.admm]: [rho['pf'][name]] and
    [rho['ess'][name]] by network name. *)
Record admm_parameters : Type := mkAdmmParams {
  num_max_iters : nat;
  tol : Q;
  rho_of_pf : string -> Q;
  rho_of_ess : string -> Q;
  adaptive_penalty : bool
}.

(** The operational planning problem: the planning data, the transmission
    network and the distribution networks by connection node. *)
Record operational_planning_problem : Type := mkOPP {
  problem : Problem.planning_problem;
  tn : transmission_network;
  dns : Z -> distribution_network
}.

Definition nodes (opp : operational_planning_problem) : list Z :=
  Problem.active_distribution_network_nodes (problem opp).
Definition years (opp : operational_planning_problem) : list Z :=
  Problem.year_keys (problem opp).
Definition days (opp : operational_planning_problem) : list string :=
  (Problem.days (problem opp)).*1.
Definition instants (opp : operational_planning_problem) : list nat :=
  range (Problem.num_instants (problem opp)).

(** [model[year][day].periods] is [range(num_instants)] in the models that
    [build_model] makes. *)
Definition periods (opp : operational_planning_problem) : list nat := instants opp.

(** [for year in years: for day in days: for p in range(num_instants)]. *)
Definition for_ydp {S : Type} (opp : operational_planning_problem)
    (body : Z -> string -> nat -> S -> S) : S -> S :=
  for_each (years opp) (fun year =>
    for_each (days opp) (fun day =>
      for_each (instants opp) (fun t => body year day t))).

(** [for node_id in ..: for year in ..: for day in ..: for p in ..]. *)
Definition for_nydp {S : Type} (opp : operational_planning_problem)
    (body : Z -> Z -> string -> nat -> S -> S) : S -> S :=
  for_each (nodes opp) (fun node_id => for_ydp opp (body node_id)).

(** [create_admm_variables]. *)
Definition create_slots (node_id year : Z) (day : string) (t : nat) (x : Q)
    (m : gmap path Q) : gmap path Q :=
  <[(dso, node_id, year, day, q, t) := x]>
    (<[(dso, node_id, year, day, p, t) := x]>
       (<[(tso, node_id, year, day, q, t) := x]>
          (<[(tso, node_id, year, day, p, t) := x]> m))).

Definition create_admm_variables (opp : operational_planning_problem)
  : consensus_variables * dual_variables * consensus_variables_prev_iter :=
  let zeros := for_nydp opp (fun node_id year day t => create_slots node_id year day t 0) ∅ in
  ({| interface_v := for_nydp opp (fun node_id year day t m => <[(node_id, year, day, t) := 1]> m) ∅;
      interface_pf := zeros;
      ess := zeros |},
   {| dual_pf := zeros; dual_ess := zeros |},
   {| prev_interface_pf := zeros; prev_ess := zeros |}).

(** The four assignments per coupling of
    [_update_previous_consensus_variables]. *)
Definition copy_slots (src : gmap path Q) (node_id year : Z) (day : string) (t : nat)
    (dst : gmap path Q) : gmap path Q :=
  <[(dso, node_id, year, day, q, t) := src !!! (dso, node_id, year, day, q, t)]>
    (<[(dso, node_id, year, day, p, t) := src !!! (dso, node_id, year, day, p, t)]>
       (<[(tso, node_id, year, day, q, t) := src !!! (tso, node_id, year, day, q, t)]>
          (<[(tso, node_id, year, day, p, t) := src !!! (tso, node_id, year, day, p, t)]> dst))).

(** [_update_previous_consensus_variables]. *)
Definition _update_previous_consensus_variables (opp : operational_planning_problem)
    (cv : consensus_variables) (prev : consensus_variables_prev_iter)
  : consensus_variables_prev_iter :=
  for_nydp opp
    (fun node_id year day t prev =>
       {| prev_interface_pf := copy_slots (interface_pf cv) node_id year day t (prev_interface_pf prev);
          prev_ess := copy_slots (ess cv) node_id year day t (prev_ess prev) |})
    prev.

(** [m[k] += x]. *)
Definition add_to (k : path) (x : Q) (m : gmap path Q) : gmap path Q :=
  <[k := m !!! k + x]> m.

Section Coordination.

(** [math.sqrt], and the constants of [definitions.py] that the
    coordination code reads: they are parameters here. *)
Variable sqrt : Q -> Q.
Variable ADMM_ADAPTIVE_PENALTY_FACTOR : Q.
Variable ERROR_PRECISION : Z.
Variable ADMM_CONVERGENCE_REL_TOL : Q.

Variable opp : operational_planning_problem.
Variable params : admm_parameters.

(** *** [_update_interface_power_flow_variables] *)

(** Transmission network: [v] and the TSO copy of the interface flow. *)
Definition pull_tso_interface (tso_model : network_model) (cv : consensus_variables)
  : consensus_variables :=
  for_each (Problem.enumerate (nodes opp))
    (fun dn_node =>
       for_ydp opp (fun year day t cv =>
         let b := vals (tso_model year day) in
         let s_base := tn_baseMVA (tn opp) year day in
         {| interface_v :=
              <[(dn_node.2, year, day, t) := sqrt (expected_interface_vmag_sqr b dn_node.1 t)]>
                (interface_v cv);
            interface_pf :=
              <[(tso, dn_node.2, year, day, q, t) := expected_interface_pf_q b dn_node.1 t * s_base]>
                (<[(tso, dn_node.2, year, day, p, t) := expected_interface_pf_p b dn_node.1 t * s_base]>
                   (interface_pf cv));
            ess := ess cv |}))
    cv.

(** Distribution networks: the DSO copy of the interface flow. *)
Definition pull_dso_interface (dso_models : Z -> network_model) (cv : consensus_variables)
  : consensus_variables :=
  for_nydp opp
    (fun node_id year day t cv =>
       let b := vals (dso_models node_id year day) in
       let s_base := dn_baseMVA (dns opp node_id) year day in
       {| interface_v := interface_v cv;
          interface_pf :=
            <[(dso, node_id, year, day, q, t) := expected_interface_pf_q b 0%nat t * s_base]>
              (<[(dso, node_id, year, day, p, t) := expected_interface_pf_p b 0%nat t * s_base]>
                 (interface_pf cv));
          ess := ess cv |})
    cv.

(** [# Update Lambdas]: the three [+=] of the source, in its order. *)
Definition update_pf_duals (pf : gmap path Q) (dual : gmap path Q) : gmap path Q :=
  for_nydp opp
    (fun node_id year day t dual =>
       let error_p_pf := pf !!! (tso, node_id, year, day, p, t) - pf !!! (dso, node_id, year, day, p, t) in
       let error_q_pf := pf !!! (tso, node_id, year, day, q, t) - pf !!! (dso, node_id, year, day, q, t) in
       let rho_tso := rho_of_pf params (tn_name (tn opp)) in
       let rho_dso := rho_of_pf params (dn_name (dns opp node_id)) in
       add_to (dso, node_id, year, day, q, t) (rho_dso * (- error_q_pf))
         (add_to (dso, node_id, year, day, p, t) (rho_dso * (- error_p_pf))
            (add_to (tso, node_id, year, day, q, t) (rho_tso * error_q_pf) dual)))
    dual.

Definition _update_interface_power_flow_variables
    (tso_model : network_model) (dso_models : Z -> network_model)
    (cv : consensus_variables) (dual : gmap path Q) : consensus_variables * gmap path Q :=
  let cv1 := pull_tso_interface tso_model cv in
  let cv2 := pull_dso_interface dso_models cv1 in
  (cv2, update_pf_duals (interface_pf cv2) dual).

(** *** [_update_shared_energy_storage_variables] *)

(** [shared_ess_vars[r][node_id][year][day]['p'] = [0.0 for _ in range(num_instants)]]
    and the same for ['q']. *)
Definition reset_lists (r : role) (node_id year : Z) (day : string) (m : gmap path Q)
  : gmap path Q :=
  for_each (instants opp)
    (fun t m => <[(r, node_id, year, day, q, t) := 0]> m)
    (for_each (instants opp) (fun t m => <[(r, node_id, year, day, p, t) := 0]> m) m).

(** [# Shared Energy Storage - Power requested by TSO]. *)
Definition pull_tso_ess (tso_model : network_model) (node_id : Z) (m : gmap path Q)
  : gmap path Q :=
  for_each (years opp) (fun year =>
    for_each (days opp) (fun day m =>
      let b := vals (tso_model year day) in
      let s_base := tn_baseMVA (tn opp) year day in
      let shared_ess_idx := tn_get_shared_energy_storage_idx (tn opp) year day node_id in
      for_each (periods opp)
        (fun t m =>
           <[(tso, node_id, year, day, q, t) := expected_shared_ess_q b shared_ess_idx t * s_base]>
             (<[(tso, node_id, year, day, p, t) := expected_shared_ess_p b shared_ess_idx t * s_base]> m))
        (reset_lists tso node_id year day m)))
    m.

(** [# Shared Energy Storage - Power requested by DSO]. *)
Definition pull_dso_ess (dso_model : network_model) (node_id : Z) (m : gmap path Q)
  : gmap path Q :=
  for_each (years opp) (fun year =>
    for_each (days opp) (fun day m =>
      let b := vals (dso_model year day) in
      let s_base := dn_baseMVA (dns opp node_id) year day in
      for_each (periods opp)
        (fun t m =>
           <[(dso, node_id, year, day, q, t) := expected_shared_ess_q b 0%nat t * s_base]>
             (<[(dso, node_id, year, day, p, t) := expected_shared_ess_p b 0%nat t * s_base]> m))
        (reset_lists dso node_id year day m)))
    m.

(** [# Update dual variables Shared ESS]: the four [+=] for one node. *)
Definition update_ess_duals (node_id : Z) (e : gmap path Q) (dual : gmap path Q) : gmap path Q :=
  for_ydp opp
    (fun year day t dual =>
       let error_p_ess_transm := e !!! (tso, node_id, year, day, p, t) - e !!! (dso, node_id, year, day, p, t) in
       let error_q_ess_transm := e !!! (tso, node_id, year, day, q, t) - e !!! (dso, node_id, year, day, q, t) in
       let error_p_ess_distr := e !!! (dso, node_id, year, day, p, t) - e !!! (tso, node_id, year, day, p, t) in
       let error_q_ess_distr := e !!! (dso, node_id, year, day, q, t) - e !!! (tso, node_id, year, day, q, t) in
       let rho_tso := rho_of_ess params (tn_name (tn opp)) in
       let rho_dso := rho_of_ess params (dn_name (dns opp node_id)) in
       add_to (dso, node_id, year, day, q, t) (rho_dso * error_q_ess_distr)
         (add_to (dso, node_id, year, day, p, t) (rho_dso * error_p_ess_distr)
            (add_to (tso, node_id, year, day, q, t) (rho_tso * error_q_ess_transm)
               (add_to (tso, node_id, year, day, p, t) (rho_tso * error_p_ess_transm) dual))))
    dual.

(** One pass of [for node_id in distribution_networks]. *)
Definition update_ess_node (tso_model : network_model) (dso_models : Z -> network_model)
    (node_id : Z) (st : gmap path Q * gmap path Q) : gmap path Q * gmap path Q :=
  let e1 := pull_tso_ess tso_model node_id st.1 in
  let e2 := pull_dso_ess (dso_models node_id) node_id e1 in
  (e2, update_ess_duals node_id e2 st.2).

Definition _update_shared_energy_storage_variables
    (tso_model : network_model) (dso_models : Z -> network_model)
    (shared_ess_vars : gmap path Q) (dual : gmap path Q) : gmap path Q * gmap path Q :=
  for_each (nodes opp) (update_ess_node tso_model dso_models) (shared_ess_vars, dual).

(** *** [_update_admm_consensus_variables] *)

(** The three dicts the ADMM loop shares. *)
Record store : Type := mkStore {
  consensus_vars : consensus_variables;
  dual_vars : dual_variables;
  consensus_vars_prev_iter : consensus_variables_prev_iter
}.

Definition _update_admm_consensus_variables
    (tso_model : network_model) (dso_models : Z -> network_model) (st : store) : store :=
  let prev := _update_previous_consensus_variables opp (consensus_vars st) (consensus_vars_prev_iter st) in
  let '(cv, dpf) := _update_interface_power_flow_variables tso_model dso_models
                      (consensus_vars st) (dual_pf (dual_vars st)) in
  let '(e, dess) := _update_shared_energy_storage_variables tso_model dso_models
                      (ess cv) (dual_ess (dual_vars st)) in
  {| consensus_vars := {| interface_v := interface_v cv; interface_pf := interface_pf cv; ess := e |};
     dual_vars := {| dual_pf := dpf; dual_ess := dess |};
     consensus_vars_prev_iter := prev |}.

(** *** Convergence tests *)

Definition rnd (x : Q) : Q := Py.round_ndigits x ERROR_PRECISION.

(** The four [sum_abs += abs(round(..) - round(..))] of one slot and
    [num_elems += 4]. *)
Definition consensus_terms (m : gmap path Q) (node_id year : Z) (day : string) (t : nat)
    (acc : Q * nat) : Q * nat :=
  (acc.1
   + Qabs (rnd (m !!! (tso, node_id, year, day, p, t)) - rnd (m !!! (dso, node_id, year, day, p, t)))
   + Qabs (rnd (m !!! (tso, node_id, year, day, q, t)) - rnd (m !!! (dso, node_id, year, day, q, t)))
   + Qabs (rnd (m !!! (dso, node_id, year, day, p, t)) - rnd (m !!! (tso, node_id, year, day, p, t)))
   + Qabs (rnd (m !!! (dso, node_id, year, day, q, t)) - rnd (m !!! (tso, node_id, year, day, q, t))),
   (acc.2 + 4)%nat).

(** The two inner loops (over the nodes and the instants) of one coupling
    for one year and day. *)
Definition consensus_block (m : gmap path Q) (year : Z) (day : string) (acc : Q * nat) : Q * nat :=
  for_each (nodes opp) (fun node_id =>
    for_each (instants opp) (fun t => consensus_terms m node_id year day t)) acc.

(** [sum_abs] and [num_elems] of [_consensus_convergence]. *)
Definition consensus_sum (cv : consensus_variables) : Q * nat :=
  for_each (years opp) (fun year =>
    for_each (days opp) (fun day acc =>
      consensus_block (ess cv) year day (consensus_block (interface_pf cv) year day acc)))
    (0, 0%nat).

(** The final test shared by both convergence functions. *)
Definition within_tolerance (acc : Q * nat) : result bool :=
  let bound := tol params * inject_Z (Z.of_nat acc.2) in
  if Py.Qltb bound acc.1 then
    close ← Py.isclose acc.1 bound ADMM_CONVERGENCE_REL_TOL (tol params);
    Ok (close : bool)
  else Ok true.

(** What one slot adds to [sum_abs] in [_consensus_convergence]: the
    rounded residual of [p] and of [q], each counted in both directions. *)
Definition slot_residual (m : gmap path Q) (node_id year : Z) (day : string) (t : nat) : Q :=
  Qabs (rnd (m !!! (tso, node_id, year, day, p, t)) - rnd (m !!! (dso, node_id, year, day, p, t)))
  + Qabs (rnd (m !!! (tso, node_id, year, day, q, t)) - rnd (m !!! (dso, node_id, year, day, q, t))).

(** The final test, as a statement about the sum and the count. *)
Definition sum_within_tolerance (acc : Q * nat) : Prop :=
  acc.1 <= tol params * inject_Z (Z.of_nat acc.2) \/
  Py.close_enough acc.1 (tol params * inject_Z (Z.of_nat acc.2))
    ADMM_CONVERGENCE_REL_TOL (tol params).

(** The bound of the specification: the unrounded residual of one slot
    against the tolerance itself. *)
Definition spec_pointwise_bound (m : gmap path Q) (node_id year : Z) (day : string) (t : nat)
  : Prop :=
  Qabs (m !!! (tso, node_id, year, day, p, t) - m !!! (dso, node_id, year, day, p, t))
  + Qabs (m !!! (tso, node_id, year, day, q, t) - m !!! (dso, node_id, year, day, q, t))
  <= tol params.

Definition _consensus_convergence (cv : consensus_variables) : result bool :=
  within_tolerance (consensus_sum cv).

(** The four weighted terms of one slot of [_stationary_convergence]. *)
Definition stationary_terms (rho_tso rho_dso : Q) (m m_prev : gmap path Q)
    (node_id year : Z) (day : string) (t : nat) (acc : Q * nat) : Q * nat :=
  (acc.1
   + rho_tso * Qabs (rnd (m !!! (tso, node_id, year, day, p, t)) - rnd (m_prev !!! (tso, node_id, year, day, p, t)))
   + rho_tso * Qabs (rnd (m !!! (tso, node_id, year, day, q, t)) - rnd (m_prev !!! (tso, node_id, year, day, q, t)))
   + rho_dso * Qabs (rnd (m !!! (dso, node_id, year, day, p, t)) - rnd (m_prev !!! (dso, node_id, year, day, p, t)))
   + rho_dso * Qabs (rnd (m !!! (dso, node_id, year, day, q, t)) - rnd (m_prev !!! (dso, node_id, year, day, q, t))),
   (acc.2 + 4)%nat).

Definition stationary_sum (cv : consensus_variables) (prev : consensus_variables_prev_iter)
  : Q * nat :=
  let rho_pf_tso := rho_of_pf params (tn_name (tn opp)) in
  let rho_ess_tso := rho_of_ess params (tn_name (tn opp)) in
  for_nydp opp
    (fun node_id =>
       stationary_terms rho_ess_tso (rho_of_ess params (dn_name (dns opp node_id)))
                        (ess cv) (prev_ess prev) node_id)
    (for_nydp opp
       (fun node_id =>
          stationary_terms rho_pf_tso (rho_of_pf params (dn_name (dns opp node_id)))
                           (interface_pf cv) (prev_interface_pf prev) node_id)
       (0, 0%nat)).

Definition _stationary_convergence (cv : consensus_variables)
    (prev : consensus_variables_prev_iter) : result bool :=
  within_tolerance (stationary_sum cv prev).

(** [_check_admm_convergence]: the stationary test runs only when the
    consensus test passed. *)
Definition _check_admm_convergence (cv : consensus_variables)
    (prev : consensus_variables_prev_iter) : result bool :=
  c ← _consensus_convergence cv;
  if c : bool then
    s ← _stationary_convergence cv prev;
    Ok (s : bool)
  else Ok false.

(** *** Fixing the coupling parameters of a model *)

(** [model.rho_pf.fix(rho_pf)] and [model.rho_ess.fix(rho_ess)]. *)
Definition fix_rho (rho_pf' rho_ess' : Q) (v : values) : values :=
  {| objective_expr := objective_expr v; rho_pf := rho_pf'; rho_ess := rho_ess';
     p_pf_req := p_pf_req v; q_pf_req := q_pf_req v; dual_pf_p := dual_pf_p v;
     dual_pf_q := dual_pf_q v; p_ess_req := p_ess_req v; q_ess_req := q_ess_req v;
     dual_ess_p := dual_ess_p v; dual_ess_q := dual_ess_q v;
     expected_interface_vmag_sqr := expected_interface_vmag_sqr v;
     expected_interface_pf_p := expected_interface_pf_p v;
     expected_interface_pf_q := expected_interface_pf_q v;
     expected_shared_ess_p := expected_shared_ess_p v;
     expected_shared_ess_q := expected_shared_ess_q v |}.

(** The four [fix] of the interface flow for the index [(i, t)]. *)
Definition fix_pf (i t : nat) (dual_p dual_q req_p req_q : Q) (v : values) : values :=
  {| objective_expr := objective_expr v; rho_pf := rho_pf v; rho_ess := rho_ess v;
     p_pf_req := set2 (p_pf_req v) i t req_p; q_pf_req := set2 (q_pf_req v) i t req_q;
     dual_pf_p := set2 (dual_pf_p v) i t dual_p; dual_pf_q := set2 (dual_pf_q v) i t dual_q;
     p_ess_req := p_ess_req v; q_ess_req := q_ess_req v; dual_ess_p := dual_ess_p v;
     dual_ess_q := dual_ess_q v;
     expected_interface_vmag_sqr := expected_interface_vmag_sqr v;
     expected_interface_pf_p := expected_interface_pf_p v;
     expected_interface_pf_q := expected_interface_pf_q v;
     expected_shared_ess_p := expected_shared_ess_p v;
     expected_shared_ess_q := expected_shared_ess_q v |}.

(** The four [fix] of the shared storage for the index [(i, t)]. *)
Definition fix_ess (i t : nat) (dual_p dual_q req_p req_q : Q) (v : values) : values :=
  {| objective_expr := objective_expr v; rho_pf := rho_pf v; rho_ess := rho_ess v;
     p_pf_req := p_pf_req v; q_pf_req := q_pf_req v; dual_pf_p := dual_pf_p v;
     dual_pf_q := dual_pf_q v; p_ess_req := set2 (p_ess_req v) i t req_p;
     q_ess_req := set2 (q_ess_req v) i t req_q;
     dual_ess_p := set2 (dual_ess_p v) i t dual_p;
     dual_ess_q := set2 (dual_ess_q v) i t dual_q;
     expected_interface_vmag_sqr := expected_interface_vmag_sqr v;
     expected_interface_pf_p := expected_interface_pf_p v;
     expected_interface_pf_q := expected_interface_pf_q v;
     expected_shared_ess_p := expected_shared_ess_p v;
     expected_shared_ess_q := expected_shared_ess_q v |}.

(** [model.expected_interface_vmag_sqr[p].fix(x)] of a distribution model. *)
Definition fix_vmag_sqr (t : nat) (x : Q) (v : values) : values :=
  {| objective_expr := objective_expr v; rho_pf := rho_pf v; rho_ess := rho_ess v;
     p_pf_req := p_pf_req v; q_pf_req := q_pf_req v; dual_pf_p := dual_pf_p v;
     dual_pf_q := dual_pf_q v; p_ess_req := p_ess_req v; q_ess_req := q_ess_req v;
     dual_ess_p := dual_ess_p v; dual_ess_q := dual_ess_q v;
     expected_interface_vmag_sqr := set2 (expected_interface_vmag_sqr v) 0%nat t x;
     expected_interface_pf_p := expected_interface_pf_p v;
     expected_interface_pf_q := expected_interface_pf_q v;
     expected_shared_ess_p := expected_shared_ess_p v;
     expected_shared_ess_q := expected_shared_ess_q v |}.

(** A solve leaves the fixed parameters and moves the expressions. *)
Definition apply_solution (sol : solution) (v : values) : values :=
  {| objective_expr := sol_objective_expr sol; rho_pf := rho_pf v; rho_ess := rho_ess v;
     p_pf_req := p_pf_req v; q_pf_req := q_pf_req v; dual_pf_p := dual_pf_p v;
     dual_pf_q := dual_pf_q v; p_ess_req := p_ess_req v; q_ess_req := q_ess_req v;
     dual_ess_p := dual_ess_p v; dual_ess_q := dual_ess_q v;
     expected_interface_vmag_sqr := sol_interface_vmag_sqr sol;
     expected_interface_pf_p := sol_interface_pf_p sol;
     expected_interface_pf_q := sol_interface_pf_q sol;
     expected_shared_ess_p := sol_shared_ess_p sol;
     expected_shared_ess_q := sol_shared_ess_q sol |}.

Definition on_vals (f : values -> values) (b : block) : block :=
  {| vals := f (vals b); objective := objective b |}.

(** The penalties of one model for the next solve: the configured ones, or
    with [adaptive_penalty] the model's current [rho_pf] times
    [1 + ADMM_ADAPTIVE_PENALTY_FACTOR], for both. *)
Definition next_rho (name : string) (v : values) : Q * Q :=
  if adaptive_penalty params
  then (rho_pf v * (1 + ADMM_ADAPTIVE_PENALTY_FACTOR),
        rho_pf v * (1 + ADMM_ADAPTIVE_PENALTY_FACTOR))
  else (rho_of_pf params name, rho_of_ess params name).

(** [# Update Rho parameter]. *)
Definition update_rho (name : string) (v : values) : values :=
  fix_rho (next_rho name v).1 (next_rho name v).2 v.

(** The solver: what solving a prepared model gives for each year and day
    ([transmission_network.optimize], [distribution_network.optimize]). *)
Variable optimize_tso : network_model -> bool -> Z -> string -> solution.
Variable optimize_dso : Z -> network_model -> bool -> Z -> string -> solution.

Definition solved (m : network_model) (sol : Z -> string -> solution) : network_model :=
  fun year day => on_vals (apply_solution (sol year day)) (m year day).

(** The updates of one transmission model [model[year][day]] before the
    solve: the penalties, then for every distribution network the interface
    flow and the shared storage.  Divisions by [s_base] are written with
    [Q]'s total division. *)
Definition prepare_tso_block (pf_req dual_pf ess_req dual_ess : gmap path Q)
    (year : Z) (day : string) (v : values) : values :=
  let s_base := tn_baseMVA (tn opp) year day in
  for_each (Problem.enumerate (nodes opp))
    (fun dn_node v =>
       let dn := dn_node.1 in
       let node_id := dn_node.2 in
       let shared_ess_idx := tn_get_shared_energy_storage_idx (tn opp) year day node_id in
       for_each (periods opp)
         (fun t => fix_ess shared_ess_idx t
                     (dual_ess !!! (tso, node_id, year, day, p, t) / s_base)
                     (dual_ess !!! (tso, node_id, year, day, q, t) / s_base)
                     (ess_req !!! (dso, node_id, year, day, p, t) / s_base)
                     (ess_req !!! (dso, node_id, year, day, q, t) / s_base))
         (for_each (periods opp)
            (fun t => fix_pf dn t
                        (dual_pf !!! (tso, node_id, year, day, p, t) / s_base)
                        (dual_pf !!! (tso, node_id, year, day, q, t) / s_base)
                        (pf_req !!! (dso, node_id, year, day, p, t) / s_base)
                        (pf_req !!! (dso, node_id, year, day, q, t) / s_base))
            v))
    (update_rho (tn_name (tn opp)) v).

Definition for_yd {S : Type} (body : Z -> string -> S -> S) : S -> S :=
  for_each (years opp) (fun year => for_each (days opp) (fun day => body year day)).

(** [update_transmission_coordination_model_and_solve]. *)
Definition update_transmission_coordination_model_and_solve
    (model : network_model) (st : store) (from_warm_start : bool) : network_model :=
  let cv := consensus_vars st in
  let dv := dual_vars st in
  let prepared :=
    for_yd (fun year day m =>
              set_block m year day
                (on_vals (prepare_tso_block (interface_pf cv) (dual_pf dv) (ess cv) (dual_ess dv) year day)
                         (m year day)))
           model in
  solved prepared (optimize_tso prepared from_warm_start).

(** The updates of one distribution model [model[year][day]]. *)
Definition prepare_dso_block (node_id : Z) (interface_vmag : gmap vpath Q)
    (pf_req dual_pf ess_req dual_ess : gmap path Q)
    (year : Z) (day : string) (v : values) : values :=
  let s_base := dn_baseMVA (dns opp node_id) year day in
  for_each (periods opp)
    (fun t => fix_ess 0%nat t
                (dual_ess !!! (dso, node_id, year, day, p, t) / s_base)
                (dual_ess !!! (dso, node_id, year, day, q, t) / s_base)
                (ess_req !!! (tso, node_id, year, day, p, t) / s_base)
                (ess_req !!! (tso, node_id, year, day, q, t) / s_base))
    (for_each (periods opp)
       (fun t => fix_pf 0%nat t
                   (dual_pf !!! (dso, node_id, year, day, p, t) / s_base)
                   (dual_pf !!! (dso, node_id, year, day, q, t) / s_base)
                   (pf_req !!! (tso, node_id, year, day, p, t) / s_base)
                   (pf_req !!! (tso, node_id, year, day, q, t) / s_base))
       (for_each (periods opp)
          (fun t => fix_vmag_sqr t ((interface_vmag !!! (node_id, year, day, t)) ^ 2))
          (update_rho (dn_name (dns opp node_id)) v))).

(** One pass of [for node_id in distribution_networks]: prepare the
    node's model for every year and day, then solve it. *)
Definition update_and_solve_dso (st : store) (from_warm_start : bool) (node_id : Z)
    (models : Z -> network_model) : Z -> network_model :=
  let cv := consensus_vars st in
  let dv := dual_vars st in
  let prepared :=
    for_yd (fun year day m =>
              set_block m year day
                (on_vals (prepare_dso_block node_id (interface_v cv)
                            (interface_pf cv) (dual_pf dv) (ess cv) (dual_ess dv) year day)
                         (m year day)))
           (models node_id) in
  fun n => if decide (n = node_id)
           then solved prepared (optimize_dso node_id prepared from_warm_start)
           else models n.

(** [update_distribution_coordination_models_and_solve]. *)
Definition update_distribution_coordination_models_and_solve
    (models : Z -> network_model) (st : store) (from_warm_start : bool) : Z -> network_model :=
  for_each (nodes opp) (update_and_solve_dso st from_warm_start) models.

(** *** The augmented-Lagrangian objectives *)

(** [(expected[i, t] - req[i, t]) / den] for a denominator already checked. *)
Definition residual (expected req : values -> nat -> nat -> Q) (i t : nat) (den : Q)
  : values -> Q :=
  fun v => (expected v i t - req v i t) / den.

(** The four [obj +=] of one index: [dual_p * c_p], [dual_q * c_q],
    [(rho / 2) * c_p ** 2], [(rho / 2) * c_q ** 2]. *)
Definition add_lagrangian (dual_p dual_q : values -> nat -> nat -> Q) (rho : values -> Q)
    (i t : nat) (c_p c_q : values -> Q) (obj : values -> Q) : values -> Q :=
  fun v => obj v + dual_p v i t * c_p v + dual_q v i t * c_q v
           + (rho v / 2) * c_p v ^ 2 + (rho v / 2) * c_q v ^ 2.

(** The interface terms of the index [(i, t)]: the residuals are divided by
    [abs(init_p)] and [abs(init_q)], the initial flows in per unit. *)
Definition add_pf_terms (initial_p initial_q s_base : Q) (i t : nat) (obj : values -> Q)
  : result (values -> Q) :=
  init_p ← Py.div initial_p s_base;
  init_q ← Py.div initial_q s_base;
  den_p ← Py.nonzero (Qabs init_p);
  den_q ← Py.nonzero (Qabs init_q);
  Ok (add_lagrangian dual_pf_p dual_pf_q rho_pf i t
        (residual expected_interface_pf_p p_pf_req i t den_p)
        (residual expected_interface_pf_q q_pf_req i t den_q) obj).

(** [if rating == 0.0: rating = 1.00]. *)
Definition effective_rating (rating : Q) : Q :=
  if Qeq_bool rating 0 then 1 else rating.

(** The storage terms of the index [(i, t)]: the residuals are divided by
    [2 * rating]. *)
Definition add_ess_terms (rating : Q) (i t : nat) (obj : values -> Q) : result (values -> Q) :=
  den_p ← Py.nonzero (2 * rating);
  den_q ← Py.nonzero (2 * rating);
  Ok (add_lagrangian dual_ess_p dual_ess_q rho_ess i t
        (residual expected_shared_ess_p p_ess_req i t den_p)
        (residual expected_shared_ess_q q_ess_req i t den_q) obj).

(** The rewrite of one transmission model [model[year][day]]. *)
Definition tso_block_to_admm (initial_interface_pf : gmap path Q) (year : Z) (day : string)
    (b : block) : result block :=
  let init_of_value := objective b (vals b) in
  let s_base := tn_baseMVA (tn opp) year day in
  den ← Py.nonzero (Qabs init_of_value);
  obj ← foldlM (fun obj (dn_node : nat * Z) =>
                  foldlM (fun obj t =>
                            add_pf_terms
                              (initial_interface_pf !!! (dso, dn_node.2, year, day, p, t))
                              (initial_interface_pf !!! (dso, dn_node.2, year, day, q, t))
                              s_base dn_node.1 t obj)
                         obj (periods opp))
               (fun v => objective b v / den) (Problem.enumerate (nodes opp));
  obj ← foldlM (fun obj e =>
                  foldlM (fun obj t =>
                            add_ess_terms (effective_rating (tn_rating (tn opp) year day e)) e t obj)
                         obj (periods opp))
               obj (range (length (nodes opp)));
  Ok {| vals := fix_rho (rho_of_pf params (tn_name (tn opp)))
                        (rho_of_ess params (tn_name (tn opp))) (vals b);
        objective := obj |}.

Definition year_day_pairs : list (Z * string) :=
  year ← years opp; day ← days opp; [(year, day)].

(** [update_transmission_model_to_admm]. *)
Definition update_transmission_model_to_admm (model : network_model)
    (initial_interface_pf : gmap path Q) : result network_model :=
  foldlM (fun m (yd : Z * string) =>
            b ← tso_block_to_admm initial_interface_pf yd.1 yd.2 (m yd.1 yd.2);
            Ok (set_block m yd.1 yd.2 b))
         model year_day_pairs.

(** The rewrite of one distribution model [dso_model[year][day]]: with a
    zero rating, [rating] and [init_of_value] both become 1. *)
Definition dso_block_to_admm (node_id : Z) (initial_interface_pf : gmap path Q)
    (year : Z) (day : string) (b : block) : result block :=
  let rating0 := dn_rating (dns opp node_id) year day in
  let init_of_value := if Qeq_bool rating0 0 then 1 else objective b (vals b) in
  let rating := effective_rating rating0 in
  let s_base := dn_baseMVA (dns opp node_id) year day in
  den ← Py.nonzero (Qmax (Qabs init_of_value) 1);
  obj ← foldlM (fun obj t =>
                  add_pf_terms
                    (initial_interface_pf !!! (dso, node_id, year, day, p, t))
                    (initial_interface_pf !!! (dso, node_id, year, day, q, t))
                    s_base 0%nat t obj)
               (fun v => objective b v / den) (periods opp);
  obj ← foldlM (fun obj t => add_ess_terms rating 0%nat t obj) obj (periods opp);
  Ok {| vals := fix_rho (rho_of_pf params (dn_network_name (dns opp node_id) year day))
                        (rho_of_ess params (dn_network_name (dns opp node_id) year day)) (vals b);
        objective := obj |}.

(** [update_distribution_models_to_admm]. *)
Definition update_distribution_models_to_admm (models : Z -> network_model)
    (initial_interface_pf : gmap path Q) : result (Z -> network_model) :=
  foldlM (fun ms node_id =>
            m ← foldlM (fun m (yd : Z * string) =>
                          b ← dso_block_to_admm node_id initial_interface_pf yd.1 yd.2 (m yd.1 yd.2);
                          Ok (set_block m yd.1 yd.2 b))
                       (ms node_id) year_day_pairs;
            Ok (fun n => if decide (n = node_id) then m else ms n))
         models (nodes opp).

(** *** The operational planning problem *)

(** The models after [build_model] and the first solve, and the primal
    values of [compute_primal_value]: the distribution models come first;
    the transmission model is solved with the interface flows of the
    distribution networks fixed. *)
Variable build_dso_model : Z -> network_model.
Variable build_tso_model : gmap path Q -> network_model.
Variable tn_compute_primal_value : network_model -> Q.
Variable dn_compute_primal_value : Z -> network_model -> Q.

(** [create_distribution_networks_models]: the initial DSO copies of the
    interface flow, then of the shared storage, node by node. *)
Definition create_distribution_networks_models (cv : consensus_variables)
  : (Z -> network_model) * consensus_variables :=
  (build_dso_model,
   for_each (nodes opp)
     (fun node_id cv =>
        let pf1 :=
          for_ydp opp (fun year day t m =>
            let b := vals (build_dso_model node_id year day) in
            let s_base := dn_baseMVA (dns opp node_id) year day in
            <[(dso, node_id, year, day, q, t) := expected_interface_pf_q b 0%nat t * s_base]>
              (<[(dso, node_id, year, day, p, t) := expected_interface_pf_p b 0%nat t * s_base]> m))
            (interface_pf cv) in
        let e1 :=
          for_ydp opp (fun year day t m =>
            let b := vals (build_dso_model node_id year day) in
            let s_base := dn_baseMVA (dns opp node_id) year day in
            <[(dso, node_id, year, day, q, t) := expected_shared_ess_q b 0%nat t * s_base]>
              (<[(dso, node_id, year, day, p, t) := expected_shared_ess_p b 0%nat t * s_base]> m))
            (ess cv) in
        {| interface_v := interface_v cv; interface_pf := pf1; ess := e1 |})
     cv).

(** [for year: for day: for dn in active_distribution_networks: for p]. *)
Definition for_ydnp {S : Type} (body : Z -> string -> nat -> Z -> nat -> S -> S) : S -> S :=
  for_yd (fun year day =>
    for_each (Problem.enumerate (nodes opp)) (fun dn_node =>
      for_each (periods opp) (fun t => body year day dn_node.1 dn_node.2 t))).

(** [create_transmission_network_model]: the initial voltage and TSO copy
    of the interface flow, then of the shared storage. *)
Definition create_transmission_network_model (cv : consensus_variables)
  : network_model * consensus_variables :=
  let tso_model := build_tso_model (interface_pf cv) in
  let cv1 :=
    for_ydnp (fun year day dn node_id t cv =>
      let b := vals (tso_model year day) in
      let s_base := tn_baseMVA (tn opp) year day in
      {| interface_v :=
           <[(node_id, year, day, t) := sqrt (expected_interface_vmag_sqr b dn t)]> (interface_v cv);
         interface_pf :=
           <[(tso, node_id, year, day, q, t) := expected_interface_pf_q b dn t * s_base]>
             (<[(tso, node_id, year, day, p, t) := expected_interface_pf_p b dn t * s_base]>
                (interface_pf cv));
         ess := ess cv |}) cv in
  let e1 :=
    for_ydnp (fun year day dn node_id t m =>
      let b := vals (tso_model year day) in
      let s_base := tn_baseMVA (tn opp) year day in
      let shared_ess_idx := tn_get_shared_energy_storage_idx (tn opp) year day node_id in
      <[(tso, node_id, year, day, q, t) := expected_shared_ess_q b shared_ess_idx t * s_base]>
        (<[(tso, node_id, year, day, p, t) := expected_shared_ess_p b shared_ess_idx t * s_base]> m))
      (ess cv1) in
  (tso_model, {| interface_v := interface_v cv1; interface_pf := interface_pf cv1; ess := e1 |}).

(** [_compute_primal_value]. *)
Definition _compute_primal_value (tso_model : network_model) (dso_models : Z -> network_model) : Q :=
  for_each (nodes opp)
    (fun node_id primal_value => primal_value + dn_compute_primal_value node_id (dso_models node_id))
    (0 + tn_compute_primal_value tso_model).

(** What the loop does, in order. *)
Inductive event : Type :=
  | EvSolveTso                    (* the transmission model is solved *)
  | EvSolveDso (node_id : Z)      (* the model of one distribution network is solved *)
  | EvSnapshotPrevious            (* _update_previous_consensus_variables *)
  | EvPull                        (* the solved values and the duals are written to the store *)
  | EvCheck.                      (* check_admm_convergence *)

#[global] Instance event_eq_dec : EqDecision event.
Proof. solve_decision. Defined.

(** The variables of [_run_operational_planning_problem]. *)
Record run : Type := mkRun {
  sto : store;
  tso_model : network_model;
  dso_models : Z -> network_model;
  convergence : bool;
  num_iter : nat;
  from_warm_start : bool;
  primal_evolution : list Q;
  trace : list event
}.

(** [# 2. Solve TSO problem]. *)
Definition solve_tso_step (r : run) : run :=
  {| sto := sto r;
     tso_model := update_transmission_coordination_model_and_solve (tso_model r) (sto r) (from_warm_start r);
     dso_models := dso_models r;
     convergence := convergence r; num_iter := num_iter r; from_warm_start := from_warm_start r;
     primal_evolution := primal_evolution r;
     trace := trace r ++ [EvSolveTso] |}.

(** [# 3. Solve DSOs problems]. *)
Definition solve_dso_step (r : run) : run :=
  {| sto := sto r;
     tso_model := tso_model r;
     dso_models := update_distribution_coordination_models_and_solve (dso_models r) (sto r) (from_warm_start r);
     convergence := convergence r; num_iter := num_iter r; from_warm_start := from_warm_start r;
     primal_evolution := primal_evolution r;
     trace := trace r ++ (EvSolveDso <$> nodes opp) |}.

(** [# Update ADMM CONSENSUS variables] and [# Update primal evolution]. *)
Definition consensus_step (r : run) : run :=
  {| sto := _update_admm_consensus_variables (tso_model r) (dso_models r) (sto r);
     tso_model := tso_model r;
     dso_models := dso_models r;
     convergence := convergence r; num_iter := num_iter r; from_warm_start := from_warm_start r;
     primal_evolution := primal_evolution r ++ [_compute_primal_value (tso_model r) (dso_models r)];
     trace := trace r ++ [EvSnapshotPrevious; EvPull] |}.

(** [convergence = check_admm_convergence(..)]. *)
Definition check_step (r : run) : result run :=
  c ← _check_admm_convergence (consensus_vars (sto r)) (consensus_vars_prev_iter (sto r));
  Ok {| sto := sto r; tso_model := tso_model r; dso_models := dso_models r;
        convergence := c; num_iter := num_iter r; from_warm_start := from_warm_start r;
        primal_evolution := primal_evolution r;
        trace := trace r ++ [EvCheck] |}.

(** The end of a pass that did not stop the loop. *)
Definition next_step (r : run) : run :=
  {| sto := sto r; tso_model := tso_model r; dso_models := dso_models r;
     convergence := convergence r; num_iter := S (num_iter r); from_warm_start := true;
     primal_evolution := primal_evolution r;
     trace := trace r |}.

(** One pass of [for iter in range(num_max_iters)]; the boolean tells
    whether the pass ended in [break]. *)
Definition iteration (iter : nat) (r : run) : result (run * bool) :=
  let r1 := consensus_step (solve_tso_step r) in
  r2 ← (if (1 <? iter)%nat then check_step r1 else Ok r1);
  if (1 <? iter)%nat && convergence r2 then Ok (r2, true)
  else
    r3 ← check_step (consensus_step (solve_dso_step r2));
    if convergence r3 then Ok (r3, true) else Ok (next_step r3, false).

(** The events of one pass: [early] tells that the pass stopped at the
    test after the transmission step. *)
Definition pass_events (iter : nat) (early : bool) : list event :=
  [EvSolveTso; EvSnapshotPrevious; EvPull]
  ++ (if (1 <? iter)%nat then [EvCheck] else [])
  ++ (if early then []
      else (EvSolveDso <$> nodes opp) ++ [EvSnapshotPrevious; EvPull; EvCheck]).

(** The consensus store that the last snapshot of a pass copies. *)
Definition snapshot_source (early : bool) (r : run) : consensus_variables :=
  consensus_vars (sto (if early then r else consensus_step (solve_tso_step r))).

(** [for iter in iters: ...] with [break]. *)
Fixpoint admm_loop (iters : list nat) (r : run) : result run :=
  match iters with
  | [] => Ok r
  | iter :: rest =>
      rb ← iteration iter r;
      if rb.2 : bool then Ok rb.1 else admm_loop rest rb.1
  end.

(** [# 0. Initialization]. *)
Definition initial_run : result run :=
  let '(cv, dv, prev) := create_admm_variables opp in
  let '(dso_models0, cv1) := create_distribution_networks_models cv in
  dso_models1 ← update_distribution_models_to_admm dso_models0 (interface_pf cv1);
  let '(tso_model0, cv2) := create_transmission_network_model cv1 in
  tso_model1 ← update_transmission_model_to_admm tso_model0 (interface_pf cv2);
  Ok {| sto := {| consensus_vars := cv2; dual_vars := dv; consensus_vars_prev_iter := prev |};
        tso_model := tso_model1;
        dso_models := dso_models1;
        convergence := false; num_iter := 1; from_warm_start := false;
        primal_evolution := [];
        trace := [] |}.

(** [_run_operational_planning_problem], up to the end of the main cycle. *)
Definition _run_operational_planning_problem : result run :=
  r ← initial_run;
  admm_loop (range (num_max_iters params)) r.

End Coordination.

(** *** The order of the steps, as the specification words it *)

Definition is_solve (e : event) : bool :=
  match e with
  | EvSolveTso | EvSolveDso _ => true
  | _ => false
  end.

Definition is_snapshot (e : event) : bool :=
  match e with
  | EvSnapshotPrevious => true
  | _ => false
  end.

(** In the events of one pass: the snapshot happens exactly once, and
    before every solve. *)
Definition snapshot_once_before_solves (tr : list event) : Prop :=
  length (List.filter is_snapshot tr) = 1%nat /\
  forall i j e, tr !! i = Some EvSnapshotPrevious -> tr !! j = Some e -> is_solve e = true ->
                (i < j)%nat.

End Admm.

(* ===================================================================== *)
(** ** Invariants of the loops *)
(* ===================================================================== *)

(** The invariant of the Benders loop: the current candidate and every
    candidate already handed over are nonnegative. *)
Definition candidates_ok (st : Benders.state) : Prop :=
  Candidate.nonneg (Benders.candidate st) /\ Forall Candidate.nonneg (Benders.handed st).

(** When the loop has declared convergence, the bounds it holds passed the
    test. *)
Definition converged_ok (params : Benders.benders_parameters) (st : Benders.state) : Prop :=
  Benders.convergence st = true ->
  Py.close_enough (Benders.upper_bound st) (Benders.lower_bound st)
    (Benders.tol_rel params) (Benders.tol_abs params).

(** What two expression lists hold at [x] after a step, against before:
    [ds] and [de] were added to the power and to the energy total. *)
Definition totals_grow (a : Master.var -> Q) (x : nat) (ds de : Q)
    (tot tot' : list Master.expr * list Master.expr) : Prop :=
  (forall ex, tot.1 !! x = Some ex ->
     exists ex', tot'.1 !! x = Some ex' /\ Master.eval a ex' == Master.eval a ex + ds) /\
  (forall ex, tot.2 !! x = Some ex ->
     exists ex', tot'.2 !! x = Some ex' /\ Master.eval a ex' == Master.eval a ex + de).

(** The penalties of a block through a loop of [fix] calls. *)
Definition same_rho (v v' : Admm.values) : Prop :=
  Admm.rho_pf v' = Admm.rho_pf v /\ Admm.rho_ess v' = Admm.rho_ess v.

(** The counts the Benders loop keeps in step: both bound histories have one
    entry more than there were passes, the master has one cut per pass
    that did not stop the loop, and [iter] counts those passes from 1. *)
Definition loop_counts (st : Benders.state) : Prop :=
  length (Benders.lower_bound_evolution st) = S (length (Benders.handed st)) /\
  length (Benders.upper_bound_evolution st) = S (length (Benders.handed st)) /\
  (1 <= Benders.iter st)%nat /\
  length (Master.benders_cuts (Benders.master_problem_model st)) = (Benders.iter st - 1)%nat /\
  length (Benders.handed st)
  = (Benders.iter st - 1 + (if Benders.convergence st then 1 else 0))%nat.

(** Everything of a master model but its Benders cuts. *)
Definition same_but_cuts (m m' : Master.model) : Prop :=
  Master.years m' = Master.years m /\
  Master.energy_storages m' = Master.energy_storages m /\
  Master.alpha_lb m' = Master.alpha_lb m /\
  Master.rated_s_capacity m' = Master.rated_s_capacity m /\
  Master.rated_e_capacity m' = Master.rated_e_capacity m /\
  Master.energy_storage_maximum_capacity m' = Master.energy_storage_maximum_capacity m /\
  Master.energy_storage_power_to_energy_factor m'
  = Master.energy_storage_power_to_energy_factor m /\
  Master.energy_storage_investment m' = Master.energy_storage_investment m /\
  Master.objective m' = Master.objective m.

(** The weight of every year of the horizon (the number of real years it
    stands for) is not zero. *)
Definition weights_nonzero (pp : Problem.planning_problem) : Prop :=
  Forall (fun yw : Z * Q => ~ yw.2 == 0) (Problem.years pp).

(** A table has an entry for every active node and every year. *)
Definition covers (pp : Problem.planning_problem) (t : Candidate.table) : Prop :=
  forall node_id year,
    node_id ∈ Problem.active_distribution_network_nodes pp ->
    year ∈ Problem.year_keys pp ->
    exists c, Candidate.lookup2 t node_id year = Ok c.

(** The sets of a master model are those of the planning problem. *)
Definition master_sets (pp : Problem.planning_problem) (m : Master.model) : Prop :=
  Master.years m = range (length (Problem.years pp)) /\
  Master.energy_storages m = range (length (Problem.active_distribution_network_nodes pp)).

(** What a pass of the Benders loop needs of the state it starts with. *)
Definition loop_ready (pp : Problem.planning_problem) (st : Benders.state) : Prop :=
  master_sets pp (Benders.master_problem_model st) /\
  covers pp (Candidate.total_capacity (Benders.candidate st)).

(** One investment term of the master problem: the annualized cost of the
    power and of the energy invested in storage [e] in the year of index
    [yy.1]. *)
Definition investment_term (pp : Problem.planning_problem) (a : Master.var -> Q)
    (e : nat) (yy : nat * (Z * Q)) : Q :=
  let ann := get_ok 0 (Master.annualization pp yy.2.1) in
  ann * a (Master.es_s_invesment e yy.1) * Problem.cost_investment_power pp yy.2.1
  + ann * a (Master.es_e_invesment e yy.1) * Problem.cost_investment_energy pp yy.2.1.

(** A (node, year, day, instant) of the index sets of the coordination. *)
Definition in_index (opp : Admm.operational_planning_problem)
    (n y : Z) (d : string) (t : nat) : Prop :=
  n ∈ Admm.nodes opp /\ y ∈ Admm.years opp /\ d ∈ Admm.days opp /\ t ∈ Admm.instants opp.

(** A pass of a loop adds [delta] to the running sum and [kappa] to the
    running count, whatever they were. *)
Definition adds (F : Q * nat -> Q * nat) (delta : Q) (kappa : nat) : Prop :=
  forall acc, (F acc).1 == acc.1 + delta /\ (F acc).2 = (acc.2 + kappa)%nat.

(** Twice the rounded residuals of one coupling, over the whole index set,
    in the order of the loops of [_consensus_convergence]. *)
Definition residual_total (ERROR_PRECISION : Z) (opp : Admm.operational_planning_problem)
    (m : gmap Admm.path Q) : Q :=
  Master.Qsum (map (fun y =>
    Master.Qsum (map (fun d =>
      Master.Qsum (map (fun n =>
        Master.Qsum (map (fun t => 2 * Admm.slot_residual ERROR_PRECISION m n y d t)
                         (Admm.instants opp)))
        (Admm.nodes opp)))
      (Admm.days opp)))
    (Admm.years opp)).

(** The initial interface flows of the distribution side, and the base
    power they are divided by, are not zero at a slot. *)
Definition flows_nonzero (pf : gmap Admm.path Q) (s_base : Q) (n y : Z) (d : string) (t : nat)
  : Prop :=
  ~ s_base == 0 /\
  ~ pf !!! (Admm.dso, n, y, d, Admm.p, t) == 0 /\
  ~ pf !!! (Admm.dso, n, y, d, Admm.q, t) == 0.

(** The values [v] of a model are at consensus for the index [i] at the
    periods of [l]: every expected value equals the value requested. *)
Definition at_consensus (v : Admm.values) (i_pf i_ess : nat) (l : list nat) : Prop :=
  forall t, t ∈ l ->
    Admm.expected_interface_pf_p v i_pf t == Admm.p_pf_req v i_pf t /\
    Admm.expected_interface_pf_q v i_pf t == Admm.q_pf_req v i_pf t /\
    Admm.expected_shared_ess_p v i_ess t == Admm.p_ess_req v i_ess t /\
    Admm.expected_shared_ess_q v i_ess t == Admm.q_ess_req v i_ess t.

(* ===================================================================== *)
(** ** shared_energy_storage_data.py: the storages and their capacities *)
(* ===================================================================== *)

Module Storages.

(** The fields of a [SharedEnergyStorage] that
    [create_shared_energy_storages] and [update_data_with_candidate_solution]
    write. *)
Record shared_energy_storage : Type := mkStorage {
  bus : Z;
  dn_name : string;
  s : Q;
  e : Q;
  e_init : Q;
  e_min : Q;
  e_max : Q
}.

(** [for x in l: y = f(x)], collecting the results; the first failure ends
    the loop. *)
Fixpoint mapM {A B : Type} (f : A -> result B) (l : list A) : result (list B) :=
  match l with
  | [] => Ok []
  | x :: l' => y ← f x; ys ← mapM f l'; Ok (y :: ys)
  end.

Section Data.

(** What [SharedEnergyStorage()] makes, the names
    [planning_problem.distribution_networks[node_id].name], and the
    constants of [helper_functions]. *)
Variable SharedEnergyStorage : shared_energy_storage.
Variable distribution_network_name : Z -> string.
Variable ENERGY_STORAGE_RELATIVE_INIT_SOC : Q.
Variable ENERGY_STORAGE_MIN_ENERGY_STORED : Q.
Variable ENERGY_STORAGE_MAX_ENERGY_STORED : Q.

(** [shared_energy_storage.bus = node_id] and
    [shared_energy_storage.dn_name = ...name]. *)
Definition at_node (node_id : Z) : shared_energy_storage :=
  {| bus := node_id; dn_name := distribution_network_name node_id;
     s := s SharedEnergyStorage; e := e SharedEnergyStorage;
     e_init := e_init SharedEnergyStorage; e_min := e_min SharedEnergyStorage;
     e_max := e_max SharedEnergyStorage |}.

(** [create_shared_energy_storages]: [self.shared_energy_storages[year]] is
    set to a new list, to which one storage per active node is appended. *)
Definition create_shared_energy_storages (years nodes : list Z)
    (shared_energy_storages : gmap Z (list shared_energy_storage))
  : gmap Z (list shared_energy_storage) :=
  for_each years
    (fun year st =>
       for_each nodes (fun node_id st => alter (fun l => l ++ [at_node node_id]) year st)
                (<[year := []]> st))
    shared_energy_storages.

(** The five assignments of [update_data_with_candidate_solution] to one
    storage. *)
Definition with_capacity (candidate_solution : Candidate.table) (year : Z)
    (shared_ess : shared_energy_storage) : result shared_energy_storage :=
  c ← Candidate.lookup2 candidate_solution (bus shared_ess) year;
  Ok {| bus := bus shared_ess; dn_name := dn_name shared_ess;
        s := Candidate.s c;
        e := Candidate.e c;
        e_init := Candidate.e c * ENERGY_STORAGE_RELATIVE_INIT_SOC;
        e_min := Candidate.e c * ENERGY_STORAGE_MIN_ENERGY_STORED;
        e_max := Candidate.e c * ENERGY_STORAGE_MAX_ENERGY_STORED |}.

(** [update_data_with_candidate_solution]. *)
Definition update_data_with_candidate_solution (candidate_solution : Candidate.table)
    (years : list Z) (shared_energy_storages : gmap Z (list shared_energy_storage))
  : result (gmap Z (list shared_energy_storage)) :=
  foldlM (fun st year =>
            match st !! year with
            | None => Err (KeyError (KInt year))
            | Some l =>
                l' ← mapM (with_capacity candidate_solution year) l;
                Ok (<[year := l']> st)
            end)
         shared_energy_storages years.

End Data.

End Storages.

(* ===================================================================== *)
(** ** The operational planning without coordination *)
(* ===================================================================== *)

Module WithoutCoordination.

(** How a run of [_run_operational_planning_without_coordination] can end
    early: with one of the exceptions above, or with the
    [UnboundLocalError] of a local variable read before any assignment. *)
Inductive exn : Type :=
  | Python (e : error)
  | UnboundLocalError (name : string).

Inductive outcome (A : Type) : Type :=
  | Returned (a : A)
  | Raised (x : exn).
Arguments Returned {A} a.
Arguments Raised {A} x.

(** [for b in l: a = f(b, a)], ended by the first exception. *)
Fixpoint foldlO {A B : Type} (f : B -> A -> outcome A) (l : list B) (a : A) : outcome A :=
  match l with
  | [] => Returned a
  | b :: l' =>
      match f b a with
      | Returned a' => foldlO f l' a'
      | Raised x => Raised x
      end
  end.

(** [tso_model[year][day].pc[node_idx, s_m, s_o, p].fix(pc)] and
    [.qc[node_idx, s_m, s_o, p].fix(qc)], for the node [node_id]. *)
Record fixing : Type := mkFixing {
  fix_node : Z;
  fix_year : Z;
  fix_day : string;
  fix_s_m : nat;
  fix_s_o : nat;
  fix_period : nat;
  fix_pc : Q;
  fix_qc : Q
}.

Section Run.

(** The distribution models after [build_model],
    [update_model_with_candidate_solution] and [optimize], and the scenario
    sets of the transmission model [tso_model[year][day]]. *)
Variable opp : Admm.operational_planning_problem.
Variable dso_models : Z -> Admm.network_model.
Variable scenarios_market : Z -> string -> list nat.
Variable scenarios_operation : Z -> string -> list nat.

(** The local variables that both parts of the function use:
    [interface_pf] and the loop variable [p]. *)
Record frame : Type := mkFrame {
  interface_pf : gmap Admm.path Q;
  loop_p : option nat
}.

(** The interface flow of the distribution network at [node_id], in MW or
    MVAr, as read from its solved model. *)
Definition dso_flow (c : Admm.quantity) (n y : Z) (d : string) (t : nat) : Q :=
  match c with
  | Admm.p => Admm.expected_interface_pf_p (Admm.vals (dso_models n y d)) 0%nat t
  | Admm.q => Admm.expected_interface_pf_q (Admm.vals (dso_models n y d)) 0%nat t
  end * Admm.dn_baseMVA (Admm.dns opp n) y d.

(** [# Get initial interface PF values], for every distribution network:
    the innermost loop is [for p in dso_model[year][day].periods]. *)
Definition pull_initial_flows : frame :=
  Admm.for_nydp opp
    (fun node_id year day t f =>
       let b := Admm.vals (dso_models node_id year day) in
       let s_base := Admm.dn_baseMVA (Admm.dns opp node_id) year day in
       {| interface_pf :=
            <[(Admm.dso, node_id, year, day, Admm.q, t)
              := Admm.expected_interface_pf_q b 0%nat t * s_base]>
              (<[(Admm.dso, node_id, year, day, Admm.p, t)
                 := Admm.expected_interface_pf_p b 0%nat t * s_base]> (interface_pf f));
          loop_p := Some t |})
    {| interface_pf := Admm.interface_pf (Admm.create_admm_variables opp).1.1;
       loop_p := None |}.

(** The three loops [for s_m ..: for s_o ..: for p in ..periods] with the
    two [fix] calls. *)
Definition fixes_of (node_id year : Z) (day : string) (pc qc : Q) : list fixing :=
  s_m ← scenarios_market year day;
  s_o ← scenarios_operation year day;
  t ← Admm.periods opp;
  [mkFixing node_id year day s_m s_o t pc qc].

(** What [p] is bound to after these three loops. *)
Definition rebind (year : Z) (day : string) (p0 : nat) : nat :=
  match scenarios_market year day, scenarios_operation year day with
  | _ :: _, _ :: _ => List.last (Admm.periods opp) p0
  | _, _ => p0
  end.

(** [l[i]] on a list of the store: an instant out of range raises. *)
Definition at_instant (m : gmap Admm.path Q) (k : Admm.path) : outcome Q :=
  match m !! k with
  | Some x => Returned x
  | None => Raised (Python IndexError)
  end.

Definition divide (x y : Q) : outcome Q :=
  match Py.div x y with
  | Ok r => Returned r
  | Err e => Raised (Python e)
  end.

(** The body of [for node_id ..: for year ..: for day ..] of the
    transmission part: [pc] and [qc] are read at the index [p] as the
    function finds it, before the loop over the periods. *)
Definition fix_interface (pf : gmap Admm.path Q) (nyd : Z * Z * string)
    (st : option nat * list fixing) : outcome (option nat * list fixing) :=
  let '(node_id, year, day) := nyd in
  let s_base := Admm.tn_baseMVA (Admm.tn opp) year day in
  match st.1 with
  | None => Raised (UnboundLocalError "p")
  | Some p0 =>
      match at_instant pf (Admm.dso, node_id, year, day, Admm.p, p0) with
      | Raised x => Raised x
      | Returned ip =>
          match divide ip s_base with
          | Raised x => Raised x
          | Returned pc =>
              match at_instant pf (Admm.dso, node_id, year, day, Admm.q, p0) with
              | Raised x => Raised x
              | Returned iq =>
                  match divide iq s_base with
                  | Raised x => Raised x
                  | Returned qc =>
                      Returned (Some (rebind year day p0),
                                st.2 ++ fixes_of node_id year day pc qc)
                  end
              end
          end
      end
  end.

Definition node_year_days : list (Z * Z * string) :=
  node_id ← Admm.nodes opp; year ← Admm.years opp; day ← Admm.days opp; [(node_id, year, day)].

(** [_run_operational_planning_without_coordination], up to the solve of
    the transmission model: the values fixed in it. *)
Definition _run_operational_planning_without_coordination : outcome (list fixing) :=
  let f := pull_initial_flows in
  match foldlO (fix_interface (interface_pf f)) node_year_days (loop_p f, []) with
  | Returned st => Returned st.2
  | Raised x => Raised x
  end.

End Run.

End WithoutCoordination.

(** The four values that [fix] gives the interface flow of a model at the
    index [(i, t)]: both requests and both duals. *)
Definition pf_coupling (v : Admm.values) (i t : nat) : Q * Q * Q * Q :=
  (Admm.p_pf_req v i t, Admm.q_pf_req v i t, Admm.dual_pf_p v i t, Admm.dual_pf_q v i t).

(** The same for the shared storage. *)
Definition ess_coupling (v : Admm.values) (i t : nat) : Q * Q * Q * Q :=
  (Admm.p_ess_req v i t, Admm.q_ess_req v i t, Admm.dual_ess_p v i t, Admm.dual_ess_q v i t).

(** What a model of the operator [mine] is given from the store [req],
    [dual] at a node, year, day and instant: the copy of the other operator
    [other] as request, its own dual, all divided by the base power. *)
Definition wired (req dual : gmap Admm.path Q) (mine other : Admm.role)
    (n y : Z) (d : string) (t : nat) (s_base : Q) : Q * Q * Q * Q :=
  (req !!! (other, n, y, d, Admm.p, t) / s_base,
   req !!! (other, n, y, d, Admm.q, t) / s_base,
   dual !!! (mine, n, y, d, Admm.p, t) / s_base,
   dual !!! (mine, n, y, d, Admm.q, t) / s_base).

(* ===================================================================== *)
(** ** Sample inputs *)
(* ===================================================================== *)

Module Samples.

(** Three years of one real year each, one representative day, one
    instant, one active node; a calendar life of two years. *)
Definition pp : Problem.planning_problem :=
  {| Problem.years := [(2020%Z, 1); (2021%Z, 1); (2022%Z, 1)];
     Problem.days := [("d1"%string, 365)];
     Problem.num_instants := 1;
     Problem.discount_factor := 1 # 10;
     Problem.active_distribution_network_nodes := [7%Z];
     Problem.t_cal := fun _ _ => 2;
     Problem.cost_investment_power := fun _ => 1;
     Problem.cost_investment_energy := fun _ => 1;
     Problem.budget := 1;
     Problem.max_capacity := 10;
     Problem.min_pe_factor := 1 # 10;
     Problem.max_pe_factor := 4 |}.

Definition benders_params : Benders.benders_parameters :=
  {| Benders.num_max_iters := 4; Benders.tol_abs := 1 # 10; Benders.tol_rel := 1 # 100 |}.

(** An operational layer that always costs 5 per representative day. *)
Definition run_operational_planning (c : Candidate.candidate_solution)
  : (Z -> string -> Q) * Benders.sensitivities :=
  (fun _ _ => 5, {| Benders.sens_s := fun _ _ => 1; Benders.sens_e := fun _ _ => 2 |}).

(** A master solver that returns slightly negative investments, as a
    solver may within its tolerance. *)
Definition optimize (m : Master.model) (v : Master.var) : Q :=
  match v with
  | Master.alpha => 3
  | Master.es_s_invesment _ _ => - (1 # 1000000)
  | _ => 1 # 2
  end.


(** The master model of [pp] with the cut of the first iteration, and the
    candidate read from its solution. *)
Definition solved_candidate : result Candidate.candidate_solution :=
  m ← Master._build_master_problem pp;
  SharedEnergyStorageData.get_candidate_solution pp m (optimize m).

(** The capacities of that candidate as values of the rated variables. *)
Definition at_solved_candidate (v : Master.var) : Q :=
  match v with
  | Master.alpha => 7
  | Master.es_s_rated _ _ | Master.es_e_rated _ _ => 1 # 2
  | _ => 0
  end.


(** One year, one day of weight 1: the upper bound is the objective value. *)
Definition pp_one : Problem.planning_problem :=
  {| Problem.years := [(2020%Z, 1)];
     Problem.days := [("d1"%string, 1)];
     Problem.num_instants := 1;
     Problem.discount_factor := 1 # 10;
     Problem.active_distribution_network_nodes := [7%Z];
     Problem.t_cal := fun _ _ => 2;
     Problem.cost_investment_power := fun _ => 1;
     Problem.cost_investment_energy := fun _ => 1;
     Problem.budget := 1;
     Problem.max_capacity := 10;
     Problem.min_pe_factor := 1 # 10;
     Problem.max_pe_factor := 4 |}.

(** The operational cost is 1000 whatever the candidate, and the master
    returns [alpha = 990.05]. *)
Definition run_operational_1000 (c : Candidate.candidate_solution)
  : (Z -> string -> Q) * Benders.sensitivities :=
  (fun _ _ => 1000, {| Benders.sens_s := fun _ _ => 0; Benders.sens_e := fun _ _ => 0 |}).

Definition optimize_990 (m : Master.model) (v : Master.var) : Q :=
  match v with
  | Master.alpha => 19801 # 20
  | _ => 0
  end.

Definition benders_params_1pc : Benders.benders_parameters :=
  {| Benders.num_max_iters := 5; Benders.tol_abs := 1 # 10; Benders.tol_rel := 1 # 100 |}.


(** Five years of three real years each and a calendar life of ten years:
    [10 / 3] rounds to 3 and its ceiling is 4. *)
Definition pp_life : Problem.planning_problem :=
  {| Problem.years := [(2020%Z, 3); (2023%Z, 3); (2026%Z, 3); (2029%Z, 3); (2032%Z, 3)];
     Problem.days := [("d1"%string, 365)];
     Problem.num_instants := 1;
     Problem.discount_factor := 1 # 10;
     Problem.active_distribution_network_nodes := [7%Z];
     Problem.t_cal := fun _ _ => 10;
     Problem.cost_investment_power := fun _ => 1;
     Problem.cost_investment_energy := fun _ => 1;
     Problem.budget := 100;
     Problem.max_capacity := 10;
     Problem.min_pe_factor := 1 # 10;
     Problem.max_pe_factor := 4 |}.

(** One unit of power and of energy invested in the first year, and the
    rated capacities that the model of [pp_life] then asks for. *)
Definition invest_first_year (v : Master.var) : Q :=
  match v with
  | Master.es_s_invesment 0 0 | Master.es_e_invesment 0 0 => 1
  | Master.es_s_rated 0 x | Master.es_e_rated 0 x => if (x <? 3)%nat then 1 else 0
  | _ => 0
  end.


(** *** The coordination of one distribution network *)

(** A transmission network and a distribution network with base powers 100
    and 10 MVA and no shared storage installed. *)
Definition tn_one : Admm.transmission_network :=
  {| Admm.tn_name := "TN";
     Admm.tn_baseMVA := fun _ _ => 100;
     Admm.tn_rating := fun _ _ _ => 0;
     Admm.tn_get_shared_energy_storage_idx := fun _ _ _ => 0%nat |}.

Definition dn_one : Admm.distribution_network :=
  {| Admm.dn_name := "DN7";
     Admm.dn_network_name := fun _ _ => "DN7"%string;
     Admm.dn_baseMVA := fun _ _ => 10;
     Admm.dn_rating := fun _ _ => 0 |}.

Definition opp_one : Admm.operational_planning_problem :=
  {| Admm.problem := pp_one; Admm.tn := tn_one; Admm.dns := fun _ => dn_one |}.

(** Penalties 1 for the interface flow and 10 for the shared storage, for
    every network. *)
Definition admm_params (adaptive : bool) : Admm.admm_parameters :=
  {| Admm.num_max_iters := 3;
     Admm.tol := 1 # 1000;
     Admm.rho_of_pf := fun _ => 1;
     Admm.rho_of_ess := fun _ => 10;
     Admm.adaptive_penalty := adaptive |}.

(** The constants of [definitions.py], at sample values: six decimal
    digits, one per cent, ten per cent. *)
Definition ERROR_PRECISION : Z := 6.
Definition ADMM_CONVERGENCE_REL_TOL : Q := 1 # 100.
Definition ADMM_ADAPTIVE_PENALTY_FACTOR : Q := 1 # 10.

(** A solve that gives the same interface flow and storage power (in per
    unit) at every index, with unit voltage. *)
Definition solution_of (pf_p pf_q ess_p ess_q : Q) : Admm.solution :=
  {| Admm.sol_objective_expr := 50;
     Admm.sol_interface_vmag_sqr := fun _ _ => 1;
     Admm.sol_interface_pf_p := fun _ _ => pf_p;
     Admm.sol_interface_pf_q := fun _ _ => pf_q;
     Admm.sol_shared_ess_p := fun _ _ => ess_p;
     Admm.sol_shared_ess_q := fun _ _ => ess_q |}.

(** A model as [build_model] leaves it, once solved. *)
Definition block_of (sol : Admm.solution) : Admm.block :=
  {| Admm.vals :=
       Admm.apply_solution sol
         {| Admm.objective_expr := 0; Admm.rho_pf := 0; Admm.rho_ess := 0;
            Admm.p_pf_req := fun _ _ => 0; Admm.q_pf_req := fun _ _ => 0;
            Admm.dual_pf_p := fun _ _ => 0; Admm.dual_pf_q := fun _ _ => 0;
            Admm.p_ess_req := fun _ _ => 0; Admm.q_ess_req := fun _ _ => 0;
            Admm.dual_ess_p := fun _ _ => 0; Admm.dual_ess_q := fun _ _ => 0;
            Admm.expected_interface_vmag_sqr := fun _ _ => 0;
            Admm.expected_interface_pf_p := fun _ _ => 0;
            Admm.expected_interface_pf_q := fun _ _ => 0;
            Admm.expected_shared_ess_p := fun _ _ => 0;
            Admm.expected_shared_ess_q := fun _ _ => 0 |};
     Admm.objective := Admm.objective_expr |}.

(** The transmission model answers 4 MW and 2 MVAr at the interface when
    it is first solved and 5 MW and 2 MVAr in the coordination, the
    distribution model always 3 MW and 1 MVAr; the storage is idle. *)
Definition tso_initial_solution : Admm.solution := solution_of (4 # 100) (2 # 100) 0 0.
Definition tso_solution : Admm.solution := solution_of (5 # 100) (2 # 100) 0 0.
Definition dso_solution : Admm.solution := solution_of (3 # 10) (1 # 10) 0 0.

Definition optimize_tso (m : Admm.network_model) (warm : bool) (year : Z) (day : string)
  : Admm.solution := tso_solution.
Definition optimize_dso (node_id : Z) (m : Admm.network_model) (warm : bool)
    (year : Z) (day : string) : Admm.solution := dso_solution.
Definition build_tso_model (pf : gmap Admm.path Q) : Admm.network_model :=
  fun _ _ => block_of tso_initial_solution.
Definition build_dso_model (node_id : Z) : Admm.network_model :=
  fun _ _ => block_of dso_solution.

(** The square root, right at the only voltage of the sample. *)
Definition sqrt_at_one (x : Q) : Q := x.

(** The sample run: its initialization and the first pass of the loop. *)
Abbreviation initial_run adaptive :=
  (Admm.initial_run sqrt_at_one opp_one (admm_params adaptive)
     build_dso_model build_tso_model).

Abbreviation iteration adaptive iter r :=
  (Admm.iteration sqrt_at_one ADMM_ADAPTIVE_PENALTY_FACTOR ERROR_PRECISION ADMM_CONVERGENCE_REL_TOL
     opp_one (admm_params adaptive) optimize_tso optimize_dso
     (fun _ => 0) (fun _ _ => 0) iter r).


(** The store when the first pass has solved the transmission model and
    written the solved values and the duals. *)
Abbreviation after_tso_solve r :=
  (Admm.solve_tso_step ADMM_ADAPTIVE_PENALTY_FACTOR opp_one (admm_params false) optimize_tso r).

Abbreviation after_tso_update r :=
  (Admm._update_admm_consensus_variables sqrt_at_one opp_one (admm_params false)
     (Admm.tso_model (after_tso_solve r)) (Admm.dso_models (after_tso_solve r))
     (Admm.sto (after_tso_solve r))).

(** The slot of the only node, year, day and instant of the sample. *)
Abbreviation slot ro c := (ro, 7%Z, 2020%Z, "d1"%string, c, 0%nat).


(** The models of the sample after the first update-and-solve with the
    adaptive penalty on. *)
Abbreviation tso_after_adaptive r :=
  (Admm.update_transmission_coordination_model_and_solve
     ADMM_ADAPTIVE_PENALTY_FACTOR opp_one (admm_params true) optimize_tso
     (Admm.tso_model r) (Admm.sto r) false).

Abbreviation dso_after_adaptive r :=
  (Admm.update_distribution_coordination_models_and_solve
     ADMM_ADAPTIVE_PENALTY_FACTOR opp_one (admm_params true) optimize_dso
     (Admm.dso_models r) (Admm.sto r) false).


(** A store in which the two copies of the active interface flow differ
    by twice the tolerance of [admm_params] and everything else agrees; the
    previous-iteration store holds the same values. *)
Definition cv_gap : Admm.consensus_variables :=
  let cv := (Admm.create_admm_variables opp_one).1.1 in
  {| Admm.interface_v := Admm.interface_v cv;
     Admm.interface_pf := <[slot Admm.tso Admm.p := 2 # 1000]> (Admm.interface_pf cv);
     Admm.ess := Admm.ess cv |}.

Definition prev_gap : Admm.consensus_variables_prev_iter :=
  {| Admm.prev_interface_pf := Admm.interface_pf cv_gap; Admm.prev_ess := Admm.ess cv_gap |}.


(** The run of the sample coordination after its initialization, and after
    the first pass of the loop. *)
Definition empty_run : Admm.run :=
  {| Admm.sto :=
       {| Admm.consensus_vars :=
            {| Admm.interface_v := ∅; Admm.interface_pf := ∅; Admm.ess := ∅ |};
          Admm.dual_vars := {| Admm.dual_pf := ∅; Admm.dual_ess := ∅ |};
          Admm.consensus_vars_prev_iter :=
            {| Admm.prev_interface_pf := ∅; Admm.prev_ess := ∅ |} |};
     Admm.tso_model := fun _ _ => block_of tso_initial_solution;
     Admm.dso_models := build_dso_model;
     Admm.convergence := false;
     Admm.num_iter := 1;
     Admm.from_warm_start := false;
     Admm.primal_evolution := [];
     Admm.trace := [] |}.

Abbreviation run0 adaptive := (get_ok empty_run (initial_run adaptive)).

Abbreviation pass0 := (get_ok (empty_run, false) (iteration false 0 (run0 false))).


(** A Benders loop that is allowed no pass: [iter] starts at 1. *)
Definition benders_params_single : Benders.benders_parameters :=
  {| Benders.num_max_iters := 1; Benders.tol_abs := 1 # 10; Benders.tol_rel := 1 # 100 |}.


(** The problem [pp] with a middle year that stands for no real year. *)
Definition pp_zero_weight : Problem.planning_problem :=
  {| Problem.years := [(2020%Z, 1); (2021%Z, 0); (2022%Z, 1)];
     Problem.days := [("d1"%string, 365)];
     Problem.num_instants := 1;
     Problem.discount_factor := 1 # 10;
     Problem.active_distribution_network_nodes := [7%Z];
     Problem.t_cal := fun _ _ => 2;
     Problem.cost_investment_power := fun _ => 1;
     Problem.cost_investment_energy := fun _ => 1;
     Problem.budget := 1;
     Problem.max_capacity := 10;
     Problem.min_pe_factor := 1 # 10;
     Problem.max_pe_factor := 4 |}.

(** Benders parameters with a negative absolute tolerance. *)
Definition benders_params_negative : Benders.benders_parameters :=
  {| Benders.num_max_iters := 4; Benders.tol_abs := - (1 # 10); Benders.tol_rel := 1 # 100 |}.


(** The whole sample coordination: [_run_operational_planning_problem] and
    the run it ends with. *)
Abbreviation run_problem adaptive :=
  (Admm._run_operational_planning_problem sqrt_at_one ADMM_ADAPTIVE_PENALTY_FACTOR
     ERROR_PRECISION ADMM_CONVERGENCE_REL_TOL opp_one (admm_params adaptive)
     optimize_tso optimize_dso build_dso_model build_tso_model (fun _ => 0) (fun _ _ => 0)).

Abbreviation run_all adaptive := (get_ok empty_run (run_problem adaptive)).

(** The consensus store as [create_admm_variables] makes it. *)
Definition cv_created : Admm.consensus_variables := (Admm.create_admm_variables opp_one).1.1.


(** *** The storages and the run without coordination *)

(** A storage as the constructor leaves it, the names of the distribution
    networks, and the three constants at 50%, 10% and 90%. *)
Definition new_storage : Storages.shared_energy_storage :=
  {| Storages.bus := 0; Storages.dn_name := ""; Storages.s := 0; Storages.e := 0;
     Storages.e_init := 0; Storages.e_min := 0; Storages.e_max := 0 |}.

Definition network_name (node_id : Z) : string := "DN7".

Definition ENERGY_STORAGE_RELATIVE_INIT_SOC : Q := 1 # 2.
Definition ENERGY_STORAGE_MIN_ENERGY_STORED : Q := 1 # 10.
Definition ENERGY_STORAGE_MAX_ENERGY_STORED : Q := 9 # 10.

(** The coordination sample with two instants, and with none. *)
Definition pp_two : Problem.planning_problem :=
  {| Problem.years := [(2020%Z, 1)];
     Problem.days := [("d1"%string, 1)];
     Problem.num_instants := 2;
     Problem.discount_factor := 1 # 10;
     Problem.active_distribution_network_nodes := [7%Z];
     Problem.t_cal := fun _ _ => 2;
     Problem.cost_investment_power := fun _ => 1;
     Problem.cost_investment_energy := fun _ => 1;
     Problem.budget := 1;
     Problem.max_capacity := 10;
     Problem.min_pe_factor := 1 # 10;
     Problem.max_pe_factor := 4 |}.

Definition pp_none : Problem.planning_problem :=
  {| Problem.years := [(2020%Z, 1)];
     Problem.days := [("d1"%string, 1)];
     Problem.num_instants := 0;
     Problem.discount_factor := 1 # 10;
     Problem.active_distribution_network_nodes := [7%Z];
     Problem.t_cal := fun _ _ => 2;
     Problem.cost_investment_power := fun _ => 1;
     Problem.cost_investment_energy := fun _ => 1;
     Problem.budget := 1;
     Problem.max_capacity := 10;
     Problem.min_pe_factor := 1 # 10;
     Problem.max_pe_factor := 4 |}.

Definition opp_two : Admm.operational_planning_problem :=
  {| Admm.problem := pp_two; Admm.tn := tn_one; Admm.dns := fun _ => dn_one |}.

Definition opp_none : Admm.operational_planning_problem :=
  {| Admm.problem := pp_none; Admm.tn := tn_one; Admm.dns := fun _ => dn_one |}.

(** A distribution model that takes 1 MW in the first instant and 3 MW in
    the second (0.1 and 0.3 per unit), and one market and one operation
    scenario. *)
Definition dso_two_instants (node_id : Z) : Admm.network_model :=
  fun _ _ =>
    block_of {| Admm.sol_objective_expr := 50;
                Admm.sol_interface_vmag_sqr := fun _ _ => 1;
                Admm.sol_interface_pf_p := fun _ t => if (t =? 0)%nat then 1 # 10 else 3 # 10;
                Admm.sol_interface_pf_q := fun _ _ => 1 # 10;
                Admm.sol_shared_ess_p := fun _ _ => 0;
                Admm.sol_shared_ess_q := fun _ _ => 0 |}.

Definition one_scenario (year : Z) (day : string) : list nat := [0%nat].

End Samples.

(* ===================================================================== *)
(** * Properties *)
(* ===================================================================== *)

(** ** The error monad and the loops *)

Lemma bind_Ok {A B : Type} (r : result A) (k : A -> result B) (b : B) :
  r ≫= k = Ok b -> exists a, r = Ok a /\ k a = Ok b.
Proof. destruct r as [a|e]; simpl; intros H; [eauto | discriminate]. Qed.

Lemma is_ok_get {A : Type} (default : A) (r : result A) :
  is_ok r = true -> r = Ok (get_ok default r).
Proof. destruct r; simpl; intros H; [reflexivity | discriminate]. Qed.

(** Taking a successful monadic computation apart, one bind at a time. *)
Ltac bind_inv H :=
  let a := fresh "a" in
  let Ha := fresh "Ha" in
  apply bind_Ok in H; destruct H as (a & Ha & H).

Lemma for_each_app {S B : Type} (l1 l2 : list B) (body : B -> S -> S) (s : S) :
  for_each (l1 ++ l2) body s = for_each l2 body (for_each l1 body s).
Proof. unfold for_each. apply fold_left_app. Qed.

Lemma for_each_cons {S B : Type} (b : B) (l : list B) (body : B -> S -> S) (s : S) :
  for_each (b :: l) body s = for_each l body (body b s).
Proof. reflexivity. Qed.

(** An invariant of the state goes through a loop. *)
Lemma for_each_inv {S B : Type} (P : S -> Prop) (l : list B) (body : B -> S -> S) (s : S) :
  P s -> (forall b s, b ∈ l -> P s -> P (body b s)) -> P (for_each l body s).
Proof.
  revert s. induction l as [|b l IH]; intros s Hs Hstep; [exact Hs|].
  rewrite for_each_cons. apply IH.
  - apply Hstep; [left | exact Hs].
  - intros b' s' Hb'. apply Hstep. by right.
Qed.

Lemma foldlM_inv {A B : Type} (P : A -> Prop) (f : A -> B -> result A) (l : list B) (a a' : A) :
  P a -> (forall a b a', b ∈ l -> P a -> f a b = Ok a' -> P a') ->
  foldlM f a l = Ok a' -> P a'.
Proof.
  revert a. induction l as [|b l IH]; intros a Ha Hstep H; simpl in H.
  - by inversion H; subst.
  - bind_inv H. eapply IH; [ | | exact H].
    + eapply Hstep; [left | exact Ha | exact Ha0].
    + intros a1 b1 a1' Hb1. apply Hstep. by right.
Qed.

(** ** network_parameters.py *)

(** C10. After [_read_network_parameters_from_file] returns, a true
    [relaxed_model] read from the file makes [ess_relax] and [fl_relax] of
    the resulting parameters [True], whatever the file says for them. *)
Theorem relaxed_model_forces_relaxations
    (SolverParameters : Type)
    (read_solver_parameters : SolverParameters -> NetworkParameters.jvalue -> option SolverParameters)
    (parameters0 : NetworkParameters.parameters SolverParameters)
    (params_data : gmap string NetworkParameters.jvalue)
    (parameters1 : NetworkParameters.parameters SolverParameters) :
  NetworkParameters._read_network_parameters_from_file
    SolverParameters read_solver_parameters parameters0 params_data = Ok parameters1 ->
  params_data !! "relaxed_model"%string = Some (NetworkParameters.relaxed_model parameters1) /\
  (NetworkParameters.truthy (NetworkParameters.relaxed_model parameters1) = true ->
   NetworkParameters.ess_relax parameters1 = NetworkParameters.JBool true /\
   NetworkParameters.fl_relax parameters1 = NetworkParameters.JBool true).
Proof.
  unfold NetworkParameters._read_network_parameters_from_file. intros H.
  repeat bind_inv H. inversion H; subst; clear H. simpl.
  split.
  - match goal with
    | Hget : NetworkParameters.get _ "relaxed_model"%string = Ok _ |- _ =>
        unfold NetworkParameters.get in Hget;
        destruct (params_data !! "relaxed_model"%string); [by inversion Hget | discriminate]
    end.
  - intros ->. done.
Qed.

(** The theorem at a file that has the relaxed model on and both
    relaxations off. *)
Lemma relaxed_model_forces_relaxations_witness :
  exists parameters1,
    NetworkParameters._read_network_parameters_from_file
      unit (fun _ _ => Some tt) (NetworkParameters.init unit tt) NetworkParameters.sample_file
    = Ok parameters1 /\
    NetworkParameters.sample_file !! "ess_relax"%string = Some (NetworkParameters.JBool false) /\
    NetworkParameters.ess_relax parameters1 = NetworkParameters.JBool true /\
    NetworkParameters.fl_relax parameters1 = NetworkParameters.JBool true.
Proof.
  eexists. split; [vm_compute; reflexivity|]. split; [vm_compute; reflexivity|].
  eapply (relaxed_model_forces_relaxations unit (fun _ _ => Some tt)
            (NetworkParameters.init unit tt) NetworkParameters.sample_file).
  - vm_compute. reflexivity.
  - reflexivity.
Defined.

(** ** Candidate solutions *)

Lemma table_nonneg_empty : Candidate.table_nonneg ∅.
Proof. intros node_id year row c H. by rewrite lookup_empty in H. Qed.

Lemma table_nonneg_insert (t : gmap Z (gmap Z Candidate.capacity)) (node_id : Z)
    (row : gmap Z Candidate.capacity) :
  Candidate.table_nonneg t ->
  (forall year c, row !! year = Some c -> 0 <= Candidate.s c /\ 0 <= Candidate.e c) ->
  Candidate.table_nonneg (<[node_id := row]> t).
Proof.
  intros Ht Hrow n year row' c Hn Hc.
  destruct (decide (node_id = n)) as [->|Hne].
  - rewrite lookup_insert_eq in Hn. inversion Hn; subst. by eapply Hrow.
  - rewrite lookup_insert_ne in Hn by done. by eapply Ht.
Qed.

Lemma row_nonneg_insert (row : gmap Z Candidate.capacity) (year : Z) (c : Candidate.capacity) :
  (forall y c', row !! y = Some c' -> 0 <= Candidate.s c' /\ 0 <= Candidate.e c') ->
  0 <= Candidate.s c -> 0 <= Candidate.e c ->
  forall y c', <[year := c]> row !! y = Some c' -> 0 <= Candidate.s c' /\ 0 <= Candidate.e c'.
Proof.
  intros Hrow Hs He y c' H.
  destruct (decide (year = y)) as [->|Hne].
  - rewrite lookup_insert_eq in H. by inversion H; subst.
  - rewrite lookup_insert_ne in H by done. by eapply Hrow.
Qed.

Lemma zero_row_nonneg (years : list Z) (year : Z) (c : Candidate.capacity) :
  Candidate.zero_row years !! year = Some c -> 0 <= Candidate.s c /\ 0 <= Candidate.e c.
Proof.
  unfold Candidate.zero_row. revert year c.
  apply (for_each_inv
           (fun row : gmap Z Candidate.capacity =>
              forall y c, row !! y = Some c -> 0 <= Candidate.s c /\ 0 <= Candidate.e c)).
  - intros y c H. by rewrite lookup_empty in H.
  - intros y row _ Hrow. apply row_nonneg_insert; [exact Hrow | simpl; lra | simpl; lra].
Qed.

(** The zero-investment candidate is nonnegative. *)
Lemma initial_candidate_nonneg (pp : Problem.planning_problem) :
  Candidate.nonneg (Candidate._get_initial_candidate_solution pp).
Proof.
  unfold Candidate._get_initial_candidate_solution.
  apply (for_each_inv Candidate.nonneg).
  - split; apply table_nonneg_empty.
  - intros node_id c _ [Hi Ht]. split; simpl;
      (apply table_nonneg_insert; [assumption | apply zero_row_nonneg]).
Qed.

(** The candidate read from a solved master is nonnegative, whatever the
    solver returned for the variables. *)
Lemma extracted_candidate_nonneg (pp : Problem.planning_problem) (m : Master.model)
    (sol : Master.var -> Q) (c : Candidate.candidate_solution) :
  SharedEnergyStorageData.get_candidate_solution pp m sol = Ok c -> Candidate.nonneg c.
Proof.
  unfold SharedEnergyStorageData.get_candidate_solution.
  apply (foldlM_inv Candidate.nonneg).
  - split; apply table_nonneg_empty.
  - intros c0 e c1 _ [Hi Ht] H.
    bind_inv H. bind_inv H. bind_inv H. inversion H; subst; clear H.
    assert (Hrows :
      (forall y c', a1.1 !! y = Some c' -> 0 <= Candidate.s c' /\ 0 <= Candidate.e c') /\
      (forall y c', a1.2 !! y = Some c' -> 0 <= Candidate.s c' /\ 0 <= Candidate.e c')).
    { revert Ha1.
      apply (foldlM_inv
               (fun rows : gmap Z Candidate.capacity * gmap Z Candidate.capacity =>
                  (forall y c', rows.1 !! y = Some c' -> 0 <= Candidate.s c' /\ 0 <= Candidate.e c') /\
                  (forall y c', rows.2 !! y = Some c' -> 0 <= Candidate.s c' /\ 0 <= Candidate.e c'))).
      - split; intros y c' H; simpl in H; by rewrite lookup_empty in H.
      - intros rows y rows' _ [H1 H2] H.
        unfold SharedEnergyStorageData.candidate_year_step in H.
        bind_inv H. inversion H; subst; clear H. simpl.
        split; (apply row_nonneg_insert; [assumption | simpl; apply Qabs_nonneg | simpl; apply Qabs_nonneg]). }
    destruct Hrows as [Hr1 Hr2].
    split; simpl; (apply table_nonneg_insert; assumption).
Qed.

Lemma iteration_candidates_ok run_operational_planning optimize pp params (st st' : Benders.state) :
  candidates_ok st ->
  Benders.iteration run_operational_planning optimize pp params st = Ok st' ->
  candidates_ok st'.
Proof.
  intros [Hc Hh] H. unfold Benders.iteration in H.
  destruct (run_operational_planning (Benders.candidate st)) as [obj sens].
  bind_inv H. bind_inv H. destruct a0.
  - inversion H; subst; clear H. split; simpl; [exact Hc|].
    apply Forall_app. split; [exact Hh | by constructor].
  - bind_inv H. bind_inv H. inversion H; subst; clear H. split; simpl.
    + by eapply extracted_candidate_nonneg.
    + apply Forall_app. split; [exact Hh | by constructor].
Qed.

Lemma while_loop_candidates_ok run_operational_planning optimize pp params
    (fuel : nat) (st st' : Benders.state) :
  candidates_ok st ->
  Benders.while_loop run_operational_planning optimize pp params fuel st = Ok st' ->
  candidates_ok st'.
Proof.
  revert st. induction fuel as [|fuel IH]; intros st Hok H; simpl in H.
  - destruct (Benders.continues params st); by inversion H; subst.
  - destruct (Benders.continues params st); [|by inversion H; subst].
    bind_inv H. eapply IH; [|exact H]. by eapply iteration_candidates_ok.
Qed.

(** C9. Every candidate solution handed to the operational layer has
    nonnegative yearly investments and nonnegative rated power and energy,
    for every site and year: the initial zero-investment candidate, every
    candidate extracted from a solved master problem, and so every
    candidate the Benders loop passes on. *)
Theorem candidate_solutions_nonnegative
    (run_operational_planning :
       Candidate.candidate_solution -> (Z -> string -> Q) * Benders.sensitivities)
    (optimize : Master.model -> Master.var -> Q)
    (pp : Problem.planning_problem) (params : Benders.benders_parameters) :
  Candidate.nonneg (Candidate._get_initial_candidate_solution pp) /\
  (forall m sol c,
     SharedEnergyStorageData.get_candidate_solution pp m sol = Ok c -> Candidate.nonneg c) /\
  (forall st,
     Benders._run_planning_problem run_operational_planning optimize pp params = Ok st ->
     Forall Candidate.nonneg (Benders.handed st) /\ Candidate.nonneg (Benders.candidate st)).
Proof.
  split; [apply initial_candidate_nonneg|].
  split; [intros m sol c; apply extracted_candidate_nonneg|].
  intros st H. unfold Benders._run_planning_problem in H.
  bind_inv H. unfold Benders.initial_state in Ha. bind_inv Ha.
  inversion Ha; subst; clear Ha.
  apply while_loop_candidates_ok in H.
  - destruct H as [Hc Hh]. by split.
  - split; simpl; [apply initial_candidate_nonneg | constructor].
Qed.

(** C9 at the sample problem: three candidates are handed over, the last
    two read from a solution with negative investments. *)
Lemma candidate_solutions_nonnegative_witness :
  exists st,
    Benders._run_planning_problem
      Samples.run_operational_planning Samples.optimize Samples.pp Samples.benders_params = Ok st /\
    length (Benders.handed st) = 3%nat /\
    Forall Candidate.nonneg (Benders.handed st) /\ Candidate.nonneg (Benders.candidate st).
Proof.
  eexists. split; [vm_compute; reflexivity|]. split; [reflexivity|].
  apply (candidate_solutions_nonnegative
           Samples.run_operational_planning Samples.optimize Samples.pp Samples.benders_params).
  vm_compute. reflexivity.
Defined.

(** ** Benders cuts *)

Lemma index_Ok {A : Type} (l : list A) (i : nat) (a : A) :
  Py.index l i = Ok a -> l !! i = Some a.
Proof. unfold Py.index. destruct (l !! i); intros H; by inversion H. Qed.

(** Every pass of the two loops of [_add_benders_cut] adds terms that
    vanish at the candidate. *)
Lemma cut_step_at_candidate (pp : Problem.planning_problem) (sens : Benders.sensitivities)
    (cand : Candidate.candidate_solution) (a : Master.var -> Q)
    (e y : nat) (cut cut' : Master.expr) :
  Benders.at_candidate pp cand a ->
  Benders.cut_step pp sens cand e cut y = Ok cut' ->
  Master.eval a cut' == Master.eval a cut.
Proof.
  intros Hat H. unfold Benders.cut_step in H.
  bind_inv H. bind_inv H. bind_inv H. inversion H; subst; clear H.
  apply index_Ok in Ha, Ha0.
  destruct (Hat e y a1 a0 a2 Ha0 Ha Ha1) as [Hs He].
  simpl. rewrite Hs, He. ring.
Qed.

Lemma benders_cut_expr_at_candidate (pp : Problem.planning_problem) (m : Master.model)
    (upper_bound : Q) (sens : Benders.sensitivities) (cand : Candidate.candidate_solution)
    (a : Master.var -> Q) (cut : Master.expr) :
  Benders.at_candidate pp cand a ->
  Benders.benders_cut_expr pp m upper_bound sens cand = Ok cut ->
  Master.eval a cut == upper_bound.
Proof.
  intros Hat. unfold Benders.benders_cut_expr.
  apply (foldlM_inv (fun c => Master.eval a c == upper_bound)).
  - reflexivity.
  - intros c e c' _ Hc.
    apply (foldlM_inv (fun c => Master.eval a c == upper_bound)); [exact Hc|].
    intros c1 y c1' _ Hc1 Hstep.
    rewrite (cut_step_at_candidate pp sens cand a e y c1 c1' Hat Hstep). exact Hc1.
Qed.

(** C8. The constraint that [_add_benders_cut] appends to the master's cut
    list, with [s_rated[e,y]] and [e_rated[e,y]] at the candidate's
    [s_hat[e,y]] and [e_hat[e,y]], is [alpha >= UB_k]: its right-hand side
    evaluates to the upper bound. *)
Theorem benders_cut_reduces_at_candidate
    (pp : Problem.planning_problem) (m m' : Master.model) (upper_bound : Q)
    (sens : Benders.sensitivities) (cand : Candidate.candidate_solution)
    (a : Master.var -> Q) :
  Benders._add_benders_cut pp m upper_bound sens cand = Ok m' ->
  Benders.at_candidate pp cand a ->
  exists cut,
    Master.benders_cuts m' = Master.benders_cuts m ++ [Master.CGe (Master.Var Master.alpha) cut] /\
    Master.eval a cut == upper_bound /\
    (Master.holds a (Master.CGe (Master.Var Master.alpha) cut) <-> upper_bound <= a Master.alpha).
Proof.
  intros H Hat. unfold Benders._add_benders_cut in H.
  bind_inv H. inversion H; subst; clear H.
  exists a0. split; [reflexivity|].
  pose proof (benders_cut_expr_at_candidate pp m upper_bound sens cand a a0 Hat Ha) as Hev.
  split; [exact Hev|]. simpl. rewrite Hev. reflexivity.
Qed.

(** The sample values are the capacities of the sample candidate. *)
Lemma at_solved_candidate_ok (cand : Candidate.candidate_solution) :
  Samples.solved_candidate = Ok cand ->
  Benders.at_candidate Samples.pp cand Samples.at_solved_candidate.
Proof.
  intros Hc. vm_compute in Hc. inversion Hc; subst; clear Hc.
  intros e y node_id year c Hn Hy Hl.
  destruct e as [|e]; [|by destruct e].
  simpl in Hn. inversion Hn; subst; clear Hn.
  destruct y as [|[|[|y]]]; simpl in Hy; try (by destruct y);
    inversion Hy; subst; clear Hy;
    vm_compute in Hl; inversion Hl; subst; clear Hl;
    split; reflexivity.
Qed.

(** C8 at the sample problem: the cut built from the candidate of a solved
    master, with sensitivities 1 and 2 and the bound 5. *)
Lemma benders_cut_reduces_at_candidate_witness :
  exists m cand m' cut,
    Master._build_master_problem Samples.pp = Ok m /\
    Samples.solved_candidate = Ok cand /\
    Benders._add_benders_cut Samples.pp m 5 (Samples.run_operational_planning cand).2 cand = Ok m' /\
    Master.benders_cuts m' = Master.benders_cuts m ++ [Master.CGe (Master.Var Master.alpha) cut] /\
    Master.eval Samples.at_solved_candidate cut == 5 /\
    (Master.holds Samples.at_solved_candidate (Master.CGe (Master.Var Master.alpha) cut)
     <-> 5 <= Samples.at_solved_candidate Master.alpha).
Proof.
  assert (Hm : exists m, Master._build_master_problem Samples.pp = Ok m)
    by (eexists; vm_compute; reflexivity).
  destruct Hm as [m Hm].
  assert (Hc : exists cand, Samples.solved_candidate = Ok cand)
    by (eexists; vm_compute; reflexivity).
  destruct Hc as [cand Hc].
  assert (Ha : exists m',
             Benders._add_benders_cut Samples.pp m 5 (Samples.run_operational_planning cand).2 cand
             = Ok m').
  { vm_compute in Hm. inversion Hm; subst; clear Hm.
    vm_compute in Hc. inversion Hc; subst; clear Hc.
    eexists. vm_compute. reflexivity. }
  destruct Ha as [m' Ha].
  destruct (benders_cut_reduces_at_candidate Samples.pp m m' 5
              (Samples.run_operational_planning cand).2 cand Samples.at_solved_candidate
              Ha (at_solved_candidate_ok cand Hc)) as (cut & H1 & H2 & H3).
  exists m, cand, m', cut.
  split; [exact Hm|]. split; [exact Hc|]. split; [exact Ha|].
  split; [exact H1|]. split; [exact H2 | exact H3].
Defined.

(** ** The convergence test of the Benders loop *)

Lemma Qltb_false (a b : Q) : Py.Qltb a b = false -> b <= a.
Proof.
  unfold Py.Qltb. intros H. apply negb_false_iff in H. by apply Qle_bool_iff.
Qed.

Lemma Qltb_true (a b : Q) : Py.Qltb a b = true -> a < b.
Proof.
  unfold Py.Qltb. intros H. apply negb_true_iff in H.
  apply Qnot_le_lt. intros Hle. apply Qle_bool_iff in Hle. congruence.
Qed.

(** [math.isclose] with its tolerances accepted. *)
Lemma isclose_spec (a b rel_tol abs_tol : Q) (r : bool) :
  Py.isclose a b rel_tol abs_tol = Ok r ->
  0 <= rel_tol /\ 0 <= abs_tol /\
  (r = true <-> Py.close_enough a b rel_tol abs_tol).
Proof.
  unfold Py.isclose, Py.close_enough.
  destruct (Py.Qltb rel_tol 0 || Py.Qltb abs_tol 0) eqn:Etol; [discriminate|].
  apply orb_false_iff in Etol. destruct Etol as [Hrel Habs].
  apply Qltb_false in Hrel, Habs.
  split; [exact Hrel|]. split; [exact Habs|].
  assert (Hb : Qabs (rel_tol * b) == rel_tol * Qabs b)
    by (rewrite Qabs_Qmult, (Qabs_pos rel_tol Hrel); reflexivity).
  assert (Ha : Qabs (rel_tol * a) == rel_tol * Qabs a)
    by (rewrite Qabs_Qmult, (Qabs_pos rel_tol Hrel); reflexivity).
  destruct (Qeq_bool a b) eqn:Eab.
  - inversion H; subst; clear H. split; [intros _|reflexivity].
    apply Qeq_bool_iff in Eab. left.
    assert (Hz : b - a == 0) by (rewrite Eab; ring).
    rewrite Hz. simpl. exact Habs.
  - inversion H; subst; clear H.
    rewrite !orb_true_iff, !Qle_bool_iff, Hb, Ha. tauto.
Qed.

Lemma isclose_total (a b rel_tol abs_tol : Q) :
  0 <= rel_tol -> 0 <= abs_tol -> exists r, Py.isclose a b rel_tol abs_tol = Ok r.
Proof.
  intros Hrel Habs. unfold Py.isclose, Py.Qltb.
  apply Qle_bool_iff in Hrel, Habs. rewrite Hrel, Habs. simpl.
  destruct (Qeq_bool a b); eauto.
Qed.

(** A pass of the loop declares convergence exactly when the new upper
    bound is close enough to the lower bound it started with; it then keeps
    that lower bound and the iteration count, and otherwise counts one
    iteration more. *)
Lemma iteration_convergence run_operational_planning optimize pp params (st st' : Benders.state) :
  Benders.iteration run_operational_planning optimize pp params st = Ok st' ->
  (Benders.convergence st' = true <->
   Py.close_enough (Benders.upper_bound st') (Benders.lower_bound st)
     (Benders.tol_rel params) (Benders.tol_abs params)) /\
  (Benders.convergence st' = true ->
   Benders.lower_bound st' = Benders.lower_bound st /\ Benders.iter st' = Benders.iter st) /\
  (Benders.convergence st' = false -> Benders.iter st' = S (Benders.iter st)).
Proof.
  intros H. unfold Benders.iteration in H.
  destruct (run_operational_planning (Benders.candidate st)) as [obj sens].
  bind_inv H. bind_inv H.
  destruct (isclose_spec _ _ _ _ _ Ha0) as (_ & _ & Hiff).
  destruct a0.
  - inversion H; subst; clear H. simpl. split; [exact Hiff|]. split; [done|discriminate].
  - bind_inv H. bind_inv H. inversion H; subst; clear H. simpl.
    split; [exact Hiff|]. split; [discriminate|done].
Qed.

(** The loop leaves with its condition false: with [num_max_iters] passes
    allowed, it never stops for lack of fuel. *)
Lemma while_loop_exits run_operational_planning optimize pp params
    (fuel : nat) (st st' : Benders.state) :
  Benders.while_loop run_operational_planning optimize pp params fuel st = Ok st' ->
  (Benders.convergence st = true \/ (Benders.num_max_iters params <= fuel + Benders.iter st)%nat) ->
  Benders.continues params st' = false.
Proof.
  revert st. induction fuel as [|fuel IH]; intros st H Hfuel; simpl in H.
  - destruct (Benders.continues params st) eqn:Ec; inversion H; subst; clear H; [|exact Ec].
    unfold Benders.continues in Ec. apply andb_true_iff in Ec. destruct Ec as [Hlt Hnc].
    apply Nat.ltb_lt in Hlt. apply negb_true_iff in Hnc.
    destruct Hfuel as [Hc|Hle]; [congruence | lia].
  - destruct (Benders.continues params st) eqn:Ec; [|by inversion H; subst].
    bind_inv H. apply (IH a H).
    destruct (iteration_convergence _ _ _ _ _ _ Ha) as (_ & _ & Hinc).
    destruct (Benders.convergence a) eqn:Eca; [by left|].
    right. rewrite (Hinc eq_refl).
    unfold Benders.continues in Ec. apply andb_true_iff in Ec. destruct Ec as [_ Hnc].
    apply negb_true_iff in Hnc. destruct Hfuel as [Hc|Hle]; [congruence | lia].
Qed.

Lemma while_loop_converged_ok run_operational_planning optimize pp params
    (fuel : nat) (st st' : Benders.state) :
  converged_ok params st ->
  Benders.while_loop run_operational_planning optimize pp params fuel st = Ok st' ->
  converged_ok params st'.
Proof.
  revert st. induction fuel as [|fuel IH]; intros st Hok H; simpl in H.
  - destruct (Benders.continues params st); by inversion H; subst.
  - destruct (Benders.continues params st); [|by inversion H; subst].
    bind_inv H. apply (IH a); [|exact H].
    destruct (iteration_convergence _ _ _ _ _ _ Ha) as (Hiff & Hkeep & _).
    intros Hc. destruct (Hkeep Hc) as [-> _]. by apply Hiff.
Qed.

(** C3, as the code has it. Every pass of the Benders loop declares
    convergence exactly when [|UB - LB| <= tol_abs], or
    [|UB - LB| <= tol_rel * |UB|], or [|UB - LB| <= tol_rel * |LB|]
    ([math.isclose]: the relative gap is taken against the larger of the two
    bounds); and the loop ends either converged, with bounds that passed
    this test, or not converged with [iter] at [num_max_iters]. *)
Theorem benders_loop_stopping
    (run_operational_planning :
       Candidate.candidate_solution -> (Z -> string -> Q) * Benders.sensitivities)
    (optimize : Master.model -> Master.var -> Q)
    (pp : Problem.planning_problem) (params : Benders.benders_parameters) :
  (forall st st',
     Benders.iteration run_operational_planning optimize pp params st = Ok st' ->
     (Benders.convergence st' = true <->
      Py.close_enough (Benders.upper_bound st') (Benders.lower_bound st)
        (Benders.tol_rel params) (Benders.tol_abs params))) /\
  (forall st,
     Benders._run_planning_problem run_operational_planning optimize pp params = Ok st ->
     (Benders.convergence st = true /\
      Py.close_enough (Benders.upper_bound st) (Benders.lower_bound st)
        (Benders.tol_rel params) (Benders.tol_abs params)) \/
     (Benders.convergence st = false /\
      (Benders.num_max_iters params <= Benders.iter st)%nat)).
Proof.
  split.
  - intros st st' H. by destruct (iteration_convergence _ _ _ _ _ _ H) as (Hiff & _).
  - intros st H. unfold Benders._run_planning_problem in H. bind_inv H.
    assert (Hinit : Benders.convergence a = false /\ Benders.iter a = 1%nat).
    { unfold Benders.initial_state in Ha. bind_inv Ha. by inversion Ha; subst. }
    destruct Hinit as [Hc0 Hi0].
    pose proof (while_loop_exits _ _ _ _ _ _ _ H) as Hexit.
    assert (Hok0 : converged_ok params a) by (intros Hc; congruence).
    pose proof (while_loop_converged_ok _ _ _ _ _ _ _ Hok0 H) as Hok.
    destruct (Benders.convergence st) eqn:Ec.
    + left. split; [reflexivity|]. apply Hok. exact Ec.
    + right. split; [reflexivity|].
      assert (Hcont : Benders.continues params st = false) by (apply Hexit; right; lia).
      unfold Benders.continues in Hcont. rewrite Ec in Hcont. simpl in Hcont.
      rewrite andb_true_r in Hcont. by apply Nat.ltb_ge in Hcont.
Qed.

(** C3 at the run with operational cost 1000 and [alpha = 990.05]: the
    second pass stops the loop as converged. *)
Lemma benders_loop_stopping_witness :
  exists st,
    Benders._run_planning_problem
      Samples.run_operational_1000 Samples.optimize_990 Samples.pp_one Samples.benders_params_1pc
    = Ok st /\
    Benders.iter st = 2%nat /\
    ((Benders.convergence st = true /\
      Py.close_enough (Benders.upper_bound st) (Benders.lower_bound st)
        (Benders.tol_rel Samples.benders_params_1pc) (Benders.tol_abs Samples.benders_params_1pc)) \/
     (Benders.convergence st = false /\
      (Benders.num_max_iters Samples.benders_params_1pc <= Benders.iter st)%nat)).
Proof.
  eexists. split; [vm_compute; reflexivity|]. split; [reflexivity|].
  apply (proj2 (benders_loop_stopping
                  Samples.run_operational_1000 Samples.optimize_990
                  Samples.pp_one Samples.benders_params_1pc)).
  vm_compute. reflexivity.
Defined.

(** C3 as the specification words it fails: with [UB = 1000],
    [LB = 990.05], [tol_abs = 0.1] and [tol_rel = 0.01] the loop declares
    convergence ([9.95 <= 0.01 * 1000]), while [9.95 > 0.1] and
    [9.95 / 990.05 > 0.01]. *)
Lemma benders_spec_test_counterexample :
  ~ (forall st,
       Benders._run_planning_problem
         Samples.run_operational_1000 Samples.optimize_990 Samples.pp_one Samples.benders_params_1pc
       = Ok st ->
       (Benders.convergence st = true <->
        Benders.spec_converged Samples.benders_params_1pc
          (Benders.upper_bound st) (Benders.lower_bound st))).
Proof.
  intros Hclaim.
  assert (Hrun : exists st,
             Benders._run_planning_problem
               Samples.run_operational_1000 Samples.optimize_990
               Samples.pp_one Samples.benders_params_1pc = Ok st /\
             Benders.convergence st = true /\
             Benders.upper_bound st = 1000 /\ Benders.lower_bound st = 19801 # 20).
  { eexists. split; [vm_compute; reflexivity|]. repeat split. }
  destruct Hrun as (st & Hrun & Hc & Hub & Hlb).
  apply (Hclaim st Hrun) in Hc. unfold Benders.spec_converged in Hc.
  rewrite Hub, Hlb in Hc.
  destruct Hc as [Hc|Hc]; vm_compute in Hc; apply Hc; reflexivity.
Qed.


(** ** Rated capacities of the master problem *)

(** [total[x] += var] for [x] in [range(s, s + k)], seen at one index. *)
Lemma alter_range_eval (a : Master.var -> Q) (v : Master.var) (k s : nat)
    (l : list Master.expr) (x : nat) (ex : Master.expr) :
  l !! x = Some ex ->
  exists ex',
    for_each (seq s k) (fun x l => alter (fun ex => Master.Add ex (Master.Var v)) x l) l !! x
    = Some ex' /\
    Master.eval a ex' ==
    Master.eval a ex + (if (s <=? x)%nat && (x <? s + k)%nat then a v else 0).
Proof.
  revert s l ex. induction k as [|k IH]; intros s l ex Hx.
  - exists ex. split; [exact Hx|].
    replace ((s <=? x)%nat && (x <? s + 0)%nat) with false; [lazy iota; ring|].
    symmetry. apply andb_false_iff.
    destruct (Nat.leb_spec s x); [right; apply Nat.ltb_ge; lia | by left].
  - simpl seq. rewrite for_each_cons.
    destruct (decide (s = x)) as [->|Hne].
    + destruct (IH (S x) (alter (fun ex => Master.Add ex (Master.Var v)) x l)
                  (Master.Add ex (Master.Var v))) as (ex' & Hl & He).
      { rewrite list_lookup_alter_eq, Hx. reflexivity. }
      exists ex'. split; [exact Hl|]. rewrite He.
      replace ((S x <=? x)%nat && (x <? S x + k)%nat) with false
        by (symmetry; apply andb_false_iff; left; apply Nat.leb_gt; lia).
      replace ((x <=? x)%nat && (x <? x + S k)%nat) with true
        by (symmetry; apply andb_true_iff; split; [apply Nat.leb_le | apply Nat.ltb_lt]; lia).
      lazy iota. simpl Master.eval. ring.
    + destruct (IH (S s) (alter (fun ex => Master.Add ex (Master.Var v)) s l) ex)
        as (ex' & Hl & He).
      { rewrite list_lookup_alter_ne by done. exact Hx. }
      exists ex'. split; [exact Hl|]. rewrite He.
      replace ((S s <=? x)%nat && (x <? S s + k)%nat)
        with ((s <=? x)%nat && (x <? s + S k)%nat); [reflexivity|].
      destruct (Nat.leb_spec s x), (Nat.leb_spec (S s) x),
               (Nat.ltb_spec x (s + S k)), (Nat.ltb_spec x (S s + k)); simpl; try reflexivity; lia.
Qed.

(** The loop over [x] works on the two lists separately. *)
Lemma for_each_add_investment (e y : nat) (xs : list nat)
    (tot : list Master.expr * list Master.expr) :
  for_each xs (Master.add_investment e y) tot =
  (for_each xs (fun x l => alter (fun ex => Master.Add ex (Master.Var (Master.es_s_invesment e y))) x l) tot.1,
   for_each xs (fun x l => alter (fun ex => Master.Add ex (Master.Var (Master.es_e_invesment e y))) x l) tot.2).
Proof.
  revert tot. induction xs as [|x xs IH]; intros [l1 l2]; [reflexivity|].
  rewrite !for_each_cons, IH. reflexivity.
Qed.

(** [range(y, max_tcal_norm)] holds exactly the window of [y]. *)
Lemma range2_window (n y : nat) (len : Z) (x : nat) :
  (y <=? x)%nat && (x <? y + Z.to_nat (Z.min (Z.of_nat y + len) (Z.of_nat n) - Z.of_nat y))%nat
  = Master.in_window n y len x.
Proof.
  unfold Master.in_window.
  destruct (Nat.leb_spec y x); simpl; [|reflexivity].
  destruct (Nat.ltb_spec x (y + Z.to_nat (Z.min (Z.of_nat y + len) (Z.of_nat n) - Z.of_nat y))),
           (Z.ltb_spec (Z.of_nat x) (Z.min (Z.of_nat y + len) (Z.of_nat n))); try reflexivity; lia.
Qed.

(** When it does not raise, [tcal_norm] is the window length of the code. *)
Lemma tcal_norm_Ok (pp : Problem.planning_problem) (e : nat) (year : Z) (w : Q) (tn : Z) :
  Master.tcal_norm pp e year w = Ok tn -> tn = Master.code_window_length pp e year w.
Proof.
  unfold Master.tcal_norm, Master.code_window_length, Py.div.
  destruct (Qeq_bool w 0); simpl; intros H; [discriminate | by inversion H].
Qed.

(** One year of the rated-capacity loop adds its investment to the years of
    its window. *)
Lemma rated_year_step_eval (pp : Problem.planning_problem) (a : Master.var -> Q) (e : nat)
    (tot tot' : list Master.expr * list Master.expr) (yy : nat * (Z * Q)) (x : nat) :
  Master.rated_year_step pp e tot yy = Ok tot' ->
  totals_grow a x
    (if Master.in_window (length (Problem.years pp)) yy.1
          (Master.code_window_length pp e yy.2.1 yy.2.2) x
     then a (Master.es_s_invesment e yy.1) else 0)
    (if Master.in_window (length (Problem.years pp)) yy.1
          (Master.code_window_length pp e yy.2.1 yy.2.2) x
     then a (Master.es_e_invesment e yy.1) else 0)
    tot tot'.
Proof.
  destruct yy as [y [year w]]. simpl. intros H. unfold Master.rated_year_step in H.
  bind_inv H. inversion H; subst; clear H.
  apply tcal_norm_Ok in Ha. subst a0. rewrite for_each_add_investment. unfold range2, Master.max_tcal_norm.
  split; simpl; intros ex Hx.
  - edestruct (alter_range_eval a (Master.es_s_invesment e y)) as (ex' & Hl & He); [exact Hx|].
    exists ex'. split; [exact Hl|]. rewrite He, range2_window. reflexivity.
  - edestruct (alter_range_eval a (Master.es_e_invesment e y)) as (ex' & Hl & He); [exact Hx|].
    exists ex'. split; [exact Hl|]. rewrite He, range2_window. reflexivity.
Qed.

(** The loop over the years adds, at [x], the investments of the years
    whose window holds [x]. *)
Lemma rated_years_eval (pp : Problem.planning_problem) (a : Master.var -> Q) (e : nat)
    (l : list (nat * (Z * Q))) (tot tot' : list Master.expr * list Master.expr) (x : nat) :
  foldlM (Master.rated_year_step pp e) tot l = Ok tot' ->
  totals_grow a x
    (Master.window_sum (length (Problem.years pp)) (Master.code_window_length pp e)
       (fun y => a (Master.es_s_invesment e y)) x l)
    (Master.window_sum (length (Problem.years pp)) (Master.code_window_length pp e)
       (fun y => a (Master.es_e_invesment e y)) x l)
    tot tot'.
Proof.
  revert tot. induction l as [|yy l IH]; intros tot H; simpl in H.
  - inversion H; subst; clear H.
    split; intros ex Hx; exists ex; (split; [exact Hx|]);
      unfold Master.window_sum; simpl; ring.
  - bind_inv H.
    destruct (rated_year_step_eval pp a e tot a0 yy x Ha) as [Hs1 He1].
    destruct (IH a0 H) as [Hs2 He2].
    split; intros ex Hx.
    + destruct (Hs1 ex Hx) as (ex1 & Hl1 & Hv1).
      destruct (Hs2 ex1 Hl1) as (ex2 & Hl2 & Hv2).
      exists ex2. split; [exact Hl2|]. rewrite Hv2, Hv1.
      unfold Master.window_sum. simpl. ring.
    + destruct (He1 ex Hx) as (ex1 & Hl1 & Hv1).
      destruct (He2 ex1 Hl1) as (ex2 & Hl2 & Hv2).
      exists ex2. split; [exact Hl2|]. rewrite Hv2, Hv1.
      unfold Master.window_sum. simpl. ring.
Qed.

(** The totals of one storage are the windowed sums of its investments. *)
Lemma total_capacity_per_year_eval (pp : Problem.planning_problem) (a : Master.var -> Q)
    (e : nat) (tot : list Master.expr * list Master.expr) (x : nat) :
  Master.total_capacity_per_year pp e = Ok tot ->
  (x < length (Problem.years pp))%nat ->
  exists ex_s ex_e,
    tot.1 !! x = Some ex_s /\ tot.2 !! x = Some ex_e /\
    Master.eval a ex_s ==
      Master.windowed_sum pp (Master.code_window_length pp e)
        (fun y => a (Master.es_s_invesment e y)) x /\
    Master.eval a ex_e ==
      Master.windowed_sum pp (Master.code_window_length pp e)
        (fun y => a (Master.es_e_invesment e y)) x.
Proof.
  intros H Hx. unfold Master.total_capacity_per_year in H.
  destruct (rated_years_eval pp a e _ _ _ x H) as [Hs He].
  destruct (Hs (Master.Num 0)) as (ex_s & Hls & Hvs); [by apply lookup_replicate_2|].
  destruct (He (Master.Num 0)) as (ex_e & Hle & Hve); [by apply lookup_replicate_2|].
  exists ex_s, ex_e. split; [exact Hls|]. split; [exact Hle|].
  unfold Master.windowed_sum. split.
  - rewrite Hvs. simpl. ring.
  - rewrite Hve. simpl. ring.
Qed.

(** The rated-capacity block holds, for every storage it ran over and
    every year, an equation of the rated variable with the windowed sum. *)
Lemma rated_capacity_constraints (pp : Problem.planning_problem) (a : Master.var -> Q)
    (es : list nat) (acc acc' : list Master.constr * list Master.constr) :
  foldlM (Master.rated_capacity_step pp) acc es = Ok acc' ->
  (forall c, c ∈ acc.1 -> c ∈ acc'.1) /\
  (forall c, c ∈ acc.2 -> c ∈ acc'.2) /\
  (forall e x, e ∈ es -> (x < length (Problem.years pp))%nat ->
     exists ex_s ex_e,
       Master.CEq (Master.Var (Master.es_s_rated e x)) ex_s ∈ acc'.1 /\
       Master.CEq (Master.Var (Master.es_e_rated e x)) ex_e ∈ acc'.2 /\
       Master.eval a ex_s ==
         Master.windowed_sum pp (Master.code_window_length pp e)
           (fun y => a (Master.es_s_invesment e y)) x /\
       Master.eval a ex_e ==
         Master.windowed_sum pp (Master.code_window_length pp e)
           (fun y => a (Master.es_e_invesment e y)) x).
Proof.
  revert acc. induction es as [|e0 es IH]; intros acc H; simpl in H.
  - inversion H; subst; clear H. split; [done|]. split; [done|].
    intros e x He. by apply elem_of_nil in He.
  - bind_inv H. destruct (IH a0 H) as (Hm1 & Hm2 & Hall).
    unfold Master.rated_capacity_step in Ha. bind_inv Ha.
    inversion Ha; subst; clear Ha. simpl in Hm1, Hm2.
    split; [intros c Hc; apply Hm1, elem_of_app; by left|].
    split; [intros c Hc; apply Hm2, elem_of_app; by left|].
    intros e x He Hx. apply elem_of_cons in He. destruct He as [->|He].
    + destruct (total_capacity_per_year_eval pp a e0 a1 x Ha0 Hx)
        as (ex_s & ex_e & Hls & Hle & Hvs & Hve).
      exists ex_s, ex_e.
      split; [apply Hm1, elem_of_app; right;
              apply (elem_of_lookup_imap_2
                       (fun y ex => Master.CEq (Master.Var (Master.es_s_rated e0 y)) ex) _ _ _ Hls)|].
      split; [apply Hm2, elem_of_app; right;
              apply (elem_of_lookup_imap_2
                       (fun y ex => Master.CEq (Master.Var (Master.es_e_rated e0 y)) ex) _ _ _ Hle)|].
      by split.
    + by apply Hall.
Qed.

Lemma holdsb_holds (a : Master.var -> Q) (c : Master.constr) :
  Master.holdsb a c = true -> Master.holds a c.
Proof.
  destruct c; simpl; intros H; [by apply Qeq_bool_iff | by apply Qle_bool_iff | by apply Qle_bool_iff].
Qed.

Lemma forallb_holds (a : Master.var -> Q) (l : list Master.constr) :
  forallb (Master.holdsb a) l = true -> Forall (Master.holds a) l.
Proof.
  induction l as [|c l IH]; simpl; intros H; [constructor|].
  apply andb_true_iff in H. destruct H as [Hc Hl].
  constructor; [by apply holdsb_holds | by apply IH].
Qed.

(** C2, as the code has it. In the master problem of
    [_build_master_problem], for every site [e] and year index [x],
    [s_rated[e,x]] is the sum of [s_inv[e,y]] over the years [y] whose
    calendar-life window holds [x], the window of year [y] being the
    [round(t_cal / w_y)] year indices from [y] on ([round] as Python's: to
    the nearest integer, halves to the even one), cut at the end of the
    horizon; and likewise [e_rated] and [e_inv]. *)
Theorem rated_capacity_accounting
    (pp : Problem.planning_problem) (m : Master.model) (a : Master.var -> Q) :
  Master._build_master_problem pp = Ok m ->
  Forall (Master.holds a) (Master.rated_s_capacity m) ->
  Forall (Master.holds a) (Master.rated_e_capacity m) ->
  forall e x,
    (e < length (Problem.active_distribution_network_nodes pp))%nat ->
    (x < length (Problem.years pp))%nat ->
    a (Master.es_s_rated e x) ==
      Master.windowed_sum pp (Master.code_window_length pp e)
        (fun y => a (Master.es_s_invesment e y)) x /\
    a (Master.es_e_rated e x) ==
      Master.windowed_sum pp (Master.code_window_length pp e)
        (fun y => a (Master.es_e_invesment e y)) x.
Proof.
  intros H Hs He e x Hle Hlx. unfold Master._build_master_problem in H.
  bind_inv H. bind_inv H. bind_inv H. inversion H; subst; clear H. simpl in Hs, He.
  destruct (rated_capacity_constraints pp a _ _ _ Ha) as (_ & _ & Hall).
  destruct (Hall e x) as (ex_s & ex_e & Hcs & Hce & Hvs & Hve); [|exact Hlx|].
  { unfold range. apply elem_of_seq. lia. }
  rewrite Forall_forall in Hs, He.
  pose proof (Hs _ Hcs) as H1. pose proof (He _ Hce) as H2. simpl in H1, H2.
  split; [rewrite H1 | rewrite H2]; assumption.
Qed.

(** C2 at the problem with [t_cal = 10] and [w_y = 3]: the unit invested in
    the first year is rated in the years 0, 1 and 2. *)
Lemma rated_capacity_accounting_witness :
  exists m,
    Master._build_master_problem Samples.pp_life = Ok m /\
    Master.code_window_length Samples.pp_life 0 2020 3 = 3%Z /\
    forall x, (x < 5)%nat ->
      Samples.invest_first_year (Master.es_s_rated 0 x) ==
        Master.windowed_sum Samples.pp_life (Master.code_window_length Samples.pp_life 0)
          (fun y => Samples.invest_first_year (Master.es_s_invesment 0 y)) x /\
      Samples.invest_first_year (Master.es_e_rated 0 x) ==
        Master.windowed_sum Samples.pp_life (Master.code_window_length Samples.pp_life 0)
          (fun y => Samples.invest_first_year (Master.es_e_invesment 0 y)) x.
Proof.
  assert (Hm : exists m, Master._build_master_problem Samples.pp_life = Ok m /\
                         forallb (Master.holdsb Samples.invest_first_year) (Master.rated_s_capacity m) = true /\
                         forallb (Master.holdsb Samples.invest_first_year) (Master.rated_e_capacity m) = true).
  { eexists. split; [vm_compute; reflexivity|]. split; vm_compute; reflexivity. }
  destruct Hm as (m & Hm & Hs & He).
  exists m. split; [exact Hm|]. split; [vm_compute; reflexivity|].
  intros x Hx.
  apply (rated_capacity_accounting Samples.pp_life m Samples.invest_first_year Hm
           (forallb_holds _ _ Hs) (forallb_holds _ _ He) 0%nat x); simpl; lia.
Defined.

(** C2 as the specification words it fails: with windows of
    [ceil(t_cal / w_y)] year indices, the unit invested in year 0 of the
    same problem would still be rated in year 3, where the model's
    constraint gives [s_rated[0,3] = s_inv[0,1] + s_inv[0,2] + s_inv[0,3]]. *)
Lemma rated_capacity_ceiling_counterexample :
  ~ (forall m a,
       Master._build_master_problem Samples.pp_life = Ok m ->
       Forall (Master.holds a) (Master.rated_s_capacity m) ->
       Forall (Master.holds a) (Master.rated_e_capacity m) ->
       forall e x,
         (e < length (Problem.active_distribution_network_nodes Samples.pp_life))%nat ->
         (x < length (Problem.years Samples.pp_life))%nat ->
         a (Master.es_s_rated e x) ==
           Master.windowed_sum Samples.pp_life (Master.spec_window_length Samples.pp_life e)
             (fun y => a (Master.es_s_invesment e y)) x /\
         a (Master.es_e_rated e x) ==
           Master.windowed_sum Samples.pp_life (Master.spec_window_length Samples.pp_life e)
             (fun y => a (Master.es_e_invesment e y)) x).
Proof.
  intros Hclaim.
  assert (Hm : exists m, Master._build_master_problem Samples.pp_life = Ok m /\
                         forallb (Master.holdsb Samples.invest_first_year) (Master.rated_s_capacity m) = true /\
                         forallb (Master.holdsb Samples.invest_first_year) (Master.rated_e_capacity m) = true).
  { eexists. split; [vm_compute; reflexivity|]. split; vm_compute; reflexivity. }
  destruct Hm as (m & Hm & Hs & He).
  destruct (Hclaim m Samples.invest_first_year Hm
              (forallb_holds _ _ Hs) (forallb_holds _ _ He) 0%nat 3%nat) as [H _];
    [simpl; lia | simpl; lia |].
  vm_compute in H. discriminate H.
Qed.


(** ** Loops that write a store slot by slot *)

(** What is observed of the state stays when no pass changes it. *)
Lemma for_each_keep {S B V : Type} (obs : S -> V) (l : list B) (body : B -> S -> S) (s : S) :
  (forall b s, b ∈ l -> obs (body b s) = obs s) -> obs (for_each l body s) = obs s.
Proof.
  intros Hkeep.
  apply (for_each_inv (fun s' => obs s' = obs s)); [reflexivity|].
  intros b s' Hb Hs'. rewrite Hkeep by exact Hb. exact Hs'.
Qed.

(** A loop whose passes leave the observed slot or set it to [v], and
    whose pass at [b0] sets it to [v], ends with [v] in the slot. *)
Lemma for_each_set {S B V : Type} (obs : S -> V) (v : V) (l : list B)
    (body : B -> S -> S) (b0 : B) (s : S) :
  b0 ∈ l ->
  (forall b s, b ∈ l -> obs (body b s) = obs s \/ obs (body b s) = v) ->
  (forall s, obs (body b0 s) = v) ->
  obs (for_each l body s) = v.
Proof.
  intros Hin Hstep Hset.
  apply list_elem_of_split in Hin. destruct Hin as (l1 & l2 & ->).
  rewrite for_each_app, for_each_cons.
  apply (for_each_inv (fun s' => obs s' = v)); [apply Hset|].
  intros b s' Hb Hs'.
  destruct (Hstep b s') as [H|H]; [apply elem_of_app; right; by right | | exact H].
  by rewrite H.
Qed.

(** A loop over distinct indices whose pass at [b0] alone changes the
    observed slot, by [g]. *)
Lemma for_each_once {S B V : Type} (obs : S -> V) (g : V -> V) (l : list B)
    (body : B -> S -> S) (b0 : B) (s : S) :
  NoDup l -> b0 ∈ l ->
  (forall b s, b ∈ l -> b <> b0 -> obs (body b s) = obs s) ->
  (forall s, obs (body b0 s) = g (obs s)) ->
  obs (for_each l body s) = g (obs s).
Proof.
  intros Hnd Hin Hkeep Hstep.
  apply list_elem_of_split in Hin. destruct Hin as (l1 & l2 & ->).
  apply NoDup_app in Hnd. destruct Hnd as (_ & Hdisj & Hnd2).
  apply NoDup_cons in Hnd2. destruct Hnd2 as [Hnotin _].
  rewrite for_each_app, for_each_cons.
  rewrite for_each_keep.
  - rewrite Hstep. f_equal. apply for_each_keep.
    intros b s' Hb. apply Hkeep; [apply elem_of_app; by left|].
    intros ->. apply (Hdisj b0 Hb). by left.
  - intros b s' Hb. apply Hkeep; [apply elem_of_app; right; by right|].
    intros ->. by apply Hnotin.
Qed.

Section StoreLoops.

Variable opp : Admm.operational_planning_problem.

Lemma instants_NoDup : NoDup (Admm.instants opp).
Proof. apply NoDup_seq. Qed.

Lemma for_ydp_keep {S V : Type} (obs : S -> V) (body : Z -> string -> nat -> S -> S) (s : S) :
  (forall y d t s, y ∈ Admm.years opp -> d ∈ Admm.days opp -> t ∈ Admm.instants opp ->
                   obs (body y d t s) = obs s) ->
  obs (Admm.for_ydp opp body s) = obs s.
Proof.
  intros H. unfold Admm.for_ydp.
  apply for_each_keep. intros y s1 Hy.
  apply for_each_keep. intros d s2 Hd.
  apply for_each_keep. intros t s3 Ht. by apply H.
Qed.

Lemma for_ydp_set {S V : Type} (obs : S -> V) (v : V) (body : Z -> string -> nat -> S -> S)
    (y0 : Z) (d0 : string) (t0 : nat) (s : S) :
  y0 ∈ Admm.years opp -> d0 ∈ Admm.days opp -> t0 ∈ Admm.instants opp ->
  (forall y d t s, obs (body y d t s) = obs s \/ obs (body y d t s) = v) ->
  (forall s, obs (body y0 d0 t0 s) = v) ->
  obs (Admm.for_ydp opp body s) = v.
Proof.
  intros Hy Hd Ht Hstep Hset. unfold Admm.for_ydp.
  assert (Hinv : forall (l : list nat) d y s',
             obs s' = v -> obs (for_each l (fun t => body y d t) s') = v).
  { intros l d y s' Hs'. apply (for_each_inv (fun s => obs s = v)); [exact Hs'|].
    intros t s1 _ Hs1. destruct (Hstep y d t s1) as [H|H]; [by rewrite H | exact H]. }
  assert (Hinv2 : forall (l : list string) y s',
             obs s' = v ->
             obs (for_each l (fun d => for_each (Admm.instants opp) (fun t => body y d t)) s') = v).
  { intros l y s' Hs'. apply (for_each_inv (fun s => obs s = v)); [exact Hs'|].
    intros d s1 _ Hs1. by apply Hinv. }
  apply list_elem_of_split in Hy. destruct Hy as (ys1 & ys2 & ->).
  rewrite for_each_app, for_each_cons.
  apply (for_each_inv (fun s => obs s = v)); [|intros y s1 _ Hs1; by apply Hinv2].
  apply list_elem_of_split in Hd. destruct Hd as (ds1 & ds2 & ->).
  rewrite for_each_app, for_each_cons. apply Hinv2.
  apply (for_each_set obs v _ _ t0); [exact Ht | intros; apply Hstep | exact Hset].
Qed.

Lemma for_ydp_once {S V : Type} (obs : S -> V) (g : V -> V) (body : Z -> string -> nat -> S -> S)
    (y0 : Z) (d0 : string) (t0 : nat) (s : S) :
  NoDup (Admm.years opp) -> NoDup (Admm.days opp) ->
  y0 ∈ Admm.years opp -> d0 ∈ Admm.days opp -> t0 ∈ Admm.instants opp ->
  (forall y d t s, (y, d, t) <> (y0, d0, t0) -> obs (body y d t s) = obs s) ->
  (forall s, obs (body y0 d0 t0 s) = g (obs s)) ->
  obs (Admm.for_ydp opp body s) = g (obs s).
Proof.
  intros Hndy Hndd Hy Hd Ht Hkeep Hstep. unfold Admm.for_ydp.
  apply (for_each_once obs g _ _ y0); [exact Hndy | exact Hy | |].
  - intros y s1 _ Hne.
    apply for_each_keep. intros d s2 _. apply for_each_keep. intros t s3 _.
    apply Hkeep. congruence.
  - intros s1. apply (for_each_once obs g _ _ d0); [exact Hndd | exact Hd | |].
    + intros d s2 _ Hne. apply for_each_keep. intros t s3 _. apply Hkeep. congruence.
    + intros s2. apply (for_each_once obs g _ _ t0); [apply instants_NoDup | exact Ht | |].
      * intros t s3 _ Hne. apply Hkeep. congruence.
      * exact Hstep.
Qed.

Lemma for_nydp_keep {S V : Type} (obs : S -> V) (body : Z -> Z -> string -> nat -> S -> S) (s : S) :
  (forall n y d t s, n ∈ Admm.nodes opp -> obs (body n y d t s) = obs s) ->
  obs (Admm.for_nydp opp body s) = obs s.
Proof.
  intros H. unfold Admm.for_nydp.
  apply for_each_keep. intros n s1 Hn. apply for_ydp_keep. intros. by apply H.
Qed.

Lemma for_nydp_set {S V : Type} (obs : S -> V) (v : V)
    (body : Z -> Z -> string -> nat -> S -> S)
    (n0 y0 : Z) (d0 : string) (t0 : nat) (s : S) :
  n0 ∈ Admm.nodes opp -> y0 ∈ Admm.years opp -> d0 ∈ Admm.days opp -> t0 ∈ Admm.instants opp ->
  (forall n y d t s, obs (body n y d t s) = obs s \/ obs (body n y d t s) = v) ->
  (forall s, obs (body n0 y0 d0 t0 s) = v) ->
  obs (Admm.for_nydp opp body s) = v.
Proof.
  intros Hn Hy Hd Ht Hstep Hset. unfold Admm.for_nydp.
  apply list_elem_of_split in Hn. destruct Hn as (l1 & l2 & ->).
  rewrite for_each_app, for_each_cons.
  apply (for_each_inv (fun s => obs s = v)).
  - apply (for_ydp_set obs v _ y0 d0 t0); [exact Hy | exact Hd | exact Ht | | exact Hset].
    intros. apply Hstep.
  - intros n s1 _ Hs1. unfold Admm.for_ydp.
    apply (for_each_inv (fun s => obs s = v)); [exact Hs1|]. intros y s2 _ Hs2.
    apply (for_each_inv (fun s => obs s = v)); [exact Hs2|]. intros d s3 _ Hs3.
    apply (for_each_inv (fun s => obs s = v)); [exact Hs3|]. intros t s4 _ Hs4.
    destruct (Hstep n y d t s4) as [H|H]; [by rewrite H | exact H].
Qed.

Lemma for_nydp_once {S V : Type} (obs : S -> V) (g : V -> V)
    (body : Z -> Z -> string -> nat -> S -> S)
    (n0 y0 : Z) (d0 : string) (t0 : nat) (s : S) :
  NoDup (Admm.nodes opp) -> NoDup (Admm.years opp) -> NoDup (Admm.days opp) ->
  n0 ∈ Admm.nodes opp -> y0 ∈ Admm.years opp -> d0 ∈ Admm.days opp -> t0 ∈ Admm.instants opp ->
  (forall n y d t s, (n, y, d, t) <> (n0, y0, d0, t0) -> obs (body n y d t s) = obs s) ->
  (forall s, obs (body n0 y0 d0 t0 s) = g (obs s)) ->
  obs (Admm.for_nydp opp body s) = g (obs s).
Proof.
  intros Hndn Hndy Hndd Hn Hy Hd Ht Hkeep Hstep. unfold Admm.for_nydp.
  apply (for_each_once obs g _ _ n0); [exact Hndn | exact Hn | |].
  - intros n s1 _ Hne. apply for_ydp_keep. intros. apply Hkeep. congruence.
  - intros s1. apply (for_ydp_once obs g _ y0 d0 t0); try assumption.
    intros y d t s2 Hne. apply Hkeep. congruence.
Qed.

End StoreLoops.

(** ** The snapshot of the previous values *)

Lemma copy_slots_same (src dst : gmap Admm.path Q) (n y : Z) (d : string) (t : nat)
    (r : Admm.role) (c : Admm.quantity) :
  Admm.copy_slots src n y d t dst !!! (r, n, y, d, c, t) = src !!! (r, n, y, d, c, t).
Proof.
  unfold Admm.copy_slots. destruct r, c;
    rewrite !lookup_total_insert; repeat case_decide; congruence.
Qed.

Lemma copy_slots_other (src dst : gmap Admm.path Q) (n y : Z) (d : string) (t : nat)
    (r : Admm.role) (n' y' : Z) (d' : string) (c : Admm.quantity) (t' : nat) :
  (n, y, d, t) <> (n', y', d', t') ->
  Admm.copy_slots src n y d t dst !!! (r, n', y', d', c, t') = dst !!! (r, n', y', d', c, t').
Proof.
  intros Hne. unfold Admm.copy_slots.
  rewrite !lookup_total_insert; repeat case_decide; congruence.
Qed.

(** [_update_previous_consensus_variables] leaves in the previous-iteration
    store, at every slot of the index sets, what the consensus store holds
    when it is called. *)
Lemma snapshot_copies (opp : Admm.operational_planning_problem)
    (cv : Admm.consensus_variables) (prev : Admm.consensus_variables_prev_iter)
    (r : Admm.role) (n y : Z) (d : string) (c : Admm.quantity) (t : nat) :
  n ∈ Admm.nodes opp -> y ∈ Admm.years opp -> d ∈ Admm.days opp -> t ∈ Admm.instants opp ->
  Admm.prev_interface_pf (Admm._update_previous_consensus_variables opp cv prev) !!! (r, n, y, d, c, t)
  = Admm.interface_pf cv !!! (r, n, y, d, c, t) /\
  Admm.prev_ess (Admm._update_previous_consensus_variables opp cv prev) !!! (r, n, y, d, c, t)
  = Admm.ess cv !!! (r, n, y, d, c, t).
Proof.
  intros Hn Hy Hd Ht. unfold Admm._update_previous_consensus_variables. split.
  - apply (for_nydp_set opp
             (fun s => Admm.prev_interface_pf s !!! (r, n, y, d, c, t)) _ _ n y d t);
      try assumption.
    + intros n' y' d' t' s. simpl.
      destruct (decide ((n', y', d', t') = (n, y, d, t))) as [Heq|Hne].
      * right. inversion Heq; subst. apply copy_slots_same.
      * left. by apply copy_slots_other.
    + intros s. simpl. apply copy_slots_same.
  - apply (for_nydp_set opp
             (fun s => Admm.prev_ess s !!! (r, n, y, d, c, t)) _ _ n y d t);
      try assumption.
    + intros n' y' d' t' s. simpl.
      destruct (decide ((n', y', d', t') = (n, y, d, t))) as [Heq|Hne].
      * right. inversion Heq; subst. apply copy_slots_same.
      * left. by apply copy_slots_other.
    + intros s. simpl. apply copy_slots_same.
Qed.

(** The snapshot is the first thing [_update_admm_consensus_variables]
    does: the previous-iteration store it leaves holds the values the
    consensus store had before the solved values were pulled. *)
Lemma update_snapshots_before_pull (sqrt : Q -> Q)
    (opp : Admm.operational_planning_problem) (params : Admm.admm_parameters)
    (tso_model : Admm.network_model) (dso_models : Z -> Admm.network_model) (st : Admm.store) :
  Admm.consensus_vars_prev_iter
    (Admm._update_admm_consensus_variables sqrt opp params tso_model dso_models st)
  = Admm._update_previous_consensus_variables opp
      (Admm.consensus_vars st) (Admm.consensus_vars_prev_iter st).
Proof.
  unfold Admm._update_admm_consensus_variables.
  destruct (Admm._update_interface_power_flow_variables _ _ _ _ _ _ _) as [cv dpf].
  destruct (Admm._update_shared_energy_storage_variables _ _ _ _ _ _) as [e dess].
  reflexivity.
Qed.

(** ** The order of the steps in a pass of the ADMM loop *)

Section AdmmPass.

Variable sqrt : Q -> Q.
Variables ADMM_ADAPTIVE_PENALTY_FACTOR ADMM_CONVERGENCE_REL_TOL : Q.
Variable ERROR_PRECISION : Z.
Variable opp : Admm.operational_planning_problem.
Variable params : Admm.admm_parameters.
Variable optimize_tso : Admm.network_model -> bool -> Z -> string -> Admm.solution.
Variable optimize_dso : Z -> Admm.network_model -> bool -> Z -> string -> Admm.solution.
Variable tn_compute_primal_value : Admm.network_model -> Q.
Variable dn_compute_primal_value : Z -> Admm.network_model -> Q.

Let solve_tso_step :=
  Admm.solve_tso_step ADMM_ADAPTIVE_PENALTY_FACTOR opp params optimize_tso.
Let solve_dso_step :=
  Admm.solve_dso_step ADMM_ADAPTIVE_PENALTY_FACTOR opp params optimize_dso.
Let consensus_step :=
  Admm.consensus_step sqrt opp params tn_compute_primal_value dn_compute_primal_value.
Let check_step :=
  Admm.check_step ERROR_PRECISION ADMM_CONVERGENCE_REL_TOL opp params.
Let iteration :=
  Admm.iteration sqrt ADMM_ADAPTIVE_PENALTY_FACTOR ERROR_PRECISION ADMM_CONVERGENCE_REL_TOL
    opp params optimize_tso optimize_dso tn_compute_primal_value dn_compute_primal_value.
Let pass_events := Admm.pass_events opp.
Let snapshot_source :=
  Admm.snapshot_source sqrt ADMM_ADAPTIVE_PENALTY_FACTOR opp params optimize_tso
    tn_compute_primal_value dn_compute_primal_value.

Lemma check_step_Ok (r r' : Admm.run) :
  check_step r = Ok r' ->
  Admm.sto r' = Admm.sto r /\ Admm.trace r' = Admm.trace r ++ [Admm.EvCheck].
Proof.
  unfold check_step, Admm.check_step. intros H. bind_inv H. by inversion H; subst.
Qed.

(** C7, as the code has it. In every pass of the ADMM loop the copy of
    the consensus variables into the previous-iteration store is made after
    each solve step, as the first action of
    [_update_admm_consensus_variables] and before the solved values are
    pulled: once after the transmission solve and, unless the pass stops
    there, once more after the distribution solves.  The stationary test at
    the end of a full pass therefore compares the current values with those
    held after the transmission pull of the same pass. *)
Theorem snapshot_follows_each_solve (iter : nat) (r : Admm.run) (rb : Admm.run * bool) :
  iteration iter r = Ok rb ->
  exists early : bool,
    (early = true -> (1 < iter)%nat /\ rb.2 = true) /\
    Admm.trace rb.1 = Admm.trace r ++ pass_events iter early /\
    forall (ro : Admm.role) (n y : Z) (d : string) (c : Admm.quantity) (t : nat),
      n ∈ Admm.nodes opp -> y ∈ Admm.years opp -> d ∈ Admm.days opp -> t ∈ Admm.instants opp ->
      Admm.prev_interface_pf (Admm.consensus_vars_prev_iter (Admm.sto rb.1)) !!! (ro, n, y, d, c, t)
      = Admm.interface_pf (snapshot_source early r) !!! (ro, n, y, d, c, t) /\
      Admm.prev_ess (Admm.consensus_vars_prev_iter (Admm.sto rb.1)) !!! (ro, n, y, d, c, t)
      = Admm.ess (snapshot_source early r) !!! (ro, n, y, d, c, t).
Proof.
  unfold iteration, Admm.iteration. intros H.
  fold solve_tso_step solve_dso_step consensus_step check_step in H.
  set (r1 := consensus_step (solve_tso_step r)) in *.
  assert (Htr1 : Admm.trace r1 = Admm.trace r
                   ++ [Admm.EvSolveTso; Admm.EvSnapshotPrevious; Admm.EvPull]).
  { unfold r1, consensus_step, solve_tso_step. simpl. by rewrite <- app_assoc. }
  assert (Hsnap : forall ra rb0,
             Admm.sto rb0 = Admm.sto (consensus_step ra) ->
             forall ro n y d c t,
               n ∈ Admm.nodes opp -> y ∈ Admm.years opp -> d ∈ Admm.days opp ->
               t ∈ Admm.instants opp ->
               Admm.prev_interface_pf (Admm.consensus_vars_prev_iter (Admm.sto rb0)) !!! (ro, n, y, d, c, t)
               = Admm.interface_pf (Admm.consensus_vars (Admm.sto ra)) !!! (ro, n, y, d, c, t) /\
               Admm.prev_ess (Admm.consensus_vars_prev_iter (Admm.sto rb0)) !!! (ro, n, y, d, c, t)
               = Admm.ess (Admm.consensus_vars (Admm.sto ra)) !!! (ro, n, y, d, c, t)).
  { intros ra rb0 Hsto ro n y d c t Hn Hy Hd Ht. rewrite Hsto.
    unfold consensus_step, Admm.consensus_step. simpl.
    rewrite update_snapshots_before_pull. by apply snapshot_copies. }
  bind_inv H.
  assert (Ha0 : Admm.sto a = Admm.sto r1 /\
                Admm.trace a = Admm.trace r1 ++ (if (1 <? iter)%nat then [Admm.EvCheck] else [])).
  { destruct (1 <? iter)%nat.
    - by apply check_step_Ok.
    - inversion Ha; subst. by rewrite app_nil_r. }
  destruct Ha0 as [Hsto_a Htr_a].
  destruct ((1 <? iter)%nat && Admm.convergence a) eqn:Eearly.
  - inversion H; subst; clear H. exists true. simpl.
    apply andb_true_iff in Eearly. destruct Eearly as [Hlt _].
    split; [intros _; split; [by apply Nat.ltb_lt | reflexivity]|].
    split.
    + rewrite Htr_a, Htr1. unfold pass_events, Admm.pass_events.
      rewrite Hlt, app_nil_r, <- app_assoc. reflexivity.
    + unfold snapshot_source, Admm.snapshot_source. intros ro n y d c t Hn Hy Hd Ht.
      apply (Hsnap (solve_tso_step r) a); assumption.
  - bind_inv H. apply check_step_Ok in Ha0. destruct Ha0 as [Hsto3 Htr3].
    exists false. split; [discriminate|].
    assert (Hrb : Admm.sto rb.1 = Admm.sto a0 /\ Admm.trace rb.1 = Admm.trace a0).
    { destruct (Admm.convergence a0); by inversion H; subst. }
    destruct Hrb as [Hsto_rb Htr_rb].
    split.
    + rewrite Htr_rb, Htr3. unfold consensus_step, solve_dso_step. simpl.
      rewrite Htr_a, Htr1. unfold pass_events, Admm.pass_events.
      rewrite <- !app_assoc. reflexivity.
    + unfold snapshot_source, Admm.snapshot_source. fold consensus_step solve_tso_step r1.
      intros ro n y d c t Hn Hy Hd Ht.
      replace (Admm.consensus_vars (Admm.sto r1))
        with (Admm.consensus_vars (Admm.sto (solve_dso_step a)))
        by (unfold solve_dso_step; simpl; by rewrite Hsto_a).
      apply (Hsnap (solve_dso_step a) rb.1); try assumption.
      rewrite Hsto_rb, Hsto3. reflexivity.
Qed.

End AdmmPass.

(** C7 at the first pass of the sample coordination: the pass runs both
    steps, with a snapshot after each solve; the transmission copy of the
    active flow is 4 MW when the pass begins, and the previous-iteration
    store ends with the 5 MW pulled after the transmission solve. *)
Lemma snapshot_follows_each_solve_witness :
  Samples.initial_run false = Ok (Samples.run0 false) /\
  Samples.iteration false 0 (Samples.run0 false) = Ok Samples.pass0 /\
  Admm.interface_pf (Admm.consensus_vars (Admm.sto (Samples.run0 false)))
    !!! Samples.slot Admm.tso Admm.p == 4 /\
  Admm.prev_interface_pf (Admm.consensus_vars_prev_iter (Admm.sto Samples.pass0.1))
    !!! Samples.slot Admm.tso Admm.p == 5 /\
  Admm.trace Samples.pass0.1
  = Admm.trace (Samples.run0 false) ++ Admm.pass_events Samples.opp_one 0 false /\
  Admm.pass_events Samples.opp_one 0 false =
    [Admm.EvSolveTso; Admm.EvSnapshotPrevious; Admm.EvPull;
     Admm.EvSolveDso 7; Admm.EvSnapshotPrevious; Admm.EvPull; Admm.EvCheck].
Proof.
  assert (Hrb : Samples.iteration false 0 (Samples.run0 false) = Ok Samples.pass0)
    by (apply is_ok_get; vm_compute; reflexivity).
  split; [apply is_ok_get; vm_compute; reflexivity|].
  split; [exact Hrb|].
  split; [vm_compute; reflexivity|]. split; [vm_compute; reflexivity|].
  apply snapshot_follows_each_solve in Hrb.
  destruct Hrb as (early & Hearly & Htr & _).
  destruct early; [destruct (Hearly eq_refl) as [Hlt _]; inversion Hlt|].
  split; [exact Htr | reflexivity].
Defined.

(** C7 as the specification words it fails at that pass: the snapshot is
    taken twice, the first time after the transmission solve. *)
Lemma snapshot_once_counterexample :
  ~ (forall r rb,
       Samples.initial_run false = Ok r ->
       Samples.iteration false 0 r = Ok rb ->
       Admm.snapshot_once_before_solves (drop (length (Admm.trace r)) (Admm.trace rb.1)) /\
       Admm.prev_interface_pf (Admm.consensus_vars_prev_iter (Admm.sto rb.1))
         !!! Samples.slot Admm.tso Admm.p
       = Admm.interface_pf (Admm.consensus_vars (Admm.sto r))
         !!! Samples.slot Admm.tso Admm.p).
Proof.
  intros Hclaim.
  assert (Hr : Samples.initial_run false = Ok (Samples.run0 false))
    by (apply is_ok_get; vm_compute; reflexivity).
  assert (Hrb : Samples.iteration false 0 (Samples.run0 false) = Ok Samples.pass0)
    by (apply is_ok_get; vm_compute; reflexivity).
  destruct (Hclaim _ _ Hr Hrb) as [[Honce _] _].
  vm_compute in Honce. discriminate Honce.
Qed.

(** ** The updates of the dual variables *)

Lemma add_to_same (k : Admm.path) (x : Q) (m : gmap Admm.path Q) :
  Admm.add_to k x m !!! k = m !!! k + x.
Proof. unfold Admm.add_to. apply lookup_total_insert_eq. Qed.

Lemma add_to_other (k k' : Admm.path) (x : Q) (m : gmap Admm.path Q) :
  k <> k' -> Admm.add_to k x m !!! k' = m !!! k'.
Proof. intros Hne. unfold Admm.add_to. by apply lookup_total_insert_ne. Qed.

Section DualUpdates.

Variable sqrt : Q -> Q.
Variable opp : Admm.operational_planning_problem.
Variable params : Admm.admm_parameters.

Hypothesis nodes_NoDup : NoDup (Admm.nodes opp).
Hypothesis years_NoDup : NoDup (Admm.years opp).
Hypothesis days_NoDup : NoDup (Admm.days opp).

(** No pass of [# Update Lambdas] writes the active-power dual of the
    transmission side. *)
Lemma update_pf_duals_tso_p (pf dual : gmap Admm.path Q)
    (n y : Z) (d : string) (t : nat) :
  Admm.update_pf_duals opp params pf dual !!! (Admm.tso, n, y, d, Admm.p, t)
  = dual !!! (Admm.tso, n, y, d, Admm.p, t).
Proof.
  unfold Admm.update_pf_duals.
  apply (for_nydp_keep opp (fun m : gmap Admm.path Q => m !!! (Admm.tso, n, y, d, Admm.p, t))).
  intros n' y' d' t' m _. rewrite !add_to_other; [reflexivity | congruence..].
Qed.

(** The reactive-power dual of the transmission side gets its increment. *)
Lemma update_pf_duals_tso_q (pf dual : gmap Admm.path Q)
    (n y : Z) (d : string) (t : nat) :
  n ∈ Admm.nodes opp -> y ∈ Admm.years opp -> d ∈ Admm.days opp -> t ∈ Admm.instants opp ->
  Admm.update_pf_duals opp params pf dual !!! (Admm.tso, n, y, d, Admm.q, t)
  = dual !!! (Admm.tso, n, y, d, Admm.q, t)
    + Admm.rho_of_pf params (Admm.tn_name (Admm.tn opp))
      * (pf !!! (Admm.tso, n, y, d, Admm.q, t) - pf !!! (Admm.dso, n, y, d, Admm.q, t)).
Proof.
  intros Hn Hy Hd Ht. unfold Admm.update_pf_duals.
  apply (for_nydp_once opp
           (fun m : gmap Admm.path Q => m !!! (Admm.tso, n, y, d, Admm.q, t))
           (fun v => v + Admm.rho_of_pf params (Admm.tn_name (Admm.tn opp))
                         * (pf !!! (Admm.tso, n, y, d, Admm.q, t)
                            - pf !!! (Admm.dso, n, y, d, Admm.q, t)))
           _ n y d t); try assumption.
  - intros n' y' d' t' m Hne. rewrite !add_to_other; [reflexivity | congruence..].
  - intros m. rewrite !add_to_other by congruence. apply add_to_same.
Qed.

(** The storage writes of one node leave the slots of the other nodes. *)
Lemma reset_lists_other (r r' : Admm.role) (n n' y y' : Z) (d d' : string)
    (c : Admm.quantity) (t : nat) (m : gmap Admm.path Q) :
  n <> n' ->
  Admm.reset_lists opp r n y d m !!! (r', n', y', d', c, t) = m !!! (r', n', y', d', c, t).
Proof.
  intros Hne. unfold Admm.reset_lists.
  rewrite (for_each_keep (fun m : gmap Admm.path Q => m !!! (r', n', y', d', c, t)))
    by (intros t' m' _; apply lookup_total_insert_ne; congruence).
  apply (for_each_keep (fun m : gmap Admm.path Q => m !!! (r', n', y', d', c, t))).
  intros t' m' _. apply lookup_total_insert_ne. congruence.
Qed.

Lemma pull_tso_ess_other (tso_model : Admm.network_model) (r' : Admm.role)
    (n n' y' : Z) (d' : string) (c : Admm.quantity) (t : nat) (m : gmap Admm.path Q) :
  n <> n' ->
  Admm.pull_tso_ess opp tso_model n m !!! (r', n', y', d', c, t) = m !!! (r', n', y', d', c, t).
Proof.
  intros Hne. unfold Admm.pull_tso_ess.
  apply (for_each_keep (fun m : gmap Admm.path Q => m !!! (r', n', y', d', c, t))).
  intros y m1 _.
  apply (for_each_keep (fun m : gmap Admm.path Q => m !!! (r', n', y', d', c, t))).
  intros d m2 _.
  rewrite (for_each_keep (fun m : gmap Admm.path Q => m !!! (r', n', y', d', c, t)))
    by (intros t' m' _; rewrite !lookup_total_insert_ne by congruence; reflexivity).
  by apply reset_lists_other.
Qed.

Lemma pull_dso_ess_other (dso_model : Admm.network_model) (r' : Admm.role)
    (n n' y' : Z) (d' : string) (c : Admm.quantity) (t : nat) (m : gmap Admm.path Q) :
  n <> n' ->
  Admm.pull_dso_ess opp dso_model n m !!! (r', n', y', d', c, t) = m !!! (r', n', y', d', c, t).
Proof.
  intros Hne. unfold Admm.pull_dso_ess.
  apply (for_each_keep (fun m : gmap Admm.path Q => m !!! (r', n', y', d', c, t))).
  intros y m1 _.
  apply (for_each_keep (fun m : gmap Admm.path Q => m !!! (r', n', y', d', c, t))).
  intros d m2 _.
  rewrite (for_each_keep (fun m : gmap Admm.path Q => m !!! (r', n', y', d', c, t)))
    by (intros t' m' _; rewrite !lookup_total_insert_ne by congruence; reflexivity).
  by apply reset_lists_other.
Qed.

Lemma update_ess_duals_other (e dual : gmap Admm.path Q) (r' : Admm.role)
    (n n' y' : Z) (d' : string) (c : Admm.quantity) (t : nat) :
  n <> n' ->
  Admm.update_ess_duals opp params n e dual !!! (r', n', y', d', c, t)
  = dual !!! (r', n', y', d', c, t).
Proof.
  intros Hne. unfold Admm.update_ess_duals.
  apply (for_ydp_keep opp (fun m : gmap Admm.path Q => m !!! (r', n', y', d', c, t))).
  intros y d t' m _ _ _. rewrite !add_to_other; [reflexivity | congruence..].
Qed.

(** Both storage duals of the transmission side get their increment. *)
Lemma update_ess_duals_tso (e dual : gmap Admm.path Q)
    (n y : Z) (d : string) (c : Admm.quantity) (t : nat) :
  y ∈ Admm.years opp -> d ∈ Admm.days opp -> t ∈ Admm.instants opp ->
  Admm.update_ess_duals opp params n e dual !!! (Admm.tso, n, y, d, c, t)
  = dual !!! (Admm.tso, n, y, d, c, t)
    + Admm.rho_of_ess params (Admm.tn_name (Admm.tn opp))
      * (e !!! (Admm.tso, n, y, d, c, t) - e !!! (Admm.dso, n, y, d, c, t)).
Proof.
  intros Hy Hd Ht. unfold Admm.update_ess_duals.
  apply (for_ydp_once opp
           (fun m : gmap Admm.path Q => m !!! (Admm.tso, n, y, d, c, t))
           (fun v => v + Admm.rho_of_ess params (Admm.tn_name (Admm.tn opp))
                         * (e !!! (Admm.tso, n, y, d, c, t) - e !!! (Admm.dso, n, y, d, c, t)))
           _ y d t); try assumption.
  - intros y' d' t' m Hne. rewrite !add_to_other; [reflexivity | congruence..].
  - intros m. destruct c.
    + rewrite !(add_to_other (Admm.dso, _, _, _, _, _)) by congruence.
      rewrite (add_to_other (Admm.tso, n, y, d, Admm.q, t)) by congruence.
      apply add_to_same.
    + rewrite !(add_to_other (Admm.dso, _, _, _, _, _)) by congruence.
      rewrite add_to_same. rewrite add_to_other by congruence. reflexivity.
Qed.

(** The pass of another node leaves the storage slots and duals of [n']. *)
Lemma update_ess_node_other (tso_model : Admm.network_model)
    (dso_models : Z -> Admm.network_model) (st : gmap Admm.path Q * gmap Admm.path Q)
    (r' : Admm.role) (n n' y' : Z) (d' : string) (c : Admm.quantity) (t : nat) :
  n <> n' ->
  (Admm.update_ess_node opp params tso_model dso_models n st).1 !!! (r', n', y', d', c, t)
  = st.1 !!! (r', n', y', d', c, t) /\
  (Admm.update_ess_node opp params tso_model dso_models n st).2 !!! (r', n', y', d', c, t)
  = st.2 !!! (r', n', y', d', c, t).
Proof.
  intros Hne. unfold Admm.update_ess_node. simpl. split.
  - rewrite pull_dso_ess_other by exact Hne. by apply pull_tso_ess_other.
  - by apply update_ess_duals_other.
Qed.

(** After [_update_shared_energy_storage_variables], both storage duals of
    the transmission side have grown by [rho] times the new residual. *)
Lemma update_ess_tso (tso_model : Admm.network_model) (dso_models : Z -> Admm.network_model)
    (e dual : gmap Admm.path Q) (n y : Z) (d : string) (c : Admm.quantity) (t : nat) :
  n ∈ Admm.nodes opp -> y ∈ Admm.years opp -> d ∈ Admm.days opp -> t ∈ Admm.instants opp ->
  (Admm._update_shared_energy_storage_variables opp params tso_model dso_models e dual).2
    !!! (Admm.tso, n, y, d, c, t)
  = dual !!! (Admm.tso, n, y, d, c, t)
    + Admm.rho_of_ess params (Admm.tn_name (Admm.tn opp))
      * ((Admm._update_shared_energy_storage_variables opp params tso_model dso_models e dual).1
           !!! (Admm.tso, n, y, d, c, t)
         - (Admm._update_shared_energy_storage_variables opp params tso_model dso_models e dual).1
           !!! (Admm.dso, n, y, d, c, t)).
Proof.
  intros Hn Hy Hd Ht. unfold Admm._update_shared_energy_storage_variables.
  pose proof nodes_NoDup as Hnd.
  apply list_elem_of_split in Hn. destruct Hn as (l1 & l2 & Hsplit).
  rewrite Hsplit in Hnd |- *.
  apply NoDup_app in Hnd. destruct Hnd as (_ & Hdisj & Hnd2).
  apply NoDup_cons in Hnd2. destruct Hnd2 as [Hnotin _].
  rewrite !for_each_app, !for_each_cons.
  set (s1 := for_each l1 (Admm.update_ess_node opp params tso_model dso_models) (e, dual)).
  set (s2 := Admm.update_ess_node opp params tso_model dso_models n s1).
  assert (Hafter : forall r',
             (for_each l2 (Admm.update_ess_node opp params tso_model dso_models) s2).1
               !!! (r', n, y, d, c, t) = s2.1 !!! (r', n, y, d, c, t) /\
             (for_each l2 (Admm.update_ess_node opp params tso_model dso_models) s2).2
               !!! (r', n, y, d, c, t) = s2.2 !!! (r', n, y, d, c, t)).
  { intros r'.
    apply (for_each_inv
             (fun s => s.1 !!! (r', n, y, d, c, t) = s2.1 !!! (r', n, y, d, c, t) /\
                       s.2 !!! (r', n, y, d, c, t) = s2.2 !!! (r', n, y, d, c, t))); [done|].
    intros n' s Hn' [H1 H2].
    destruct (update_ess_node_other tso_model dso_models s r' n' n y d c t) as [H3 H4];
      [intros ->; by apply Hnotin|].
    rewrite H3, H4. by split. }
  assert (Hbefore : s1.2 !!! (Admm.tso, n, y, d, c, t) = dual !!! (Admm.tso, n, y, d, c, t)).
  { unfold s1.
    apply (for_each_inv
             (fun s => s.2 !!! (Admm.tso, n, y, d, c, t) = dual !!! (Admm.tso, n, y, d, c, t)));
      [done|].
    intros n' s Hn' H.
    destruct (update_ess_node_other tso_model dso_models s Admm.tso n' n y d c t) as [_ H4];
      [intros ->; apply (Hdisj n Hn'); by left|].
    by rewrite H4. }
  destruct (Hafter Admm.tso) as [Ht1 Ht2]. destruct (Hafter Admm.dso) as [Hd1 _].
  rewrite Ht1, Ht2, Hd1, <- Hbefore.
  unfold s2, Admm.update_ess_node. simpl.
  by apply update_ess_duals_tso.
Qed.

End DualUpdates.

(** The parts of the store after [_update_admm_consensus_variables]. *)
Lemma update_admm_fields (sqrt : Q -> Q)
    (opp : Admm.operational_planning_problem) (params : Admm.admm_parameters)
    (tso_model : Admm.network_model) (dso_models : Z -> Admm.network_model) (st : Admm.store) :
  let st' := Admm._update_admm_consensus_variables sqrt opp params tso_model dso_models st in
  let cv2 := Admm.pull_dso_interface opp dso_models
               (Admm.pull_tso_interface sqrt opp tso_model (Admm.consensus_vars st)) in
  let ed := Admm._update_shared_energy_storage_variables opp params tso_model dso_models
              (Admm.ess cv2) (Admm.dual_ess (Admm.dual_vars st)) in
  Admm.interface_pf (Admm.consensus_vars st') = Admm.interface_pf cv2 /\
  Admm.dual_pf (Admm.dual_vars st')
  = Admm.update_pf_duals opp params (Admm.interface_pf cv2) (Admm.dual_pf (Admm.dual_vars st)) /\
  Admm.ess (Admm.consensus_vars st') = ed.1 /\
  Admm.dual_ess (Admm.dual_vars st') = ed.2.
Proof.
  intros st' cv2 ed. unfold st', Admm._update_admm_consensus_variables,
    Admm._update_interface_power_flow_variables.
  fold cv2. fold ed. destruct ed as [e dess]. simpl. done.
Qed.

(** C1 (what the code does). After [_update_admm_consensus_variables],
    which the loop runs after the TSO solve, the TSO's duals of every
    (node, year, day, instant) are as follows: [lambda_pf.tso.q] has grown
    by [rho_pf_tso * (q_pf.tso - q_pf.dso)] and both shared-ESS duals by
    [rho_ess_tso] times their residuals, but [lambda_pf.tso.p] is left as
    it was: its increment [rho_pf_tso * (p_pf.tso - p_pf.dso)] is never
    added. *)
Theorem tso_duals_after_update (sqrt : Q -> Q)
    (opp : Admm.operational_planning_problem) (params : Admm.admm_parameters)
    (tso_model : Admm.network_model) (dso_models : Z -> Admm.network_model) (st : Admm.store)
    (n y : Z) (d : string) (t : nat) :
  NoDup (Admm.nodes opp) -> NoDup (Admm.years opp) -> NoDup (Admm.days opp) ->
  n ∈ Admm.nodes opp -> y ∈ Admm.years opp -> d ∈ Admm.days opp -> t ∈ Admm.instants opp ->
  let st' := Admm._update_admm_consensus_variables sqrt opp params tso_model dso_models st in
  let pf := Admm.interface_pf (Admm.consensus_vars st') in
  let ess := Admm.ess (Admm.consensus_vars st') in
  let rho_pf_tso := Admm.rho_of_pf params (Admm.tn_name (Admm.tn opp)) in
  let rho_ess_tso := Admm.rho_of_ess params (Admm.tn_name (Admm.tn opp)) in
  Admm.dual_pf (Admm.dual_vars st') !!! (Admm.tso, n, y, d, Admm.q, t)
  = Admm.dual_pf (Admm.dual_vars st) !!! (Admm.tso, n, y, d, Admm.q, t)
    + rho_pf_tso * (pf !!! (Admm.tso, n, y, d, Admm.q, t) - pf !!! (Admm.dso, n, y, d, Admm.q, t)) /\
  Admm.dual_pf (Admm.dual_vars st') !!! (Admm.tso, n, y, d, Admm.p, t)
  = Admm.dual_pf (Admm.dual_vars st) !!! (Admm.tso, n, y, d, Admm.p, t) /\
  forall c,
    Admm.dual_ess (Admm.dual_vars st') !!! (Admm.tso, n, y, d, c, t)
    = Admm.dual_ess (Admm.dual_vars st) !!! (Admm.tso, n, y, d, c, t)
      + rho_ess_tso * (ess !!! (Admm.tso, n, y, d, c, t) - ess !!! (Admm.dso, n, y, d, c, t)).
Proof.
  intros Hndn Hndy Hndd Hn Hy Hd Ht st' pf ess rho_pf_tso rho_ess_tso.
  destruct (update_admm_fields sqrt opp params tso_model dso_models st)
    as (Hpf & Hdpf & Hess & Hdess).
  fold st' in Hpf, Hdpf, Hess, Hdess.
  unfold pf, ess. rewrite Hpf, Hdpf, Hess, Hdess.
  split; [by apply update_pf_duals_tso_q|].
  split; [apply update_pf_duals_tso_p|].
  intros c. by apply update_ess_tso.
Qed.

(** C1 at the sample coordination, after the first transmission solve: the
    transmission side holds 5 MW against 3 MW of the distribution side and
    [rho_pf] is 1, so the claimed increment of [lambda_pf.tso.p] is 2; the
    dual stays 0, while [lambda_pf.tso.q] takes its increment 1 and
    [lambda_pf.dso.p] its increment -2. *)
Lemma tso_duals_after_update_witness :
  Samples.initial_run false = Ok (Samples.run0 false) /\
  let st := Admm.sto (Samples.after_tso_solve (Samples.run0 false)) in
  let st' := Samples.after_tso_update (Samples.run0 false) in
  Admm.interface_pf (Admm.consensus_vars st') !!! Samples.slot Admm.tso Admm.p == 5 /\
  Admm.interface_pf (Admm.consensus_vars st') !!! Samples.slot Admm.dso Admm.p == 3 /\
  Admm.rho_of_pf (Samples.admm_params false) (Admm.tn_name Samples.tn_one) == 1 /\
  Admm.dual_pf (Admm.dual_vars st) !!! Samples.slot Admm.tso Admm.p == 0 /\
  Admm.dual_pf (Admm.dual_vars st') !!! Samples.slot Admm.tso Admm.p == 0 /\
  Admm.dual_pf (Admm.dual_vars st') !!! Samples.slot Admm.tso Admm.q == 1 /\
  Admm.dual_pf (Admm.dual_vars st') !!! Samples.slot Admm.dso Admm.p == -2 /\
  Admm.dual_pf (Admm.dual_vars st') !!! Samples.slot Admm.tso Admm.p
  = Admm.dual_pf (Admm.dual_vars st) !!! Samples.slot Admm.tso Admm.p.
Proof.
  split; [apply is_ok_get; vm_compute; reflexivity|]. cbv zeta.
  do 7 (split; [vm_compute; reflexivity|]).
  assert (Hnd : NoDup (Admm.nodes Samples.opp_one) /\ NoDup (Admm.years Samples.opp_one) /\
                NoDup (Admm.days Samples.opp_one))
    by (repeat split; apply NoDup_singleton).
  assert (Hin : 7%Z ∈ Admm.nodes Samples.opp_one /\ 2020%Z ∈ Admm.years Samples.opp_one /\
                "d1"%string ∈ Admm.days Samples.opp_one /\ 0%nat ∈ Admm.instants Samples.opp_one)
    by (repeat split; apply list_elem_of_here).
  destruct Hnd as (Hn & Hy & Hd). destruct Hin as (Hin1 & Hin2 & Hin3 & Hin4).
  exact (proj1 (proj2 (tso_duals_after_update
                         Samples.sqrt_at_one Samples.opp_one (Samples.admm_params false)
                         (Admm.tso_model (Samples.after_tso_solve (Samples.run0 false)))
                         (Admm.dso_models (Samples.after_tso_solve (Samples.run0 false)))
                         (Admm.sto (Samples.after_tso_solve (Samples.run0 false)))
                         7%Z 2020%Z "d1"%string 0%nat Hn Hy Hd Hin1 Hin2 Hin3 Hin4))).
Defined.

(** ** The penalties of the models *)

Lemma for_yd_once {S V : Type} (opp : Admm.operational_planning_problem)
    (obs : S -> V) (g : V -> V) (body : Z -> string -> S -> S)
    (y0 : Z) (d0 : string) (s : S) :
  NoDup (Admm.years opp) -> NoDup (Admm.days opp) ->
  y0 ∈ Admm.years opp -> d0 ∈ Admm.days opp ->
  (forall y d s, (y, d) <> (y0, d0) -> obs (body y d s) = obs s) ->
  (forall s, obs (body y0 d0 s) = g (obs s)) ->
  obs (Admm.for_yd opp body s) = g (obs s).
Proof.
  intros Hndy Hndd Hy Hd Hkeep Hstep. unfold Admm.for_yd.
  apply (for_each_once obs g _ _ y0); [exact Hndy | exact Hy | |].
  - intros y s1 _ Hne. apply for_each_keep. intros d s2 _. apply Hkeep. congruence.
  - intros s1. apply (for_each_once obs g _ _ d0); [exact Hndd | exact Hd | |].
    + intros d s2 _ Hne. apply Hkeep. congruence.
    + exact Hstep.
Qed.

Lemma set_block_same (m : Admm.network_model) (y : Z) (d : string) (b : Admm.block) :
  Admm.set_block m y d b y d = b.
Proof. unfold Admm.set_block. by rewrite decide_True. Qed.

Lemma set_block_other (m : Admm.network_model) (y y' : Z) (d d' : string) (b : Admm.block) :
  (y, d) <> (y', d') -> Admm.set_block m y d b y' d' = m y' d'.
Proof. intros Hne. unfold Admm.set_block. rewrite decide_False; [reflexivity | congruence]. Qed.

Section Penalties.

Variable ADMM_ADAPTIVE_PENALTY_FACTOR : Q.
Variable opp : Admm.operational_planning_problem.
Variable params : Admm.admm_parameters.

Lemma for_each_same_rho {B : Type} (l : list B) (body : B -> Admm.values -> Admm.values)
    (v : Admm.values) :
  (forall b v, same_rho v (body b v)) -> same_rho v (for_each l body v).
Proof.
  intros Hbody. apply (for_each_inv (same_rho v)); [by split|].
  intros b v' _ [H1 H2]. destruct (Hbody b v') as [H3 H4]. split; congruence.
Qed.

Lemma prepare_tso_block_rho (pf_req dual_pf ess_req dual_ess : gmap Admm.path Q)
    (year : Z) (day : string) (v : Admm.values) :
  same_rho (Admm.update_rho ADMM_ADAPTIVE_PENALTY_FACTOR params (Admm.tn_name (Admm.tn opp)) v)
    (Admm.prepare_tso_block ADMM_ADAPTIVE_PENALTY_FACTOR opp params
       pf_req dual_pf ess_req dual_ess year day v).
Proof.
  unfold Admm.prepare_tso_block. apply for_each_same_rho. intros dn_node v1.
  destruct (for_each_same_rho (Admm.periods opp)
              (fun t => Admm.fix_pf dn_node.1 t
                          (dual_pf !!! (Admm.tso, dn_node.2, year, day, Admm.p, t) / Admm.tn_baseMVA (Admm.tn opp) year day)
                          (dual_pf !!! (Admm.tso, dn_node.2, year, day, Admm.q, t) / Admm.tn_baseMVA (Admm.tn opp) year day)
                          (pf_req !!! (Admm.dso, dn_node.2, year, day, Admm.p, t) / Admm.tn_baseMVA (Admm.tn opp) year day)
                          (pf_req !!! (Admm.dso, dn_node.2, year, day, Admm.q, t) / Admm.tn_baseMVA (Admm.tn opp) year day))
              v1) as [H1 H2]; [by split|].
  match goal with
  | |- same_rho _ (for_each _ ?body ?v0) =>
      destruct (for_each_same_rho (Admm.periods opp) body v0) as [H3 H4]; [by split|]
  end.
  split; congruence.
Qed.

Lemma prepare_dso_block_rho (node_id : Z) (interface_vmag : gmap Admm.vpath Q)
    (pf_req dual_pf ess_req dual_ess : gmap Admm.path Q)
    (year : Z) (day : string) (v : Admm.values) :
  same_rho (Admm.update_rho ADMM_ADAPTIVE_PENALTY_FACTOR params
              (Admm.dn_name (Admm.dns opp node_id)) v)
    (Admm.prepare_dso_block ADMM_ADAPTIVE_PENALTY_FACTOR opp params node_id interface_vmag
       pf_req dual_pf ess_req dual_ess year day v).
Proof.
  unfold Admm.prepare_dso_block.
  repeat match goal with
  | |- same_rho ?v (for_each ?l ?body ?v0) =>
      let H1 := fresh "H" in let H2 := fresh "H" in
      destruct (for_each_same_rho l body v0) as [H1 H2]; [by split|];
      cut (same_rho v v0); [intros [? ?]; split; congruence|]
  end.
  by split.
Qed.

(** With [adaptive_penalty], both penalties fixed for the next solve are
    the model's current [rho_pf] times [1 + ADMM_ADAPTIVE_PENALTY_FACTOR]. *)
Lemma update_rho_adaptive (name : string) (v : Admm.values) :
  Admm.adaptive_penalty params = true ->
  Admm.rho_pf (Admm.update_rho ADMM_ADAPTIVE_PENALTY_FACTOR params name v)
  = Admm.rho_pf v * (1 + ADMM_ADAPTIVE_PENALTY_FACTOR) /\
  Admm.rho_ess (Admm.update_rho ADMM_ADAPTIVE_PENALTY_FACTOR params name v)
  = Admm.rho_pf v * (1 + ADMM_ADAPTIVE_PENALTY_FACTOR).
Proof.
  intros Had. unfold Admm.update_rho, Admm.next_rho. rewrite Had. by split.
Qed.

End Penalties.

(** C5 (what the code does). With [adaptive_penalty], every update before
    a solve multiplies [rho_pf] of each model (of the TSO and of each DSO)
    by [1 + ADMM_ADAPTIVE_PENALTY_FACTOR], and sets [rho_ess] to that same
    product: [rho_ess] is derived from the model's [rho_pf], not from its
    own previous value. *)
Theorem adaptive_penalties_from_rho_pf
    (ADMM_ADAPTIVE_PENALTY_FACTOR : Q)
    (opp : Admm.operational_planning_problem) (params : Admm.admm_parameters)
    (optimize_tso : Admm.network_model -> bool -> Z -> string -> Admm.solution)
    (optimize_dso : Z -> Admm.network_model -> bool -> Z -> string -> Admm.solution)
    (model : Admm.network_model) (models : Z -> Admm.network_model)
    (st : Admm.store) (from_warm_start : bool) (n y : Z) (d : string) :
  Admm.adaptive_penalty params = true ->
  NoDup (Admm.nodes opp) -> NoDup (Admm.years opp) -> NoDup (Admm.days opp) ->
  n ∈ Admm.nodes opp -> y ∈ Admm.years opp -> d ∈ Admm.days opp ->
  let tso' := Admm.update_transmission_coordination_model_and_solve
                ADMM_ADAPTIVE_PENALTY_FACTOR opp params optimize_tso model st from_warm_start in
  let dso' := Admm.update_distribution_coordination_models_and_solve
                ADMM_ADAPTIVE_PENALTY_FACTOR opp params optimize_dso models st from_warm_start in
  (Admm.rho_pf (Admm.vals (tso' y d))
   = Admm.rho_pf (Admm.vals (model y d)) * (1 + ADMM_ADAPTIVE_PENALTY_FACTOR) /\
   Admm.rho_ess (Admm.vals (tso' y d))
   = Admm.rho_pf (Admm.vals (model y d)) * (1 + ADMM_ADAPTIVE_PENALTY_FACTOR)) /\
  (Admm.rho_pf (Admm.vals (dso' n y d))
   = Admm.rho_pf (Admm.vals (models n y d)) * (1 + ADMM_ADAPTIVE_PENALTY_FACTOR) /\
   Admm.rho_ess (Admm.vals (dso' n y d))
   = Admm.rho_pf (Admm.vals (models n y d)) * (1 + ADMM_ADAPTIVE_PENALTY_FACTOR)).
Proof.
  intros Had Hndn Hndy Hndd Hn Hy Hd tso' dso'. split.
  - unfold tso', Admm.update_transmission_coordination_model_and_solve, Admm.solved.
    match goal with
    | |- context [Admm.for_yd opp ?body model] =>
        rewrite (for_yd_once opp (fun m : Admm.network_model => m y d)
                   (Admm.on_vals (Admm.prepare_tso_block ADMM_ADAPTIVE_PENALTY_FACTOR opp params
                                    (Admm.interface_pf (Admm.consensus_vars st))
                                    (Admm.dual_pf (Admm.dual_vars st))
                                    (Admm.ess (Admm.consensus_vars st))
                                    (Admm.dual_ess (Admm.dual_vars st)) y d))
                   body y d model Hndy Hndd Hy Hd)
    end.
    + simpl.
      destruct (prepare_tso_block_rho ADMM_ADAPTIVE_PENALTY_FACTOR opp params
                  (Admm.interface_pf (Admm.consensus_vars st)) (Admm.dual_pf (Admm.dual_vars st))
                  (Admm.ess (Admm.consensus_vars st)) (Admm.dual_ess (Admm.dual_vars st))
                  y d (Admm.vals (model y d))) as [H1 H2].
      destruct (update_rho_adaptive ADMM_ADAPTIVE_PENALTY_FACTOR params
                  (Admm.tn_name (Admm.tn opp)) (Admm.vals (model y d)) Had) as [H3 H4].
      split; congruence.
    + intros y' d' m Hne. by apply set_block_other.
    + intros m. apply set_block_same.
  - unfold dso', Admm.update_distribution_coordination_models_and_solve.
    rewrite (for_each_once (fun ms : Z -> Admm.network_model => ms n)
               (fun m => (Admm.update_and_solve_dso ADMM_ADAPTIVE_PENALTY_FACTOR opp params
                            optimize_dso st from_warm_start n (fun _ => m)) n)
               _ _ n models Hndn Hn).
    + unfold Admm.update_and_solve_dso. rewrite decide_True by reflexivity.
      unfold Admm.solved.
      match goal with
      | |- context [Admm.for_yd opp ?body (models n)] =>
          rewrite (for_yd_once opp (fun m : Admm.network_model => m y d)
                     (Admm.on_vals (Admm.prepare_dso_block ADMM_ADAPTIVE_PENALTY_FACTOR opp params n
                                      (Admm.interface_v (Admm.consensus_vars st))
                                      (Admm.interface_pf (Admm.consensus_vars st))
                                      (Admm.dual_pf (Admm.dual_vars st))
                                      (Admm.ess (Admm.consensus_vars st))
                                      (Admm.dual_ess (Admm.dual_vars st)) y d))
                     body y d (models n) Hndy Hndd Hy Hd)
      end.
      * simpl.
        destruct (prepare_dso_block_rho ADMM_ADAPTIVE_PENALTY_FACTOR opp params n
                    (Admm.interface_v (Admm.consensus_vars st))
                    (Admm.interface_pf (Admm.consensus_vars st)) (Admm.dual_pf (Admm.dual_vars st))
                    (Admm.ess (Admm.consensus_vars st)) (Admm.dual_ess (Admm.dual_vars st))
                    y d (Admm.vals (models n y d))) as [H1 H2].
        destruct (update_rho_adaptive ADMM_ADAPTIVE_PENALTY_FACTOR params
                    (Admm.dn_name (Admm.dns opp n)) (Admm.vals (models n y d)) Had) as [H3 H4].
        split; congruence.
      * intros y' d' m Hne. by apply set_block_other.
      * intros m. apply set_block_same.
    + intros n' ms _ Hne. unfold Admm.update_and_solve_dso.
      rewrite decide_False; [reflexivity | congruence].
    + intros ms. unfold Admm.update_and_solve_dso. rewrite !decide_True by reflexivity.
      reflexivity.
Qed.

(** C5 at the sample coordination with [rho_pf = 1], [rho_ess = 10] and
    the factor 0.1: the first update makes [rho_pf] 1.1, and [rho_ess] 1.1
    as well, where the claim has it grow to 11. *)
Lemma adaptive_penalties_from_rho_pf_witness :
  Samples.initial_run true = Ok (Samples.run0 true) /\
  let r := Samples.run0 true in
  Admm.rho_pf (Admm.vals (Admm.tso_model r 2020%Z "d1"%string)) == 1 /\
  Admm.rho_ess (Admm.vals (Admm.tso_model r 2020%Z "d1"%string)) == 10 /\
  Admm.rho_pf (Admm.vals (Samples.tso_after_adaptive r 2020%Z "d1"%string)) == 11 # 10 /\
  Admm.rho_ess (Admm.vals (Samples.tso_after_adaptive r 2020%Z "d1"%string)) == 11 # 10 /\
  Admm.rho_ess (Admm.vals (Samples.dso_after_adaptive r 7%Z 2020%Z "d1"%string)) == 11 # 10 /\
  Admm.rho_ess (Admm.vals (Samples.tso_after_adaptive r 2020%Z "d1"%string))
  = Admm.rho_pf (Admm.vals (Admm.tso_model r 2020%Z "d1"%string))
    * (1 + Samples.ADMM_ADAPTIVE_PENALTY_FACTOR).
Proof.
  split; [apply is_ok_get; vm_compute; reflexivity|]. cbv zeta.
  do 5 (split; [vm_compute; reflexivity|]).
  assert (Hnd : NoDup (Admm.nodes Samples.opp_one) /\ NoDup (Admm.years Samples.opp_one) /\
                NoDup (Admm.days Samples.opp_one))
    by (repeat split; apply NoDup_singleton).
  assert (Hin : 7%Z ∈ Admm.nodes Samples.opp_one /\ 2020%Z ∈ Admm.years Samples.opp_one /\
                "d1"%string ∈ Admm.days Samples.opp_one)
    by (repeat split; apply list_elem_of_here).
  destruct Hnd as (Hn & Hy & Hd). destruct Hin as (Hin1 & Hin2 & Hin3).
  exact (proj2 (proj1 (adaptive_penalties_from_rho_pf
                         Samples.ADMM_ADAPTIVE_PENALTY_FACTOR
                         Samples.opp_one (Samples.admm_params true)
                         Samples.optimize_tso Samples.optimize_dso
                         (Admm.tso_model (Samples.run0 true)) (Admm.dso_models (Samples.run0 true))
                         (Admm.sto (Samples.run0 true)) false 7%Z 2020%Z "d1"%string
                         eq_refl Hn Hy Hd Hin1 Hin2 Hin3))).
Defined.


(* ===================================================================== *)
(** * Further properties of the code *)
(* ===================================================================== *)

(** ** network_parameters.py: errors and the flags that are kept *)

Section ReaderFacts.

Variable SolverParameters : Type.
Variable read_solver_parameters :
  SolverParameters -> NetworkParameters.jvalue -> option SolverParameters.
Variable parameters0 : NetworkParameters.parameters SolverParameters.

Let read := NetworkParameters._read_network_parameters_from_file
              SolverParameters read_solver_parameters parameters0.

Lemma get_Ok (params_data : gmap string NetworkParameters.jvalue) (k : string)
    (v : NetworkParameters.jvalue) :
  NetworkParameters.get params_data k = Ok v <-> params_data !! k = Some v.
Proof.
  unfold NetworkParameters.get. destruct (params_data !! k); split; intros H;
    by inversion H.
Qed.

(** An [obj_type] other than ['COST'] and ['CONGESTION_MANAGEMENT'] makes
    the reader exit with [ERROR_PARAMS_FILE], whatever else the file holds:
    no other key is read before. *)
Theorem unknown_objective_exits (params_data : gmap string NetworkParameters.jvalue)
    (o : NetworkParameters.jvalue) :
  params_data !! "obj_type"%string = Some o ->
  NetworkParameters.valid_objective o = false ->
  read params_data = Err ExitParamsFile.
Proof.
  intros Ho Hv. unfold read, NetworkParameters._read_network_parameters_from_file.
  apply get_Ok in Ho. rewrite Ho. simpl.
  unfold NetworkParameters.valid_objective in Hv. apply orb_false_iff in Hv.
  destruct Hv as [-> ->]. reflexivity.
Qed.

(** When the reader returns and [relaxed_model] is not true, [ess_relax]
    and [fl_relax] are the values of the file. *)
Theorem relaxations_kept_without_relaxed_model
    (params_data : gmap string NetworkParameters.jvalue)
    (parameters1 : NetworkParameters.parameters SolverParameters) :
  read params_data = Ok parameters1 ->
  NetworkParameters.truthy (NetworkParameters.relaxed_model parameters1) = false ->
  params_data !! "ess_relax"%string = Some (NetworkParameters.ess_relax parameters1) /\
  params_data !! "fl_relax"%string = Some (NetworkParameters.fl_relax parameters1).
Proof.
  unfold read, NetworkParameters._read_network_parameters_from_file. intros H.
  repeat bind_inv H. inversion H; subst; clear H. simpl. intros ->.
  repeat match goal with
  | Hget : NetworkParameters.get _ _ = Ok _ |- _ => apply get_Ok in Hget
  end.
  by split.
Qed.

(** The reader returns exactly when [obj_type] is one of the two known
    strings, the fourteen flags are all in the file, and [solver] is there
    and is accepted by the reader of the solver parameters. *)
Theorem reader_returns_iff (params_data : gmap string NetworkParameters.jvalue) :
  (exists parameters1, read params_data = Ok parameters1) <->
  (exists o, params_data !! "obj_type"%string = Some o /\
             NetworkParameters.valid_objective o = true) /\
  Forall (fun k => is_Some (params_data !! k)) NetworkParameters.flag_keys /\
  (exists v sp, params_data !! "solver"%string = Some v /\
                read_solver_parameters (NetworkParameters.solver_params parameters0) v = Some sp).
Proof.
  unfold read, NetworkParameters._read_network_parameters_from_file. split.
  - intros [p1 H]. repeat bind_inv H.
    repeat match goal with
    | Hget : NetworkParameters.get _ _ = Ok _ |- _ => apply get_Ok in Hget
    end.
    split; [|split].
    + eexists. split; [eassumption|]. unfold NetworkParameters.valid_objective.
      match goal with
      | Hobj : (if NetworkParameters.is_str ?o _ then _ else _) = Ok _ |- _ =>
          destruct (NetworkParameters.is_str o "COST"); [reflexivity|];
          destruct (NetworkParameters.is_str o "CONGESTION_MANAGEMENT");
          [reflexivity | discriminate Hobj]
      end.
    + unfold NetworkParameters.flag_keys. repeat constructor; eauto.
    + match goal with
      | Hsp : match read_solver_parameters _ ?v with _ => _ end = Ok _ |- _ =>
          exists v; destruct (read_solver_parameters (NetworkParameters.solver_params parameters0) v)
            as [sp|] eqn:Esp; [exists sp; by split | discriminate Hsp]
      end.
  - intros ((o & Ho & Hv) & Hflags & (v & sp & Hsolver & Hsp)).
    unfold NetworkParameters.flag_keys in Hflags.
    repeat match goal with
    | Hf : Forall _ (_ :: _) |- _ => apply Forall_cons in Hf; destruct Hf as [[? ?] Hf]
    end.
    repeat match goal with
    | Hl : params_data !! _ = Some _ |- _ => apply get_Ok in Hl; rewrite Hl; clear Hl; simpl
    end.
    rewrite Hsp. simpl.
    unfold NetworkParameters.valid_objective in Hv.
    destruct (NetworkParameters.is_str o "COST"); simpl; [eauto|].
    simpl in Hv. rewrite Hv. simpl. eauto.
Qed.

End ReaderFacts.

(** The sample file with the objective ['PROFIT']: the reader exits. *)
Lemma unknown_objective_exits_witness :
  NetworkParameters._read_network_parameters_from_file
    unit (fun _ _ => Some tt) (NetworkParameters.init unit tt)
    NetworkParameters.sample_file_bad_objective
  = Err ExitParamsFile.
Proof.
  apply (unknown_objective_exits unit (fun _ _ => Some tt) (NetworkParameters.init unit tt)
           NetworkParameters.sample_file_bad_objective (NetworkParameters.JStr "PROFIT")).
  - vm_compute. reflexivity.
  - reflexivity.
Defined.

(** The sample file with [relaxed_model] false and [ess_relax] true: the
    relaxation read is the one of the file. *)
Lemma relaxations_kept_without_relaxed_model_witness :
  exists parameters1,
    NetworkParameters._read_network_parameters_from_file
      unit (fun _ _ => Some tt) (NetworkParameters.init unit tt)
      NetworkParameters.sample_file_not_relaxed
    = Ok parameters1 /\
    NetworkParameters.ess_relax parameters1 = NetworkParameters.JBool true /\
    NetworkParameters.sample_file_not_relaxed !! "ess_relax"%string
    = Some (NetworkParameters.ess_relax parameters1).
Proof.
  eexists. split; [vm_compute; reflexivity|]. split; [reflexivity|].
  eapply (proj1 (relaxations_kept_without_relaxed_model
                   unit (fun _ _ => Some tt) (NetworkParameters.init unit tt)
                   NetworkParameters.sample_file_not_relaxed _ _ _)).
  Unshelve.
  - vm_compute. reflexivity.
  - reflexivity.
Defined.

(** ** The Benders loop: how many passes, cuts and bounds *)

Section BendersCounts.

Variable run_operational_planning :
  Candidate.candidate_solution -> (Z -> string -> Q) * Benders.sensitivities.
Variable optimize : Master.model -> Master.var -> Q.
Variable pp : Problem.planning_problem.
Variable params : Benders.benders_parameters.

Let iteration := Benders.iteration run_operational_planning optimize pp params.
Let while_loop := Benders.while_loop run_operational_planning optimize pp params.

Lemma initial_state_counts (st : Benders.state) :
  Benders.initial_state pp = Ok st ->
  loop_counts st /\ Benders.convergence st = false /\ Benders.iter st = 1%nat /\
  Benders.handed st = [] /\
  Master._build_master_problem pp = Ok (Benders.master_problem_model st) /\
  Benders.lower_bound st = - Problem.budget pp * 1000 /\
  Benders.upper_bound st = Problem.budget pp * 1000.
Proof.
  unfold Benders.initial_state. intros H. bind_inv H. inversion H; subst; clear H.
  assert (Hcuts : Master.benders_cuts a = []).
  { unfold Master._build_master_problem in Ha. repeat bind_inv Ha. by inversion Ha; subst. }
  unfold loop_counts. simpl. rewrite Hcuts. repeat split; try reflexivity; try lia. exact Ha.
Qed.

Lemma add_benders_cut_shape (m m' : Master.model) (ub : Q) (sens : Benders.sensitivities)
    (cand : Candidate.candidate_solution) :
  Benders._add_benders_cut pp m ub sens cand = Ok m' ->
  same_but_cuts m m' /\
  length (Master.benders_cuts m') = S (length (Master.benders_cuts m)) /\
  exists c, Master.benders_cuts m' = Master.benders_cuts m ++ [c].
Proof.
  unfold Benders._add_benders_cut. intros H. bind_inv H. inversion H; subst; clear H.
  split; [by repeat split|]. simpl. split; [rewrite length_app; simpl; lia | eauto].
Qed.

Lemma iteration_counts (st st' : Benders.state) :
  loop_counts st -> Benders.convergence st = false ->
  iteration st = Ok st' ->
  loop_counts st' /\
  same_but_cuts (Benders.master_problem_model st) (Benders.master_problem_model st') /\
  (exists cs, Master.benders_cuts (Benders.master_problem_model st')
              = Master.benders_cuts (Benders.master_problem_model st) ++ cs).
Proof.
  intros (Hl & Hu & Hi & Hc & Hh) Hconv H. rewrite Hconv in Hh.
  unfold iteration, Benders.iteration in H.
  destruct (run_operational_planning (Benders.candidate st)) as [obj sens].
  bind_inv H. bind_inv H. destruct a0.
  - inversion H; subst; clear H. unfold loop_counts. simpl.
    rewrite !length_app. simpl. split; [|split; [by repeat split | exists []; by rewrite app_nil_r]].
    repeat split; lia.
  - bind_inv H. bind_inv H. inversion H; subst; clear H.
    destruct (add_benders_cut_shape _ _ _ _ _ Ha1) as (Hsame & Hlen & c & Hcs).
    unfold loop_counts. simpl. rewrite !length_app. simpl.
    split; [|split; [exact Hsame | eauto]].
    repeat split; lia.
Qed.

Lemma same_but_cuts_trans (m1 m2 m3 : Master.model) :
  same_but_cuts m1 m2 -> same_but_cuts m2 m3 -> same_but_cuts m1 m3.
Proof.
  unfold same_but_cuts. intros H1 H2.
  destruct H1 as (?&?&?&?&?&?&?&?&?), H2 as (?&?&?&?&?&?&?&?&?).
  repeat split; congruence.
Qed.

Lemma while_loop_counts (fuel : nat) (st st' : Benders.state) :
  loop_counts st ->
  while_loop fuel st = Ok st' ->
  loop_counts st' /\
  same_but_cuts (Benders.master_problem_model st) (Benders.master_problem_model st') /\
  (exists cs, Master.benders_cuts (Benders.master_problem_model st')
              = Master.benders_cuts (Benders.master_problem_model st) ++ cs) /\
  (Benders.continues params st = false -> st' = st).
Proof.
  revert st. induction fuel as [|fuel IH]; intros st Hcounts H; simpl in H.
  - assert (st' = st) by (destruct (Benders.continues params st); by inversion H).
    subst. split; [exact Hcounts|]. split; [by repeat split|].
    split; [exists []; by rewrite app_nil_r | done].
  - unfold while_loop in H. simpl in H.
    destruct (Benders.continues params st) eqn:Ec.
    + bind_inv H.
      assert (Hconv : Benders.convergence st = false).
      { unfold Benders.continues in Ec. apply andb_true_iff in Ec.
        destruct Ec as [_ Hn]. by apply negb_true_iff in Hn. }
      destruct (iteration_counts st a Hcounts Hconv Ha) as (Hc1 & Hs1 & cs1 & Hcs1).
      destruct (IH a Hc1 H) as (Hc2 & Hs2 & (cs2 & Hcs2) & _).
      split; [exact Hc2|]. split; [by eapply same_but_cuts_trans|].
      split; [|discriminate]. exists (cs1 ++ cs2). by rewrite Hcs2, Hcs1, app_assoc.
    + inversion H; subst; clear H. split; [exact Hcounts|]. split; [by repeat split|].
      split; [exists []; by rewrite app_nil_r | done].
Qed.

Lemma while_loop_iter_bound (fuel : nat) (st st' : Benders.state) :
  while_loop fuel st = Ok st' ->
  (Benders.iter st' <= Nat.max (Benders.iter st) (Benders.num_max_iters params))%nat /\
  (Benders.convergence st' = true -> Benders.convergence st = false ->
   (Benders.iter st' < Benders.num_max_iters params)%nat).
Proof.
  revert st. induction fuel as [|fuel IH]; intros st H; unfold while_loop in H; simpl in H.
  - assert (st' = st) by (destruct (Benders.continues params st); by inversion H).
    subst. split; [lia | congruence].
  - destruct (Benders.continues params st) eqn:Ec;
      [|inversion H; subst; split; [lia | congruence]].
    bind_inv H. unfold Benders.continues in Ec. apply andb_true_iff in Ec.
    destruct Ec as [Hlt Hnc]. apply Nat.ltb_lt in Hlt.
    destruct (iteration_convergence _ _ _ _ _ _ Ha) as (_ & Hkeep & Hinc).
    destruct (IH a H) as (Hmax & Hconv).
    destruct (Benders.convergence a) eqn:Eca.
    + destruct (Hkeep eq_refl) as [_ Hiter].
      assert (st' = a).
      { destruct fuel; simpl in H; unfold Benders.continues in H;
          rewrite Eca, andb_false_r in H; by inversion H. }
      subst a. split; [lia | intros _ _; lia].
    + specialize (Hinc eq_refl). split; [lia | intros Hc _; by apply Hconv].
Qed.

(** With [num_max_iters] at most 1 the body of the Benders loop never
    runs: [_run_planning_problem] ends with the state of its
    initialization (no candidate handed to the operational layer, no cut,
    bounds at [-budget * 1000] and [budget * 1000], not converged). *)
Theorem benders_loop_without_passes (st : Benders.state) :
  (Benders.num_max_iters params <= 1)%nat ->
  Benders._run_planning_problem run_operational_planning optimize pp params = Ok st ->
  Benders.initial_state pp = Ok st /\
  Benders.handed st = [] /\ Benders.convergence st = false /\
  Master.benders_cuts (Benders.master_problem_model st) = [] /\
  Benders.lower_bound st = - Problem.budget pp * 1000 /\
  Benders.upper_bound st = Problem.budget pp * 1000.
Proof.
  intros Hn H. unfold Benders._run_planning_problem in H. bind_inv H.
  destruct (initial_state_counts a Ha) as (Hc & Hconv & Hi & Hh & Hm & Hlb & Hub).
  assert (Hcont : Benders.continues params a = false).
  { unfold Benders.continues. rewrite Hi. apply andb_false_iff. left. apply Nat.ltb_ge. lia. }
  destruct (while_loop_counts _ a st Hc H) as (_ & _ & _ & Hst).
  rewrite (Hst Hcont). split; [exact Ha|].
  destruct Hc as (_ & _ & _ & Hcuts & _). rewrite Hi in Hcuts.
  split; [exact Hh|]. split; [exact Hconv|].
  split; [by apply nil_length_inv|]. by split.
Qed.

(** The counts of [_run_planning_problem]: at most [num_max_iters - 1]
    candidates are handed to the operational layer, both bound histories
    have one entry per pass after the initial one, and the master holds
    one cut per pass that did not stop the loop. *)
Theorem benders_loop_counts (st : Benders.state) :
  Benders._run_planning_problem run_operational_planning optimize pp params = Ok st ->
  let passes := length (Benders.handed st) in
  (passes <= Benders.num_max_iters params - 1)%nat /\
  length (Benders.lower_bound_evolution st) = S passes /\
  length (Benders.upper_bound_evolution st) = S passes /\
  length (Master.benders_cuts (Benders.master_problem_model st))
  = (passes - (if Benders.convergence st then 1 else 0))%nat.
Proof.
  intros H passes. unfold Benders._run_planning_problem in H. bind_inv H.
  destruct (initial_state_counts a Ha) as (Hc & Hconv & Hi & _).
  destruct (while_loop_iter_bound _ a st H) as (Hmax & Hlt).
  destruct (while_loop_counts _ a st Hc H) as ((Hl & Hu & Hi1 & Hcuts & Hh) & _).
  unfold passes. split; [|split; [exact Hl | split; [exact Hu|]]].
  - rewrite Hh. destruct (Benders.convergence st) eqn:Ecs.
    + specialize (Hlt eq_refl Hconv). lia.
    + rewrite Hi in Hmax. lia.
  - rewrite Hcuts, Hh. destruct (Benders.convergence st); lia.
Qed.

(** The Benders loop only appends cuts to the master problem: its sets,
    the bound of [alpha], the rated-capacity, capacity, power-to-energy and
    budget constraints and the objective stay those of
    [_build_master_problem]. *)
Theorem benders_loop_appends_cuts_only (st : Benders.state) :
  Benders._run_planning_problem run_operational_planning optimize pp params = Ok st ->
  exists m0,
    Master._build_master_problem pp = Ok m0 /\
    same_but_cuts m0 (Benders.master_problem_model st) /\
    Master.benders_cuts m0 = [].
Proof.
  intros H. unfold Benders._run_planning_problem in H. bind_inv H.
  destruct (initial_state_counts a Ha) as (Hc & _ & Hi & _ & Hm & _).
  destruct (while_loop_counts _ a st Hc H) as (_ & Hsame & _).
  exists (Benders.master_problem_model a). split; [exact Hm|]. split; [exact Hsame|].
  destruct Hc as (_ & _ & _ & Hcuts & _). rewrite Hi in Hcuts. by apply nil_length_inv.
Qed.

End BendersCounts.

Lemma benders_loop_without_passes_witness :
  exists st,
    Benders._run_planning_problem
      Samples.run_operational_planning Samples.optimize Samples.pp Samples.benders_params_single
    = Ok st /\
    Benders.initial_state Samples.pp = Ok st /\
    Benders.handed st = [] /\ Benders.convergence st = false /\
    Master.benders_cuts (Benders.master_problem_model st) = [] /\
    Benders.lower_bound st = - Problem.budget Samples.pp * 1000 /\
    Benders.upper_bound st = Problem.budget Samples.pp * 1000.
Proof.
  eexists. split; [vm_compute; reflexivity|].
  apply (benders_loop_without_passes
           Samples.run_operational_planning Samples.optimize
           Samples.pp Samples.benders_params_single).
  - simpl. lia.
  - vm_compute. reflexivity.
Defined.

Lemma benders_loop_counts_witness :
  exists st,
    Benders._run_planning_problem
      Samples.run_operational_1000 Samples.optimize_990 Samples.pp_one Samples.benders_params_1pc
    = Ok st /\
    length (Benders.handed st) = 2%nat /\
    (length (Benders.handed st) <= Benders.num_max_iters Samples.benders_params_1pc - 1)%nat /\
    length (Benders.lower_bound_evolution st) = S (length (Benders.handed st)) /\
    length (Benders.upper_bound_evolution st) = S (length (Benders.handed st)) /\
    length (Master.benders_cuts (Benders.master_problem_model st))
    = (length (Benders.handed st) - (if Benders.convergence st then 1 else 0))%nat.
Proof.
  eexists. split; [vm_compute; reflexivity|]. split; [reflexivity|].
  apply (benders_loop_counts
           Samples.run_operational_1000 Samples.optimize_990
           Samples.pp_one Samples.benders_params_1pc).
  vm_compute. reflexivity.
Defined.

Lemma benders_loop_appends_cuts_only_witness :
  exists st,
    Benders._run_planning_problem
      Samples.run_operational_planning Samples.optimize Samples.pp Samples.benders_params
    = Ok st /\
    length (Master.benders_cuts (Benders.master_problem_model st)) = 3%nat /\
    exists m0,
      Master._build_master_problem Samples.pp = Ok m0 /\
      same_but_cuts m0 (Benders.master_problem_model st) /\
      Master.benders_cuts m0 = [].
Proof.
  eexists. split; [vm_compute; reflexivity|]. split; [reflexivity|].
  apply (benders_loop_appends_cuts_only
           Samples.run_operational_planning Samples.optimize
           Samples.pp Samples.benders_params).
  vm_compute. reflexivity.
Defined.

(** ** The master problem: when it can be built *)

Lemma foldlM_total {A B : Type} (P : A -> Prop) (f : A -> B -> result A) (l : list B) (a : A) :
  P a -> (forall a b, b ∈ l -> P a -> exists a', f a b = Ok a' /\ P a') ->
  exists a', foldlM f a l = Ok a' /\ P a'.
Proof.
  revert a. induction l as [|b l IH]; intros a Ha Hstep; simpl; [eauto|].
  destruct (Hstep a b) as (a1 & Hf & Ha1); [left | exact Ha |].
  rewrite Hf. simpl. apply IH; [exact Ha1|].
  intros a2 b2 Hb2. apply Hstep. by right.
Qed.

Lemma foldlM_returns {A B : Type} (f : A -> B -> result A) (l : list B) (a : A) :
  (forall a b, b ∈ l -> exists a', f a b = Ok a') ->
  exists a', foldlM f a l = Ok a'.
Proof.
  intros Hstep.
  destruct (foldlM_total (fun _ => True) f l a) as (a' & H & _); [done | | eauto].
  intros a0 b Hb _. destruct (Hstep a0 b Hb) as [a1 H1]. eauto.
Qed.

Lemma foldlM_raises {A B : Type} (E : error) (f : A -> B -> result A) (l : list B) (a : A) :
  (exists b, b ∈ l /\ forall a, f a b = Err E) ->
  (forall a b, b ∈ l -> f a b = Err E \/ exists a', f a b = Ok a') ->
  foldlM f a l = Err E.
Proof.
  revert a. induction l as [|b l IH]; intros a (b0 & Hb0 & Hraise) Hstep.
  - by apply elem_of_nil in Hb0.
  - simpl. destruct (Hstep a b) as [He | (a1 & Hf)]; [left | by rewrite He |].
    rewrite Hf. simpl. apply IH.
    + apply elem_of_cons in Hb0. destruct Hb0 as [->|Hin]; [|eauto].
      rewrite Hraise in Hf. discriminate.
    + intros a2 b2 Hb2. apply Hstep. by right.
Qed.

Lemma elem_of_enumerate {A : Type} (l : list A) (i : nat) (a : A) :
  (i, a) ∈ Problem.enumerate l <-> l !! i = Some a.
Proof.
  unfold Problem.enumerate. split.
  - intros H. apply elem_of_lookup_imap_1 in H. destruct H as (j & b & Heq & Hl).
    by inversion Heq; subst.
  - intros H. by apply (elem_of_lookup_imap_2 (fun i a => (i, a))).
Qed.

Lemma elem_of_range (n i : nat) : i ∈ range n <-> (i < n)%nat.
Proof. unfold range. rewrite elem_of_seq. lia. Qed.

Lemma index_total {A : Type} (l : list A) (i : nat) :
  (i < length l)%nat -> exists a, Py.index l i = Ok a /\ l !! i = Some a.
Proof.
  intros H. apply lookup_lt_is_Some_2 in H. destruct H as [a Ha].
  exists a. unfold Py.index. by rewrite Ha.
Qed.

Lemma div_total (x y : Q) : ~ y == 0 -> Py.div x y = Ok (x / y).
Proof.
  intros H. unfold Py.div. destruct (Qeq_bool y 0) eqn:E; [|done].
  by apply Qeq_bool_iff in E.
Qed.

Lemma div_raises (x y : Q) : y == 0 -> Py.div x y = Err ZeroDivisionError.
Proof. intros H. unfold Py.div. by rewrite (Qeq_eq_bool _ _ H). Qed.

Lemma year_keys_length (pp : Problem.planning_problem) :
  length (Problem.year_keys pp) = length (Problem.years pp).
Proof. unfold Problem.year_keys. by rewrite length_fmap. Qed.

Lemma annualization_total (pp : Problem.planning_problem) (year : Z) :
  Problem.years pp <> [] -> ~ 1 + Problem.discount_factor pp == 0 ->
  exists ann, Master.annualization pp year = Ok ann.
Proof.
  intros Hne Hd. unfold Master.annualization.
  assert (Hlen : (0 < length (Problem.year_keys pp))%nat).
  { rewrite year_keys_length. destruct (Problem.years pp); [done | simpl; lia]. }
  destruct (index_total (Problem.year_keys pp) 0 Hlen) as (y0 & -> & _).
  simpl. unfold Py.pow.
  destruct (Qeq_bool (1 + Problem.discount_factor pp) 0) eqn:E;
    [by apply Qeq_bool_iff in E|].
  simpl. rewrite div_total; [eauto|]. by apply Qpower_not_0.
Qed.

Lemma weights_nonzero_in (pp : Problem.planning_problem) (year : Z) (w : Q) :
  weights_nonzero pp -> (year, w) ∈ Problem.years pp -> ~ w == 0.
Proof. intros H Hin. exact (proj1 (Forall_forall _ _) H _ Hin). Qed.

Section MasterBuild.

Variable pp : Problem.planning_problem.

Lemma in_years_nonempty (x : nat * (Z * Q)) :
  x ∈ Problem.enumerate (Problem.years pp) -> Problem.years pp <> [].
Proof.
  destruct x as [i a]. rewrite elem_of_enumerate. intros H E. rewrite E in H. by rewrite lookup_nil in H.
Qed.

Lemma in_years_weight (i : nat) (year : Z) (w : Q) :
  (i, (year, w)) ∈ Problem.enumerate (Problem.years pp) -> (year, w) ∈ Problem.years pp.
Proof. rewrite elem_of_enumerate. apply list_elem_of_lookup_2. Qed.

Lemma total_capacity_per_year_total (e : nat) :
  weights_nonzero pp -> exists tot, Master.total_capacity_per_year pp e = Ok tot.
Proof.
  intros Hw. unfold Master.total_capacity_per_year. apply foldlM_returns.
  intros tot [y [year w]] Hin. unfold Master.rated_year_step, Master.tcal_norm.
  rewrite div_total by (eapply weights_nonzero_in; [exact Hw | eapply in_years_weight, Hin]). simpl. eauto.
Qed.

Lemma investment_cost_total_total (es : list nat) :
  ~ 1 + Problem.discount_factor pp == 0 ->
  exists total, Master.investment_cost_total pp es = Ok total.
Proof.
  intros Hd. unfold Master.investment_cost_total. apply foldlM_returns.
  intros cost [y [year w]] Hin.
  destruct (annualization_total pp year (in_years_nonempty _ Hin) Hd) as [ann ->].
  simpl. eauto.
Qed.

Lemma investment_cost_returns (es : list nat) :
  ~ 1 + Problem.discount_factor pp == 0 ->
  exists cost, Master.investment_cost pp es = Ok cost.
Proof.
  intros Hd. unfold Master.investment_cost. apply foldlM_returns.
  intros cost e _. apply foldlM_returns.
  intros cost1 [y [year w]] Hin.
  destruct (annualization_total pp year (in_years_nonempty _ Hin) Hd) as [ann ->].
  simpl. eauto.
Qed.


(** With at least one active node, a year of weight zero makes
    [_build_master_problem] end in the [ZeroDivisionError] of
    [t_cal / num_years]. *)
Theorem master_problem_zero_weight (year : Z) (w : Q) :
  Problem.active_distribution_network_nodes pp <> [] ->
  (year, w) ∈ Problem.years pp -> w == 0 ->
  Master._build_master_problem pp = Err ZeroDivisionError.
Proof.
  intros Hn Hin Hw. unfold Master._build_master_problem.
  assert (Htot : forall e, Master.total_capacity_per_year pp e = Err ZeroDivisionError).
  { intros e. unfold Master.total_capacity_per_year. apply foldlM_raises.
    - apply list_elem_of_lookup_1 in Hin. destruct Hin as [i Hi].
      exists (i, (year, w)). split; [by apply elem_of_enumerate|].
      intros tot. unfold Master.rated_year_step, Master.tcal_norm.
      by rewrite div_raises.
    - intros tot [y [year' w']] _. unfold Master.rated_year_step, Master.tcal_norm, Py.div.
      destruct (Qeq_bool w' 0); simpl; eauto. }
  destruct (Problem.active_distribution_network_nodes pp) as [|n ns]; [done|].
  simpl. unfold Master.rated_capacity_step at 2. by rewrite Htot.
Qed.

End MasterBuild.

(** ** Candidate solutions: what the tables hold *)

Lemma for_each_insert_lookup {K V : Type} `{Countable K} (l : list K) (v : V) (m : gmap K V) (k : K) :
  for_each l (fun k m => <[k := v]> m) m !! k = if decide (k ∈ l) then Some v else m !! k.
Proof.
  revert m. induction l as [|k0 l IH]; intros m.
  - destruct (decide (k ∈ [])) as [Hin|_]; [by apply elem_of_nil in Hin | done].
  - rewrite for_each_cons, IH.
    destruct (decide (k ∈ l)) as [Hl|Hl], (decide (k ∈ k0 :: l)) as [Hc|Hc]; try done.
    + exfalso. apply Hc. by right.
    + destruct (decide (k = k0)) as [->|Hne].
      * by rewrite lookup_insert_eq.
      * exfalso. apply elem_of_cons in Hc. tauto.
    + destruct (decide (k = k0)) as [->|Hne].
      * exfalso. apply Hc. by left.
      * by rewrite lookup_insert_ne.
Qed.

Lemma initial_candidate_tables (pp : Problem.planning_problem) (l : list Z)
    (c : Candidate.candidate_solution) (node_id : Z) :
  let c' := for_each l
              (fun node_id c =>
                 {| Candidate.investment :=
                      <[node_id := Candidate.zero_row (Problem.year_keys pp)]> (Candidate.investment c);
                    Candidate.total_capacity :=
                      <[node_id := Candidate.zero_row (Problem.year_keys pp)]> (Candidate.total_capacity c) |})
              c in
  Candidate.investment c' !! node_id
  = (if decide (node_id ∈ l) then Some (Candidate.zero_row (Problem.year_keys pp))
     else Candidate.investment c !! node_id) /\
  Candidate.total_capacity c' !! node_id
  = (if decide (node_id ∈ l) then Some (Candidate.zero_row (Problem.year_keys pp))
     else Candidate.total_capacity c !! node_id).
Proof.
  revert c. induction l as [|n l IH]; intros c; cbv zeta.
  - destruct (decide (node_id ∈ [])) as [Hin|_]; [by apply elem_of_nil in Hin | done].
  - rewrite for_each_cons. destruct (IH
      {| Candidate.investment :=
           <[n := Candidate.zero_row (Problem.year_keys pp)]> (Candidate.investment c);
         Candidate.total_capacity :=
           <[n := Candidate.zero_row (Problem.year_keys pp)]> (Candidate.total_capacity c) |})
      as [-> ->]. simpl.
    destruct (decide (node_id ∈ l)) as [Hl|Hl], (decide (node_id ∈ n :: l)) as [Hc|Hc]; try done.
    + exfalso. apply Hc. by right.
    + destruct (decide (node_id = n)) as [->|Hne].
      * by rewrite !lookup_insert_eq.
      * exfalso. apply elem_of_cons in Hc. tauto.
    + destruct (decide (node_id = n)) as [->|Hne].
      * exfalso. apply Hc. by left.
      * by rewrite !lookup_insert_ne.
Qed.

(** The initial candidate holds zero power and zero energy, invested and in
    total, for every active node and every year, and has no entry for any
    other node or year. *)
Theorem initial_candidate_zero (pp : Problem.planning_problem) (node_id year : Z) :
  let c := Candidate._get_initial_candidate_solution pp in
  (node_id ∈ Problem.active_distribution_network_nodes pp ->
   year ∈ Problem.year_keys pp ->
   Candidate.lookup2 (Candidate.investment c) node_id year = Ok (Candidate.mkCapacity 0 0) /\
   Candidate.lookup2 (Candidate.total_capacity c) node_id year = Ok (Candidate.mkCapacity 0 0)) /\
  (node_id ∉ Problem.active_distribution_network_nodes pp ->
   Candidate.lookup2 (Candidate.investment c) node_id year = Err (KeyError (KInt node_id)) /\
   Candidate.lookup2 (Candidate.total_capacity c) node_id year = Err (KeyError (KInt node_id))) /\
  (node_id ∈ Problem.active_distribution_network_nodes pp ->
   year ∉ Problem.year_keys pp ->
   Candidate.lookup2 (Candidate.investment c) node_id year = Err (KeyError (KInt year)) /\
   Candidate.lookup2 (Candidate.total_capacity c) node_id year = Err (KeyError (KInt year))).
Proof.
  intros c. unfold c, Candidate._get_initial_candidate_solution, Candidate.lookup2.
  destruct (initial_candidate_tables pp (Problem.active_distribution_network_nodes pp)
              {| Candidate.investment := ∅; Candidate.total_capacity := ∅ |} node_id) as [-> ->].
  cbn [Candidate.investment Candidate.total_capacity].
  pose proof (for_each_insert_lookup (Problem.year_keys pp) (Candidate.mkCapacity 0 0) ∅ year)
    as Hrow.
  fold (Candidate.zero_row (Problem.year_keys pp)) in Hrow.
  destruct (decide (node_id ∈ Problem.active_distribution_network_nodes pp)) as [Hn|Hn].
  - rewrite Hrow. destruct (decide (year ∈ Problem.year_keys pp)) as [Hy|Hy].
    + split; [done|]. split; intros; done.
    + rewrite lookup_empty. split; [done|]. split; intros; done.
  - rewrite lookup_empty. split; [done|]. split; intros; done.
Qed.

Section Extraction.

Variable pp : Problem.planning_problem.
Variable sol : Master.var -> Q.

Let keys := Problem.year_keys pp.
Let node_list := Problem.active_distribution_network_nodes pp.

Let invested (e y : nat) : Candidate.capacity :=
  Candidate.mkCapacity (Qabs (sol (Master.es_s_invesment e y))) (Qabs (sol (Master.es_e_invesment e y))).
Let rated (e y : nat) : Candidate.capacity :=
  Candidate.mkCapacity (Qabs (sol (Master.es_s_rated e y))) (Qabs (sol (Master.es_e_rated e y))).

Lemma candidate_rows_lookup (e : nat) (l : list nat)
    (rows rows' : gmap Z Candidate.capacity * gmap Z Candidate.capacity) (y : nat) (year : Z) :
  NoDup keys ->
  foldlM (SharedEnergyStorageData.candidate_year_step sol e keys) rows l = Ok rows' ->
  keys !! y = Some year ->
  (y ∈ l -> rows'.1 !! year = Some (invested e y) /\ rows'.2 !! year = Some (rated e y)) /\
  (y ∉ l -> rows'.1 !! year = rows.1 !! year /\ rows'.2 !! year = rows.2 !! year).
Proof.
  intros Hnd H Hy. revert rows H. induction l as [|y0 l IH]; intros rows H; simpl in H.
  - inversion H; subst. split; [intros Hin; by apply elem_of_nil in Hin | done].
  - bind_inv H. destruct (IH a H) as [IHin IHout].
    unfold SharedEnergyStorageData.candidate_year_step in Ha. bind_inv Ha.
    inversion Ha; subst; clear Ha. apply index_Ok in Ha0. simpl in IHout.
    destruct (decide (y ∈ l)) as [Hin|Hnin].
    + split; [intros _; by apply IHin | intros Hn; exfalso; apply Hn; by right].
    + destruct (IHout Hnin) as [-> ->].
      destruct (decide (y = y0)) as [->|Hne].
      * assert (a0 = year) by congruence. subst a0. rewrite !lookup_insert_eq.
        split; [done | intros Hn; exfalso; apply Hn; by left].
      * assert (a0 <> year).
        { intros ->. apply Hne. eapply NoDup_lookup; eauto. }
        rewrite !lookup_insert_ne by done.
        split; [|done]. intros Hin'. apply elem_of_cons in Hin'. tauto.
Qed.

Lemma candidate_table_lookup (m : Master.model) (l : list nat)
    (c c' : Candidate.candidate_solution) (e : nat) (node_id : Z) :
  NoDup node_list -> NoDup keys ->
  foldlM (fun c e =>
            _ ← Py.index keys 0;
            node_id ← Py.index node_list e;
            rows ← foldlM (SharedEnergyStorageData.candidate_year_step sol e keys) (∅, ∅) (Master.years m);
            Ok {| Candidate.investment := <[node_id := rows.1]> (Candidate.investment c);
                  Candidate.total_capacity := <[node_id := rows.2]> (Candidate.total_capacity c) |})
         c l = Ok c' ->
  node_list !! e = Some node_id ->
  (e ∈ l ->
   forall y year, keys !! y = Some year -> y ∈ Master.years m ->
     Candidate.lookup2 (Candidate.investment c') node_id year = Ok (invested e y) /\
     Candidate.lookup2 (Candidate.total_capacity c') node_id year = Ok (rated e y)) /\
  (e ∉ l ->
   Candidate.investment c' !! node_id = Candidate.investment c !! node_id /\
   Candidate.total_capacity c' !! node_id = Candidate.total_capacity c !! node_id).
Proof.
  intros Hnn Hnk H He. revert c H. induction l as [|e0 l IH]; intros c H; simpl in H.
  - inversion H; subst. split; [intros Hin; by apply elem_of_nil in Hin | done].
  - bind_inv H. destruct (IH a H) as [IHin IHout].
    bind_inv Ha. bind_inv Ha. bind_inv Ha. inversion Ha; subst; clear Ha.
    apply index_Ok in Ha1. simpl in IHout.
    destruct (decide (e ∈ l)) as [Hin|Hnin].
    + split; [intros _; by apply IHin | intros Hn; exfalso; apply Hn; by right].
    + destruct (IHout Hnin) as [Hi Ht].
      destruct (decide (e = e0)) as [->|Hne].
      * assert (a1 = node_id) by congruence. subst a1.
        split; [|intros Hn; exfalso; apply Hn; by left].
        intros _ y year Hy Hym. unfold Candidate.lookup2.
        rewrite Hi, Ht, !lookup_insert_eq.
        destruct (candidate_rows_lookup e0 _ _ _ y year Hnk Ha2 Hy) as [Hrow _].
        destruct (Hrow Hym) as [-> ->]. done.
      * assert (a1 <> node_id).
        { intros ->. apply Hne. exact (NoDup_lookup _ _ _ _ Hnn He Ha1). }
        rewrite !lookup_insert_ne in Hi, Ht by done.
        split; [|done]. intros Hin'. apply elem_of_cons in Hin'. tauto.
Qed.

(** What [get_candidate_solution] returns holds, for the node of storage [e]
    and the year of index [y], the absolute values of the solved master's
    investment and rated variables [e, y]. *)
Theorem candidate_round_trip (m : Master.model) (c : Candidate.candidate_solution)
    (e y : nat) (node_id year : Z) :
  NoDup (Problem.active_distribution_network_nodes pp) ->
  NoDup (Problem.year_keys pp) ->
  SharedEnergyStorageData.get_candidate_solution pp m sol = Ok c ->
  Problem.active_distribution_network_nodes pp !! e = Some node_id ->
  Problem.year_keys pp !! y = Some year ->
  e ∈ Master.energy_storages m -> y ∈ Master.years m ->
  Candidate.lookup2 (Candidate.investment c) node_id year
  = Ok (Candidate.mkCapacity (Qabs (sol (Master.es_s_invesment e y)))
                             (Qabs (sol (Master.es_e_invesment e y)))) /\
  Candidate.lookup2 (Candidate.total_capacity c) node_id year
  = Ok (Candidate.mkCapacity (Qabs (sol (Master.es_s_rated e y)))
                             (Qabs (sol (Master.es_e_rated e y)))).
Proof.
  intros Hnn Hnk H He Hy Hem Hym.
  unfold SharedEnergyStorageData.get_candidate_solution in H.
  destruct (candidate_table_lookup m _ _ _ e node_id Hnn Hnk H He) as [Hin _].
  exact (Hin Hem y year Hy Hym).
Qed.

End Extraction.

(** ** The Benders loop runs to its end *)

Lemma master_sets_index (pp : Problem.planning_problem) (m : Master.model) (e y : nat) :
  master_sets pp m -> e ∈ Master.energy_storages m -> y ∈ Master.years m ->
  exists node_id year,
    Problem.active_distribution_network_nodes pp !! e = Some node_id /\
    Problem.year_keys pp !! y = Some year.
Proof.
  intros [Hy He] Hin_e Hin_y. rewrite He in Hin_e. rewrite Hy in Hin_y.
  apply elem_of_range in Hin_e, Hin_y.
  rewrite <- year_keys_length in Hin_y.
  apply lookup_lt_is_Some_2 in Hin_e, Hin_y.
  destruct Hin_e as [node_id Hn], Hin_y as [year Hyr]. eauto.
Qed.

Lemma get_upper_bound_returns (pp : Problem.planning_problem) (obj : Z -> string -> Q) :
  ~ 1 + Problem.discount_factor pp == 0 ->
  exists ub, Benders.get_upper_bound pp obj = Ok ub.
Proof.
  intros Hd. unfold Benders.get_upper_bound. apply foldlM_returns.
  intros ub [year w] Hin.
  assert (Hne : Problem.years pp <> []) by (intros E; rewrite E in Hin; by apply elem_of_nil in Hin).
  destruct (annualization_total pp year Hne Hd) as [ann ->]. simpl. eauto.
Qed.

Section BendersTotal.

Variable run_operational_planning :
  Candidate.candidate_solution -> (Z -> string -> Q) * Benders.sensitivities.
Variable optimize : Master.model -> Master.var -> Q.
Variable pp : Problem.planning_problem.
Variable params : Benders.benders_parameters.

Hypothesis Hweights : weights_nonzero pp.
Hypothesis Hdiscount : ~ 1 + Problem.discount_factor pp == 0.
Hypothesis Hyears : Problem.years pp <> [].
Hypothesis Hnodes : NoDup (Problem.active_distribution_network_nodes pp).
Hypothesis Hkeys : NoDup (Problem.year_keys pp).

Lemma add_benders_cut_returns (m : Master.model) (ub : Q) (sens : Benders.sensitivities)
    (cand : Candidate.candidate_solution) :
  master_sets pp m -> covers pp (Candidate.total_capacity cand) ->
  exists m', Benders._add_benders_cut pp m ub sens cand = Ok m' /\ master_sets pp m'.
Proof.
  intros Hsets Hcov. unfold Benders._add_benders_cut.
  destruct (foldlM_returns
              (fun cut e => foldlM (Benders.cut_step pp sens cand e) cut (Master.years m))
              (Master.energy_storages m) (Master.Num ub)) as [cut Hcut].
  { intros cut e He. apply foldlM_returns. intros cut1 y Hy.
    destruct (master_sets_index pp m e y Hsets He Hy) as (node_id & year & Hn & Hyr).
    unfold Benders.cut_step, Py.index. rewrite Hyr, Hn. simpl.
    destruct (Hcov node_id year) as [c ->];
      [by eapply list_elem_of_lookup_2 | by eapply list_elem_of_lookup_2 |].
    simpl. eauto. }
  unfold Benders.benders_cut_expr. rewrite Hcut. simpl.
  eexists. split; [reflexivity|]. exact Hsets.
Qed.

Lemma get_candidate_solution_returns (m : Master.model) (sol : Master.var -> Q) :
  master_sets pp m ->
  exists c, SharedEnergyStorageData.get_candidate_solution pp m sol = Ok c /\
            covers pp (Candidate.total_capacity c).
Proof.
  intros Hsets.
  assert (Hret : exists c, SharedEnergyStorageData.get_candidate_solution pp m sol = Ok c).
  { unfold SharedEnergyStorageData.get_candidate_solution. apply foldlM_returns.
    intros c e He.
    assert (Hlen : (0 < length (Problem.year_keys pp))%nat).
    { rewrite year_keys_length. destruct (Problem.years pp); [done | simpl; lia]. }
    destruct (index_total _ 0 Hlen) as (y0 & -> & _). simpl.
    destruct Hsets as [Hy Hes]. pose proof He as He'. rewrite Hes in He'.
    apply elem_of_range in He'.
    destruct (index_total _ e He') as (node_id & -> & _). simpl.
    destruct (foldlM_returns (SharedEnergyStorageData.candidate_year_step sol e (Problem.year_keys pp))
                (Master.years m) (∅, ∅)) as [rows ->]; [|simpl; eauto].
    intros rows y Hin. rewrite Hy in Hin. apply elem_of_range in Hin.
    rewrite <- year_keys_length in Hin.
    unfold SharedEnergyStorageData.candidate_year_step.
    destruct (index_total _ y Hin) as (year & -> & _). simpl. eauto. }
  destruct Hret as [c Hc]. exists c. split; [exact Hc|].
  intros node_id year Hn Hyr.
  apply list_elem_of_lookup_1 in Hn, Hyr. destruct Hn as [e He], Hyr as [y Hy].
  destruct Hsets as [Hys Hes].
  destruct (candidate_round_trip pp sol m c e y node_id year Hnodes Hkeys Hc He Hy) as [_ Ht].
  - rewrite Hes. apply elem_of_range. by eapply lookup_lt_Some.
  - rewrite Hys. apply elem_of_range. rewrite <- year_keys_length. by eapply lookup_lt_Some.
  - eauto.
Qed.

Lemma initial_candidate_covers :
  covers pp (Candidate.total_capacity (Candidate._get_initial_candidate_solution pp)).
Proof.
  intros node_id year Hn Hy.
  destruct (initial_candidate_zero pp node_id year) as (H & _).
  destruct (H Hn Hy) as [_ Ht]. eauto.
Qed.

Lemma iteration_returns (st : Benders.state) :
  0 <= Benders.tol_rel params -> 0 <= Benders.tol_abs params ->
  loop_ready pp st ->
  exists st', Benders.iteration run_operational_planning optimize pp params st = Ok st' /\
              loop_ready pp st'.
Proof.
  intros Hrel Habs [Hsets Hcov]. unfold Benders.iteration.
  destruct (run_operational_planning (Benders.candidate st)) as [obj sens].
  destruct (get_upper_bound_returns pp obj Hdiscount) as [ub ->]. simpl.
  destruct (isclose_total ub (Benders.lower_bound st) _ _ Hrel Habs) as [close ->]. simpl.
  destruct close.
  - eexists. split; [reflexivity|]. by split.
  - destruct (add_benders_cut_returns _ ub sens _ Hsets Hcov) as (m' & -> & Hsets'). simpl.
    destruct (get_candidate_solution_returns m' (optimize m') Hsets') as (c & -> & Hc). simpl.
    eexists. split; [reflexivity|]. by split.
Qed.

Lemma while_loop_returns (fuel : nat) (st : Benders.state) :
  0 <= Benders.tol_rel params -> 0 <= Benders.tol_abs params ->
  loop_ready pp st ->
  exists st', Benders.while_loop run_operational_planning optimize pp params fuel st = Ok st'.
Proof.
  intros Hrel Habs. revert st. induction fuel as [|fuel IH]; intros st Hready; simpl.
  - destruct (Benders.continues params st); eauto.
  - destruct (Benders.continues params st); [|eauto].
    destruct (iteration_returns st Hrel Habs Hready) as (st1 & -> & Hready1). simpl.
    by apply IH.
Qed.


End BendersTotal.

(** ** The master problem: what its constraints say *)

Lemma Qsum_map_ext {A : Type} (f g : A -> Q) (l : list A) :
  (forall x, f x == g x) -> Master.Qsum (map f l) == Master.Qsum (map g l).
Proof.
  intros H. induction l as [|x l IH]; simpl; [reflexivity|]. by rewrite H, IH.
Qed.

Lemma Qsum_map_plus {A : Type} (f g : A -> Q) (l : list A) :
  Master.Qsum (map (fun x => f x + g x) l) == Master.Qsum (map f l) + Master.Qsum (map g l).
Proof.
  induction l as [|x l IH]; simpl; [ring|]. rewrite IH. ring.
Qed.

Lemma Qsum_map_zero {A : Type} (l : list A) :
  Master.Qsum (map (fun _ => 0) l) == 0.
Proof. induction l as [|x l IH]; simpl; [reflexivity|]. rewrite IH. ring. Qed.

(** Two nested sums in either order. *)
Lemma Qsum_swap {A B : Type} (f : A -> B -> Q) (xs : list A) (ys : list B) :
  Master.Qsum (map (fun x => Master.Qsum (map (f x) ys)) xs)
  == Master.Qsum (map (fun y => Master.Qsum (map (fun x => f x y) xs)) ys).
Proof.
  induction xs as [|x xs IH]; simpl.
  - by rewrite Qsum_map_zero.
  - rewrite IH, <- Qsum_map_plus. reflexivity.
Qed.

Section MasterCost.

Variable pp : Problem.planning_problem.
Variable v : Master.var -> Q.

Lemma add_investment_cost_eval (ann : Q) (e : nat) (yy : nat * (Z * Q)) (cost : Master.expr) :
  Master.annualization pp yy.2.1 = Ok ann ->
  Master.eval v (Master.add_investment_cost pp ann yy.2.1 e yy.1 cost)
  == Master.eval v cost + investment_term pp v e yy.
Proof.
  intros Hann. unfold investment_term. rewrite Hann. simpl. ring.
Qed.

Lemma investment_cost_total_eval (es : list nat) (l : list (nat * (Z * Q)))
    (c0 c : Master.expr) :
  foldlM (fun cost (yy : nat * (Z * Q)) =>
            let '(y, (year, _)) := yy in
            ann ← Master.annualization pp year;
            Ok (for_each es (fun e cost => Master.add_investment_cost pp ann year e y cost) cost))
         c0 l = Ok c ->
  Master.eval v c
  == Master.eval v c0
     + Master.Qsum (map (fun yy => Master.Qsum (map (fun e => investment_term pp v e yy) es)) l).
Proof.
  revert c0. induction l as [|[y [year w]] l IH]; intros c0 H; simpl in H.
  - inversion H; subst. simpl. ring.
  - bind_inv H. bind_inv Ha. inversion Ha; subst; clear Ha.
    rewrite (IH _ H). simpl.
    assert (Hes : forall c1,
              Master.eval v (for_each es
                (fun e cost => Master.add_investment_cost pp a0 year e y cost) c1)
              == Master.eval v c1
                 + Master.Qsum (map (fun e => investment_term pp v e (y, (year, w))) es)).
    { clear H IH. induction es as [|e es IHes]; intros c1; [simpl; ring|].
      rewrite for_each_cons, IHes.
      rewrite (add_investment_cost_eval a0 e (y, (year, w)) c1 Ha0). simpl. ring. }
    rewrite Hes. ring.
Qed.

Lemma investment_cost_eval (es : list nat) (l : list (nat * (Z * Q))) (c0 c : Master.expr) :
  foldlM (fun cost e =>
            foldlM (fun cost (yy : nat * (Z * Q)) =>
                      let '(y, (year, _)) := yy in
                      ann ← Master.annualization pp year;
                      Ok (Master.add_investment_cost pp ann year e y cost))
                   cost l)
         c0 es = Ok c ->
  Master.eval v c
  == Master.eval v c0
     + Master.Qsum (map (fun e => Master.Qsum (map (fun yy => investment_term pp v e yy) l)) es).
Proof.
  revert c0. induction es as [|e es IH]; intros c0 H; simpl in H.
  - inversion H; subst. simpl. ring.
  - bind_inv H. rewrite (IH _ H). simpl.
    assert (Hl : Master.eval v a
                 == Master.eval v c0
                    + Master.Qsum (map (fun yy => investment_term pp v e yy) l)).
    { clear H IH. revert c0 Ha. induction l as [|[y [year w]] l IHl]; intros c0 Hl; simpl in Hl.
      - inversion Hl; subst. simpl. ring.
      - bind_inv Hl. bind_inv Ha. inversion Ha; subst; clear Ha.
        rewrite (IHl _ Hl).
        rewrite (add_investment_cost_eval a1 e (y, (year, w)) c0 Ha0). simpl. ring. }
    rewrite Hl. ring.
Qed.

End MasterCost.

(** The investment cost that the budget constraint of the master problem
    bounds is the investment cost of its objective: the two are summed in
    different loop orders and evaluate to the same value. *)
Theorem master_budget_bounds_objective_cost (pp : Problem.planning_problem) (m : Master.model) :
  Master._build_master_problem pp = Ok m ->
  exists total cost,
    Master.energy_storage_investment m = [Master.CLe total (Master.Num (Problem.budget pp))] /\
    Master.objective m = Master.Add cost (Master.Var Master.alpha) /\
    forall a, Master.eval a total == Master.eval a cost.
Proof.
  unfold Master._build_master_problem. intros H.
  bind_inv H. bind_inv H. bind_inv H. inversion H; subst; clear H. simpl.
  exists a0, a1. split; [reflexivity|]. split; [reflexivity|]. intros v.
  rewrite (investment_cost_total_eval pp v _ _ _ _ Ha0).
  rewrite (investment_cost_eval pp v _ _ _ _ Ha1). simpl.
  rewrite Qsum_swap. reflexivity.
Qed.

Lemma elem_of_pairs (es ys : list nat) (e y : nat) :
  (e, y) ∈ Master.pairs es ys <-> e ∈ es /\ y ∈ ys.
Proof.
  unfold Master.pairs. rewrite list_elem_of_bind. split.
  - intros (e' & H & He). apply list_elem_of_bind in H. destruct H as (y' & H & Hy).
    apply list_elem_of_singleton in H. by inversion H; subst.
  - intros [He Hy]. exists e. split; [|exact He].
    apply list_elem_of_bind. exists y. split; [|exact Hy]. by apply list_elem_of_singleton.
Qed.

(** A solution of the master problem keeps, for every storage and year,
    the rated energy under [max_capacity] and the rated power between
    [min_pe_factor] and [max_pe_factor] times the rated energy. *)
Theorem master_capacity_limits (pp : Problem.planning_problem) (m : Master.model)
    (a : Master.var -> Q) (e y : nat) :
  Master._build_master_problem pp = Ok m ->
  Forall (Master.holds a) (Master.energy_storage_maximum_capacity m) ->
  Forall (Master.holds a) (Master.energy_storage_power_to_energy_factor m) ->
  (e < length (Problem.active_distribution_network_nodes pp))%nat ->
  (y < length (Problem.years pp))%nat ->
  a (Master.es_e_rated e y) <= Problem.max_capacity pp /\
  a (Master.es_e_rated e y) * Problem.min_pe_factor pp <= a (Master.es_s_rated e y) /\
  a (Master.es_s_rated e y) <= a (Master.es_e_rated e y) * Problem.max_pe_factor pp.
Proof.
  unfold Master._build_master_problem. intros H Hmax Hpe He Hy.
  bind_inv H. bind_inv H. bind_inv H. inversion H; subst; clear H. simpl in Hmax, Hpe.
  assert (Hin : (e, y) ∈ Master.pairs (range (length (Problem.active_distribution_network_nodes pp)))
                                      (range (length (Problem.years pp)))).
  { apply elem_of_pairs. by rewrite !elem_of_range. }
  rewrite Forall_forall in Hmax. rewrite Forall_forall in Hpe.
  split; [|split].
  - apply (Hmax (Master.CLe (Master.Var (Master.es_e_rated e y)) (Master.Num (Problem.max_capacity pp)))).
    apply list_elem_of_fmap. by exists (e, y).
  - apply (Hpe (Master.CGe (Master.Var (Master.es_s_rated e y))
                  (Master.Mul (Master.Var (Master.es_e_rated e y)) (Master.Num (Problem.min_pe_factor pp))))).
    apply list_elem_of_In, in_flat_map. exists (e, y). split; [by apply list_elem_of_In | simpl; auto].
  - apply (Hpe (Master.CLe (Master.Var (Master.es_s_rated e y))
                  (Master.Mul (Master.Var (Master.es_e_rated e y)) (Master.Num (Problem.max_pe_factor pp))))).
    apply list_elem_of_In, in_flat_map. exists (e, y). split; [by apply list_elem_of_In | simpl; auto].
Qed.

Section BendersErrors.

Variable run_operational_planning :
  Candidate.candidate_solution -> (Z -> string -> Q) * Benders.sensitivities.
Variable optimize : Master.model -> Master.var -> Q.
Variable pp : Problem.planning_problem.
Variable params : Benders.benders_parameters.


End BendersErrors.

(** ** The properties above at the sample problems *)

Lemma sample_weights_nonzero : weights_nonzero Samples.pp.
Proof. unfold weights_nonzero. simpl. repeat (constructor; [by intros ?|]). constructor. Qed.

Lemma sample_discount : ~ 1 + Problem.discount_factor Samples.pp == 0.
Proof. by intros ?. Qed.


Lemma master_problem_zero_weight_witness :
  Problem.active_distribution_network_nodes Samples.pp_zero_weight <> [] /\
  (2021%Z, 0) ∈ Problem.years Samples.pp_zero_weight /\
  Master._build_master_problem Samples.pp_zero_weight = Err ZeroDivisionError.
Proof.
  assert (Hn : Problem.active_distribution_network_nodes Samples.pp_zero_weight <> []) by done.
  assert (Hin : (2021%Z, 0) ∈ Problem.years Samples.pp_zero_weight)
    by (simpl; right; left).
  split; [exact Hn|]. split; [exact Hin|].
  exact (master_problem_zero_weight Samples.pp_zero_weight 2021%Z 0 Hn Hin (Qeq_refl 0)).
Defined.

Lemma candidate_round_trip_witness :
  exists m c,
    Master._build_master_problem Samples.pp = Ok m /\
    SharedEnergyStorageData.get_candidate_solution Samples.pp m (Samples.optimize m) = Ok c /\
    Candidate.lookup2 (Candidate.investment c) 7%Z 2021%Z
    = Ok (Candidate.mkCapacity (1 # 1000000) (1 # 2)) /\
    Candidate.lookup2 (Candidate.total_capacity c) 7%Z 2021%Z
    = Ok (Candidate.mkCapacity (1 # 2) (1 # 2)).
Proof.
  assert (H : exists m c,
            Master._build_master_problem Samples.pp = Ok m /\
            SharedEnergyStorageData.get_candidate_solution Samples.pp m (Samples.optimize m) = Ok c /\
            0%nat ∈ Master.energy_storages m /\ 1%nat ∈ Master.years m).
  { eexists. eexists. split; [vm_compute; reflexivity|]. split; [vm_compute; reflexivity|].
    split; vm_compute; repeat constructor. }
  destruct H as (m & c & Hm & Hc & He & Hy).
  assert (Hnn : NoDup (Problem.active_distribution_network_nodes Samples.pp))
    by apply NoDup_singleton.
  assert (Hnk : NoDup (Problem.year_keys Samples.pp))
    by (apply (bool_decide_unpack _); vm_compute; exact I).
  exists m, c. split; [exact Hm|]. split; [exact Hc|].
  exact (candidate_round_trip Samples.pp (Samples.optimize m) m c 0%nat 1%nat 7%Z 2021%Z
           Hnn Hnk Hc eq_refl eq_refl He Hy).
Defined.


Lemma master_budget_bounds_objective_cost_witness :
  exists m,
    Master._build_master_problem Samples.pp = Ok m /\
    exists total cost,
      Master.energy_storage_investment m
      = [Master.CLe total (Master.Num (Problem.budget Samples.pp))] /\
      Master.objective m = Master.Add cost (Master.Var Master.alpha) /\
      forall a, Master.eval a total == Master.eval a cost.
Proof.
  eexists. split; [vm_compute; reflexivity|].
  apply (master_budget_bounds_objective_cost Samples.pp). vm_compute. reflexivity.
Defined.

Lemma master_capacity_limits_witness :
  exists m,
    Master._build_master_problem Samples.pp = Ok m /\
    Samples.at_solved_candidate (Master.es_e_rated 0 1) <= Problem.max_capacity Samples.pp /\
    Samples.at_solved_candidate (Master.es_e_rated 0 1) * Problem.min_pe_factor Samples.pp
    <= Samples.at_solved_candidate (Master.es_s_rated 0 1) /\
    Samples.at_solved_candidate (Master.es_s_rated 0 1)
    <= Samples.at_solved_candidate (Master.es_e_rated 0 1) * Problem.max_pe_factor Samples.pp.
Proof.
  assert (Hm : exists m,
             Master._build_master_problem Samples.pp = Ok m /\
             forallb (Master.holdsb Samples.at_solved_candidate)
                     (Master.energy_storage_maximum_capacity m) = true /\
             forallb (Master.holdsb Samples.at_solved_candidate)
                     (Master.energy_storage_power_to_energy_factor m) = true).
  { eexists. split; [vm_compute; reflexivity|]. split; vm_compute; reflexivity. }
  destruct Hm as (m & Hm & Hmax & Hpe).
  exists m. split; [exact Hm|].
  apply (master_capacity_limits Samples.pp m Samples.at_solved_candidate 0 1 Hm
           (forallb_holds _ _ Hmax) (forallb_holds _ _ Hpe)); simpl; lia.
Defined.


(** ** The consensus store: creation *)

Section StoreCreation.

Variable opp : Admm.operational_planning_problem.

Lemma for_nydp_keep_in {S V : Type} (obs : S -> V) (body : Z -> Z -> string -> nat -> S -> S)
    (s : S) :
  (forall n y d t s, in_index opp n y d t -> obs (body n y d t s) = obs s) ->
  obs (Admm.for_nydp opp body s) = obs s.
Proof.
  intros H. unfold Admm.for_nydp.
  apply for_each_keep. intros n s1 Hn. apply for_ydp_keep. intros y d t s2 Hy Hd Ht.
  apply H. by repeat split.
Qed.

Lemma create_slots_lookup (n y n' y' : Z) (d d' : string) (t t' : nat) (x : Q)
    (r : Admm.role) (c : Admm.quantity) (m : gmap Admm.path Q) :
  Admm.create_slots n' y' d' t' x m !! (r, n, y, d, c, t)
  = if decide ((n', y', d', t') = (n, y, d, t)) then Some x else m !! (r, n, y, d, c, t).
Proof.
  unfold Admm.create_slots. destruct (decide _) as [Heq|Hne].
  - inversion Heq; subst. destruct r, c;
      rewrite ?lookup_insert_eq; try done;
      repeat (rewrite lookup_insert_ne by congruence); by rewrite ?lookup_insert_eq.
  - rewrite !lookup_insert_ne; [done | congruence..].
Qed.

Lemma zeros_lookup (x : Q) (r : Admm.role) (n y : Z) (d : string) (c : Admm.quantity) (t : nat) :
  (in_index opp n y d t ->
   Admm.for_nydp opp (fun node_id year day t => Admm.create_slots node_id year day t x) ∅
     !! (r, n, y, d, c, t) = Some x) /\
  (~ in_index opp n y d t ->
   Admm.for_nydp opp (fun node_id year day t => Admm.create_slots node_id year day t x) ∅
     !! (r, n, y, d, c, t) = None).
Proof.
  split.
  - intros (Hn & Hy & Hd & Ht).
    apply (for_nydp_set opp (fun m : gmap Admm.path Q => m !! (r, n, y, d, c, t)) (Some x)
             _ n y d t); try assumption.
    + intros n' y' d' t' m. rewrite create_slots_lookup.
      destruct (decide _); [by right | by left].
    + intros m. rewrite create_slots_lookup. by rewrite decide_True.
  - intros Hout.
    rewrite (for_nydp_keep_in (fun m : gmap Admm.path Q => m !! (r, n, y, d, c, t))).
    + apply lookup_empty.
    + intros n' y' d' t' m Hin. rewrite create_slots_lookup.
      rewrite decide_False; [done|]. intros Heq. inversion Heq; subst. by apply Hout.
Qed.

(** [create_admm_variables] makes, for every node, year, day and instant of
    the index sets and for both roles and both quantities, a slot holding 0
    in the consensus interface flow, the consensus storage power, both dual
    stores and both previous-iteration stores, and a slot holding 1 in the
    interface voltage; it makes no other slot. *)
Theorem store_created (r : Admm.role) (n y : Z) (d : string) (c : Admm.quantity) (t : nat) :
  let cv := (Admm.create_admm_variables opp).1.1 in
  let dv := (Admm.create_admm_variables opp).1.2 in
  let prev := (Admm.create_admm_variables opp).2 in
  let k := (r, n, y, d, c, t) in
  (in_index opp n y d t ->
   Admm.interface_v cv !! (n, y, d, t) = Some 1 /\
   Admm.interface_pf cv !! k = Some 0 /\ Admm.ess cv !! k = Some 0 /\
   Admm.dual_pf dv !! k = Some 0 /\ Admm.dual_ess dv !! k = Some 0 /\
   Admm.prev_interface_pf prev !! k = Some 0 /\ Admm.prev_ess prev !! k = Some 0) /\
  (~ in_index opp n y d t ->
   Admm.interface_v cv !! (n, y, d, t) = None /\
   Admm.interface_pf cv !! k = None /\ Admm.ess cv !! k = None /\
   Admm.dual_pf dv !! k = None /\ Admm.dual_ess dv !! k = None /\
   Admm.prev_interface_pf prev !! k = None /\ Admm.prev_ess prev !! k = None).
Proof.
  intros cv dv prev k. unfold cv, dv, prev, k, Admm.create_admm_variables. simpl.
  destruct (zeros_lookup 0 r n y d c t) as [Hin Hout].
  split.
  - intros Hidx. pose proof (Hin Hidx) as Hz. repeat split; try exact Hz.
    destruct Hidx as (Hn & Hy & Hd & Ht).
    apply (for_nydp_set opp (fun m : gmap Admm.vpath Q => m !! (n, y, d, t)) (Some 1)
             _ n y d t); try assumption.
    + intros n' y' d' t' m.
      destruct (decide ((n', y', d', t') = (n, y, d, t))) as [->|Hne].
      * right. apply lookup_insert_eq.
      * left. by apply lookup_insert_ne.
    + intros m. apply lookup_insert_eq.
  - intros Hidx. pose proof (Hout Hidx) as Hz. repeat split; try exact Hz.
    rewrite (for_nydp_keep_in (fun m : gmap Admm.vpath Q => m !! (n, y, d, t))).
    + apply lookup_empty.
    + intros n' y' d' t' m Hin'. apply lookup_insert_ne.
      intros Heq. inversion Heq; subst. by apply Hidx.
Qed.

End StoreCreation.

(** ** The dual variables of the distribution side *)

Section DsoDuals.

Variable sqrt : Q -> Q.
Variable opp : Admm.operational_planning_problem.
Variable params : Admm.admm_parameters.

Hypothesis nodes_NoDup : NoDup (Admm.nodes opp).
Hypothesis years_NoDup : NoDup (Admm.years opp).
Hypothesis days_NoDup : NoDup (Admm.days opp).

Lemma update_pf_duals_dso (pf dual : gmap Admm.path Q)
    (n y : Z) (d : string) (c : Admm.quantity) (t : nat) :
  n ∈ Admm.nodes opp -> y ∈ Admm.years opp -> d ∈ Admm.days opp -> t ∈ Admm.instants opp ->
  Admm.update_pf_duals opp params pf dual !!! (Admm.dso, n, y, d, c, t)
  = dual !!! (Admm.dso, n, y, d, c, t)
    + Admm.rho_of_pf params (Admm.dn_name (Admm.dns opp n))
      * - (pf !!! (Admm.tso, n, y, d, c, t) - pf !!! (Admm.dso, n, y, d, c, t)).
Proof.
  intros Hn Hy Hd Ht. unfold Admm.update_pf_duals.
  apply (for_nydp_once opp
           (fun m : gmap Admm.path Q => m !!! (Admm.dso, n, y, d, c, t))
           (fun v => v + Admm.rho_of_pf params (Admm.dn_name (Admm.dns opp n))
                         * - (pf !!! (Admm.tso, n, y, d, c, t)
                              - pf !!! (Admm.dso, n, y, d, c, t)))
           _ n y d t); try assumption.
  - intros n' y' d' t' m Hne. rewrite !add_to_other; [reflexivity | congruence..].
  - intros m. destruct c.
    + rewrite add_to_other by congruence. rewrite add_to_same.
      rewrite add_to_other by congruence. reflexivity.
    + rewrite add_to_same. rewrite !add_to_other by congruence. reflexivity.
Qed.

Lemma update_ess_duals_dso (e dual : gmap Admm.path Q)
    (n y : Z) (d : string) (c : Admm.quantity) (t : nat) :
  y ∈ Admm.years opp -> d ∈ Admm.days opp -> t ∈ Admm.instants opp ->
  Admm.update_ess_duals opp params n e dual !!! (Admm.dso, n, y, d, c, t)
  = dual !!! (Admm.dso, n, y, d, c, t)
    + Admm.rho_of_ess params (Admm.dn_name (Admm.dns opp n))
      * (e !!! (Admm.dso, n, y, d, c, t) - e !!! (Admm.tso, n, y, d, c, t)).
Proof.
  intros Hy Hd Ht. unfold Admm.update_ess_duals.
  apply (for_ydp_once opp
           (fun m : gmap Admm.path Q => m !!! (Admm.dso, n, y, d, c, t))
           (fun v => v + Admm.rho_of_ess params (Admm.dn_name (Admm.dns opp n))
                         * (e !!! (Admm.dso, n, y, d, c, t) - e !!! (Admm.tso, n, y, d, c, t)))
           _ y d t); try assumption.
  - intros y' d' t' m Hne. rewrite !add_to_other; [reflexivity | congruence..].
  - intros m. destruct c.
    + rewrite add_to_other by congruence. rewrite add_to_same.
      rewrite !add_to_other by congruence. reflexivity.
    + rewrite add_to_same. rewrite !add_to_other by congruence. reflexivity.
Qed.

Lemma update_ess_dso (tso_model : Admm.network_model) (dso_models : Z -> Admm.network_model)
    (e dual : gmap Admm.path Q) (n y : Z) (d : string) (c : Admm.quantity) (t : nat) :
  n ∈ Admm.nodes opp -> y ∈ Admm.years opp -> d ∈ Admm.days opp -> t ∈ Admm.instants opp ->
  (Admm._update_shared_energy_storage_variables opp params tso_model dso_models e dual).2
    !!! (Admm.dso, n, y, d, c, t)
  = dual !!! (Admm.dso, n, y, d, c, t)
    + Admm.rho_of_ess params (Admm.dn_name (Admm.dns opp n))
      * ((Admm._update_shared_energy_storage_variables opp params tso_model dso_models e dual).1
           !!! (Admm.dso, n, y, d, c, t)
         - (Admm._update_shared_energy_storage_variables opp params tso_model dso_models e dual).1
           !!! (Admm.tso, n, y, d, c, t)).
Proof.
  intros Hn Hy Hd Ht. unfold Admm._update_shared_energy_storage_variables.
  pose proof nodes_NoDup as Hnd.
  apply list_elem_of_split in Hn. destruct Hn as (l1 & l2 & Hsplit).
  rewrite Hsplit in Hnd |- *.
  apply NoDup_app in Hnd. destruct Hnd as (_ & Hdisj & Hnd2).
  apply NoDup_cons in Hnd2. destruct Hnd2 as [Hnotin _].
  rewrite !for_each_app, !for_each_cons.
  set (s1 := for_each l1 (Admm.update_ess_node opp params tso_model dso_models) (e, dual)).
  set (s2 := Admm.update_ess_node opp params tso_model dso_models n s1).
  assert (Hafter : forall r',
             (for_each l2 (Admm.update_ess_node opp params tso_model dso_models) s2).1
               !!! (r', n, y, d, c, t) = s2.1 !!! (r', n, y, d, c, t) /\
             (for_each l2 (Admm.update_ess_node opp params tso_model dso_models) s2).2
               !!! (r', n, y, d, c, t) = s2.2 !!! (r', n, y, d, c, t)).
  { intros r'.
    apply (for_each_inv
             (fun s => s.1 !!! (r', n, y, d, c, t) = s2.1 !!! (r', n, y, d, c, t) /\
                       s.2 !!! (r', n, y, d, c, t) = s2.2 !!! (r', n, y, d, c, t))); [done|].
    intros n' s Hn' [H1 H2].
    destruct (update_ess_node_other opp params tso_model dso_models s r' n' n y d c t) as [H3 H4];
      [intros ->; by apply Hnotin|].
    rewrite H3, H4. by split. }
  assert (Hbefore : s1.2 !!! (Admm.dso, n, y, d, c, t) = dual !!! (Admm.dso, n, y, d, c, t)).
  { unfold s1.
    apply (for_each_inv
             (fun s => s.2 !!! (Admm.dso, n, y, d, c, t) = dual !!! (Admm.dso, n, y, d, c, t)));
      [done|].
    intros n' s Hn' H.
    destruct (update_ess_node_other opp params tso_model dso_models s Admm.dso n' n y d c t) as [_ H4];
      [intros ->; apply (Hdisj n Hn'); by left|].
    by rewrite H4. }
  destruct (Hafter Admm.tso) as [Ht1 _]. destruct (Hafter Admm.dso) as [Hd1 Hd2].
  rewrite Ht1, Hd1, Hd2, <- Hbefore.
  unfold s2, Admm.update_ess_node. simpl.
  by apply update_ess_duals_dso.
Qed.

(** After [_update_admm_consensus_variables] the duals of the distribution
    side have all four grown: those of the interface flow by
    [rho_pf_dso * -(tso - dso)] for [p] and for [q], and those of the
    shared storage by [rho_ess_dso * (dso - tso)], with the values just
    pulled. *)
Theorem dso_duals_after_update
    (tso_model : Admm.network_model) (dso_models : Z -> Admm.network_model) (st : Admm.store)
    (n y : Z) (d : string) (c : Admm.quantity) (t : nat) :
  n ∈ Admm.nodes opp -> y ∈ Admm.years opp -> d ∈ Admm.days opp -> t ∈ Admm.instants opp ->
  let st' := Admm._update_admm_consensus_variables sqrt opp params tso_model dso_models st in
  let pf := Admm.interface_pf (Admm.consensus_vars st') in
  let ess := Admm.ess (Admm.consensus_vars st') in
  let rho_pf_dso := Admm.rho_of_pf params (Admm.dn_name (Admm.dns opp n)) in
  let rho_ess_dso := Admm.rho_of_ess params (Admm.dn_name (Admm.dns opp n)) in
  Admm.dual_pf (Admm.dual_vars st') !!! (Admm.dso, n, y, d, c, t)
  = Admm.dual_pf (Admm.dual_vars st) !!! (Admm.dso, n, y, d, c, t)
    + rho_pf_dso * - (pf !!! (Admm.tso, n, y, d, c, t) - pf !!! (Admm.dso, n, y, d, c, t)) /\
  Admm.dual_ess (Admm.dual_vars st') !!! (Admm.dso, n, y, d, c, t)
  = Admm.dual_ess (Admm.dual_vars st) !!! (Admm.dso, n, y, d, c, t)
    + rho_ess_dso * (ess !!! (Admm.dso, n, y, d, c, t) - ess !!! (Admm.tso, n, y, d, c, t)).
Proof.
  intros Hn Hy Hd Ht st' pf ess rho_pf_dso rho_ess_dso.
  destruct (update_admm_fields sqrt opp params tso_model dso_models st)
    as (Hpf & Hdpf & Hess & Hdess).
  fold st' in Hpf, Hdpf, Hess, Hdess.
  unfold pf, ess. rewrite Hpf, Hdpf, Hess, Hdess.
  split; [by apply update_pf_duals_dso | by apply update_ess_dso].
Qed.

End DsoDuals.

(** ** The convergence test of the coordination *)

Lemma for_each_adds {B : Type} (l : list B) (body : B -> Q * nat -> Q * nat)
    (g : B -> Q) (k : B -> nat) :
  (forall b, b ∈ l -> adds (body b) (g b) (k b)) ->
  adds (for_each l body) (Master.Qsum (map g l)) (sum_list (map k l)).
Proof.
  induction l as [|b l IH]; intros H acc.
  - simpl. split; [ring | lia].
  - rewrite for_each_cons.
    destruct (IH (fun b' Hb' => H b' (list_elem_of_further _ _ _ Hb')) (body b acc)) as [H1 H2].
    destruct (H b (list_elem_of_here _ _) acc) as [H3 H4].
    split.
    + rewrite H1, H3. simpl. ring.
    + rewrite H2, H4. simpl. lia.
Qed.

Lemma adds_compose (F G : Q * nat -> Q * nat) (d1 d2 : Q) (k1 k2 : nat) :
  adds F d1 k1 -> adds G d2 k2 -> adds (fun acc => G (F acc)) (d1 + d2) (k1 + k2).
Proof.
  intros HF HG acc. destruct (HF acc) as [H1 H2]. destruct (HG (F acc)) as [H3 H4].
  split; [rewrite H3, H1; ring | rewrite H4, H2; lia].
Qed.

Lemma sum_list_const {A : Type} (l : list A) (k : nat) :
  sum_list (map (fun _ => k) l) = (length l * k)%nat.
Proof. induction l as [|x l IH]; simpl; [done | rewrite IH; lia]. Qed.

Lemma sum_list_ext {A : Type} (f g : A -> nat) (l : list A) :
  (forall x, f x = g x) -> sum_list (map f l) = sum_list (map g l).
Proof. intros H. induction l as [|x l IH]; simpl; [done | by rewrite H, IH]. Qed.

Lemma Qsum_nonneg {A : Type} (f : A -> Q) (l : list A) :
  (forall x, 0 <= f x) -> 0 <= Master.Qsum (map f l).
Proof.
  intros H. induction l as [|x l IH]; simpl; [lra|]. specialize (H x). lra.
Qed.

Lemma Qsum_ge_elem {A : Type} (f : A -> Q) (l : list A) (x : A) :
  (forall x, 0 <= f x) -> x ∈ l -> f x <= Master.Qsum (map f l).
Proof.
  intros H Hin. induction l as [|x' l IH]; [by apply elem_of_nil in Hin|].
  simpl. apply elem_of_cons in Hin. destruct Hin as [->|Hin].
  - pose proof (Qsum_nonneg f l H). lra.
  - specialize (IH Hin). specialize (H x'). lra.
Qed.

Lemma Qsum_zero_in {A : Type} (f : A -> Q) (l : list A) :
  (forall x, x ∈ l -> f x == 0) -> Master.Qsum (map f l) == 0.
Proof.
  intros H. induction l as [|x l IH]; simpl; [reflexivity|].
  rewrite (H x) by left. rewrite IH; [ring|]. intros x' Hx'. apply H. by right.
Qed.

Section ConvergenceTest.

Variable ERROR_PRECISION : Z.
Variable ADMM_CONVERGENCE_REL_TOL : Q.
Variable opp : Admm.operational_planning_problem.
Variable params : Admm.admm_parameters.

Let rnd := Admm.rnd ERROR_PRECISION.
Let slot_residual := Admm.slot_residual ERROR_PRECISION.
Let consensus_sum := Admm.consensus_sum ERROR_PRECISION opp.
Let stationary_sum := Admm.stationary_sum ERROR_PRECISION opp params.
Let within_tolerance := Admm.within_tolerance ADMM_CONVERGENCE_REL_TOL params.
Let sum_within_tolerance := Admm.sum_within_tolerance ADMM_CONVERGENCE_REL_TOL params.

Lemma slot_residual_nonneg (m : gmap Admm.path Q) (n y : Z) (d : string) (t : nat) :
  0 <= 2 * slot_residual m n y d t.
Proof.
  unfold slot_residual, Admm.slot_residual.
  match goal with |- 0 <= 2 * (Qabs ?a + Qabs ?b) =>
    pose proof (Qabs_nonneg a); pose proof (Qabs_nonneg b) end.
  lra.
Qed.

Lemma consensus_terms_adds (m : gmap Admm.path Q) (n y : Z) (d : string) (t : nat) :
  adds (Admm.consensus_terms ERROR_PRECISION m n y d t) (2 * slot_residual m n y d t) 4.
Proof.
  intros acc. unfold Admm.consensus_terms, slot_residual, Admm.slot_residual. cbn [fst snd].
  split; [|reflexivity].
  rewrite (Qabs_Qminus (Admm.rnd ERROR_PRECISION (m !!! (Admm.dso, n, y, d, Admm.p, t)))).
  rewrite (Qabs_Qminus (Admm.rnd ERROR_PRECISION (m !!! (Admm.dso, n, y, d, Admm.q, t)))).
  ring.
Qed.

Lemma consensus_block_adds (m : gmap Admm.path Q) (y : Z) (d : string) :
  adds (Admm.consensus_block ERROR_PRECISION opp m y d)
       (Master.Qsum (map (fun n =>
          Master.Qsum (map (fun t => 2 * slot_residual m n y d t) (Admm.instants opp)))
          (Admm.nodes opp)))
       (length (Admm.nodes opp) * (length (Admm.instants opp) * 4)).
Proof.
  unfold Admm.consensus_block.
  rewrite <- (sum_list_const (Admm.nodes opp)).
  apply (for_each_adds (Admm.nodes opp)
           (fun n => for_each (Admm.instants opp)
                       (fun t => Admm.consensus_terms ERROR_PRECISION m n y d t))).
  intros n _.
  rewrite <- (sum_list_const (Admm.instants opp)).
  apply (for_each_adds (Admm.instants opp)
           (fun t => Admm.consensus_terms ERROR_PRECISION m n y d t)).
  intros t _. apply consensus_terms_adds.
Qed.

Lemma consensus_sum_formula (cv : Admm.consensus_variables) :
  (consensus_sum cv).1
  == residual_total ERROR_PRECISION opp (Admm.interface_pf cv)
     + residual_total ERROR_PRECISION opp (Admm.ess cv) /\
  (consensus_sum cv).2
  = (8 * (length (Admm.years opp) * (length (Admm.days opp)
          * (length (Admm.nodes opp) * length (Admm.instants opp)))))%nat.
Proof.
  unfold consensus_sum, Admm.consensus_sum, residual_total.
  set (blk := fun (m : gmap Admm.path Q) y d =>
                Master.Qsum (map (fun n =>
                  Master.Qsum (map (fun t => 2 * Admm.slot_residual ERROR_PRECISION m n y d t)
                                   (Admm.instants opp)))
                  (Admm.nodes opp))).
  set (cnt := (length (Admm.nodes opp) * (length (Admm.instants opp) * 4))%nat).
  destruct (for_each_adds (Admm.years opp)
              (fun year => for_each (Admm.days opp) (fun day acc =>
                 Admm.consensus_block ERROR_PRECISION opp (Admm.ess cv) year day
                   (Admm.consensus_block ERROR_PRECISION opp (Admm.interface_pf cv) year day acc)))
              (fun y => Master.Qsum (map (fun d => blk (Admm.interface_pf cv) y d + blk (Admm.ess cv) y d)
                                         (Admm.days opp)))
              (fun _ => (length (Admm.days opp) * (cnt + cnt))%nat)) with (acc := (0, 0%nat))
    as [H1 H2].
  { intros y _. rewrite <- (sum_list_const (Admm.days opp)).
    apply (for_each_adds (Admm.days opp)
             (fun day acc =>
                Admm.consensus_block ERROR_PRECISION opp (Admm.ess cv) y day
                  (Admm.consensus_block ERROR_PRECISION opp (Admm.interface_pf cv) y day acc))).
    intros d _.
    apply (adds_compose (Admm.consensus_block ERROR_PRECISION opp (Admm.interface_pf cv) y d)
                        (Admm.consensus_block ERROR_PRECISION opp (Admm.ess cv) y d));
      apply consensus_block_adds. }
  split.
  - rewrite H1. simpl.
    rewrite (Qsum_map_ext _ (fun y => Master.Qsum (map (blk (Admm.interface_pf cv) y) (Admm.days opp))
                                      + Master.Qsum (map (blk (Admm.ess cv) y) (Admm.days opp))))
      by (intros y; apply Qsum_map_plus).
    rewrite Qsum_map_plus. unfold blk. ring.
  - rewrite H2. simpl. rewrite sum_list_const. unfold cnt. lia.
Qed.

Lemma residual_total_ge_slot (m : gmap Admm.path Q) (n y : Z) (d : string) (t : nat) :
  in_index opp n y d t ->
  2 * slot_residual m n y d t <= residual_total ERROR_PRECISION opp m.
Proof.
  intros (Hn & Hy & Hd & Ht). unfold residual_total.
  eapply Qle_trans; [|apply (Qsum_ge_elem _ _ y); [|exact Hy]].
  2:{ intros y'. apply Qsum_nonneg. intros d'. apply Qsum_nonneg. intros n'.
      apply Qsum_nonneg. intros t'. apply slot_residual_nonneg. }
  eapply Qle_trans; [|apply (Qsum_ge_elem _ _ d); [|exact Hd]].
  2:{ intros d'. apply Qsum_nonneg. intros n'.
      apply Qsum_nonneg. intros t'. apply slot_residual_nonneg. }
  eapply Qle_trans; [|apply (Qsum_ge_elem _ _ n); [|exact Hn]].
  2:{ intros n'. apply Qsum_nonneg. intros t'. apply slot_residual_nonneg. }
  apply (Qsum_ge_elem (fun t => 2 * Admm.slot_residual ERROR_PRECISION m n y d t) _ t);
    [|exact Ht].
  intros t'. apply slot_residual_nonneg.
Qed.

Lemma residual_total_nonneg (m : gmap Admm.path Q) :
  0 <= residual_total ERROR_PRECISION opp m.
Proof.
  unfold residual_total.
  apply Qsum_nonneg. intros y'. apply Qsum_nonneg. intros d'. apply Qsum_nonneg. intros n'.
  apply Qsum_nonneg. intros t'. apply slot_residual_nonneg.
Qed.

Lemma within_tolerance_spec (acc : Q * nat) (b : bool) :
  within_tolerance acc = Ok b -> (b = true <-> sum_within_tolerance acc).
Proof.
  unfold within_tolerance, Admm.within_tolerance, sum_within_tolerance, Admm.sum_within_tolerance.
  destruct (Py.Qltb _ _) eqn:E.
  - intros H. bind_inv H. inversion H; subst; clear H.
    apply Qltb_true in E. destruct (isclose_spec _ _ _ _ _ Ha) as (_ & _ & Hiff).
    rewrite Hiff. split; [by right | intros [Hle|Hc]; [lra | exact Hc]].
  - intros H. inversion H; subst; clear H. apply Qltb_false in E. split; [by left | done].
Qed.

(** [_consensus_convergence] tests a sum, not the slots one by one:
    [sum_abs] is twice the total of the rounded residuals of the interface
    flow and of the shared storage over the whole index set, [num_elems] is
    eight per (node, year, day, instant), and the function returns [True]
    exactly when [sum_abs <= tol * num_elems] or [math.isclose] accepts the
    two.  A single slot is bounded only through the sum. *)
Theorem consensus_test_is_on_the_sum (cv : Admm.consensus_variables) :
  (consensus_sum cv).1
  == residual_total ERROR_PRECISION opp (Admm.interface_pf cv)
     + residual_total ERROR_PRECISION opp (Admm.ess cv) /\
  (consensus_sum cv).2
  = (8 * (length (Admm.years opp) * (length (Admm.days opp)
          * (length (Admm.nodes opp) * length (Admm.instants opp)))))%nat /\
  (forall n y d t, in_index opp n y d t ->
     2 * slot_residual (Admm.interface_pf cv) n y d t <= (consensus_sum cv).1 /\
     2 * slot_residual (Admm.ess cv) n y d t <= (consensus_sum cv).1) /\
  (forall b, Admm._consensus_convergence ERROR_PRECISION ADMM_CONVERGENCE_REL_TOL opp params cv
             = Ok b ->
             (b = true <-> sum_within_tolerance (consensus_sum cv))).
Proof.
  destruct (consensus_sum_formula cv) as [Hsum Hcount].
  split; [exact Hsum|]. split; [exact Hcount|]. split.
  - intros n y d t Hidx. rewrite Hsum.
    pose proof (residual_total_ge_slot (Admm.interface_pf cv) n y d t Hidx).
    pose proof (residual_total_ge_slot (Admm.ess cv) n y d t Hidx).
    pose proof (residual_total_nonneg (Admm.interface_pf cv)).
    pose proof (residual_total_nonneg (Admm.ess cv)).
    split; lra.
  - intros b. apply within_tolerance_spec.
Qed.

(** [_check_admm_convergence] answers [True] exactly when both sum tests
    pass, the one on the residuals between the two copies and the one on
    the change since the previous-iteration store. *)
Theorem check_admm_convergence_iff (cv : Admm.consensus_variables)
    (prev : Admm.consensus_variables_prev_iter) (b : bool) :
  Admm._check_admm_convergence ERROR_PRECISION ADMM_CONVERGENCE_REL_TOL opp params cv prev = Ok b ->
  (b = true <->
   sum_within_tolerance (consensus_sum cv) /\ sum_within_tolerance (stationary_sum cv prev)).
Proof.
  unfold Admm._check_admm_convergence, Admm._consensus_convergence, Admm._stationary_convergence.
  intros H. bind_inv H.
  pose proof (within_tolerance_spec _ _ Ha) as Hc.
  destruct a.
  - bind_inv H. inversion H; subst; clear H.
    pose proof (within_tolerance_spec _ _ Ha0) as Hs.
    split; [intros Hb; split; [by apply Hc | by apply Hs] | intros [_ H2]; by apply Hs].
  - inversion H; subst; clear H. split; [discriminate|].
    intros [H1 _]. by apply Hc.
Qed.

(** When the two copies of every coupling agree after rounding, at every
    slot of the index set, the consensus test passes for any tolerance
    that is not negative. *)
Theorem consensus_agreement_passes (cv : Admm.consensus_variables) :
  0 <= Admm.tol params ->
  (forall n y d t c, in_index opp n y d t ->
     rnd (Admm.interface_pf cv !!! (Admm.tso, n, y, d, c, t))
     == rnd (Admm.interface_pf cv !!! (Admm.dso, n, y, d, c, t)) /\
     rnd (Admm.ess cv !!! (Admm.tso, n, y, d, c, t))
     == rnd (Admm.ess cv !!! (Admm.dso, n, y, d, c, t))) ->
  Admm._consensus_convergence ERROR_PRECISION ADMM_CONVERGENCE_REL_TOL opp params cv = Ok true.
Proof.
  intros Htol Hagree.
  assert (Hzero : forall m,
            (forall n y d t c, in_index opp n y d t ->
               rnd (m !!! (Admm.tso, n, y, d, c, t)) == rnd (m !!! (Admm.dso, n, y, d, c, t))) ->
            residual_total ERROR_PRECISION opp m == 0).
  { intros m Hm. unfold residual_total.
    apply Qsum_zero_in. intros y Hy. apply Qsum_zero_in. intros d Hd.
    apply Qsum_zero_in. intros n Hn. apply Qsum_zero_in. intros t Ht.
    unfold Admm.slot_residual.
    assert (Hidx : in_index opp n y d t) by (by repeat split).
    pose proof (Hm n y d t Admm.p Hidx) as Hp. pose proof (Hm n y d t Admm.q Hidx) as Hq.
    fold rnd. rewrite Hp, Hq.
    assert (Hself : forall x, Qabs (x - x) == 0).
    { intros x. assert (Hx : x - x == 0) by ring. by rewrite Hx. }
    rewrite !Hself.
    reflexivity. }
  destruct (consensus_sum_formula cv) as [Hsum _].
  pose proof (Hzero (Admm.interface_pf cv) (fun n y d t c H => proj1 (Hagree n y d t c H))) as Hz1.
  pose proof (Hzero (Admm.ess cv) (fun n y d t c H => proj2 (Hagree n y d t c H))) as Hz2.
  unfold Admm._consensus_convergence, Admm.within_tolerance.
  fold consensus_sum.
  destruct (Py.Qltb _ _) eqn:E; [|reflexivity].
  apply Qltb_true in E. exfalso.
  assert (Hcount : 0 <= inject_Z (Z.of_nat (consensus_sum cv).2)).
  { change 0 with (inject_Z 0). rewrite <- Zle_Qle. lia. }
  revert E Hsum Hz1 Hz2 Hcount Htol.
  generalize (inject_Z (Z.of_nat (consensus_sum cv).2)) ((consensus_sum cv).1)
             (residual_total ERROR_PRECISION opp (Admm.interface_pf cv))
             (residual_total ERROR_PRECISION opp (Admm.ess cv)) (Admm.tol params).
  intros k s r1 r2 tol E Hsum Hz1 Hz2 Hcount Htol. nra.
Qed.

End ConvergenceTest.

(** ** The augmented-Lagrangian objectives: when the rewrite can be made *)

Lemma foldlM_each {A B : Type} (f : A -> B -> result A) (l : list B) (a a' : A) :
  foldlM f a l = Ok a' -> forall b, b ∈ l -> exists a1 a2, f a1 b = Ok a2.
Proof.
  revert a. induction l as [|b0 l IH]; intros a H b Hb; [by apply elem_of_nil in Hb|].
  simpl in H. bind_inv H. apply elem_of_cons in Hb. destruct Hb as [->|Hb]; [eauto|].
  by eapply IH.
Qed.

Lemma nonzero_returns (y : Q) : ~ y == 0 -> Py.nonzero y = Ok y.
Proof.
  intros H. unfold Py.nonzero. destruct (Qeq_bool y 0) eqn:E; [|done].
  by apply Qeq_bool_iff in E.
Qed.

Lemma nonzero_inv (y d : Q) : Py.nonzero y = Ok d -> d = y /\ ~ y == 0.
Proof.
  unfold Py.nonzero. destruct (Qeq_bool y 0) eqn:E; [discriminate|].
  intros H. inversion H; subst. split; [done|]. by apply Qeq_bool_neq.
Qed.

Lemma div_inv (x y r : Q) : Py.div x y = Ok r -> r = x / y /\ ~ y == 0.
Proof.
  unfold Py.div. destruct (Qeq_bool y 0) eqn:E; [discriminate|].
  intros H. inversion H; subst. split; [done|]. by apply Qeq_bool_neq.
Qed.

Lemma Qabs_zero (x : Q) : Qabs x == 0 -> x == 0.
Proof. apply Qabs_case; intros; lra. Qed.

Lemma Qdiv_zero (x y : Q) : ~ y == 0 -> x / y == 0 -> x == 0.
Proof.
  intros Hy H. assert (Hx : x == x / y * y) by (field; exact Hy). rewrite Hx, H. ring.
Qed.

Lemma Qabs_div_nonzero (x y : Q) : ~ y == 0 -> ~ x == 0 -> ~ Qabs (x / y) == 0.
Proof. intros Hy Hx H. apply Hx. eapply Qdiv_zero; [exact Hy|]. by apply Qabs_zero. Qed.

Lemma add_pf_terms_returns (ip iq sb : Q) (i t : nat) (obj : Admm.values -> Q) :
  ~ sb == 0 -> ~ ip == 0 -> ~ iq == 0 ->
  exists obj', Admm.add_pf_terms ip iq sb i t obj = Ok obj'.
Proof.
  intros Hs Hp Hq. unfold Admm.add_pf_terms.
  rewrite !div_total by exact Hs. simpl.
  rewrite !nonzero_returns by (by apply Qabs_div_nonzero). simpl. eauto.
Qed.

Lemma add_pf_terms_inv (ip iq sb : Q) (i t : nat) (obj obj' : Admm.values -> Q) :
  Admm.add_pf_terms ip iq sb i t obj = Ok obj' -> ~ sb == 0 /\ ~ ip == 0 /\ ~ iq == 0.
Proof.
  unfold Admm.add_pf_terms. intros H. repeat bind_inv H.
  apply div_inv in Ha, Ha0. destruct Ha as [-> Hs], Ha0 as [-> _].
  apply nonzero_inv in Ha1, Ha2. destruct Ha1 as [_ Hp], Ha2 as [_ Hq].
  split; [exact Hs|]. split.
  - intros H0. apply Hp. assert (Hz : ip / sb == 0) by (rewrite H0; field; exact Hs).
    by rewrite Hz.
  - intros H0. apply Hq. assert (Hz : iq / sb == 0) by (rewrite H0; field; exact Hs).
    by rewrite Hz.
Qed.

Lemma effective_rating_nonzero (rating : Q) : ~ 2 * Admm.effective_rating rating == 0.
Proof.
  unfold Admm.effective_rating. destruct (Qeq_bool rating 0) eqn:E.
  - intros H. lra.
  - apply Qeq_bool_neq in E. intros H. apply E. lra.
Qed.

Lemma add_ess_terms_returns (rating : Q) (i t : nat) (obj : Admm.values -> Q) :
  exists obj', Admm.add_ess_terms (Admm.effective_rating rating) i t obj = Ok obj'.
Proof.
  unfold Admm.add_ess_terms.
  rewrite !nonzero_returns by apply effective_rating_nonzero. simpl. eauto.
Qed.

Section Rewrite.

Variable opp : Admm.operational_planning_problem.
Variable params : Admm.admm_parameters.

Lemma elem_of_year_day_pairs (y : Z) (d : string) :
  (y, d) ∈ Admm.year_day_pairs opp <-> y ∈ Admm.years opp /\ d ∈ Admm.days opp.
Proof.
  unfold Admm.year_day_pairs. rewrite list_elem_of_bind. split.
  - intros (y' & H & Hy). apply list_elem_of_bind in H. destruct H as (d' & H & Hd).
    apply list_elem_of_singleton in H. by inversion H; subst.
  - intros [Hy Hd]. exists y. split; [|exact Hy].
    apply list_elem_of_bind. exists d. split; [|exact Hd]. by apply list_elem_of_singleton.
Qed.

Lemma dso_block_returns (n : Z) (pf : gmap Admm.path Q) (y : Z) (d : string) (b : Admm.block) :
  (forall t, t ∈ Admm.periods opp ->
     flows_nonzero pf (Admm.dn_baseMVA (Admm.dns opp n) y d) n y d t) ->
  exists b', Admm.dso_block_to_admm opp params n pf y d b = Ok b'.
Proof.
  intros Hflows. unfold Admm.dso_block_to_admm.
  rewrite nonzero_returns.
  2:{ intros H. pose proof (Q.le_max_r (Qabs (if Qeq_bool (Admm.dn_rating (Admm.dns opp n) y d) 0
                                              then 1 else Admm.objective b (Admm.vals b))) 1).
      lra. }
  simpl.
  match goal with |- context [foldlM ?f ?a (Admm.periods opp)] =>
    destruct (foldlM_returns f (Admm.periods opp) a) as [obj1 ->] end.
  { intros obj t Ht. destruct (Hflows t Ht) as (Hs & Hp & Hq). by apply add_pf_terms_returns. }
  simpl.
  match goal with |- context [foldlM ?f ?a (Admm.periods opp)] =>
    destruct (foldlM_returns f (Admm.periods opp) a) as [obj2 ->] end.
  { intros obj t Ht. apply add_ess_terms_returns. }
  simpl. eauto.
Qed.

Lemma dso_block_inv (n : Z) (pf : gmap Admm.path Q) (y : Z) (d : string) (b b' : Admm.block) :
  Admm.dso_block_to_admm opp params n pf y d b = Ok b' ->
  forall t, t ∈ Admm.periods opp ->
    flows_nonzero pf (Admm.dn_baseMVA (Admm.dns opp n) y d) n y d t.
Proof.
  unfold Admm.dso_block_to_admm. intros H t Ht. bind_inv H. bind_inv H.
  destruct (foldlM_each _ _ _ _ Ha0 t Ht) as (o1 & o2 & Hstep).
  by apply add_pf_terms_inv in Hstep.
Qed.

(** [update_distribution_models_to_admm] can rewrite the objectives of
    the distribution models exactly when, at every node, year, day and
    period, the base power and the initial active and reactive interface
    flows are not zero: the residuals are divided by [abs(init_p)] and
    [abs(init_q)].  The other two denominators, [max(abs(init_of_value), 1)]
    and [2 * rating], are never zero. *)
Theorem dso_rewrite_returns_iff (models : Z -> Admm.network_model) (pf : gmap Admm.path Q) :
  (exists ms, Admm.update_distribution_models_to_admm opp params models pf = Ok ms) <->
  (forall n y d t, in_index opp n y d t ->
     flows_nonzero pf (Admm.dn_baseMVA (Admm.dns opp n) y d) n y d t).
Proof.
  unfold Admm.update_distribution_models_to_admm. split.
  - intros [ms H] n y d t (Hn & Hy & Hd & Ht).
    destruct (foldlM_each _ _ _ _ H n Hn) as (ms1 & ms2 & Hnode).
    bind_inv Hnode.
    destruct (foldlM_each _ _ _ _ Ha (y, d)) as (m1 & m2 & Hblock);
      [by apply elem_of_year_day_pairs|].
    bind_inv Hblock. simpl in Ha0. by eapply dso_block_inv.
  - intros Hflows. apply foldlM_returns. intros ms n Hn.
    match goal with |- context [foldlM ?f ?a (Admm.year_day_pairs opp)] =>
      destruct (foldlM_returns f (Admm.year_day_pairs opp) a) as [m ->] end; [|simpl; eauto].
    intros m [y d] Hyd. apply elem_of_year_day_pairs in Hyd. destruct Hyd as [Hy Hd]. simpl.
    destruct (dso_block_returns n pf y d (m y d)) as [b' ->]; [|simpl; eauto].
    intros t Ht. apply Hflows. by repeat split.
Qed.

Lemma tso_block_inv (pf : gmap Admm.path Q) (y : Z) (d : string) (b b' : Admm.block) :
  Admm.tso_block_to_admm opp params pf y d b = Ok b' ->
  ~ Admm.objective b (Admm.vals b) == 0 /\
  forall n t, n ∈ Admm.nodes opp -> t ∈ Admm.periods opp ->
    flows_nonzero pf (Admm.tn_baseMVA (Admm.tn opp) y d) n y d t.
Proof.
  unfold Admm.tso_block_to_admm. intros H. bind_inv H. bind_inv H.
  apply nonzero_inv in Ha. destruct Ha as [_ Hden].
  split; [intros H0; apply Hden; by rewrite H0|].
  intros n t Hn Ht. apply list_elem_of_lookup_1 in Hn. destruct Hn as [i Hi].
  destruct (foldlM_each _ _ _ _ Ha0 (i, n)) as (o1 & o2 & Hnode);
    [by apply elem_of_enumerate|].
  destruct (foldlM_each _ _ _ _ Hnode t Ht) as (o3 & o4 & Hstep).
  simpl in Hstep. by apply add_pf_terms_inv in Hstep.
Qed.

Lemma tso_block_returns (pf : gmap Admm.path Q) (y : Z) (d : string) (b : Admm.block) :
  ~ Admm.objective b (Admm.vals b) == 0 ->
  (forall n t, n ∈ Admm.nodes opp -> t ∈ Admm.periods opp ->
     flows_nonzero pf (Admm.tn_baseMVA (Admm.tn opp) y d) n y d t) ->
  exists b', Admm.tso_block_to_admm opp params pf y d b = Ok b'.
Proof.
  intros Hobj Hflows. unfold Admm.tso_block_to_admm.
  rewrite nonzero_returns by (intros H; apply Hobj; by apply Qabs_zero).
  simpl.
  match goal with |- context [foldlM ?f ?a (Problem.enumerate (Admm.nodes opp))] =>
    destruct (foldlM_returns f (Problem.enumerate (Admm.nodes opp)) a) as [obj1 ->] end.
  { intros obj [i n] Hin. apply elem_of_enumerate in Hin. apply list_elem_of_lookup_2 in Hin.
    apply foldlM_returns. intros obj' t Ht. simpl.
    destruct (Hflows n t Hin Ht) as (Hs & Hp & Hq). by apply add_pf_terms_returns. }
  simpl.
  match goal with |- context [foldlM ?f ?a (range _)] =>
    destruct (foldlM_returns f (range (length (Admm.nodes opp))) a) as [obj2 ->] end.
  { intros obj e _. apply foldlM_returns. intros obj' t _. apply add_ess_terms_returns. }
  simpl. eauto.
Qed.

(** [update_transmission_model_to_admm] returns only if, for every year and
    day, the base power and every initial interface flow of the
    distribution side are not zero; and when the transmission model's
    objective has a nonzero value for every year and day as well, it
    returns. *)
Theorem tso_rewrite_returns (model : Admm.network_model) (pf : gmap Admm.path Q) :
  ((exists m', Admm.update_transmission_model_to_admm opp params model pf = Ok m') ->
   forall n y d t, in_index opp n y d t ->
     flows_nonzero pf (Admm.tn_baseMVA (Admm.tn opp) y d) n y d t) /\
  (NoDup (Admm.years opp) -> NoDup (Admm.days opp) ->
   ((exists m', Admm.update_transmission_model_to_admm opp params model pf = Ok m') <->
    (forall y d, y ∈ Admm.years opp -> d ∈ Admm.days opp ->
       ~ Admm.objective (model y d) (Admm.vals (model y d)) == 0) /\
    (forall n y d t, in_index opp n y d t ->
       flows_nonzero pf (Admm.tn_baseMVA (Admm.tn opp) y d) n y d t))).
Proof.
  assert (Hneed : (exists m', Admm.update_transmission_model_to_admm opp params model pf = Ok m') ->
                  forall n y d t, in_index opp n y d t ->
                    flows_nonzero pf (Admm.tn_baseMVA (Admm.tn opp) y d) n y d t).
  { unfold Admm.update_transmission_model_to_admm.
    intros [m' H] n y d t (Hn & Hy & Hd & Ht).
    destruct (foldlM_each _ _ _ _ H (y, d)) as (m1 & m2 & Hblock);
      [by apply elem_of_year_day_pairs|].
    bind_inv Hblock. simpl in Ha. apply tso_block_inv in Ha. destruct Ha as [_ Hf].
    by apply Hf. }
  split; [exact Hneed|].
  intros Hndy Hndd.
  assert (Hnd : NoDup (Admm.year_day_pairs opp)).
  { unfold Admm.year_day_pairs. apply NoDup_bind; [| |exact Hndy].
    - intros y1 y2 yd _ _ H1 H2.
      apply list_elem_of_bind in H1, H2.
      destruct H1 as (d1 & H1 & _), H2 as (d2 & H2 & _).
      apply list_elem_of_singleton in H1, H2. congruence.
    - intros y _. apply NoDup_bind; [| |exact Hndd].
      + intros d1 d2 yd _ _ H1 H2. apply list_elem_of_singleton in H1, H2. congruence.
      + intros d _. apply NoDup_singleton. }
  assert (Hfold : forall l m,
            NoDup l -> (forall yd, yd ∈ l -> yd ∈ Admm.year_day_pairs opp) ->
            (forall yd, yd ∈ l -> m yd.1 yd.2 = model yd.1 yd.2) ->
            ((exists m', foldlM (fun m (yd : Z * string) =>
                                   b ← Admm.tso_block_to_admm opp params pf yd.1 yd.2 (m yd.1 yd.2);
                                   Ok (Admm.set_block m yd.1 yd.2 b)) m l = Ok m') <->
             (forall yd, yd ∈ l ->
                exists b', Admm.tso_block_to_admm opp params pf yd.1 yd.2 (model yd.1 yd.2) = Ok b'))).
  { induction l as [|[y0 d0] l IH]; intros m Hndl Hsub Hm.
    - simpl. split; [intros _ yd Hin; by apply elem_of_nil in Hin | eauto].
    - apply NoDup_cons in Hndl. destruct Hndl as [Hnotin Hndl]. simpl.
      pose proof (Hm (y0, d0) (list_elem_of_here _ _)) as Hm0. simpl in Hm0.
      rewrite Hm0. split.
      + intros [m' H]. bind_inv H. bind_inv Ha. inversion Ha; subst; clear Ha.
        intros yd Hin. apply elem_of_cons in Hin. destruct Hin as [->|Hin]; [eauto|].
        eapply (proj1 (IH _ Hndl (fun yd H => Hsub yd (list_elem_of_further _ _ _ H)) _));
          [eauto | exact Hin].
        Unshelve.
        intros [y1 d1] Hin1. simpl. rewrite set_block_other; [apply (Hm (y1, d1)); by right|].
        intros Heq. inversion Heq; subst. by apply Hnotin.
      + intros Hall. destruct (Hall (y0, d0)) as [b' Hb']; [left|]. simpl in Hb'.
        rewrite Hb'. simpl.
        apply IH; [exact Hndl | intros yd H; apply Hsub; by right | |
                   intros yd H; apply Hall; by right].
        intros [y1 d1] Hin1. simpl. rewrite set_block_other; [apply (Hm (y1, d1)); by right|].
        intros Heq. inversion Heq; subst. by apply Hnotin. }
  unfold Admm.update_transmission_model_to_admm.
  rewrite (Hfold (Admm.year_day_pairs opp) model Hnd (fun _ H => H) (fun _ _ => eq_refl)).
  split.
  - intros Hall. split.
    + intros y d Hy Hd. destruct (Hall (y, d)) as [b' Hb']; [by apply elem_of_year_day_pairs|].
      simpl in Hb'. apply tso_block_inv in Hb'. exact (proj1 Hb').
    + intros n y d t (Hn & Hy & Hd & Ht).
      destruct (Hall (y, d)) as [b' Hb']; [by apply elem_of_year_day_pairs|].
      simpl in Hb'. apply tso_block_inv in Hb'. destruct Hb' as [_ Hf]. by apply Hf.
  - intros [Hobj Hflows] [y d] Hyd. apply elem_of_year_day_pairs in Hyd.
    destruct Hyd as [Hy Hd]. simpl. apply tso_block_returns; [by apply Hobj|].
    intros n t Hn Ht. apply Hflows. by repeat split.
Qed.

End Rewrite.

(** ** The augmented-Lagrangian objectives at consensus *)

Lemma add_pf_terms_at_consensus (ip iq sb : Q) (i t : nat) (obj obj' : Admm.values -> Q)
    (v : Admm.values) :
  Admm.add_pf_terms ip iq sb i t obj = Ok obj' ->
  Admm.expected_interface_pf_p v i t == Admm.p_pf_req v i t ->
  Admm.expected_interface_pf_q v i t == Admm.q_pf_req v i t ->
  obj' v == obj v.
Proof.
  unfold Admm.add_pf_terms. intros H Hp Hq. repeat bind_inv H. inversion H; subst; clear H.
  unfold Admm.add_lagrangian, Admm.residual. rewrite Hp, Hq. unfold Qdiv. ring.
Qed.

Lemma add_ess_terms_at_consensus (rating : Q) (i t : nat) (obj obj' : Admm.values -> Q)
    (v : Admm.values) :
  Admm.add_ess_terms rating i t obj = Ok obj' ->
  Admm.expected_shared_ess_p v i t == Admm.p_ess_req v i t ->
  Admm.expected_shared_ess_q v i t == Admm.q_ess_req v i t ->
  obj' v == obj v.
Proof.
  unfold Admm.add_ess_terms. intros H Hp Hq. repeat bind_inv H. inversion H; subst; clear H.
  unfold Admm.add_lagrangian, Admm.residual. rewrite Hp, Hq. unfold Qdiv. ring.
Qed.

Section Consensus.

Variable opp : Admm.operational_planning_problem.
Variable params : Admm.admm_parameters.

(** When every expected interface flow and storage power of a model equals
    the value requested of it, the objective that the rewrite made is the
    model's original objective divided by the normalisation: by
    [max(abs(init_of_value), 1)] in a distribution model ([init_of_value]
    being 1 when the network's storage has rating 0), and by
    [abs(init_of_value)] in the transmission model.  All the terms added
    vanish. *)
Theorem objective_at_consensus (n : Z) (pf : gmap Admm.path Q) (y : Z) (d : string)
    (b b' : Admm.block) (v : Admm.values) :
  (Admm.dso_block_to_admm opp params n pf y d b = Ok b' ->
   at_consensus v 0 0 (Admm.periods opp) ->
   Admm.objective b' v
   == Admm.objective b v
      / Qmax (Qabs (if Qeq_bool (Admm.dn_rating (Admm.dns opp n) y d) 0
                    then 1 else Admm.objective b (Admm.vals b))) 1) /\
  (Admm.tso_block_to_admm opp params pf y d b = Ok b' ->
   (forall i, (i < length (Admm.nodes opp))%nat -> at_consensus v i i (Admm.periods opp)) ->
   Admm.objective b' v == Admm.objective b v / Qabs (Admm.objective b (Admm.vals b))).
Proof.
  split.
  - unfold Admm.dso_block_to_admm. intros H Hc. repeat bind_inv H. inversion H; subst; clear H.
    apply nonzero_inv in Ha. destruct Ha as [-> _]. simpl.
    assert (H1 : a0 v == Admm.objective b v
                         / Qmax (Qabs (if Qeq_bool (Admm.dn_rating (Admm.dns opp n) y d) 0
                                       then 1 else Admm.objective b (Admm.vals b))) 1).
    { revert Ha0. apply (foldlM_inv (fun obj : Admm.values -> Q => obj v == _)); [reflexivity|].
      intros obj t obj' Ht Hobj Hstep. destruct (Hc t Ht) as (Hp & Hq & _).
      rewrite (add_pf_terms_at_consensus _ _ _ _ _ _ _ v Hstep Hp Hq). exact Hobj. }
    revert Ha1. apply (foldlM_inv (fun obj : Admm.values -> Q => obj v == _)); [exact H1|].
    intros obj t obj' Ht Hobj Hstep. destruct (Hc t Ht) as (_ & _ & Hp & Hq).
    rewrite (add_ess_terms_at_consensus _ _ _ _ _ v Hstep Hp Hq). exact Hobj.
  - unfold Admm.tso_block_to_admm. intros H Hc. repeat bind_inv H. inversion H; subst; clear H.
    apply nonzero_inv in Ha. destruct Ha as [-> _]. simpl.
    assert (H1 : a0 v == Admm.objective b v / Qabs (Admm.objective b (Admm.vals b))).
    { revert Ha0. apply (foldlM_inv (fun obj : Admm.values -> Q => obj v == _)); [reflexivity|].
      intros obj [i n'] obj' Hin Hobj.
      apply elem_of_enumerate in Hin. apply lookup_lt_Some in Hin.
      apply (foldlM_inv (fun obj : Admm.values -> Q => obj v == _)); [exact Hobj|].
      intros obj1 t obj1' Ht Hobj1 Hstep. destruct (Hc i Hin t Ht) as (Hp & Hq & _).
      simpl in Hstep.
      rewrite (add_pf_terms_at_consensus _ _ _ _ _ _ _ v Hstep Hp Hq). exact Hobj1. }
    revert Ha1. apply (foldlM_inv (fun obj : Admm.values -> Q => obj v == _)); [exact H1|].
    intros obj e obj' He Hobj. apply elem_of_range in He.
    apply (foldlM_inv (fun obj : Admm.values -> Q => obj v == _)); [exact Hobj|].
    intros obj1 t obj1' Ht Hobj1 Hstep. destruct (Hc e He t Ht) as (_ & _ & Hp & Hq).
    rewrite (add_ess_terms_at_consensus _ _ _ _ _ v Hstep Hp Hq). exact Hobj1.
Qed.

End Consensus.

(** ** The end of the ADMM loop *)

Section AdmmLoop.

Variable sqrt : Q -> Q.
Variables ADMM_ADAPTIVE_PENALTY_FACTOR ADMM_CONVERGENCE_REL_TOL : Q.
Variable ERROR_PRECISION : Z.
Variable opp : Admm.operational_planning_problem.
Variable params : Admm.admm_parameters.
Variable optimize_tso : Admm.network_model -> bool -> Z -> string -> Admm.solution.
Variable optimize_dso : Z -> Admm.network_model -> bool -> Z -> string -> Admm.solution.
Variable build_dso_model : Z -> Admm.network_model.
Variable build_tso_model : gmap Admm.path Q -> Admm.network_model.
Variable tn_compute_primal_value : Admm.network_model -> Q.
Variable dn_compute_primal_value : Z -> Admm.network_model -> Q.

Let check (r : Admm.run) : result bool :=
  Admm._check_admm_convergence ERROR_PRECISION ADMM_CONVERGENCE_REL_TOL opp params
    (Admm.consensus_vars (Admm.sto r)) (Admm.consensus_vars_prev_iter (Admm.sto r)).
Let iteration :=
  Admm.iteration sqrt ADMM_ADAPTIVE_PENALTY_FACTOR ERROR_PRECISION ADMM_CONVERGENCE_REL_TOL
    opp params optimize_tso optimize_dso tn_compute_primal_value dn_compute_primal_value.
Let admm_loop :=
  Admm.admm_loop sqrt ADMM_ADAPTIVE_PENALTY_FACTOR ERROR_PRECISION ADMM_CONVERGENCE_REL_TOL
    opp params optimize_tso optimize_dso tn_compute_primal_value dn_compute_primal_value.

Lemma check_step_outcome (r r' : Admm.run) :
  Admm.check_step ERROR_PRECISION ADMM_CONVERGENCE_REL_TOL opp params r = Ok r' ->
  check r' = Ok (Admm.convergence r') /\
  Admm.num_iter r' = Admm.num_iter r /\
  Admm.primal_evolution r' = Admm.primal_evolution r.
Proof.
  unfold Admm.check_step, check. intros H. bind_inv H. inversion H; subst; clear H. simpl.
  by repeat split.
Qed.

Lemma iteration_outcome (iter : nat) (r : Admm.run) (rb : Admm.run * bool) :
  iteration iter r = Ok rb ->
  (rb.2 = true ->
   Admm.convergence rb.1 = true /\ check rb.1 = Ok true /\
   Admm.num_iter rb.1 = Admm.num_iter r) /\
  (rb.2 = false ->
   Admm.convergence rb.1 = false /\ Admm.num_iter rb.1 = S (Admm.num_iter r)) /\
  (length (Admm.primal_evolution rb.1) <= length (Admm.primal_evolution r) + 2)%nat.
Proof.
  unfold iteration, Admm.iteration. intros H. bind_inv H.
  set (r1 := Admm.consensus_step sqrt opp params tn_compute_primal_value dn_compute_primal_value
               (Admm.solve_tso_step ADMM_ADAPTIVE_PENALTY_FACTOR opp params optimize_tso r)) in *.
  assert (Hr1 : Admm.num_iter r1 = Admm.num_iter r /\
                length (Admm.primal_evolution r1) = S (length (Admm.primal_evolution r))).
  { unfold r1. simpl. rewrite length_app. simpl. split; [done | lia]. }
  destruct Hr1 as [Hn1 Hp1].
  destruct (1 <? iter)%nat eqn:Eiter.
  - destruct (check_step_outcome _ _ Ha) as (Hc & Hn & Hp). simpl in H.
    destruct (Admm.convergence a) eqn:Eca.
    + inversion H; subst; clear H. simpl.
      split; [intros _; rewrite Hc, Eca, Hn, Hn1; done|].
      split; [discriminate|]. rewrite Hp. lia.
    + bind_inv H. destruct (check_step_outcome _ _ Ha0) as (Hc3 & Hn3 & Hp3).
      simpl in Hn3, Hp3. rewrite length_app in Hp3 || idtac.
      assert (Hlen : length (Admm.primal_evolution a0) = S (length (Admm.primal_evolution a))).
      { rewrite Hp3. simpl. rewrite length_app. simpl. lia. }
      destruct (Admm.convergence a0) eqn:Eca0; inversion H; subst; clear H; simpl.
      * split; [intros _; rewrite Hc3, Eca0, Hn3, Hn, Hn1; done|].
        split; [discriminate|]. rewrite Hlen, Hp. lia.
      * split; [discriminate|].
        split; [intros _; rewrite Eca0, Hn3, Hn, Hn1; done|]. rewrite Hlen, Hp. lia.
  - inversion Ha; subst; clear Ha. simpl in H.
    bind_inv H. destruct (check_step_outcome _ _ Ha) as (Hc3 & Hn3 & Hp3).
    simpl in Hn3, Hp3.
    assert (Hlen : length (Admm.primal_evolution a) = S (length (Admm.primal_evolution r1))).
    { rewrite Hp3. rewrite length_app. simpl. lia. }
    destruct (Admm.convergence a) eqn:Eca0; inversion H; subst; clear H; simpl.
    * split; [intros _; rewrite Hc3, Eca0, Hn3; done|].
      split; [discriminate|]. rewrite Hlen. lia.
    * split; [discriminate|].
      split; [intros _; rewrite Eca0, Hn3; done|]. rewrite Hlen. lia.
Qed.

Lemma admm_loop_outcome (iters : list nat) (r r' : Admm.run) :
  admm_loop iters r = Ok r' -> Admm.convergence r = false ->
  (Admm.convergence r' = true ->
   check r' = Ok true /\ (Admm.num_iter r' < Admm.num_iter r + length iters)%nat) /\
  (Admm.convergence r' = false -> Admm.num_iter r' = (Admm.num_iter r + length iters)%nat) /\
  (length (Admm.primal_evolution r')
   <= length (Admm.primal_evolution r) + 2 * length iters)%nat.
Proof.
  revert r. induction iters as [|iter rest IH]; intros r H Hconv; simpl in H.
  - inversion H; subst; clear H. simpl.
    split; [congruence|]. split; [intros _; lia | lia].
  - unfold admm_loop in H. simpl in H. bind_inv H. fold iteration in Ha.
    destruct (iteration_outcome iter r a Ha) as (Hbreak & Hgo & Hlen).
    destruct a as [r1 b1]. simpl in *. destruct b1.
    + inversion H; subst; clear H. destruct (Hbreak eq_refl) as (Hc & Hchk & Hn).
      split; [intros _; split; [exact Hchk | lia]|].
      split; [congruence | lia].
    + destruct (Hgo eq_refl) as (Hc & Hn).
      destruct (IH r1 H Hc) as (IH1 & IH2 & IH3).
      split; [intros Hc'; destruct (IH1 Hc') as [? ?]; split; [done | lia]|].
      split; [intros Hc'; rewrite (IH2 Hc'); lia | lia].
Qed.

(** When [_run_operational_planning_problem] leaves its main cycle with
    [convergence] true, the store it ends with passed
    [check_admm_convergence], in a pass that [num_iter] numbers; when it
    leaves with [convergence] false, all [num_max_iters] passes were run.
    Each pass appends at most two values to [primal_evolution]. *)
Theorem admm_loop_end (r : Admm.run) :
  Admm._run_operational_planning_problem sqrt ADMM_ADAPTIVE_PENALTY_FACTOR ERROR_PRECISION
    ADMM_CONVERGENCE_REL_TOL opp params optimize_tso optimize_dso
    build_dso_model build_tso_model tn_compute_primal_value dn_compute_primal_value = Ok r ->
  (Admm.convergence r = true ->
   check r = Ok true /\ (Admm.num_iter r <= Admm.num_max_iters params)%nat) /\
  (Admm.convergence r = false -> Admm.num_iter r = S (Admm.num_max_iters params)) /\
  (length (Admm.primal_evolution r) <= 2 * Admm.num_max_iters params)%nat.
Proof.
  unfold Admm._run_operational_planning_problem. intros H. bind_inv H.
  assert (Hinit : Admm.convergence a = false /\ Admm.num_iter a = 1%nat /\
                  Admm.primal_evolution a = []).
  { unfold Admm.initial_run in Ha.
    destruct (Admm.create_admm_variables opp) as [[cv dv] prev].
    destruct (Admm.create_distribution_networks_models opp build_dso_model cv) as [dso0 cv1].
    bind_inv Ha.
    destruct (Admm.create_transmission_network_model sqrt opp build_tso_model cv1) as [tso0 cv2].
    bind_inv Ha. by inversion Ha; subst. }
  destruct Hinit as (Hc & Hn & Hp).
  destruct (admm_loop_outcome _ a r H Hc) as (H1 & H2 & H3).
  unfold range in H1, H2, H3. rewrite length_seq in H1, H2, H3. rewrite Hn in H1, H2.
  rewrite Hp in H3. simpl in H3.
  split; [intros Hc'; destruct (H1 Hc'); split; [done | lia]|].
  split; [intros Hc'; rewrite (H2 Hc'); lia | lia].
Qed.

End AdmmLoop.

(** ** The properties of the coordination at the sample *)

Lemma dso_duals_after_update_witness :
  Samples.initial_run false = Ok (Samples.run0 false) /\
  let st := Admm.sto (Samples.after_tso_solve (Samples.run0 false)) in
  let st' := Samples.after_tso_update (Samples.run0 false) in
  Admm.dual_pf (Admm.dual_vars st') !!! Samples.slot Admm.dso Admm.p == -2 /\
  Admm.dual_pf (Admm.dual_vars st') !!! Samples.slot Admm.dso Admm.p
  = Admm.dual_pf (Admm.dual_vars st) !!! Samples.slot Admm.dso Admm.p
    + Admm.rho_of_pf (Samples.admm_params false) (Admm.dn_name (Admm.dns Samples.opp_one 7))
      * - (Admm.interface_pf (Admm.consensus_vars st') !!! Samples.slot Admm.tso Admm.p
           - Admm.interface_pf (Admm.consensus_vars st') !!! Samples.slot Admm.dso Admm.p).
Proof.
  split; [apply is_ok_get; vm_compute; reflexivity|]. cbv zeta.
  split; [vm_compute; reflexivity|].
  assert (Hnd : NoDup (Admm.nodes Samples.opp_one) /\ NoDup (Admm.years Samples.opp_one) /\
                NoDup (Admm.days Samples.opp_one))
    by (repeat split; apply NoDup_singleton).
  assert (Hin : 7%Z ∈ Admm.nodes Samples.opp_one /\ 2020%Z ∈ Admm.years Samples.opp_one /\
                "d1"%string ∈ Admm.days Samples.opp_one /\ 0%nat ∈ Admm.instants Samples.opp_one)
    by (repeat split; apply list_elem_of_here).
  destruct Hnd as (Hn & Hy & Hd). destruct Hin as (Hin1 & Hin2 & Hin3 & Hin4).
  exact (proj1 (dso_duals_after_update
                  Samples.sqrt_at_one Samples.opp_one (Samples.admm_params false) Hn Hy Hd
                  (Admm.tso_model (Samples.after_tso_solve (Samples.run0 false)))
                  (Admm.dso_models (Samples.after_tso_solve (Samples.run0 false)))
                  (Admm.sto (Samples.after_tso_solve (Samples.run0 false)))
                  7%Z 2020%Z "d1"%string Admm.p 0%nat Hin1 Hin2 Hin3 Hin4)).
Defined.

Lemma check_admm_convergence_iff_witness :
  Admm._check_admm_convergence Samples.ERROR_PRECISION Samples.ADMM_CONVERGENCE_REL_TOL
    Samples.opp_one (Samples.admm_params false) Samples.cv_gap Samples.prev_gap = Ok true /\
  (true = true <->
   Admm.sum_within_tolerance Samples.ADMM_CONVERGENCE_REL_TOL (Samples.admm_params false)
     (Admm.consensus_sum Samples.ERROR_PRECISION Samples.opp_one Samples.cv_gap) /\
   Admm.sum_within_tolerance Samples.ADMM_CONVERGENCE_REL_TOL (Samples.admm_params false)
     (Admm.stationary_sum Samples.ERROR_PRECISION Samples.opp_one (Samples.admm_params false)
        Samples.cv_gap Samples.prev_gap)).
Proof.
  assert (H : Admm._check_admm_convergence Samples.ERROR_PRECISION Samples.ADMM_CONVERGENCE_REL_TOL
                Samples.opp_one (Samples.admm_params false) Samples.cv_gap Samples.prev_gap
              = Ok true) by (vm_compute; reflexivity).
  split; [exact H|].
  exact (check_admm_convergence_iff Samples.ERROR_PRECISION Samples.ADMM_CONVERGENCE_REL_TOL
           Samples.opp_one (Samples.admm_params false) Samples.cv_gap Samples.prev_gap true H).
Defined.

Lemma consensus_agreement_passes_witness :
  0 <= Admm.tol (Samples.admm_params false) /\
  Admm._consensus_convergence Samples.ERROR_PRECISION Samples.ADMM_CONVERGENCE_REL_TOL
    Samples.opp_one (Samples.admm_params false) Samples.cv_created = Ok true.
Proof.
  assert (Htol : 0 <= Admm.tol (Samples.admm_params false)) by done.
  split; [exact Htol|].
  apply (consensus_agreement_passes Samples.ERROR_PRECISION Samples.ADMM_CONVERGENCE_REL_TOL
           Samples.opp_one (Samples.admm_params false) Samples.cv_created Htol).
  intros n y d t c (Hn & Hy & Hd & Ht).
  apply list_elem_of_singleton in Hn, Hy, Hd, Ht. subst.
  destruct c; split; vm_compute; reflexivity.
Defined.

Lemma admm_loop_end_witness :
  Samples.run_problem false = Ok (Samples.run_all false) /\
  Admm.convergence (Samples.run_all false) = false /\
  Admm.num_iter (Samples.run_all false) = S (Admm.num_max_iters (Samples.admm_params false)).
Proof.
  assert (H : Samples.run_problem false = Ok (Samples.run_all false))
    by (apply is_ok_get; vm_compute; reflexivity).
  assert (Hc : Admm.convergence (Samples.run_all false) = false) by (vm_compute; reflexivity).
  split; [exact H|]. split; [exact Hc|].
  exact (proj1 (proj2 (admm_loop_end
                         Samples.sqrt_at_one Samples.ADMM_ADAPTIVE_PENALTY_FACTOR
                         Samples.ADMM_CONVERGENCE_REL_TOL Samples.ERROR_PRECISION
                         Samples.opp_one (Samples.admm_params false)
                         Samples.optimize_tso Samples.optimize_dso
                         Samples.build_dso_model Samples.build_tso_model
                         (fun _ => 0) (fun _ _ => 0) (Samples.run_all false) H)) Hc).
Defined.

(** ** shared_energy_storage_data.py: the storages and the candidate *)

Lemma mapM_lookup {A B : Type} (f : A -> result B) (l : list A) (l' : list B) :
  Storages.mapM f l = Ok l' ->
  length l' = length l /\
  forall i x, l !! i = Some x -> exists y, f x = Ok y /\ l' !! i = Some y.
Proof.
  revert l'. induction l as [|x l IH]; intros l' H; simpl in H.
  - inversion H; subst. split; [done|]. intros i x Hx. by rewrite lookup_nil in Hx.
  - bind_inv H. bind_inv H. inversion H; subst; clear H.
    destruct (IH a0 Ha0) as [Hlen Hall]. split; [simpl; by rewrite Hlen|].
    intros [|i] x' Hx'; simpl in Hx'.
    + inversion Hx'; subst. eauto.
    + by apply Hall.
Qed.

Lemma mapM_returns {A B : Type} (f : A -> result B) (l : list A) :
  (forall x, x ∈ l -> exists y, f x = Ok y) -> exists l', Storages.mapM f l = Ok l'.
Proof.
  induction l as [|x l IH]; intros H; simpl; [eauto|].
  destruct (H x) as [y ->]; [left|]. simpl.
  destruct IH as [l' ->]; [intros x' Hx'; apply H; by right|]. simpl. eauto.
Qed.

Section StorageData.

Variable SharedEnergyStorage : Storages.shared_energy_storage.
Variable distribution_network_name : Z -> string.
Variable ENERGY_STORAGE_RELATIVE_INIT_SOC : Q.
Variable ENERGY_STORAGE_MIN_ENERGY_STORED : Q.
Variable ENERGY_STORAGE_MAX_ENERGY_STORED : Q.

Let at_node := Storages.at_node SharedEnergyStorage distribution_network_name.
Let create := Storages.create_shared_energy_storages SharedEnergyStorage distribution_network_name.
Let update :=
  Storages.update_data_with_candidate_solution ENERGY_STORAGE_RELATIVE_INIT_SOC
    ENERGY_STORAGE_MIN_ENERGY_STORED ENERGY_STORAGE_MAX_ENERGY_STORED.

Lemma append_nodes (year : Z) (nodes : list Z) (l : list Storages.shared_energy_storage)
    (st : gmap Z (list Storages.shared_energy_storage)) (year' : Z) :
  st !! year = Some l ->
  for_each nodes (fun node_id st => alter (fun l => l ++ [at_node node_id]) year st) st !! year'
  = if decide (year' = year) then Some (l ++ map at_node nodes) else st !! year'.
Proof.
  revert l st. induction nodes as [|n nodes IH]; intros l st Hl.
  - simpl. destruct (decide _) as [->|]; [by rewrite app_nil_r | done].
  - rewrite for_each_cons.
    rewrite (IH (l ++ [at_node n])) by (by rewrite lookup_alter_eq, Hl).
    destruct (decide _) as [->|Hne]; [simpl; by rewrite <- app_assoc|].
    by rewrite lookup_alter_ne.
Qed.

(** [create_shared_energy_storages] leaves, for every year of the planning
    problem, one storage per active node, in the order of the nodes: storage
    [e] of every year sits at the bus [active_distribution_network_nodes[e]].
    Other years are left as they were. *)
Theorem storages_created (years nodes : list Z)
    (st : gmap Z (list Storages.shared_energy_storage)) (year : Z) :
  create years nodes st !! year
  = if decide (year ∈ years) then Some (map at_node nodes) else st !! year.
Proof.
  unfold create, Storages.create_shared_energy_storages. fold at_node.
  revert st. induction years as [|y years IH]; intros st.
  - destruct (decide _) as [Hin|]; [by apply elem_of_nil in Hin | done].
  - rewrite for_each_cons, IH.
    destruct (decide (year ∈ years)) as [Hin|Hnin].
    + rewrite decide_True; [done | by right].
    + rewrite (append_nodes y nodes []) by apply lookup_insert_eq.
      destruct (decide (year = y)) as [->|Hne].
      * rewrite decide_True; [done | by left].
      * rewrite lookup_insert_ne by done. rewrite decide_False; [done|].
        rewrite elem_of_cons. tauto.
Qed.

Lemma update_lookup (cand : Candidate.table) (years : list Z)
    (st st' : gmap Z (list Storages.shared_energy_storage)) (year : Z) :
  NoDup years ->
  update cand years st = Ok st' ->
  (year ∈ years ->
   exists l l', st !! year = Some l /\ st' !! year = Some l' /\
     Storages.mapM (Storages.with_capacity ENERGY_STORAGE_RELATIVE_INIT_SOC
                      ENERGY_STORAGE_MIN_ENERGY_STORED ENERGY_STORAGE_MAX_ENERGY_STORED
                      cand year) l = Ok l') /\
  (year ∉ years -> st' !! year = st !! year).
Proof.
  unfold update, Storages.update_data_with_candidate_solution.
  intros Hnd. revert st. induction years as [|y years IH]; intros st H; simpl in H.
  - inversion H; subst. split; [intros Hin; by apply elem_of_nil in Hin | done].
  - apply NoDup_cons in Hnd. destruct Hnd as [Hnotin Hnd].
    bind_inv H. destruct (st !! y) as [l|] eqn:El; [|discriminate].
    bind_inv Ha. inversion Ha; subst; clear Ha.
    destruct (IH Hnd _ H) as [IHin IHout].
    split.
    + intros Hin. apply elem_of_cons in Hin. destruct Hin as [->|Hin].
      * exists l, a0. rewrite (IHout Hnotin), lookup_insert_eq. by repeat split.
      * destruct (IHin Hin) as (l1 & l2 & H1 & H2 & H3).
        rewrite lookup_insert_ne in H1 by (intros ->; by apply Hnotin). eauto.
    + intros Hout. rewrite (IHout (fun Hin => Hout (list_elem_of_further _ _ _ Hin))).
      apply lookup_insert_ne. intros ->. apply Hout. by left.
Qed.

(** From the solved master problem to the storages.  With the storages as
    [create_shared_energy_storages] makes them and the candidate that
    [get_candidate_solution] reads from a solved master problem,
    [update_data_with_candidate_solution(candidate['total_capacity'])] gives
    the storage [e] of the year of index [y] the rated power
    [abs(value(es_s_rated[e, y]))] and the rated energy
    [abs(value(es_e_rated[e, y]))], and its initial, minimum and maximum
    stored energy that energy times the three constants. *)
Theorem storages_take_rated_capacity (pp : Problem.planning_problem) (m : Master.model)
    (sol : Master.var -> Q) (c : Candidate.candidate_solution)
    (st' : gmap Z (list Storages.shared_energy_storage))
    (e y : nat) (node_id year : Z) :
  NoDup (Problem.active_distribution_network_nodes pp) ->
  NoDup (Problem.year_keys pp) ->
  master_sets pp m ->
  SharedEnergyStorageData.get_candidate_solution pp m sol = Ok c ->
  update (Candidate.total_capacity c) (Problem.year_keys pp)
         (create (Problem.year_keys pp) (Problem.active_distribution_network_nodes pp) ∅)
  = Ok st' ->
  Problem.active_distribution_network_nodes pp !! e = Some node_id ->
  Problem.year_keys pp !! y = Some year ->
  exists l ess,
    st' !! year = Some l /\ l !! e = Some ess /\
    Storages.bus ess = node_id /\
    Storages.s ess = Qabs (sol (Master.es_s_rated e y)) /\
    Storages.e ess = Qabs (sol (Master.es_e_rated e y)) /\
    Storages.e_init ess = Qabs (sol (Master.es_e_rated e y)) * ENERGY_STORAGE_RELATIVE_INIT_SOC /\
    Storages.e_min ess = Qabs (sol (Master.es_e_rated e y)) * ENERGY_STORAGE_MIN_ENERGY_STORED /\
    Storages.e_max ess = Qabs (sol (Master.es_e_rated e y)) * ENERGY_STORAGE_MAX_ENERGY_STORED.
Proof.
  intros Hnn Hnk [Hys Hes] Hc Hup He Hy.
  assert (Hyin : year ∈ Problem.year_keys pp) by (by eapply list_elem_of_lookup_2).
  destruct (update_lookup _ _ _ _ year Hnk Hup) as [Hin _].
  destruct (Hin Hyin) as (l & l' & Hl & Hl' & Hmap).
  rewrite storages_created, decide_True in Hl by exact Hyin.
  inversion Hl; subst l; clear Hl.
  destruct (mapM_lookup _ _ _ Hmap) as [_ Hall].
  destruct (Hall e (at_node node_id)) as (ess & Hess & Hle).
  { rewrite list_lookup_fmap, He. reflexivity. }
  destruct (candidate_round_trip pp sol m c e y node_id year Hnn Hnk Hc He Hy) as [_ Ht].
  { rewrite Hes. apply elem_of_range. by eapply lookup_lt_Some. }
  { rewrite Hys. apply elem_of_range. rewrite <- year_keys_length. by eapply lookup_lt_Some. }
  unfold Storages.with_capacity in Hess. simpl in Hess. rewrite Ht in Hess. simpl in Hess.
  inversion Hess; subst ess; clear Hess.
  eexists _, _. split; [exact Hl'|]. split; [exact Hle|]. simpl. by repeat split.
Qed.

Lemma mapM_elem {A B : Type} (f : A -> result B) (l : list A) (l' : list B) (y : B) :
  Storages.mapM f l = Ok l' -> y ∈ l' -> exists x, x ∈ l /\ f x = Ok y.
Proof.
  revert l'. induction l as [|x l IH]; intros l' H Hy; simpl in H.
  - inversion H; subst. by apply elem_of_nil in Hy.
  - bind_inv H. bind_inv H. inversion H; subst; clear H.
    apply elem_of_cons in Hy. destruct Hy as [->|Hy].
    + exists x. split; [left | done].
    + destruct (IH _ Ha0 Hy) as (x' & Hx' & Hf). exists x'. split; [by right | done].
Qed.

(** [update_data_with_candidate_solution], on the storages that
    [create_shared_energy_storages] made, completes exactly when the
    candidate has an entry for every active node and every year; a missing
    entry ends it in a [KeyError]. *)
Theorem storages_update_returns_iff (pp : Problem.planning_problem) (cand : Candidate.table) :
  NoDup (Problem.year_keys pp) ->
  ((exists st',
      update cand (Problem.year_keys pp)
        (create (Problem.year_keys pp) (Problem.active_distribution_network_nodes pp) ∅)
      = Ok st') <->
   covers pp cand).
Proof.
  intros Hnk. split.
  - intros [st' Hup] node_id year Hn Hy.
    destruct (update_lookup _ _ _ _ year Hnk Hup) as [Hin _].
    destruct (Hin Hy) as (l & l' & Hl & _ & Hmap).
    rewrite storages_created, decide_True in Hl by exact Hy.
    inversion Hl; subst l; clear Hl.
    destruct (mapM_lookup _ _ _ Hmap) as [_ Hall].
    apply list_elem_of_lookup_1 in Hn. destruct Hn as [e He].
    destruct (Hall e (at_node node_id)) as (ess & Hess & _).
    { rewrite list_lookup_fmap, He. reflexivity. }
    unfold Storages.with_capacity in Hess. simpl in Hess.
    destruct (Candidate.lookup2 cand node_id year) as [c|]; [eauto | discriminate].
  - intros Hcov. unfold update, Storages.update_data_with_candidate_solution.
    set (P := fun st : gmap Z (list Storages.shared_energy_storage) =>
                forall year, year ∈ Problem.year_keys pp ->
                  exists l, st !! year = Some l /\
                            forall ess, ess ∈ l ->
                              Storages.bus ess ∈ Problem.active_distribution_network_nodes pp).
    match goal with |- exists st', foldlM ?f ?a ?l = Ok st' =>
      destruct (foldlM_total P f l a) as (st' & H & _); [| |eauto] end.
    + intros year Hy. exists (map at_node (Problem.active_distribution_network_nodes pp)).
      split; [by rewrite storages_created, decide_True|].
      intros ess Hess. apply list_elem_of_fmap in Hess. destruct Hess as (n & -> & Hn). exact Hn.
    + intros st year Hy HP. destruct (HP year Hy) as (l & Hl & Hbus). rewrite Hl.
      destruct (mapM_returns (Storages.with_capacity ENERGY_STORAGE_RELATIVE_INIT_SOC
                                ENERGY_STORAGE_MIN_ENERGY_STORED ENERGY_STORAGE_MAX_ENERGY_STORED
                                cand year) l) as [l' Hl'].
      { intros ess Hess. unfold Storages.with_capacity.
        destruct (Hcov (Storages.bus ess) year (Hbus ess Hess) Hy) as [c ->]. simpl. eauto. }
      rewrite Hl'. simpl. eexists. split; [reflexivity|].
      intros year' Hy'. destruct (decide (year' = year)) as [->|Hne].
      * exists l'. split; [apply lookup_insert_eq|].
        intros ess Hess. destruct (mapM_elem _ _ _ _ Hl' Hess) as (x & Hx & Hf).
        unfold Storages.with_capacity in Hf. bind_inv Hf. inversion Hf; subst; clear Hf. simpl.
        by apply Hbus.
      * destruct (HP year' Hy') as (l1 & Hl1 & Hbus1). exists l1.
        split; [by rewrite lookup_insert_ne | exact Hbus1].
Qed.

End StorageData.

(** ** The operational planning without coordination *)

Lemma for_each_set_all {S B V : Type} (obs : S -> V) (v : V) (l : list B)
    (body : B -> S -> S) (s : S) :
  l <> [] -> (forall b s, obs (body b s) = v) -> obs (for_each l body s) = v.
Proof.
  intros Hne Hset. destruct l as [|b l]; [done|].
  apply (for_each_set obs v _ _ b); [left | intros; by right | apply Hset].
Qed.

Lemma last_range (k d : nat) : List.last (range (S k)) d = k.
Proof.
  unfold range. rewrite seq_S. simpl. apply last_last.
Qed.

Section Uncoordinated.

Variable opp : Admm.operational_planning_problem.
Variable dso_models : Z -> Admm.network_model.
Variable scenarios_market : Z -> string -> list nat.
Variable scenarios_operation : Z -> string -> list nat.

Let pull := WithoutCoordination.pull_initial_flows opp dso_models.
Let run :=
  WithoutCoordination._run_operational_planning_without_coordination
    opp dso_models scenarios_market scenarios_operation.

Let flow := WithoutCoordination.dso_flow opp dso_models.

Lemma pulled_flows (c : Admm.quantity) (n y : Z) (d : string) (t : nat) :
  in_index opp n y d t ->
  WithoutCoordination.interface_pf pull !! (Admm.dso, n, y, d, c, t) = Some (flow c n y d t).
Proof.
  intros (Hn & Hy & Hd & Ht). unfold pull, WithoutCoordination.pull_initial_flows.
  apply (for_nydp_set opp
           (fun f => WithoutCoordination.interface_pf f !! (Admm.dso, n, y, d, c, t))
           (Some (flow c n y d t)) _ n y d t); try assumption.
  - intros n' y' d' t' f. simpl.
    destruct (decide ((n', y', d', t') = (n, y, d, t))) as [Heq|Hne].
    + right. inversion Heq; subst. destruct c.
      * rewrite lookup_insert_ne by congruence. by rewrite lookup_insert_eq.
      * by rewrite lookup_insert_eq.
    + left. rewrite !lookup_insert_ne; [done | congruence..].
  - intros f. simpl. destruct c.
    + rewrite lookup_insert_ne by congruence. by rewrite lookup_insert_eq.
    + by rewrite lookup_insert_eq.
Qed.

Lemma loop_p_unbound :
  Admm.instants opp = [] -> WithoutCoordination.loop_p pull = None.
Proof.
  intros Hempty. unfold pull, WithoutCoordination.pull_initial_flows.
  rewrite (for_nydp_keep_in opp WithoutCoordination.loop_p); [done|].
  intros n y d t f (_ & _ & _ & Ht). rewrite Hempty in Ht. by apply elem_of_nil in Ht.
Qed.

Lemma loop_p_last (k : nat) :
  Admm.nodes opp <> [] -> Admm.years opp <> [] -> Admm.days opp <> [] ->
  Problem.num_instants (Admm.problem opp) = S k ->
  WithoutCoordination.loop_p pull = Some k.
Proof.
  intros Hn Hy Hd Hk. unfold pull, WithoutCoordination.pull_initial_flows, Admm.for_nydp,
    Admm.for_ydp.
  apply (for_each_set_all WithoutCoordination.loop_p); [exact Hn|]. intros n f1.
  apply (for_each_set_all WithoutCoordination.loop_p); [exact Hy|]. intros y f2.
  apply (for_each_set_all WithoutCoordination.loop_p); [exact Hd|]. intros d f3.
  unfold Admm.instants. rewrite Hk. unfold range. rewrite seq_S, for_each_app. reflexivity.
Qed.

Lemma elem_of_node_year_days (n y : Z) (d : string) :
  (n, y, d) ∈ WithoutCoordination.node_year_days opp
  <-> n ∈ Admm.nodes opp /\ y ∈ Admm.years opp /\ d ∈ Admm.days opp.
Proof.
  unfold WithoutCoordination.node_year_days. rewrite list_elem_of_bind. split.
  - intros (n' & H & Hn). apply list_elem_of_bind in H. destruct H as (y' & H & Hy).
    apply list_elem_of_bind in H. destruct H as (d' & H & Hd).
    apply list_elem_of_singleton in H. by inversion H; subst.
  - intros (Hn & Hy & Hd). exists n. split; [|exact Hn].
    apply list_elem_of_bind. exists y. split; [|exact Hy].
    apply list_elem_of_bind. exists d. split; [|exact Hd]. by apply list_elem_of_singleton.
Qed.

(** With no instant ([num_instants = 0]) and at least one node, year and
    day, the function ends in the [UnboundLocalError] of [p]: the
    transmission part reads [p] before its own loop over the periods, and
    no loop of the distribution part has bound it. *)
Theorem uncoordinated_unbound_p :
  Admm.nodes opp <> [] -> Admm.years opp <> [] -> Admm.days opp <> [] ->
  Problem.num_instants (Admm.problem opp) = 0%nat ->
  run = WithoutCoordination.Raised (WithoutCoordination.UnboundLocalError "p").
Proof.
  intros Hn Hy Hd H0. unfold run, WithoutCoordination._run_operational_planning_without_coordination.
  fold pull. rewrite loop_p_unbound by (unfold Admm.instants; by rewrite H0).
  unfold WithoutCoordination.node_year_days.
  destruct (Admm.nodes opp) as [|n ns]; [done|].
  destruct (Admm.years opp) as [|y ys]; [done|].
  destruct (Admm.days opp) as [|d ds]; [done|].
  reflexivity.
Qed.

(** With [num_instants = k + 1], the transmission model is given, at every
    period and in every scenario, the interface flow that the distribution
    network had in the last period [k]: [pc] and [qc] are read once per
    node, year and day at the index [p] left by an earlier loop, and fixed
    for all periods. *)
Theorem uncoordinated_fixes_last_period (k : nat) :
  Admm.nodes opp <> [] -> Admm.years opp <> [] -> Admm.days opp <> [] ->
  Problem.num_instants (Admm.problem opp) = S k ->
  (forall y d, y ∈ Admm.years opp -> d ∈ Admm.days opp ->
     ~ Admm.tn_baseMVA (Admm.tn opp) y d == 0) ->
  exists fixes,
    run = WithoutCoordination.Returned fixes /\
    (forall fx, fx ∈ fixes ->
       let n := WithoutCoordination.fix_node fx in
       let y := WithoutCoordination.fix_year fx in
       let d := WithoutCoordination.fix_day fx in
       WithoutCoordination.fix_pc fx
       = WithoutCoordination.dso_flow opp dso_models Admm.p n y d k
         / Admm.tn_baseMVA (Admm.tn opp) y d /\
       WithoutCoordination.fix_qc fx
       = WithoutCoordination.dso_flow opp dso_models Admm.q n y d k
         / Admm.tn_baseMVA (Admm.tn opp) y d) /\
    (forall n y d t s_m s_o,
       in_index opp n y d t -> s_m ∈ scenarios_market y d -> s_o ∈ scenarios_operation y d ->
       exists fx, fx ∈ fixes /\
         WithoutCoordination.fix_node fx = n /\ WithoutCoordination.fix_year fx = y /\
         WithoutCoordination.fix_day fx = d /\ WithoutCoordination.fix_s_m fx = s_m /\
         WithoutCoordination.fix_s_o fx = s_o /\ WithoutCoordination.fix_period fx = t).
Proof.
  intros Hn Hy Hd Hk Hbase.
  set (fixes_at := fun nyd : Z * Z * string =>
         WithoutCoordination.fixes_of opp scenarios_market scenarios_operation
           nyd.1.1 nyd.1.2 nyd.2
           (flow Admm.p nyd.1.1 nyd.1.2 nyd.2 k / Admm.tn_baseMVA (Admm.tn opp) nyd.1.2 nyd.2)
           (flow Admm.q nyd.1.1 nyd.1.2 nyd.2 k / Admm.tn_baseMVA (Admm.tn opp) nyd.1.2 nyd.2)).
  assert (Hkin : k ∈ Admm.instants opp).
  { unfold Admm.instants. rewrite Hk. apply elem_of_range. lia. }
  assert (Hfold : forall l acc,
            (forall nyd, nyd ∈ l -> nyd ∈ WithoutCoordination.node_year_days opp) ->
            WithoutCoordination.foldlO
              (WithoutCoordination.fix_interface opp scenarios_market scenarios_operation
                 (WithoutCoordination.interface_pf pull)) l (Some k, acc)
            = WithoutCoordination.Returned (Some k, acc ++ flat_map fixes_at l)).
  { induction l as [|[[n y] d] l IH]; intros acc Hsub.
    - simpl. by rewrite app_nil_r.
    - assert (Hin : n ∈ Admm.nodes opp /\ y ∈ Admm.years opp /\ d ∈ Admm.days opp)
        by (apply elem_of_node_year_days, Hsub; left).
      destruct Hin as (Hn1 & Hy1 & Hd1).
      assert (Hidx : in_index opp n y d k) by (by repeat split).
      simpl. unfold WithoutCoordination.at_instant, WithoutCoordination.divide.
      rewrite !pulled_flows by exact Hidx.
      rewrite !div_total by (by apply Hbase).
      assert (Hre : WithoutCoordination.rebind opp scenarios_market scenarios_operation y d k = k).
      { unfold WithoutCoordination.rebind, Admm.periods, Admm.instants. rewrite Hk.
        destruct (scenarios_market y d), (scenarios_operation y d); try done.
        apply last_range. }
      rewrite Hre, IH by (intros nyd H; apply Hsub; by right).
      by rewrite <- app_assoc. }
  exists (flat_map fixes_at (WithoutCoordination.node_year_days opp)).
  split; [|split].
  - unfold run, WithoutCoordination._run_operational_planning_without_coordination.
    fold pull. rewrite (loop_p_last k Hn Hy Hd Hk), Hfold by done. reflexivity.
  - intros fx Hfx. apply list_elem_of_In, in_flat_map in Hfx.
    destruct Hfx as ([[n y] d] & _ & Hfx). apply list_elem_of_In in Hfx.
    unfold fixes_at, WithoutCoordination.fixes_of in Hfx. simpl in Hfx.
    apply list_elem_of_bind in Hfx. destruct Hfx as (s_m & Hfx & _).
    apply list_elem_of_bind in Hfx. destruct Hfx as (s_o & Hfx & _).
    apply list_elem_of_bind in Hfx. destruct Hfx as (t & Hfx & _).
    apply list_elem_of_singleton in Hfx. subst fx. simpl. by split.
  - intros n y d t s_m s_o (Hn1 & Hy1 & Hd1 & Ht1) Hsm Hso.
    eexists (WithoutCoordination.mkFixing n y d s_m s_o t _ _).
    split; [|by repeat split].
    apply list_elem_of_In, in_flat_map. exists (n, y, d).
    split; [by apply list_elem_of_In, elem_of_node_year_days|].
    apply list_elem_of_In. unfold fixes_at, WithoutCoordination.fixes_of. simpl.
    apply list_elem_of_bind. exists s_m. split; [|exact Hsm].
    apply list_elem_of_bind. exists s_o. split; [|exact Hso].
    apply list_elem_of_bind. exists t. split; [|exact Ht1].
    by apply list_elem_of_singleton.
Qed.

End Uncoordinated.

(** ** The storages and the run without coordination at the samples *)

Lemma storages_take_rated_capacity_witness :
  exists m c st',
    Master._build_master_problem Samples.pp = Ok m /\
    SharedEnergyStorageData.get_candidate_solution Samples.pp m (Samples.optimize m) = Ok c /\
    Storages.update_data_with_candidate_solution Samples.ENERGY_STORAGE_RELATIVE_INIT_SOC
      Samples.ENERGY_STORAGE_MIN_ENERGY_STORED Samples.ENERGY_STORAGE_MAX_ENERGY_STORED
      (Candidate.total_capacity c) (Problem.year_keys Samples.pp)
      (Storages.create_shared_energy_storages Samples.new_storage Samples.network_name
         (Problem.year_keys Samples.pp) (Problem.active_distribution_network_nodes Samples.pp) ∅)
    = Ok st' /\
    exists l ess,
      st' !! 2021%Z = Some l /\ l !! 0%nat = Some ess /\
      Storages.bus ess = 7%Z /\
      Storages.s ess = Qabs (Samples.optimize m (Master.es_s_rated 0 1)) /\
      Storages.e ess = Qabs (Samples.optimize m (Master.es_e_rated 0 1)) /\
      Storages.e_init ess
      = Qabs (Samples.optimize m (Master.es_e_rated 0 1)) * Samples.ENERGY_STORAGE_RELATIVE_INIT_SOC /\
      Storages.e_min ess
      = Qabs (Samples.optimize m (Master.es_e_rated 0 1)) * Samples.ENERGY_STORAGE_MIN_ENERGY_STORED /\
      Storages.e_max ess
      = Qabs (Samples.optimize m (Master.es_e_rated 0 1)) * Samples.ENERGY_STORAGE_MAX_ENERGY_STORED.
Proof.
  assert (H : exists m c st',
            Master._build_master_problem Samples.pp = Ok m /\
            SharedEnergyStorageData.get_candidate_solution Samples.pp m (Samples.optimize m) = Ok c /\
            Storages.update_data_with_candidate_solution Samples.ENERGY_STORAGE_RELATIVE_INIT_SOC
              Samples.ENERGY_STORAGE_MIN_ENERGY_STORED Samples.ENERGY_STORAGE_MAX_ENERGY_STORED
              (Candidate.total_capacity c) (Problem.year_keys Samples.pp)
              (Storages.create_shared_energy_storages Samples.new_storage Samples.network_name
                 (Problem.year_keys Samples.pp)
                 (Problem.active_distribution_network_nodes Samples.pp) ∅)
            = Ok st' /\
            master_sets Samples.pp m).
  { eexists. eexists. eexists. split; [vm_compute; reflexivity|].
    split; [vm_compute; reflexivity|]. split; [vm_compute; reflexivity|].
    split; vm_compute; reflexivity. }
  destruct H as (m & c & st' & Hm & Hc & Hup & Hsets).
  assert (Hnn : NoDup (Problem.active_distribution_network_nodes Samples.pp))
    by apply NoDup_singleton.
  assert (Hnk : NoDup (Problem.year_keys Samples.pp))
    by (apply (bool_decide_unpack _); vm_compute; exact I).
  exists m, c, st'. split; [exact Hm|]. split; [exact Hc|]. split; [exact Hup|].
  exact (storages_take_rated_capacity Samples.new_storage Samples.network_name
           Samples.ENERGY_STORAGE_RELATIVE_INIT_SOC Samples.ENERGY_STORAGE_MIN_ENERGY_STORED
           Samples.ENERGY_STORAGE_MAX_ENERGY_STORED Samples.pp m (Samples.optimize m) c st'
           0%nat 1%nat 7%Z 2021%Z Hnn Hnk Hsets Hc Hup eq_refl eq_refl).
Defined.

Lemma storages_update_returns_iff_witness :
  NoDup (Problem.year_keys Samples.pp) /\
  ((exists st',
      Storages.update_data_with_candidate_solution Samples.ENERGY_STORAGE_RELATIVE_INIT_SOC
        Samples.ENERGY_STORAGE_MIN_ENERGY_STORED Samples.ENERGY_STORAGE_MAX_ENERGY_STORED
        (Candidate.total_capacity (Candidate._get_initial_candidate_solution Samples.pp))
        (Problem.year_keys Samples.pp)
        (Storages.create_shared_energy_storages Samples.new_storage Samples.network_name
           (Problem.year_keys Samples.pp) (Problem.active_distribution_network_nodes Samples.pp) ∅)
      = Ok st') <->
   covers Samples.pp
     (Candidate.total_capacity (Candidate._get_initial_candidate_solution Samples.pp))).
Proof.
  assert (Hnk : NoDup (Problem.year_keys Samples.pp))
    by (apply (bool_decide_unpack _); vm_compute; exact I).
  split; [exact Hnk|].
  exact (storages_update_returns_iff Samples.new_storage Samples.network_name
           Samples.ENERGY_STORAGE_RELATIVE_INIT_SOC Samples.ENERGY_STORAGE_MIN_ENERGY_STORED
           Samples.ENERGY_STORAGE_MAX_ENERGY_STORED Samples.pp
           (Candidate.total_capacity (Candidate._get_initial_candidate_solution Samples.pp)) Hnk).
Defined.

Lemma uncoordinated_unbound_p_witness :
  Problem.num_instants (Admm.problem Samples.opp_none) = 0%nat /\
  WithoutCoordination._run_operational_planning_without_coordination
    Samples.opp_none Samples.dso_two_instants Samples.one_scenario Samples.one_scenario
  = WithoutCoordination.Raised (WithoutCoordination.UnboundLocalError "p").
Proof.
  split; [reflexivity|].
  apply (uncoordinated_unbound_p Samples.opp_none Samples.dso_two_instants
           Samples.one_scenario Samples.one_scenario); done.
Defined.

Lemma uncoordinated_fixes_last_period_witness :
  WithoutCoordination.dso_flow Samples.opp_two Samples.dso_two_instants Admm.p 7 2020 "d1" 0 == 1 /\
  WithoutCoordination.dso_flow Samples.opp_two Samples.dso_two_instants Admm.p 7 2020 "d1" 1 == 3 /\
  exists fixes,
    WithoutCoordination._run_operational_planning_without_coordination
      Samples.opp_two Samples.dso_two_instants Samples.one_scenario Samples.one_scenario
    = WithoutCoordination.Returned fixes /\
    (forall fx, fx ∈ fixes ->
       let n := WithoutCoordination.fix_node fx in
       let y := WithoutCoordination.fix_year fx in
       let d := WithoutCoordination.fix_day fx in
       WithoutCoordination.fix_pc fx
       = WithoutCoordination.dso_flow Samples.opp_two Samples.dso_two_instants Admm.p n y d 1
         / Admm.tn_baseMVA (Admm.tn Samples.opp_two) y d /\
       WithoutCoordination.fix_qc fx
       = WithoutCoordination.dso_flow Samples.opp_two Samples.dso_two_instants Admm.q n y d 1
         / Admm.tn_baseMVA (Admm.tn Samples.opp_two) y d) /\
    (forall n y d t s_m s_o,
       in_index Samples.opp_two n y d t ->
       s_m ∈ Samples.one_scenario y d -> s_o ∈ Samples.one_scenario y d ->
       exists fx, fx ∈ fixes /\
         WithoutCoordination.fix_node fx = n /\ WithoutCoordination.fix_year fx = y /\
         WithoutCoordination.fix_day fx = d /\ WithoutCoordination.fix_s_m fx = s_m /\
         WithoutCoordination.fix_s_o fx = s_o /\ WithoutCoordination.fix_period fx = t).
Proof.
  split; [vm_compute; reflexivity|]. split; [vm_compute; reflexivity|].
  apply (uncoordinated_fixes_last_period Samples.opp_two Samples.dso_two_instants
           Samples.one_scenario Samples.one_scenario 1%nat); try done.
Defined.

(** ** What the consensus store holds after an update *)

Section PulledValues.

Variable sqrt : Q -> Q.
Variable opp : Admm.operational_planning_problem.
Variable params : Admm.admm_parameters.

Hypothesis nodes_NoDup : NoDup (Admm.nodes opp).

Lemma pull_tso_interface_lookup (tso_model : Admm.network_model) (cv : Admm.consensus_variables)
    (dn : nat) (n y : Z) (d : string) (t : nat) :
  Admm.nodes opp !! dn = Some n -> y ∈ Admm.years opp -> d ∈ Admm.days opp ->
  t ∈ Admm.instants opp ->
  let cv' := Admm.pull_tso_interface sqrt opp tso_model cv in
  let b := Admm.vals (tso_model y d) in
  let s_base := Admm.tn_baseMVA (Admm.tn opp) y d in
  Admm.interface_v cv' !!! (n, y, d, t) = sqrt (Admm.expected_interface_vmag_sqr b dn t) /\
  Admm.interface_pf cv' !!! (Admm.tso, n, y, d, Admm.p, t)
  = Admm.expected_interface_pf_p b dn t * s_base /\
  Admm.interface_pf cv' !!! (Admm.tso, n, y, d, Admm.q, t)
  = Admm.expected_interface_pf_q b dn t * s_base /\
  (forall c, Admm.interface_pf cv' !!! (Admm.dso, n, y, d, c, t)
             = Admm.interface_pf cv !!! (Admm.dso, n, y, d, c, t)) /\
  Admm.ess cv' = Admm.ess cv.
Proof.
  intros Hdn Hy Hd Ht cv' b s_base. unfold cv', Admm.pull_tso_interface.
  assert (Hin : (dn, n) ∈ Problem.enumerate (Admm.nodes opp)) by (by apply elem_of_enumerate).
  assert (Huniq : forall dn', (dn', n) ∈ Problem.enumerate (Admm.nodes opp) -> dn' = dn).
  { intros dn' H. apply elem_of_enumerate in H. exact (NoDup_lookup _ _ _ _ nodes_NoDup H Hdn). }
  assert (Hset : forall {V : Type} (obs : Admm.consensus_variables -> V) (v : V),
            (forall y' d' t' cv0 dn' n',
               (dn', n') ∈ Problem.enumerate (Admm.nodes opp) ->
               (n', y', d', t') <> (n, y, d, t) ->
               obs {| Admm.interface_v :=
                        <[(n', y', d', t') := sqrt (Admm.expected_interface_vmag_sqr
                                                      (Admm.vals (tso_model y' d')) dn' t')]>
                          (Admm.interface_v cv0);
                      Admm.interface_pf :=
                        <[(Admm.tso, n', y', d', Admm.q, t')
                          := Admm.expected_interface_pf_q (Admm.vals (tso_model y' d')) dn' t'
                             * Admm.tn_baseMVA (Admm.tn opp) y' d']>
                          (<[(Admm.tso, n', y', d', Admm.p, t')
                             := Admm.expected_interface_pf_p (Admm.vals (tso_model y' d')) dn' t'
                                * Admm.tn_baseMVA (Admm.tn opp) y' d']>
                             (Admm.interface_pf cv0));
                      Admm.ess := Admm.ess cv0 |} = obs cv0) ->
            (forall cv0,
               obs {| Admm.interface_v :=
                        <[(n, y, d, t) := sqrt (Admm.expected_interface_vmag_sqr b dn t)]>
                          (Admm.interface_v cv0);
                      Admm.interface_pf :=
                        <[(Admm.tso, n, y, d, Admm.q, t)
                          := Admm.expected_interface_pf_q b dn t * s_base]>
                          (<[(Admm.tso, n, y, d, Admm.p, t)
                             := Admm.expected_interface_pf_p b dn t * s_base]>
                             (Admm.interface_pf cv0));
                      Admm.ess := Admm.ess cv0 |} = v) ->
            obs (for_each (Problem.enumerate (Admm.nodes opp))
                   (fun dn_node =>
                      Admm.for_ydp opp (fun year day t cv =>
                        {| Admm.interface_v :=
                             <[(dn_node.2, year, day, t)
                               := sqrt (Admm.expected_interface_vmag_sqr
                                          (Admm.vals (tso_model year day)) dn_node.1 t)]>
                               (Admm.interface_v cv);
                           Admm.interface_pf :=
                             <[(Admm.tso, dn_node.2, year, day, Admm.q, t)
                               := Admm.expected_interface_pf_q (Admm.vals (tso_model year day))
                                    dn_node.1 t * Admm.tn_baseMVA (Admm.tn opp) year day]>
                               (<[(Admm.tso, dn_node.2, year, day, Admm.p, t)
                                  := Admm.expected_interface_pf_p (Admm.vals (tso_model year day))
                                       dn_node.1 t * Admm.tn_baseMVA (Admm.tn opp) year day]>
                                  (Admm.interface_pf cv));
                           Admm.ess := Admm.ess cv |}))
                   cv) = v).
  { intros V obs v Hother Hhere.
    apply (for_each_set obs v _ _ (dn, n)); [exact Hin | |].
    - intros [dn' n'] cv0 Hin'. simpl.
      destruct (decide (n' = n)) as [->|Hne].
      + right. rewrite (Huniq dn' Hin').
        apply (for_ydp_set opp obs v _ y d t); [exact Hy | exact Hd | exact Ht | |].
        * intros y' d' t' cv1.
          destruct (decide ((n, y', d', t') = (n, y, d, t))) as [Heq|Hne'].
          -- right. inversion Heq; subst. apply Hhere.
          -- left. by apply (Hother y' d' t' cv1 dn n).
        * intros cv1. apply Hhere.
      + left. apply (for_ydp_keep opp obs). intros y' d' t' cv1 _ _ _.
        apply (Hother y' d' t' cv1 dn' n' Hin'). congruence.
    - intros cv0. simpl.
      apply (for_ydp_set opp obs v _ y d t); [exact Hy | exact Hd | exact Ht | |].
      + intros y' d' t' cv1.
        destruct (decide ((n, y', d', t') = (n, y, d, t))) as [Heq|Hne'].
        * right. inversion Heq; subst. apply Hhere.
        * left. by apply (Hother y' d' t' cv1 dn n).
      + intros cv1. apply Hhere. }
  split; [|split; [|split; [|split]]].
  - apply (Hset _ (fun cv0 => Admm.interface_v cv0 !!! (n, y, d, t))).
    + intros y' d' t' cv0 dn' n' _ Hne. simpl. by apply lookup_total_insert_ne.
    + intros cv0. simpl. apply lookup_total_insert_eq.
  - apply (Hset _ (fun cv0 => Admm.interface_pf cv0 !!! (Admm.tso, n, y, d, Admm.p, t))).
    + intros y' d' t' cv0 dn' n' _ Hne. simpl.
      rewrite !lookup_total_insert_ne; [done | congruence..].
    + intros cv0. simpl. rewrite lookup_total_insert_ne by congruence.
      apply lookup_total_insert_eq.
  - apply (Hset _ (fun cv0 => Admm.interface_pf cv0 !!! (Admm.tso, n, y, d, Admm.q, t))).
    + intros y' d' t' cv0 dn' n' _ Hne. simpl.
      rewrite !lookup_total_insert_ne; [done | congruence..].
    + intros cv0. simpl. apply lookup_total_insert_eq.
  - intros c.
    apply (for_each_keep (fun cv0 => Admm.interface_pf cv0 !!! (Admm.dso, n, y, d, c, t))).
    intros dn_node cv0 _.
    apply (for_ydp_keep opp (fun cv0 => Admm.interface_pf cv0 !!! (Admm.dso, n, y, d, c, t))).
    intros y' d' t' cv1 _ _ _. simpl.
    rewrite !lookup_total_insert_ne; [done | congruence..].
  - apply (for_each_keep Admm.ess). intros dn_node cv0 _.
    apply (for_ydp_keep opp Admm.ess). intros y' d' t' cv1 _ _ _. reflexivity.
Qed.

Lemma pull_dso_interface_lookup (dso_models : Z -> Admm.network_model)
    (cv : Admm.consensus_variables) (n y : Z) (d : string) (t : nat) :
  in_index opp n y d t ->
  let cv' := Admm.pull_dso_interface opp dso_models cv in
  let b := Admm.vals (dso_models n y d) in
  let s_base := Admm.dn_baseMVA (Admm.dns opp n) y d in
  Admm.interface_pf cv' !!! (Admm.dso, n, y, d, Admm.p, t)
  = Admm.expected_interface_pf_p b 0%nat t * s_base /\
  Admm.interface_pf cv' !!! (Admm.dso, n, y, d, Admm.q, t)
  = Admm.expected_interface_pf_q b 0%nat t * s_base /\
  (forall c, Admm.interface_pf cv' !!! (Admm.tso, n, y, d, c, t)
             = Admm.interface_pf cv !!! (Admm.tso, n, y, d, c, t)) /\
  Admm.interface_v cv' = Admm.interface_v cv /\
  Admm.ess cv' = Admm.ess cv.
Proof.
  intros (Hn & Hy & Hd & Ht) cv' b s_base. unfold cv', Admm.pull_dso_interface.
  split; [|split; [|split; [|split]]].
  - apply (for_nydp_set opp
             (fun cv0 => Admm.interface_pf cv0 !!! (Admm.dso, n, y, d, Admm.p, t)) _ _ n y d t);
      [exact Hn | exact Hy | exact Hd | exact Ht | |].
    + intros n' y' d' t' cv0. simpl.
      destruct (decide ((n', y', d', t') = (n, y, d, t))) as [Heq|Hne].
      * right. inversion Heq; subst. rewrite lookup_total_insert_ne by congruence.
        apply lookup_total_insert_eq.
      * left. rewrite !lookup_total_insert_ne; [done | congruence..].
    + intros cv0. simpl. rewrite lookup_total_insert_ne by congruence.
      apply lookup_total_insert_eq.
  - apply (for_nydp_set opp
             (fun cv0 => Admm.interface_pf cv0 !!! (Admm.dso, n, y, d, Admm.q, t)) _ _ n y d t);
      [exact Hn | exact Hy | exact Hd | exact Ht | |].
    + intros n' y' d' t' cv0. simpl.
      destruct (decide ((n', y', d', t') = (n, y, d, t))) as [Heq|Hne].
      * right. inversion Heq; subst. apply lookup_total_insert_eq.
      * left. rewrite !lookup_total_insert_ne; [done | congruence..].
    + intros cv0. simpl. apply lookup_total_insert_eq.
  - intros c.
    apply (for_nydp_keep opp (fun cv0 => Admm.interface_pf cv0 !!! (Admm.tso, n, y, d, c, t))).
    intros n' y' d' t' cv0 _. simpl. rewrite !lookup_total_insert_ne; [done | congruence..].
  - apply (for_nydp_keep opp Admm.interface_v). intros. reflexivity.
  - apply (for_nydp_keep opp Admm.ess). intros. reflexivity.
Qed.

(** After [_update_admm_consensus_variables] the consensus store holds, at
    every node, year, day and instant, the interface values of the models
    in MW and MVAr: on the transmission side the expected flow of the
    transmission model at the node's index times the transmission base
    power (and the square root of the expected squared voltage), on the
    distribution side the expected flow of the node's distribution model
    times its base power. *)
Theorem pulled_interface_values
    (tso_model : Admm.network_model) (dso_models : Z -> Admm.network_model) (st : Admm.store)
    (dn : nat) (n y : Z) (d : string) (t : nat) :
  Admm.nodes opp !! dn = Some n -> y ∈ Admm.years opp -> d ∈ Admm.days opp ->
  t ∈ Admm.instants opp ->
  let cv' := Admm.consensus_vars
               (Admm._update_admm_consensus_variables sqrt opp params tso_model dso_models st) in
  let tb := Admm.vals (tso_model y d) in
  let db := Admm.vals (dso_models n y d) in
  Admm.interface_v cv' !!! (n, y, d, t) = sqrt (Admm.expected_interface_vmag_sqr tb dn t) /\
  Admm.interface_pf cv' !!! (Admm.tso, n, y, d, Admm.p, t)
  = Admm.expected_interface_pf_p tb dn t * Admm.tn_baseMVA (Admm.tn opp) y d /\
  Admm.interface_pf cv' !!! (Admm.tso, n, y, d, Admm.q, t)
  = Admm.expected_interface_pf_q tb dn t * Admm.tn_baseMVA (Admm.tn opp) y d /\
  Admm.interface_pf cv' !!! (Admm.dso, n, y, d, Admm.p, t)
  = Admm.expected_interface_pf_p db 0%nat t * Admm.dn_baseMVA (Admm.dns opp n) y d /\
  Admm.interface_pf cv' !!! (Admm.dso, n, y, d, Admm.q, t)
  = Admm.expected_interface_pf_q db 0%nat t * Admm.dn_baseMVA (Admm.dns opp n) y d.
Proof.
  intros Hdn Hy Hd Ht cv' tb db.
  assert (Hn : n ∈ Admm.nodes opp) by (by eapply list_elem_of_lookup_2).
  assert (Hidx : in_index opp n y d t) by (by repeat split).
  assert (Hcv : Admm.interface_v cv'
                = Admm.interface_v (Admm.pull_dso_interface opp dso_models
                                      (Admm.pull_tso_interface sqrt opp tso_model
                                         (Admm.consensus_vars st))) /\
                Admm.interface_pf cv'
                = Admm.interface_pf (Admm.pull_dso_interface opp dso_models
                                       (Admm.pull_tso_interface sqrt opp tso_model
                                          (Admm.consensus_vars st)))).
  { unfold cv', Admm._update_admm_consensus_variables,
      Admm._update_interface_power_flow_variables.
    destruct (Admm._update_shared_energy_storage_variables _ _ _ _ _ _) as [e dess].
    by split. }
  destruct Hcv as [-> ->].
  destruct (pull_dso_interface_lookup dso_models
              (Admm.pull_tso_interface sqrt opp tso_model (Admm.consensus_vars st))
              n y d t Hidx) as (Hdp & Hdq & Htso & Hv & _).
  destruct (pull_tso_interface_lookup tso_model (Admm.consensus_vars st) dn n y d t
              Hdn Hy Hd Ht) as (Htv & Htp & Htq & _).
  rewrite Hv, !Htso. by repeat split.
Qed.

End PulledValues.

Lemma pulled_interface_values_witness :
  let r := Samples.after_tso_solve (Samples.run0 false) in
  let cv' := Admm.consensus_vars (Samples.after_tso_update (Samples.run0 false)) in
  Admm.interface_pf cv' !!! Samples.slot Admm.tso Admm.p == 5 /\
  Admm.interface_pf cv' !!! Samples.slot Admm.tso Admm.p
  = Admm.expected_interface_pf_p (Admm.vals (Admm.tso_model r 2020%Z "d1"%string)) 0%nat 0%nat
    * Admm.tn_baseMVA (Admm.tn Samples.opp_one) 2020%Z "d1"%string /\
  Admm.interface_pf cv' !!! Samples.slot Admm.dso Admm.p
  = Admm.expected_interface_pf_p (Admm.vals (Admm.dso_models r 7%Z 2020%Z "d1"%string)) 0%nat 0%nat
    * Admm.dn_baseMVA (Admm.dns Samples.opp_one 7) 2020%Z "d1"%string.
Proof.
  cbv zeta. split; [vm_compute; reflexivity|].
  assert (Hn : NoDup (Admm.nodes Samples.opp_one)) by apply NoDup_singleton.
  assert (Hin : Admm.nodes Samples.opp_one !! 0%nat = Some 7%Z /\
                2020%Z ∈ Admm.years Samples.opp_one /\
                "d1"%string ∈ Admm.days Samples.opp_one /\ 0%nat ∈ Admm.instants Samples.opp_one)
    by (split; [reflexivity | repeat split; apply list_elem_of_here]).
  destruct Hin as (Hin1 & Hin2 & Hin3 & Hin4).
  pose proof (pulled_interface_values
                Samples.sqrt_at_one Samples.opp_one (Samples.admm_params false) Hn
                (Admm.tso_model (Samples.after_tso_solve (Samples.run0 false)))
                (Admm.dso_models (Samples.after_tso_solve (Samples.run0 false)))
                (Admm.sto (Samples.after_tso_solve (Samples.run0 false)))
                0%nat 7%Z 2020%Z "d1"%string 0%nat Hin1 Hin2 Hin3 Hin4) as H.
  cbv zeta in H. destruct H as (_ & Hp & _ & Hd & _).
  split; [exact Hp | exact Hd].
Defined.

(** ** What the models are given before a solve *)

Lemma for_each_keep_or_set {S B V : Type} (obs : S -> V) (v : V) (l : list B)
    (body : B -> S -> S) (s : S) :
  (forall b s, b ∈ l -> obs (body b s) = obs s \/ obs (body b s) = v) ->
  obs (for_each l body s) = obs s \/ obs (for_each l body s) = v.
Proof.
  intros Hstep.
  apply (for_each_inv (fun s' => obs s' = obs s \/ obs s' = v)); [by left|].
  intros b s' Hb [H|H]; destruct (Hstep b s' Hb) as [H'|H']; rewrite ?H'; auto.
Qed.

Lemma for_yd_set {S V : Type} (opp : Admm.operational_planning_problem)
    (obs : S -> V) (v : V) (body : Z -> string -> S -> S)
    (y0 : Z) (d0 : string) (s : S) :
  y0 ∈ Admm.years opp -> d0 ∈ Admm.days opp ->
  (forall y d s, obs (body y d s) = obs s \/ obs (body y d s) = v) ->
  (forall s, obs (body y0 d0 s) = v) ->
  obs (Admm.for_yd opp body s) = v.
Proof.
  intros Hy Hd Hstep Hset. unfold Admm.for_yd.
  apply (for_each_set obs v _ _ y0); [exact Hy | |].
  - intros y s1 _. apply for_each_keep_or_set. intros d s2 _. apply Hstep.
  - intros s1. apply (for_each_set obs v _ _ d0); [exact Hd | | exact Hset].
    intros d s2 _. apply Hstep.
Qed.

Lemma set2_same (f : nat -> nat -> Q) (i j : nat) (x : Q) : Admm.set2 f i j x i j = x.
Proof. unfold Admm.set2. by rewrite decide_True. Qed.

Lemma set2_other (f : nat -> nat -> Q) (i j i' j' : nat) (x : Q) :
  (i', j') <> (i, j) -> Admm.set2 f i j x i' j' = f i' j'.
Proof. intros H. unfold Admm.set2. by rewrite decide_False. Qed.

Lemma fix_pf_coupling (i t : nat) (a b c e : Q) (v : Admm.values) (i' t' : nat) :
  pf_coupling (Admm.fix_pf i t a b c e v) i' t'
  = (if decide ((i', t') = (i, t)) then (c, e, a, b) else pf_coupling v i' t') /\
  ess_coupling (Admm.fix_pf i t a b c e v) i' t' = ess_coupling v i' t'.
Proof.
  split; [|reflexivity]. unfold pf_coupling, Admm.fix_pf, Admm.set2. simpl.
  by destruct (decide ((i', t') = (i, t))).
Qed.

Lemma fix_ess_coupling (i t : nat) (a b c e : Q) (v : Admm.values) (i' t' : nat) :
  ess_coupling (Admm.fix_ess i t a b c e v) i' t'
  = (if decide ((i', t') = (i, t)) then (c, e, a, b) else ess_coupling v i' t') /\
  pf_coupling (Admm.fix_ess i t a b c e v) i' t' = pf_coupling v i' t'.
Proof.
  split; [|reflexivity]. unfold ess_coupling, Admm.fix_ess, Admm.set2. simpl.
  by destruct (decide ((i', t') = (i, t))).
Qed.

Section Wiring.

Variable ADMM_ADAPTIVE_PENALTY_FACTOR : Q.
Variable opp : Admm.operational_planning_problem.
Variable params : Admm.admm_parameters.
Variable optimize_tso : Admm.network_model -> bool -> Z -> string -> Admm.solution.
Variable optimize_dso : Z -> Admm.network_model -> bool -> Z -> string -> Admm.solution.

(** One pass of the periods loop that fixes the interface flow of the
    index [i]. *)
Lemma fix_pf_loop (i : nat) (f : nat -> Q * Q * Q * Q) (v : Admm.values) (i' t' : nat) :
  let v' := for_each (Admm.periods opp)
              (fun t => Admm.fix_pf i t (f t).1.2 (f t).2 (f t).1.1.1 (f t).1.1.2) v in
  ess_coupling v' i' t' = ess_coupling v i' t' /\
  (i' <> i -> pf_coupling v' i' t' = pf_coupling v i' t') /\
  (t' ∈ Admm.periods opp -> pf_coupling v' i t' = f t').
Proof.
  intros v'. unfold v'. split; [|split].
  - apply (for_each_keep (fun v => ess_coupling v i' t')). intros t v0 _.
    apply fix_pf_coupling.
  - intros Hne. apply (for_each_keep (fun v => pf_coupling v i' t')). intros t v0 _.
    rewrite (proj1 (fix_pf_coupling _ _ _ _ _ _ _ _ _)).
    rewrite decide_False; [reflexivity | congruence].
  - intros Ht. apply (for_each_set (fun v => pf_coupling v i t') (f t') _ _ t'); [exact Ht | |].
    + intros t v0 _. rewrite (proj1 (fix_pf_coupling _ _ _ _ _ _ _ _ _)).
      destruct (decide ((i, t') = (i, t))) as [Heq|Hne]; [right | by left].
      inversion Heq; subst. by destruct (f t) as [[[? ?] ?] ?].
    + intros v0. rewrite (proj1 (fix_pf_coupling _ _ _ _ _ _ _ _ _)).
      rewrite decide_True by reflexivity. by destruct (f t') as [[[? ?] ?] ?].
Qed.

Lemma fix_ess_loop (i : nat) (f : nat -> Q * Q * Q * Q) (v : Admm.values) (i' t' : nat) :
  let v' := for_each (Admm.periods opp)
              (fun t => Admm.fix_ess i t (f t).1.2 (f t).2 (f t).1.1.1 (f t).1.1.2) v in
  pf_coupling v' i' t' = pf_coupling v i' t' /\
  (i' <> i -> ess_coupling v' i' t' = ess_coupling v i' t') /\
  (t' ∈ Admm.periods opp -> ess_coupling v' i t' = f t').
Proof.
  intros v'. unfold v'. split; [|split].
  - apply (for_each_keep (fun v => pf_coupling v i' t')). intros t v0 _.
    apply fix_ess_coupling.
  - intros Hne. apply (for_each_keep (fun v => ess_coupling v i' t')). intros t v0 _.
    rewrite (proj1 (fix_ess_coupling _ _ _ _ _ _ _ _ _)).
    rewrite decide_False; [reflexivity | congruence].
  - intros Ht. apply (for_each_set (fun v => ess_coupling v i t') (f t') _ _ t'); [exact Ht | |].
    + intros t v0 _. rewrite (proj1 (fix_ess_coupling _ _ _ _ _ _ _ _ _)).
      destruct (decide ((i, t') = (i, t))) as [Heq|Hne]; [right | by left].
      inversion Heq; subst. by destruct (f t) as [[[? ?] ?] ?].
    + intros v0. rewrite (proj1 (fix_ess_coupling _ _ _ _ _ _ _ _ _)).
      rewrite decide_True by reflexivity. by destruct (f t') as [[[? ?] ?] ?].
Qed.

Lemma prepare_tso_block_coupling (pf_req dual_pf ess_req dual_ess : gmap Admm.path Q)
    (y : Z) (d : string) (v : Admm.values) (dn : nat) (n : Z) (t : nat) :
  Admm.nodes opp !! dn = Some n -> t ∈ Admm.periods opp ->
  let v' := Admm.prepare_tso_block ADMM_ADAPTIVE_PENALTY_FACTOR opp params
              pf_req dual_pf ess_req dual_ess y d v in
  let s_base := Admm.tn_baseMVA (Admm.tn opp) y d in
  let idx := Admm.tn_get_shared_energy_storage_idx (Admm.tn opp) y d in
  pf_coupling v' dn t = wired pf_req dual_pf Admm.tso Admm.dso n y d t s_base /\
  ((forall n', n' ∈ Admm.nodes opp -> idx n' = idx n -> n' = n) ->
   ess_coupling v' (idx n) t = wired ess_req dual_ess Admm.tso Admm.dso n y d t s_base).
Proof.
  intros Hdn Ht v' s_base idx. unfold v', Admm.prepare_tso_block.
  assert (Hin : (dn, n) ∈ Problem.enumerate (Admm.nodes opp)) by (by apply elem_of_enumerate).
  set (fpf := fun (n0 : Z) (t0 : nat) => wired pf_req dual_pf Admm.tso Admm.dso n0 y d t0 s_base).
  set (fess := fun (n0 : Z) (t0 : nat) => wired ess_req dual_ess Admm.tso Admm.dso n0 y d t0 s_base).
  assert (Hbody : forall (dn_node : nat * Z) (v0 : Admm.values) (i' t' : nat),
            let v1 := for_each (Admm.periods opp)
                        (fun t0 => Admm.fix_ess (idx dn_node.2) t0
                             (dual_ess !!! (Admm.tso, dn_node.2, y, d, Admm.p, t0) / s_base)
                             (dual_ess !!! (Admm.tso, dn_node.2, y, d, Admm.q, t0) / s_base)
                             (ess_req !!! (Admm.dso, dn_node.2, y, d, Admm.p, t0) / s_base)
                             (ess_req !!! (Admm.dso, dn_node.2, y, d, Admm.q, t0) / s_base))
                        (for_each (Admm.periods opp)
                           (fun t0 => Admm.fix_pf dn_node.1 t0
                                (dual_pf !!! (Admm.tso, dn_node.2, y, d, Admm.p, t0) / s_base)
                                (dual_pf !!! (Admm.tso, dn_node.2, y, d, Admm.q, t0) / s_base)
                                (pf_req !!! (Admm.dso, dn_node.2, y, d, Admm.p, t0) / s_base)
                                (pf_req !!! (Admm.dso, dn_node.2, y, d, Admm.q, t0) / s_base))
                           v0) in
            (i' <> dn_node.1 -> pf_coupling v1 i' t' = pf_coupling v0 i' t') /\
            (t' ∈ Admm.periods opp -> pf_coupling v1 dn_node.1 t' = fpf dn_node.2 t') /\
            (i' <> idx dn_node.2 -> ess_coupling v1 i' t' = ess_coupling v0 i' t') /\
            (t' ∈ Admm.periods opp -> ess_coupling v1 (idx dn_node.2) t' = fess dn_node.2 t')).
  { intros [dn' n'] v0 i' t' v1. simpl in *.
    pose proof (fix_pf_loop dn' (fpf n') v0) as Hpf.
    pose proof (fix_ess_loop (idx n') (fess n')
                  (for_each (Admm.periods opp)
                     (fun t0 => Admm.fix_pf dn' t0 (fpf n' t0).1.2 (fpf n' t0).2
                                  (fpf n' t0).1.1.1 (fpf n' t0).1.1.2) v0)) as Hess.
    cbv zeta in Hpf, Hess.
    repeat split.
    - intros Hne. unfold v1.
      etransitivity; [exact (proj1 (Hess i' t'))|]. exact (proj1 (proj2 (Hpf i' t')) Hne).
    - intros Ht'. unfold v1.
      etransitivity; [exact (proj1 (Hess dn' t'))|]. exact (proj2 (proj2 (Hpf dn' t')) Ht').
    - intros Hne. unfold v1.
      etransitivity; [exact (proj1 (proj2 (Hess i' t')) Hne)|]. exact (proj1 (Hpf i' t')).
    - intros Ht'. unfold v1. exact (proj2 (proj2 (Hess i' t')) Ht'). }
  split.
  - apply (for_each_set (fun v => pf_coupling v dn t) (fpf n t) _ _ (dn, n)); [exact Hin | |].
    + intros [dn' n'] v0 Hin'. destruct (decide (dn' = dn)) as [->|Hne].
      * right. apply elem_of_enumerate in Hin'. rewrite Hdn in Hin'. inversion Hin'; subst.
        exact (proj1 (proj2 (Hbody (dn, n') v0 dn t)) Ht).
      * left. apply (proj1 (Hbody (dn', n') v0 dn t)). simpl. congruence.
    + intros v0. exact (proj1 (proj2 (Hbody (dn, n) v0 dn t)) Ht).
  - intros Hinj.
    apply (for_each_set (fun v => ess_coupling v (idx n) t) (fess n t) _ _ (dn, n));
      [exact Hin | |].
    + intros [dn' n'] v0 Hin'. destruct (decide (idx n' = idx n)) as [Heq|Hne].
      * right. apply elem_of_enumerate in Hin'.
        rewrite (Hinj n' (list_elem_of_lookup_2 _ _ _ Hin') Heq).
        exact (proj2 (proj2 (proj2 (Hbody (dn', n) v0 dn t))) Ht).
      * left. apply (proj1 (proj2 (proj2 (Hbody (dn', n') v0 (idx n) t)))). simpl. congruence.
    + intros v0. exact (proj2 (proj2 (proj2 (Hbody (dn, n) v0 dn t))) Ht).
Qed.

Lemma prepare_dso_block_coupling (n : Z) (interface_vmag : gmap Admm.vpath Q)
    (pf_req dual_pf ess_req dual_ess : gmap Admm.path Q)
    (y : Z) (d : string) (v : Admm.values) (t : nat) :
  t ∈ Admm.periods opp ->
  let v' := Admm.prepare_dso_block ADMM_ADAPTIVE_PENALTY_FACTOR opp params n interface_vmag
              pf_req dual_pf ess_req dual_ess y d v in
  let s_base := Admm.dn_baseMVA (Admm.dns opp n) y d in
  pf_coupling v' 0%nat t = wired pf_req dual_pf Admm.dso Admm.tso n y d t s_base /\
  ess_coupling v' 0%nat t = wired ess_req dual_ess Admm.dso Admm.tso n y d t s_base.
Proof.
  intros Ht v' s_base. unfold v', Admm.prepare_dso_block.
  set (fpf := fun (t0 : nat) => wired pf_req dual_pf Admm.dso Admm.tso n y d t0 s_base).
  set (fess := fun (t0 : nat) => wired ess_req dual_ess Admm.dso Admm.tso n y d t0 s_base).
  match goal with
  | |- context [for_each _ (fun t0 => Admm.fix_vmag_sqr t0 _) ?v0] =>
      set (v1 := for_each (Admm.periods opp)
                   (fun t0 => Admm.fix_vmag_sqr t0
                                ((interface_vmag !!! (n, y, d, t0)) ^ 2)) v0)
  end.
  pose proof (fix_pf_loop 0%nat fpf v1) as Hpf.
  pose proof (fix_ess_loop 0%nat fess
                (for_each (Admm.periods opp)
                   (fun t0 => Admm.fix_pf 0%nat t0 (fpf t0).1.2 (fpf t0).2
                                (fpf t0).1.1.1 (fpf t0).1.1.2) v1)) as Hess.
  cbv zeta in Hpf, Hess. split.
  - etransitivity; [exact (proj1 (Hess 0%nat t))|]. exact (proj2 (proj2 (Hpf 0%nat t)) Ht).
  - exact (proj2 (proj2 (Hess 0%nat t)) Ht).
Qed.

(** [update_transmission_coordination_model_and_solve] and
    [update_distribution_coordination_models_and_solve] hand each operator
    the other operator's copy.  For a node at the index [dn] of the active
    nodes and a year, day and period of the problem, with no base power
    of the problem zero (the divisions by them are then defined): the solved transmission model holds at [(dn, t)] the
    distribution copy of the interface flow as request and the transmission
    dual, divided by the transmission base power; the node's solved
    distribution model holds at [t] the transmission copy as request and
    the distribution dual, divided by the node's base power, and the same
    for its shared storage.  The transmission model holds the storage
    values of the node at the node's storage index when no other active
    node has that index. *)
Theorem requests_cross_wired
    (model : Admm.network_model) (models : Z -> Admm.network_model) (st : Admm.store)
    (warm : bool) (dn : nat) (n y : Z) (d : string) (t : nat) :
  Admm.nodes opp !! dn = Some n -> y ∈ Admm.years opp -> d ∈ Admm.days opp ->
  t ∈ Admm.periods opp ->
  (forall y' d', y' ∈ Admm.years opp -> d' ∈ Admm.days opp ->
                 ~ Admm.tn_baseMVA (Admm.tn opp) y' d' == 0) ->
  (forall n' y' d', n' ∈ Admm.nodes opp -> y' ∈ Admm.years opp -> d' ∈ Admm.days opp ->
                    ~ Admm.dn_baseMVA (Admm.dns opp n') y' d' == 0) ->
  let cv := Admm.consensus_vars st in
  let dv := Admm.dual_vars st in
  let tso' := Admm.vals (Admm.update_transmission_coordination_model_and_solve
                           ADMM_ADAPTIVE_PENALTY_FACTOR opp params optimize_tso
                           model st warm y d) in
  let dso' := Admm.vals (Admm.update_distribution_coordination_models_and_solve
                           ADMM_ADAPTIVE_PENALTY_FACTOR opp params optimize_dso
                           models st warm n y d) in
  let tn_base := Admm.tn_baseMVA (Admm.tn opp) y d in
  let dn_base := Admm.dn_baseMVA (Admm.dns opp n) y d in
  let idx := Admm.tn_get_shared_energy_storage_idx (Admm.tn opp) y d in
  pf_coupling tso' dn t
  = wired (Admm.interface_pf cv) (Admm.dual_pf dv) Admm.tso Admm.dso n y d t tn_base /\
  pf_coupling dso' 0%nat t
  = wired (Admm.interface_pf cv) (Admm.dual_pf dv) Admm.dso Admm.tso n y d t dn_base /\
  ess_coupling dso' 0%nat t
  = wired (Admm.ess cv) (Admm.dual_ess dv) Admm.dso Admm.tso n y d t dn_base /\
  ((forall n', n' ∈ Admm.nodes opp -> idx n' = idx n -> n' = n) ->
   ess_coupling tso' (idx n) t
   = wired (Admm.ess cv) (Admm.dual_ess dv) Admm.tso Admm.dso n y d t tn_base).
Proof.
  intros Hdn Hy Hd Ht _ _ cv dv tso' dso' tn_base dn_base idx.
  assert (Hn : n ∈ Admm.nodes opp) by (by eapply list_elem_of_lookup_2).
  assert (Htso : forall (obs : Admm.values -> Q * Q * Q * Q) (w : Q * Q * Q * Q),
            (forall sol v, obs (Admm.apply_solution sol v) = obs v) ->
            (forall v, obs (Admm.prepare_tso_block ADMM_ADAPTIVE_PENALTY_FACTOR opp params
                              (Admm.interface_pf cv) (Admm.dual_pf dv) (Admm.ess cv)
                              (Admm.dual_ess dv) y d v) = w) ->
            obs tso' = w).
  { intros obs w Hsol Hprep. unfold tso', Admm.update_transmission_coordination_model_and_solve,
      Admm.solved. cbv zeta. simpl. rewrite Hsol.
    apply (for_yd_set opp (fun m : Admm.network_model => obs (Admm.vals (m y d))) w _ y d);
      [exact Hy | exact Hd | |].
    - intros y' d' m. destruct (decide ((y', d') = (y, d))) as [Heq|Hne].
      + right. inversion Heq; subst. rewrite set_block_same. simpl. apply Hprep.
      + left. rewrite set_block_other by congruence. reflexivity.
    - intros m. rewrite set_block_same. simpl. apply Hprep. }
  assert (Hdso : forall (obs : Admm.values -> Q * Q * Q * Q) (w : Q * Q * Q * Q),
            (forall sol v, obs (Admm.apply_solution sol v) = obs v) ->
            (forall v, obs (Admm.prepare_dso_block ADMM_ADAPTIVE_PENALTY_FACTOR opp params n
                              (Admm.interface_v cv)
                              (Admm.interface_pf cv) (Admm.dual_pf dv) (Admm.ess cv)
                              (Admm.dual_ess dv) y d v) = w) ->
            obs dso' = w).
  { intros obs w Hsol Hprep. unfold dso', Admm.update_distribution_coordination_models_and_solve.
    apply (for_each_set (fun ms : Z -> Admm.network_model => obs (Admm.vals (ms n y d))) w
             _ _ n); [exact Hn | |].
    - intros n' ms _. unfold Admm.update_and_solve_dso. cbv zeta.
      destruct (decide (n = n')) as [<-|Hne]; [right | by left].
      unfold Admm.solved. simpl. rewrite Hsol.
      apply (for_yd_set opp (fun m : Admm.network_model => obs (Admm.vals (m y d))) w _ y d);
        [exact Hy | exact Hd | |].
      + intros y' d' m. destruct (decide ((y', d') = (y, d))) as [Heq|Hne].
        * right. inversion Heq; subst. rewrite set_block_same. simpl. apply Hprep.
        * left. rewrite set_block_other by congruence. reflexivity.
      + intros m. rewrite set_block_same. simpl. apply Hprep.
    - intros ms. unfold Admm.update_and_solve_dso. cbv zeta.
      rewrite decide_True by reflexivity.
      unfold Admm.solved. simpl. rewrite Hsol.
      apply (for_yd_set opp (fun m : Admm.network_model => obs (Admm.vals (m y d))) w _ y d);
        [exact Hy | exact Hd | |].
      + intros y' d' m. destruct (decide ((y', d') = (y, d))) as [Heq|Hne].
        * right. inversion Heq; subst. rewrite set_block_same. simpl. apply Hprep.
        * left. rewrite set_block_other by congruence. reflexivity.
      + intros m. rewrite set_block_same. simpl. apply Hprep. }
  split; [|split; [|split]].
  - apply (Htso (fun v => pf_coupling v dn t)); [reflexivity|].
    intros v. exact (proj1 (prepare_tso_block_coupling _ _ _ _ y d v dn n t Hdn Ht)).
  - apply (Hdso (fun v => pf_coupling v 0%nat t)); [reflexivity|].
    intros v. exact (proj1 (prepare_dso_block_coupling n _ _ _ _ _ y d v t Ht)).
  - apply (Hdso (fun v => ess_coupling v 0%nat t)); [reflexivity|].
    intros v. exact (proj2 (prepare_dso_block_coupling n _ _ _ _ _ y d v t Ht)).
  - intros Hinj. apply (Htso (fun v => ess_coupling v (idx n) t)); [reflexivity|].
    intros v. exact (proj2 (prepare_tso_block_coupling _ _ _ _ y d v dn n t Hdn Ht) Hinj).
Qed.

End Wiring.

Lemma requests_cross_wired_witness :
  Samples.initial_run false = Ok (Samples.run0 false) /\
  let r := Samples.run0 false in
  let cv := Admm.consensus_vars (Admm.sto r) in
  let dv := Admm.dual_vars (Admm.sto r) in
  let tso' := Admm.vals (Admm.update_transmission_coordination_model_and_solve
                           Samples.ADMM_ADAPTIVE_PENALTY_FACTOR Samples.opp_one
                           (Samples.admm_params false) Samples.optimize_tso
                           (Admm.tso_model r) (Admm.sto r) false 2020%Z "d1"%string) in
  let dso' := Admm.vals (Admm.update_distribution_coordination_models_and_solve
                           Samples.ADMM_ADAPTIVE_PENALTY_FACTOR Samples.opp_one
                           (Samples.admm_params false) Samples.optimize_dso
                           (Admm.dso_models r) (Admm.sto r) false 7%Z 2020%Z "d1"%string) in
  Admm.p_pf_req tso' 0%nat 0%nat == 3 # 100 /\
  Admm.p_pf_req dso' 0%nat 0%nat == 4 # 10 /\
  pf_coupling tso' 0%nat 0%nat
  = wired (Admm.interface_pf cv) (Admm.dual_pf dv) Admm.tso Admm.dso 7%Z 2020%Z "d1"%string
      0%nat 100 /\
  pf_coupling dso' 0%nat 0%nat
  = wired (Admm.interface_pf cv) (Admm.dual_pf dv) Admm.dso Admm.tso 7%Z 2020%Z "d1"%string
      0%nat 10.
Proof.
  split; [apply is_ok_get; vm_compute; reflexivity|]. cbv zeta.
  split; [vm_compute; reflexivity|]. split; [vm_compute; reflexivity|].
  assert (Hin : Admm.nodes Samples.opp_one !! 0%nat = Some 7%Z /\
                2020%Z ∈ Admm.years Samples.opp_one /\
                "d1"%string ∈ Admm.days Samples.opp_one /\ 0%nat ∈ Admm.periods Samples.opp_one)
    by (split; [reflexivity | repeat split; apply list_elem_of_here]).
  destruct Hin as (Hin1 & Hin2 & Hin3 & Hin4).
  assert (Htn : forall (y' : Z) (d' : string),
            y' ∈ Admm.years Samples.opp_one -> d' ∈ Admm.days Samples.opp_one ->
            ~ Admm.tn_baseMVA (Admm.tn Samples.opp_one) y' d' == 0)
    by (intros y' d' _ _ H; vm_compute in H; discriminate H).
  assert (Hdn : forall (n' y' : Z) (d' : string),
            n' ∈ Admm.nodes Samples.opp_one ->
            y' ∈ Admm.years Samples.opp_one -> d' ∈ Admm.days Samples.opp_one ->
            ~ Admm.dn_baseMVA (Admm.dns Samples.opp_one n') y' d' == 0)
    by (intros n' y' d' _ _ _ H; vm_compute in H; discriminate H).
  pose proof (requests_cross_wired
                Samples.ADMM_ADAPTIVE_PENALTY_FACTOR Samples.opp_one (Samples.admm_params false)
                Samples.optimize_tso Samples.optimize_dso
                (Admm.tso_model (Samples.run0 false)) (Admm.dso_models (Samples.run0 false))
                (Admm.sto (Samples.run0 false)) false
                0%nat 7%Z 2020%Z "d1"%string 0%nat Hin1 Hin2 Hin3 Hin4 Htn Hdn) as H.
  cbv zeta in H. destruct H as (Ht & Hd & _).
  split; [exact Ht | exact Hd].
Defined.
